(** * Involute gear mesh generator (app/gearx/gear.py): shallow embedding

    The Python module builds the tooth profile of an involute gear, meshes
    one tooth with an external quadrilateral mesh generator and stitches
    [z] rotated copies of the tooth mesh into a full wheel.

    Conventions of the embedding:
    - Python/numpy floats are idealised as real numbers ([R]); numpy
      functions [sin], [cos], [tan], [arctan], [radians] are the real ones.
    - Python exceptions are the constructors of [exn]; a method that can
      raise returns [result].
    - numpy index arrays are [list Z] with int64 wrap-around on [+=].
    - [scipy.optimize.fsolve] and [QuadrangleMesh.sub_domain_mesh_generator]
      are not part of the module; they enter as parameters. *)

From Stdlib Require Import Reals Lra Lia ZArith.
From stdpp Require Import base list gmap strings.

(** ** Python exceptions and the error monad *)

Inductive exn : Type :=
  | TypeError
  | NameError (name : string)
  | IndexError
  | ValueError
  | ZeroDivisionError
  | OverflowError
  | OutOfFuel.  (* not a Python exception: a model loop bound was exhausted *)

Inductive result (A : Type) : Type :=
  | Ok (a : A)
  | Raise (e : exn).
Arguments Ok {A} a.
Arguments Raise {A} e.

#[global] Instance result_ret : MRet result := fun A a => Ok a.
#[global] Instance result_bind : MBind result := fun A B k m =>
  match m with
  | Ok a => k a
  | Raise e => Raise e
  end.
#[global] Instance result_fmap : FMap result := fun A B f m =>
  match m with
  | Ok a => Ok (f a)
  | Raise e => Raise e
  end.

Definition is_ok {A} (m : result A) : bool :=
  match m with Ok _ => true | Raise _ => false end.

(** ** Python values that can be passed where a number is expected *)

Inductive pyval : Type :=
  | PyInt (n : Z)
  | PyBool (b : bool)
  | PyFloat (x : R)
  | PyStr (s : string)
  | PyNone.

(** [isinstance(v, int)]: [bool] is a subclass of [int]. *)
Definition isinstance_int (v : pyval) : bool :=
  match v with
  | PyInt _ | PyBool _ => true
  | _ => false
  end.

Definition isinstance_float (v : pyval) : bool :=
  match v with
  | PyFloat _ => true
  | _ => false
  end.

(** [float.is_integer()], only called on floats. *)
Definition float_is_integer (v : pyval) : bool :=
  match v with
  | PyFloat x => if Req_dec_T x (IZR (Int_part x)) then true else false
  | _ => false
  end.

(** The integer an [int] (or [bool]) stands for in arithmetic. *)
Definition int_value (v : pyval) : Z :=
  match v with
  | PyInt n => n
  | PyBool b => if b then 1 else 0
  | _ => 0
  end.

(** The real number a Python number stands for in float arithmetic. *)
Definition num_value (v : pyval) : result R :=
  match v with
  | PyInt n => Ok (IZR n)
  | PyBool b => Ok (if b then 1 else 0)%R
  | PyFloat x => Ok x
  | _ => Raise TypeError
  end.

(** Module-level names visible from a method body. *)
Abbreviation globals := (gmap string pyval).

Definition load_global (g : globals) (name : string) : result pyval :=
  match g !! name with
  | Some v => Ok v
  | None => Raise (NameError name)
  end.

Local Open Scope R_scope.

#[global] Instance R_inhabited : Inhabited R := populate 0.

Definition vec2 : Type := R * R.
Definition vec3 : Type := R * R * R.

(** ** The numpy operations the module uses *)

(** Right-hand side of an assignment into an integer array: one number
    (broadcast) or an array of numbers. *)
Inductive rhs : Type :=
  | Scalar (v : Z)
  | Values (vs : list Z).

Module np.

(** [numpy.radians] *)
Definition radians (x : R) : R := x * (PI / 180).

(** [numpy.arctan2(y, x)], range (-pi, pi]. *)
Definition arctan2 (y x : R) : R :=
  if Rlt_dec 0 x then atan (y / x)
  else if Rlt_dec x 0 then
    (if Rle_dec 0 y then atan (y / x) + PI else atan (y / x) - PI)
  else if Rlt_dec 0 y then PI / 2
  else if Rlt_dec y 0 then - (PI / 2)
  else 0.

(** Normalisation of one bound of a Python slice over a sequence of
    length [len]: negative bounds count from the end, then clip. *)
Definition slice_bound (len : nat) (i : Z) : nat :=
  Z.to_nat (if (i <? 0)%Z then Z.max 0 (i + Z.of_nat len)
            else Z.min i (Z.of_nat len)).

Definition slice_stop (len : nat) (b : option Z) : nat :=
  match b with
  | Some b => slice_bound len b
  | None => len
  end.

(** [l[a:b]]; [b = None] is [l[a:]]. *)
Definition slice {A} (a : Z) (b : option Z) (l : list A) : list A :=
  let s := slice_bound (length l) a in
  let e := slice_stop (length l) b in
  take (e - s) (drop s l).

(** [l[a:b] = v], written through [put] so that one definition serves
    whole rows, single columns and blocks of columns.  The right-hand side
    must have the length of the slice or length 1 (broadcast); anything
    else is numpy's shape-mismatch [ValueError]. *)
Definition slice_assign {A B} (put : B -> A -> A) (a : Z) (b : option Z)
    (v : list B) (l : list A) : result (list A) :=
  let s := slice_bound (length l) a in
  let e := slice_stop (length l) b in
  let m := (e - s)%nat in
  if decide (length v = m) then
    Ok (take s l ++ zip_with put v (take m (drop s l)) ++ drop (s + m) l)
  else
    match v with
    | [x] => Ok (take s l ++ (put x <$> take m (drop s l)) ++ drop (s + m) l)
    | _ => Raise ValueError
    end.

(** Position of an integer index: negative indices count from the end;
    out of range is [IndexError]. *)
Definition index (len : nat) (i : Z) : result nat :=
  if decide (0 <= i < Z.of_nat len)%Z then Ok (Z.to_nat i)
  else if decide (- Z.of_nat len <= i < 0)%Z then Ok (Z.to_nat (i + Z.of_nat len))
  else Raise IndexError.

(** [l[i]] *)
Definition getitem {A} (l : list A) (i : Z) : result A :=
  k ← index (length l) i;
  match l !! k with
  | Some x => Ok x
  | None => Raise IndexError
  end.

(** [l[i] = x] (through [put], as for slices) *)
Definition setitem {A B} (put : B -> A -> A) (i : Z) (x : B) (l : list A)
  : result (list A) :=
  k ← index (length l) i;
  Ok (alter (put x) k l).

(** [numpy.zeros((n, 3))] *)
Definition zeros3 (n : Z) : result (list vec3) :=
  if decide (n < 0)%Z then Raise ValueError
  else Ok (replicate (Z.to_nat n) (0, 0, 0)).

(** [numpy.linspace(start, stop, num)] with the default [endpoint=True]. *)
Definition linspace (start stop : R) (num : Z) : result (list R) :=
  if decide (num < 0)%Z then Raise ValueError
  else if decide (num = 1)%Z then Ok [start]
  else Ok ((fun i : Z => start + IZR i * ((stop - start) / IZR (num - 1)))
             <$> seqZ 0 num).

(** [numpy.linspace(start, stop, num, endpoint=False)] *)
Definition linspace_open (start stop : R) (num : Z) : result (list R) :=
  if decide (num < 0)%Z then Raise ValueError
  else Ok ((fun i : Z => start + IZR i * ((stop - start) / IZR num))
             <$> seqZ 0 num).

(** int64 wrap-around *)
Definition wrap64 (x : Z) : Z :=
  ((x + 2 ^ 63) mod 2 ^ 64 - 2 ^ 63)%Z.

Definition int64_range (x : Z) : Prop := (- 2 ^ 63 <= x < 2 ^ 63)%Z.

(** [numpy.arange(n)] *)
Definition arange (n : nat) : list Z := seqZ 0 (Z.of_nat n).

(** [l[a:b] += c] on an int64 array; a Python integer that does not fit
    int64 is refused. *)
Definition slice_iadd (a : Z) (b : option Z) (c : Z) (l : list Z)
  : result (list Z) :=
  let s := slice_bound (length l) a in
  let e := slice_stop (length l) b in
  let m := (e - s)%nat in
  if decide (int64_range c) then
    Ok (take s l ++ ((fun x => wrap64 (x + c)) <$> take m (drop s l))
          ++ drop (s + m) l)
  else Raise OverflowError.

(** [numpy.zeros((n, m), dtype=np.int64)] for [n] a product of lengths *)
Definition zeros_int (n : Z) (m : nat) : list (list Z) :=
  replicate (Z.to_nat n) (replicate m 0%Z).

(** The row numbers selected by [start::2] in an array of [len] rows *)
Definition stride2 (start : Z) (len : nat) : list Z :=
  (fun i => start + 2 * i)%Z <$> seqZ 0 ((Z.of_nat len - start + 1) / 2)%Z.

Fixpoint assign_each (rows vals : list Z) (col : Z) (a : list (list Z))
  : result (list (list Z)) :=
  match rows, vals with
  | i :: rows', v :: vals' =>
      k ← index (length a) i;
      c ← index (length (a !!! k)) col;
      assign_each rows' vals' col (alter (fun row => <[c := v]> row) k a)
  | _, _ => Ok a
  end.

(** [a[rows, col] = v] for an integer array [rows] of row numbers *)
Definition index_assign (rows : list Z) (col : Z) (v : rhs)
    (a : list (list Z)) : result (list (list Z)) :=
  match v with
  | Scalar c => assign_each rows (replicate (length rows) c) col a
  | Values vs =>
      if decide (length vs = length rows) then assign_each rows vs col a
      else
        match vs with
        | [c] => assign_each rows (replicate (length rows) c) col a
        | _ => Raise ValueError
        end
  end.

(** [numpy.linspace] between two points *)
Definition linspace2 (start stop : vec2) (num : Z) : result (list vec2) :=
  xs ← linspace start.1 stop.1 num;
  ys ← linspace start.2 stop.2 num;
  Ok (zip xs ys).

(** [numpy.diff(a, axis=0)] on rows of three coordinates *)
Fixpoint diff (a : list vec3) : list vec3 :=
  match a with
  | p :: (q :: _) as a' =>
      (q.1.1 - p.1.1, q.1.2 - p.1.2, q.2 - p.2) :: diff a'
  | _ => []
  end.

(** [numpy.sum] of a one-dimensional array *)
Definition sum (l : list R) : R := foldr Rplus 0 l.

End np.

(** Writers used with [np.slice_assign] and [np.setitem]. *)
Definition put_all {A} (x : A) (_ : A) : A := x.
Definition put_xy (p : vec2) (row : vec3) : vec3 := (p.1, p.2, row.2).
Definition put_x (x : R) (row : vec3) : vec3 := (x, row.1.2, row.2).
Definition put_y (y : R) (row : vec3) : vec3 := (row.1.1, y, row.2).

Definition col_x (row : vec3) : R := row.1.1.
Definition col_y (row : vec3) : R := row.1.2.
(** [a[:, :-1]] on a 3-column array *)
Definition drop_last_col (row : vec3) : vec2 := row.1.

(** [np.concatenate([radius * cos(theta)[:, None],
                    radius * sin(theta)[:, None]], axis=1)] *)
Definition arc (radius : R) (theta : list R) : list vec2 :=
  (fun th => (radius * cos th, radius * sin th)) <$> theta.

(** [np.sqrt(np.sum(v ** 2))] for a row of three coordinates *)
Definition norm3 (v : vec3) : R := sqrt (v.1.1 ^ 2 + v.1.2 ^ 2 + v.2 ^ 2).

(** ** scipy.optimize.fsolve

    The solver is a parameter of the development.  The only property of it
    that is used is the one scipy documents: the returned array has the
    shape of the initial guess. *)

Record solver : Type := Solver {
  fsolve : (list R -> list R) -> list R -> list R;
  fsolve_shape : forall f x0, length (fsolve f x0) = length x0
}.

(** [fsolve(f, x0)[0]] for a scalar equation [f]; numpy applies [f] to a
    one-element array. *)
Definition fsolve_scalar (slv : solver) (f : R -> R) (x0 : R) : result R :=
  np.getitem (fsolve slv (fmap f) [x0]) 0.

(** ** The quadrilateral mesh: node coordinates and 4-node cells *)

Record quad : Type := Quad { q0 : Z; q1 : Z; q2 : Z; q3 : Z }.

Definition quad_nodes (c : quad) : list Z := [q0 c; q1 c; q2 c; q3 c].

Record QuadrangleMesh : Type := mkMesh {
  node : list vec2;
  cell : list quad
}.

(** ** Pieces shared by the [generate_mesh] methods *)

(** [rot_matrix @ p] for the rotation matrix of angle [phi] *)
Definition rotate (phi : R) (p : vec2) : vec2 :=
  (cos phi * p.1 - sin phi * p.2, sin phi * p.1 + cos phi * p.2).

(** [np.einsum('ij,jn->in', rot_matrix, nodes.T).T] *)
Definition rotate_nodes (phi : R) (nodes : list vec2) : list vec2 :=
  rotate phi <$> nodes.

(** [trans_matrix[cell]] for one cell: integer-array indexing *)
Definition remap_cell (trans_matrix : list Z) (c : quad) : result quad :=
  a ← np.getitem trans_matrix (q0 c);
  b ← np.getitem trans_matrix (q1 c);
  c2 ← np.getitem trans_matrix (q2 c);
  d ← np.getitem trans_matrix (q3 c);
  Ok (Quad a b c2 d).

(** [trans_matrix[cells]] *)
Fixpoint remap_cells (trans_matrix : list Z) (cells : list quad)
  : result (list quad) :=
  match cells with
  | [] => Ok []
  | c :: cells' =>
      c' ← remap_cell trans_matrix c;
      cs ← remap_cells trans_matrix cells';
      Ok (c' :: cs)
  end.

(** [dst[i] = src[j]] *)
Definition copy_item (i j : Z) (src dst : list Z) : result (list Z) :=
  v ← np.getitem src j;
  np.setitem put_all i v dst.

(** [dst[a:b] = src[c:d]] *)
Definition copy_slice (a b c d : Z) (src dst : list Z) : result (list Z) :=
  np.slice_assign put_all a (Some b) (np.slice c (Some d) src) dst.

(** [range(a, b)] *)
Definition range (a b : Z) : list Z := seqZ a (b - a).

(** A [for] loop whose body may raise. *)
Fixpoint for_each {A St} (body : A -> St -> result St) (l : list A) (st : St)
  : result St :=
  match l with
  | [] => Ok st
  | x :: l' => st' ← body x st; for_each body l' st'
  end.

(** The variables the stitching loop updates. *)
Record stitch_state : Type := mkStitch {
  s_trans_matrix : list Z;
  s_tooth_node : list vec2;
  s_tooth_cell : list quad
}.

(** [new_cell = trans_matrix[origin_cell]] followed by the two
    [np.concatenate] calls that append a rotated copy. *)
Definition append_copy (trans_matrix : list Z) (new_node : list vec2)
    (origin_cell : list quad) (st : stitch_state) : result stitch_state :=
  new_cell ← remap_cells trans_matrix origin_cell;
  Ok (mkStitch trans_matrix (s_tooth_node st ++ new_node)
        (s_tooth_cell st ++ new_cell)).

(** [np.linspace(0, 2 * np.pi, z, endpoint=False)] for a tooth count given
    as a Python value: numpy wants an integer there. *)
Definition rotation_angles (z : pyval) : result (list R) :=
  if isinstance_int z then np.linspace_open 0 (2 * PI) (int_value z)
  else Raise TypeError.

(** The arguments of [QuadrangleMesh.sub_domain_mesh_generator]: the
    half-edge table (one 5-column row per half edge), the key points and
    the sampled boundary lines. *)
Definition mesh_generator : Type :=
  list (list Z) -> list vec2 -> list (list vec2) -> result QuadrangleMesh.

(** ** class Gear *)

Module Gear.

Record t : Type := mk {
  m_n : R;
  z : Z;
  alpha_n : R;
  beta : R;
  x_n : R;
  hac : R;
  cc : R;
  rcc : R;
  jn : R;
  n1 : Z;
  n2 : Z;
  n3 : Z;
  na : Z;
  nf : Z;
  mesh : option QuadrangleMesh;
  x_t : R;
  alpha_t : R;
  m_t : R;
  d : R;
  r : R;
  d_b : R;
  r_b : R
}.

(** Arguments of the constructor.  The tooth count is kept as a Python
    value because the constructor inspects its type. *)
Record args : Type := mkargs {
  a_m_n : R;
  a_z : pyval;
  a_alpha_n : R;
  a_beta : R;
  a_x_n : R;
  a_hac : R;
  a_cc : R;
  a_rcc : R;
  a_jn : R;
  a_n1 : Z;
  a_n2 : Z;
  a_n3 : Z;
  a_na : Z;
  a_nf : Z
}.

(** [alpha if alpha < 2 * pi else radians(alpha)] *)
Definition normalize_angle (a : R) : R :=
  if Rlt_dec a (2 * PI) then a else np.radians a.

(** [Gear.__init__], lines 29-59 *)
Definition __init__ (a : args) : result t :=
  if negb (isinstance_int (a_z a))
     || (isinstance_float (a_z a) && negb (float_is_integer (a_z a)))
  then Raise TypeError
  else
    let z := int_value (a_z a) in
    let alpha_n := normalize_angle (a_alpha_n a) in
    let beta := normalize_angle (a_beta a) in
    let x_t := a_x_n a / cos beta in
    let alpha_t := atan (tan alpha_n / cos beta) in
    let m_t := a_m_n a / cos beta in
    let d := m_t * IZR z in
    let r := d / 2 in
    let d_b := d * cos alpha_t in
    let r_b := d_b / 2 in
    Ok (mk (a_m_n a) z alpha_n beta (a_x_n a) (a_hac a) (a_cc a) (a_rcc a)
          (a_jn a) (a_n1 a) (a_n2 a) (a_n3 a) (a_na a) (a_nf a) None
          x_t alpha_t m_t d r d_b r_b).

Definition set_mesh (g : t) (m : QuadrangleMesh) : t :=
  mk (m_n g) (z g) (alpha_n g) (beta g) (x_n g) (hac g) (cc g) (rcc g)
     (jn g) (n1 g) (n2 g) (n3 g) (na g) (nf g) (Some m)
     (x_t g) (alpha_t g) (m_t g) (d g) (r g) (d_b g) (r_b g).

End Gear.

(** ** class ExternalGear: construction and tooth profile *)

Module ExternalGear.

Record t : Type := mk {
  base : Gear.t;
  inner_diam : R;
  chamfer_dia : R;
  d_a : R;
  r_a : R;
  d_f : R;
  r_f : R;
  effective_da : R;
  effective_ra : R;
  ha_cutter : R;
  rc : R
}.

(** [self.mesh = m] *)
Definition set_mesh (g : t) (m : QuadrangleMesh) : t :=
  mk (Gear.set_mesh (base g) m) (inner_diam g) (chamfer_dia g) (d_a g) (r_a g)
     (d_f g) (r_f g) (effective_da g) (effective_ra g) (ha_cutter g) (rc g).

(** [ExternalGear.__init__], lines 123-139 *)
Definition __init__ (a : Gear.args) (chamfer_dia inner_diam : R) : result t :=
  g ← Gear.__init__ a;
  let ha := Gear.m_n g * (Gear.hac g + Gear.x_t g) in
  let d_a := Gear.d g + 2 * ha in
  let r_a := d_a / 2 in
  let hf := Gear.m_n g * (Gear.hac g + Gear.cc g - Gear.x_t g) in
  let d_f := Gear.d g - 2 * hf in
  let r_f := d_f / 2 in
  let effective_da := d_a - chamfer_dia in
  let effective_ra := effective_da / 2 in
  let ha_cutter := (Gear.hac g + Gear.cc g) * Gear.m_n g in
  let rc := Gear.m_n g * Gear.rcc g in
  Ok (mk g inner_diam chamfer_dia d_a r_a d_f r_f
        effective_da effective_ra ha_cutter rc).

Section Methods.
Variable slv : solver.
Variable self : t.

Let m_n := Gear.m_n (base self).
Let alpha_t := Gear.alpha_t (base self).
Let beta := Gear.beta (base self).
Let r := Gear.r (base self).
Let x_t := Gear.x_t (base self).
Let n1 := Gear.n1 (base self).
Let n2 := Gear.n2 (base self).

(** One sample of [get_involute_points], lines 141-161 *)
Definition involute_point (t : R) : vec2 :=
  let k := - (PI * m_n / 4 + m_n * x_t * tan alpha_t) in
  let phi :=
    (t * cos (PI / 2 - alpha_t) ^ 2 + k * cos (PI / 2 - alpha_t)
     + t * cos beta ^ 2 * sin (PI / 2 - alpha_t) ^ 2)
    / (r * cos beta * cos (PI / 2 - alpha_t)) in
  let xt :=
    r * sin phi - phi * r * cos phi
    + t * sin phi * sin (PI / 2 - alpha_t)
    + (cos phi * (k + t * cos (PI / 2 - alpha_t))) / cos beta in
  let yt :=
    r * cos phi + phi * r * sin phi
    + t * cos phi * sin (PI / 2 - alpha_t)
    - (sin phi * (k + t * cos (PI / 2 - alpha_t))) / cos beta in
  (xt, yt).

Definition get_involute_points (t : list R) : list vec2 :=
  involute_point <$> t.

(** [get_tip_intersection_points], lines 163-166 *)
Definition tip_radius_at (t : R) : R :=
  let p := involute_point t in sqrt (p.1 ^ 2 + p.2 ^ 2).

Definition get_tip_intersection_points (t : list R) : list R :=
  tip_radius_at <$> t.

(** One sample of [get_transition_points], lines 168-192 *)
Definition transition_point (t : R) : vec2 :=
  let rc := rc self in
  let ha_cutter := ha_cutter self in
  let x0 :=
    - PI * m_n / 2
    + (PI * m_n / 4 - ha_cutter * tan alpha_t
       - rc * tan (0.25 * PI - 0.5 * alpha_t)) in
  let y0 := - (ha_cutter - rc) + m_n * x_t in
  let phi :=
    (x0 * sin t + rc * cos t * sin t - y0 * cos beta ^ 2 * cos t
     - rc * cos beta ^ 2 * cos t * sin t)
    / (r * cos beta * sin t) in
  let xt :=
    r * sin phi + sin phi * (y0 + rc * sin t) - phi * r * cos phi
    + (cos phi * (x0 + rc * cos t)) / cos beta in
  let yt :=
    r * cos phi + cos phi * (y0 + rc * sin t) + phi * r * sin phi
    - (sin phi * (x0 + rc * cos t)) / cos beta in
  (xt, yt).

Definition get_transition_points (t : list R) : list vec2 :=
  transition_point <$> t.

(** [get_profile_points], lines 194-229 *)
Definition get_profile_points : result (list vec3) :=
  let mn := m_n in
  let x := x_t in
  let effective_da := effective_da self in
  let ha_cutter := ha_cutter self in
  let rc := rc self in
  points ← np.zeros3 ((n1 + n2 + 1) * 2);
  let t1 := (mn * x - (ha_cutter - rc + rc * sin alpha_t)) / cos alpha_t in
  let involutecross := fun t2 => tip_radius_at t2 - 0.5 * effective_da in
  t2 ← fsolve_scalar slv involutecross mn;
  let t3 := 2 * PI - alpha_t in
  let t4 := 1.5 * PI in
  t ← np.linspace t4 t3 (n2 + 1);
  points ← np.slice_assign put_xy 0 (Some (n2 + 1)%Z)
             (get_transition_points t) points;
  let width1 := t2 - t1 in
  t ← np.linspace (t1 + width1 / IZR n1) t2 n1;
  points ← np.slice_assign put_xy (n2 + 1) (Some (n2 + n1 + 1)%Z)
             (get_involute_points t) points;
  (* the mirrored side *)
  points ← np.slice_assign put_x (n2 + n1 + 1) None
             (Ropp <$> (col_x <$> np.slice 0 (Some (n2 + n1 + 1)%Z) points))
             points;
  points ← np.slice_assign put_y (n2 + n1 + 1) None
             (col_y <$> np.slice 0 (Some (n2 + n1 + 1)%Z) points) points;
  Ok points.

End Methods.

(** *** Assembling the wheel from the single-tooth mesh *)

Section Stitch.
Local Open Scope Z_scope.

(** **** Reduced topology (the two root fillets meet), lines 372-446

    [K] is [len(key_points)] and [single_node_num] the number of nodes a
    copy adds.  The three passes over [trans_matrix] are the statements
    under the comments "left tooth", "middle teeth" and "right tooth". *)

(** Lines 387-395 *)
Definition reduced_left (K n1 n2 n3 single_node_num : Z) (tm : list Z)
  : result (list Z) :=
  tm ← copy_item 0 11 tm tm;
  tm ← copy_item 1 4 tm tm;
  tm ← copy_slice K (K + n3 - 1)
         (K + 2 * (n3 + n1 + n2 - 3)) (K + 2 * (n3 + n1 + n2 - 3) + n3 - 1)
         tm tm;
  tm ← np.slice_iadd 2 (Some K) (single_node_num + n3 - 1) tm;
  np.slice_iadd (K + n3 - 1) None single_node_num tm.

(** Lines 409-417 *)
Definition reduced_middle (K n1 n2 n3 single_node_num : Z) (tm : list Z)
  : result (list Z) :=
  tm ← copy_item 0 11 tm tm;
  tm ← copy_item 1 4 tm tm;
  tm ← copy_slice K (K + n3 - 1)
         (K + 2 * (n3 + n1 + n2 - 3)) (K + 2 * (n3 + n1 + n2 - 3) + n3 - 1)
         tm tm;
  tm ← np.slice_iadd 2 (Some K) single_node_num tm;
  np.slice_iadd (K + n3 - 1) None single_node_num tm.

(** Lines 427-440 *)
Definition reduced_right (K n1 n2 n3 single_node_num : Z)
    (origin_trans_matrix tm : list Z) : result (list Z) :=
  tm ← copy_item 0 11 tm tm;
  tm ← copy_item 1 4 tm tm;
  tm ← copy_item 11 0 origin_trans_matrix tm;
  tm ← copy_item 4 1 origin_trans_matrix tm;
  tm ← copy_slice K (K + n3 - 1)
         (K + 2 * (n3 + n1 + n2 - 3)) (K + 2 * (n3 + n1 + n2 - 3) + n3 - 1)
         tm tm;
  tm ← copy_slice
         (K + 2 * (n3 + n1 + n2 - 3)) (K + 2 * (n3 + n1 + n2 - 3) + n3 - 1)
         K (K + n3 - 1) origin_trans_matrix tm;
  tm ← np.slice_iadd 2 (Some 4) single_node_num tm;
  tm ← np.slice_iadd 5 (Some 11) (single_node_num - 1) tm;
  tm ← np.slice_iadd (K + (n3 - 1)) (Some (K + 2 * (n1 + n2 + n3 - 3)))
         (single_node_num - 2) tm;
  np.slice_iadd (K + 2 * (n1 + n2 + n3 - 3) + n3 - 1) None
    (single_node_num - 2 - (n3 - 1)) tm.

(** Lines 372-446.  [key_points] is the 12-row key point array, [rot_phi]
    the rotation angles and [z] the name [z] as [generate_mesh] resolves
    it. *)
Definition stitch_reduced (key_points : list vec2) (n1 n2 n3 z : Z)
    (rot_phi : list R) (quad_mesh : QuadrangleMesh) : result QuadrangleMesh :=
  let tooth_node := node quad_mesh in
  let tooth_cell := cell quad_mesh in
  let origin_cell := cell quad_mesh in
  let K := Z.of_nat (length key_points) in
  let single_node_num := Z.of_nat (length tooth_node) - (n3 + 1) in
  let temp_node :=
    np.slice 2 (Some K) tooth_node
    ++ np.slice (K + (n3 - 1)) None tooth_node in
  let temp_node_last :=
    np.slice 2 (Some 4) tooth_node
    ++ np.slice 5 (Some 11) tooth_node
    ++ np.slice (K + (n3 - 1)) (Some (K + 2 * (n1 + n2 + n3 - 3))) tooth_node
    ++ np.slice (K + 2 * (n1 + n2 + n3 - 3) + n3 - 1) None tooth_node in
  (* left tooth *)
  let trans_matrix := np.arange (length tooth_node) in
  let origin_trans_matrix := np.arange (length tooth_node) in
  tm ← reduced_left K n1 n2 n3 single_node_num trans_matrix;
  phi ← np.getitem rot_phi 1;
  st ← append_copy tm (rotate_nodes phi temp_node) tooth_cell
         (mkStitch tm tooth_node tooth_cell);
  (* middle teeth *)
  st ← for_each (fun i st =>
         phi ← np.getitem rot_phi i;
         let new_node := rotate_nodes phi temp_node in
         tm ← reduced_middle K n1 n2 n3 single_node_num (s_trans_matrix st);
         append_copy tm new_node origin_cell st)
       (range 2 (z - 1)) st;
  (* right tooth *)
  phi ← np.getitem rot_phi (-1);
  let new_node := rotate_nodes phi temp_node_last in
  tm ← reduced_right K n1 n2 n3 single_node_num origin_trans_matrix
         (s_trans_matrix st);
  st ← append_copy tm new_node origin_cell st;
  Ok (mkMesh (s_tooth_node st) (s_tooth_cell st)).

(** **** Normal topology (separate root arc), lines 449-450 and 558-643

    [A], [B] and [C] delimit the interior nodes of the two radial edges
    shared with the neighbouring teeth: [A = len(key_points) +
    edge_node_num - (4 * (nf - 1) + 2 * (n3 - 1))], [B = len(key_points) +
    edge_node_num - (4 * (nf - 1) + (n3 - 1))] and [C = len(key_points) +
    edge_node_num - 4 * (nf - 1)]. *)

(** Lines 576-587 *)
Definition normal_left (A B C n3 single_node_num : Z) (tm : list Z)
  : result (list Z) :=
  tm ← copy_item 12 14 tm tm;
  tm ← copy_item 13 15 tm tm;
  tm ← copy_slice A B B C tm tm;
  tm ← np.slice_iadd 0 (Some 12) (single_node_num + (n3 - 1) + 2) tm;
  tm ← np.slice_iadd 14 (Some A) (single_node_num + (n3 - 1)) tm;
  np.slice_iadd B None single_node_num tm.

(** Lines 601-611 *)
Definition normal_middle (A B C single_node_num : Z) (tm : list Z)
  : result (list Z) :=
  tm ← copy_item 12 14 tm tm;
  tm ← copy_item 13 15 tm tm;
  tm ← copy_slice A B B C tm tm;
  tm ← np.slice_iadd 0 (Some 12) single_node_num tm;
  tm ← np.slice_iadd 14 (Some A) single_node_num tm;
  np.slice_iadd B None single_node_num tm.

(** Lines 621-637 *)
Definition normal_right (A B C n3 single_node_num : Z)
    (origin_trans_matrix tm : list Z) : result (list Z) :=
  tm ← copy_item 12 14 tm tm;
  tm ← copy_item 13 15 tm tm;
  tm ← copy_item 14 12 origin_trans_matrix tm;
  tm ← copy_item 15 13 origin_trans_matrix tm;
  tm ← copy_slice A B B C tm tm;
  tm ← copy_slice B C A B origin_trans_matrix tm;
  tm ← np.slice_iadd 0 (Some 12) single_node_num tm;
  tm ← np.slice_iadd 16 (Some A) (single_node_num - 2) tm;
  np.slice_iadd C None (single_node_num - (n3 - 1) - 2) tm.

(** Lines 449-450 and 558-643; [key_points] is the 16-row key point
    array. *)
Definition stitch_normal (key_points : list vec2) (n1 n2 n3 na nf z : Z)
    (rot_phi : list R) (quad_mesh : QuadrangleMesh) : result QuadrangleMesh :=
  let edge_node_num :=
    (na - 1) * 8 + (n2 - 1) * 3 + (n1 - 1) * 3 + (n3 - 1) * 5 + (nf - 1) * 4 in
  let tooth_node := node quad_mesh in
  let tooth_cell := cell quad_mesh in
  let origin_cell := cell quad_mesh in
  let K := Z.of_nat (length key_points) in
  let A := K + edge_node_num - (4 * (nf - 1) + 2 * (n3 - 1)) in
  let B := K + edge_node_num - (4 * (nf - 1) + (n3 - 1)) in
  let C := K + edge_node_num - 4 * (nf - 1) in
  let single_node_num := Z.of_nat (length tooth_node) - (n3 + 1) in
  let temp_node :=
    np.slice 0 (Some 12) tooth_node
    ++ np.slice 14 (Some A) tooth_node
    ++ np.slice B None tooth_node in
  let temp_node_last :=
    np.slice 0 (Some 12) tooth_node
    ++ np.slice 16 (Some A) tooth_node
    ++ np.slice C None tooth_node in
  let origin_trans_matrix := np.arange (length tooth_node) in
  let trans_matrix := np.arange (length tooth_node) in
  (* left tooth *)
  tm ← normal_left A B C n3 single_node_num trans_matrix;
  phi ← np.getitem rot_phi 1;
  st ← append_copy tm (rotate_nodes phi temp_node) origin_cell
         (mkStitch tm tooth_node tooth_cell);
  (* middle teeth *)
  st ← for_each (fun i st =>
         phi ← np.getitem rot_phi i;
         let new_node := rotate_nodes phi temp_node in
         tm ← normal_middle A B C single_node_num (s_trans_matrix st);
         append_copy tm new_node origin_cell st)
       (range 2 (z - 1)) st;
  (* right tooth *)
  phi ← np.getitem rot_phi (-1);
  let new_node := rotate_nodes phi temp_node_last in
  tm ← normal_right A B C n3 single_node_num origin_trans_matrix
         (s_trans_matrix st);
  st ← append_copy tm new_node origin_cell st;
  Ok (mkMesh (s_tooth_node st) (s_tooth_cell st)).

End Stitch.

(** *** generate_mesh *)

Section Tables.
Local Open Scope Z_scope.

(** The sub-region edges and the half-edge table of the reduced topology,
    lines 304-345 *)
Definition reduced_edge : list (Z * Z) :=
  [(0, 1); (1, 2); (2, 3); (10, 7); (7, 8); (8, 9); (11, 4); (4, 5); (5, 6);
   (10, 0); (7, 1); (8, 2); (9, 3); (11, 10); (4, 7); (5, 8); (6, 9)].

Definition reduced_half_edge : result (list (list Z)) :=
  let edge := reduced_edge in
  let half_edge := np.zeros_int (Z.of_nat (length edge) * 2) 5 in
  half_edge ← np.index_assign (np.stride2 0 (length half_edge)) 0
                (Values (snd <$> edge)) half_edge;
  half_edge ← np.index_assign (np.stride2 1 (length half_edge)) 0
                (Values (fst <$> edge)) half_edge;
  half_edge ← np.index_assign (np.stride2 0 (length half_edge)) 4
                (Values ((fun i => 2 * i + 1) <$> np.arange (length edge)))
                half_edge;
  half_edge ← np.index_assign (np.stride2 1 (length half_edge)) 4
                (Values ((fun i => 2 * i) <$> np.arange (length edge)))
                half_edge;
  half_edge ← np.index_assign ((fun i => i * 2) <$> [0; 1; 2]) 1
                (Values [0; 1; 2]) half_edge;
  half_edge ← np.index_assign ((fun i => i * 2 + 1) <$> [0; 1; 2]) 1
                (Scalar (-1)) half_edge;
  half_edge ← np.index_assign ((fun i => i * 2) <$> [3; 4; 5]) 1
                (Values [3; 4; 5]) half_edge;
  half_edge ← np.index_assign ((fun i => i * 2 + 1) <$> [3; 4; 5]) 1
                (Values [0; 1; 2]) half_edge;
  half_edge ← np.index_assign ((fun i => i * 2) <$> [6; 7; 8]) 1
                (Scalar (-1)) half_edge;
  half_edge ← np.index_assign ((fun i => i * 2 + 1) <$> [6; 7; 8]) 1
                (Values [3; 4; 5]) half_edge;
  half_edge ← np.index_assign ((fun i => i * 2) <$> [10; 11; 14; 15]) 1
                (Values [1; 2; 4; 5]) half_edge;
  half_edge ← np.index_assign ((fun i => i * 2 + 1) <$> [10; 11; 14; 15]) 1
                (Values [0; 1; 3; 4]) half_edge;
  half_edge ← np.index_assign ((fun i => i * 2) <$> [9; 13]) 1
                (Values [0; 3]) half_edge;
  half_edge ← np.index_assign ((fun i => i * 2 + 1) <$> [9; 13]) 1
                (Scalar (-1)) half_edge;
  half_edge ← np.index_assign ((fun i => i * 2) <$> [12; 16]) 1
                (Scalar (-1)) half_edge;
  half_edge ← np.index_assign ((fun i => i * 2 + 1) <$> [12; 16]) 1
                (Values [2; 5]) half_edge;
  half_edge ← np.index_assign (np.stride2 0 (length half_edge)) 2
                (Values [21; 23; 25; 29; 31; 33; 14; 16; 32; 0; 2; 4; 5; 6;
                   8; 10; 24]) half_edge;
  half_edge ← np.index_assign (np.stride2 1 (length half_edge)) 2
                (Values [19; 1; 3; 18; 20; 22; 26; 28; 30; 27; 7; 9; 11; 12;
                   13; 15; 17]) half_edge;
  half_edge ← np.index_assign (np.stride2 0 (length half_edge)) 3
                (Values [18; 20; 22; 26; 28; 30; 27; 12; 14; 7; 9; 11; 32;
                   13; 15; 17; 16]) half_edge;
  half_edge ← np.index_assign (np.stride2 1 (length half_edge)) 3
                (Values [3; 5; 24; 21; 23; 25; 29; 31; 33; 1; 0; 2; 4; 19; 6;
                   8; 10]) half_edge;
  Ok half_edge.

(** The sub-region edges and the half-edge table of the normal topology,
    lines 461-523 *)
Definition normal_edge : list (Z * Z) :=
  [(0, 1); (1, 2); (2, 3); (10, 7); (7, 8); (8, 9); (11, 4); (4, 5); (5, 6);
   (10, 0); (7, 1); (8, 2); (9, 3); (11, 10); (4, 7); (5, 8); (6, 9);
   (12, 13); (14, 15); (0, 12); (1, 13); (14, 11); (15, 4)].

Definition normal_half_edge : result (list (list Z)) :=
  let edge := normal_edge in
  let half_edge := np.zeros_int (Z.of_nat (length edge) * 2) 5 in
  half_edge ← np.index_assign (np.stride2 0 (length half_edge)) 0
                (Values (snd <$> edge)) half_edge;
  half_edge ← np.index_assign (np.stride2 1 (length half_edge)) 0
                (Values (fst <$> edge)) half_edge;
  half_edge ← np.index_assign (np.stride2 0 (length half_edge)) 4
                (Values ((fun i => 2 * i + 1) <$> np.arange (length edge)))
                half_edge;
  half_edge ← np.index_assign (np.stride2 1 (length half_edge)) 4
                (Values ((fun i => 2 * i) <$> np.arange (length edge)))
                half_edge;
  half_edge ← np.index_assign ((fun i => i * 2) <$> [0; 1; 2]) 1
                (Values [0; 1; 2]) half_edge;
  half_edge ← np.index_assign ((fun i => i * 2 + 1) <$> [1; 2]) 1
                (Scalar (-1)) half_edge;
  half_edge ← np.index_assign [0 * 2 + 1] 1 (Scalar 6) half_edge;
  half_edge ← np.index_assign ((fun i => i * 2) <$> [3; 4; 5]) 1
                (Values [3; 4; 5]) half_edge;
  half_edge ← np.index_assign ((fun i => i * 2 + 1) <$> [3; 4; 5]) 1
                (Values [0; 1; 2]) half_edge;
  half_edge ← np.index_assign ((fun i => i * 2) <$> [7; 8]) 1
                (Scalar (-1)) half_edge;
  half_edge ← np.index_assign [6 * 2] 1 (Scalar 7) half_edge;
  half_edge ← np.index_assign ((fun i => i * 2 + 1) <$> [6; 7; 8]) 1
                (Values [3; 4; 5]) half_edge;
  half_edge ← np.index_assign ((fun i => i * 2) <$> [10; 11; 14; 15]) 1
                (Values [1; 2; 4; 5]) half_edge;
  half_edge ← np.index_assign ((fun i => i * 2 + 1) <$> [10; 11; 14; 15]) 1
                (Values [0; 1; 3; 4]) half_edge;
  half_edge ← np.index_assign ((fun i => i * 2) <$> [9; 13]) 1
                (Values [0; 3]) half_edge;
  half_edge ← np.index_assign ((fun i => i * 2 + 1) <$> [9; 13]) 1
                (Scalar (-1)) half_edge;
  half_edge ← np.index_assign ((fun i => i * 2) <$> [12; 16]) 1
                (Scalar (-1)) half_edge;
  half_edge ← np.index_assign ((fun i => i * 2 + 1) <$> [12; 16]) 1
                (Values [2; 5]) half_edge;
  half_edge ← np.index_assign [17 * 2] 1 (Scalar 6) half_edge;
  half_edge ← np.index_assign [17 * 2 + 1] 1 (Scalar (-1)) half_edge;
  half_edge ← np.index_assign [18 * 2] 1 (Scalar (-1)) half_edge;
  half_edge ← np.index_assign [18 * 2 + 1] 1 (Scalar 7) half_edge;
  half_edge ← np.index_assign ((fun i => i * 2) <$> [19; 21]) 1
                (Values [6; 7]) half_edge;
  half_edge ← np.index_assign ((fun i => i * 2 + 1) <$> [19; 21]) 1
                (Scalar (-1)) half_edge;
  half_edge ← np.index_assign ((fun i => i * 2) <$> [20; 22]) 1
                (Scalar (-1)) half_edge;
  half_edge ← np.index_assign ((fun i => i * 2 + 1) <$> [20; 22]) 1
                (Values [6; 7]) half_edge;
  half_edge ← np.index_assign (np.stride2 0 (length half_edge)) 2
                (Values [21; 23; 25; 29; 31; 33; 45; 16; 32; 0; 2; 4; 5; 6;
                   8; 10; 24; 41; 44; 34; 35; 12; 14]) half_edge;
  half_edge ← np.index_assign (np.stride2 1 (length half_edge)) 2
                (Values [38; 40; 3; 18; 20; 22; 26; 28; 30; 27; 7; 9; 11; 43;
                   13; 15; 17; 39; 42; 19; 1; 36; 37]) half_edge;
  half_edge ← np.index_assign (np.stride2 0 (length half_edge)) 3
                (Values [18; 20; 22; 26; 28; 30; 42; 44; 14; 7; 9; 11; 32;
                   13; 15; 17; 16; 38; 43; 1; 3; 37; 36]) half_edge;
  half_edge ← np.index_assign (np.stride2 1 (length half_edge)) 3
                (Values [41; 5; 24; 21; 23; 25; 29; 31; 33; 39; 0; 2; 4; 19;
                   6; 8; 10; 40; 45; 35; 34; 27; 12]) half_edge;
  Ok half_edge.

End Tables.

(** The two topologies of the tooth region. *)
Inductive topology : Type :=
  | Reduced   (* the root fillets of neighbouring teeth meet: 12 key points *)
  | Normal.   (* a root arc separates them: 16 key points *)

(** The local variables of [generate_mesh] when it reaches the [if] of
    line 301. *)
Record frame : Type := mkFrame {
  points : list vec3;
  t_a : R;
  t_aa : R;
  t_ff : R;
  t_f : R;
  r_inner : R;
  kp_0 : vec3;
  kp_1 : vec3;
  kp_2 : vec3;
  kp_3 : vec3;
  kp_4 : vec3;
  kp_5 : vec3;
  kp_6 : vec3;
  kp_7 : vec3;
  kp_8 : vec3;
  kp_9 : vec3;
  kp_10 : vec3;
  kp_11 : vec3;
  z : pyval;
  rot_phi : list R;
  angle0 : R;
  angle1 : R;
  angle2 : R;
  delta_angle : R
}.

Section GenerateMesh.
Variable slv : solver.
Variable gen : mesh_generator.
Variable G : globals.
Variable self : t.

Let n1 := Gear.n1 (base self).
Let n2 := Gear.n2 (base self).
Let n3 := Gear.n3 (base self).
Let nf := Gear.nf (base self).
Let na := Gear.na (base self).
Let rf := r_f self.
Let ra := effective_ra self.

(** [p[..., :-1]] *)
Let xy (p : vec3) : vec2 := drop_last_col p.

(** Lines 232-297: profile, key points 0-11 and the angles compared by the
    branch.  The name [z] is not bound in the method: it is looked up among
    the module globals. *)
Definition tooth_geometry : result frame :=
  points ← get_profile_points slv self;
  p_last ← np.getitem points (-1);
  let t_a := np.arctan2 (col_y p_last) (col_x p_last) in
  let t_aa := PI - t_a in
  p_first ← np.getitem points 0;
  let t_ff := np.arctan2 (col_y p_first) (col_x p_first) in
  let t_f := PI - t_ff in
  let r_inner := inner_diam self / 2 in
  theta ← np.linspace t_f t_ff 100;
  let x_f := (fun th => r_inner * cos th) <$> theta in
  let y_f := (fun th => r_inner * sin th) <$> theta in
  kp_1 ← np.getitem points (n1 + n2 + 1);
  kp_4 ← np.getitem points 0;
  kp_2 ← np.getitem points (2 * n1 + n2 + 1);
  kp_5 ← np.getitem points n1;
  kp_3 ← np.getitem points (-1);
  kp_6 ← np.getitem points (n1 + n2);
  x_f0 ← np.getitem x_f 0;
  y_f0 ← np.getitem y_f 0;
  let kp_0 := (x_f0, y_f0, 0) in
  x_fl ← np.getitem x_f (-1);
  y_fl ← np.getitem y_f (-1);
  let kp_11 := (x_fl, y_fl, 0) in
  let kp_10 := (0, r_inner, 0) in
  let kp_9 := (0, ra, 0) in
  (* arc lengths along one flank *)
  let distance :=
    norm3 <$> np.diff (np.slice 0 (Some (n1 + n2 + 1)%Z) points) in
  let length2 := np.sum (np.slice 0 (Some n1) distance) in
  let length3 := np.sum (np.slice n1 (Some (n1 + n2)%Z) distance) in
  let length1 :=
    norm3 (col_x kp_4 - col_x kp_11, col_y kp_4 - col_y kp_11,
           kp_4.2 - kp_11.2) in
  let n_total := IZR n1 * 1.236 + IZR n2 * 0.618 + IZR n3 in
  (* [n1 * 1.236 / n_total] divides two Python floats *)
  if Req_dec_T n_total 0 then Raise ZeroDivisionError
  else
  let length2_n := length2 * (IZR n1 * 1.236 / n_total) in
  let length3_n := length3 * (IZR n2 * 0.618 / n_total) in
  let length1_n := length1 * (IZR n3 / n_total) in
  let length_total_n := length1_n + length2_n + length3_n in
  let t_2 := length2_n / length_total_n in
  let t_1 := length1_n / length_total_n in
  let kp_7 := (0, r_inner + (ra - r_inner) * t_1, 0) in
  let kp_8 := (0, r_inner + (ra - r_inner) * (t_1 + t_2), 0) in
  (* rotation angles *)
  z ← load_global G "z";
  rot_phi ← rotation_angles z;
  phi ← np.getitem rot_phi 1;
  let rot_kp_1 := rotate phi (xy kp_1) in
  let angle0 := np.arctan2 (col_y kp_1) (col_x kp_1) in
  let angle1 := np.arctan2 rot_kp_1.2 rot_kp_1.1 in
  let angle2 := np.arctan2 (col_y kp_4) (col_x kp_4) in
  let delta_angle := Rabs (angle1 - angle2) in
  Ok (mkFrame points t_a t_aa t_ff t_f r_inner
        kp_0 kp_1 kp_2 kp_3 kp_4 kp_5 kp_6 kp_7 kp_8 kp_9 kp_10 kp_11
        z rot_phi angle0 angle1 angle2 delta_angle).

(** [if delta_angle < 1e-12], line 301 *)
Definition select_topology (f : frame) : topology :=
  if Rlt_dec (delta_angle f) 1e-12 then Reduced else Normal.

(** The 17 boundary lines shared by the two topologies, lines 347-369 and
    525-549 *)
Definition common_lines (f : frame) : result (list (list vec2)) :=
  let points := points f in
  theta_f ← np.linspace (PI / 2) (t_f f) (na + 1);
  theta_ff ← np.linspace (t_ff f) (PI / 2) (na + 1);
  theta_a ← np.linspace (PI / 2) (t_a f) (na + 1);
  theta_aa ← np.linspace (t_aa f) (PI / 2) (na + 1);
  l0 ← np.linspace2 (xy (kp_0 f)) (xy (kp_1 f)) (n3 + 1);
  let l1 :=
    xy <$> np.slice (n1 + n2 + 1) (Some (2 * n1 + n2 + 2)%Z) points in
  let l2 :=
    xy <$> np.slice (2 * n1 + n2 + 1) (Some (2 * n1 + 2 * n2 + 2)%Z) points in
  l3 ← np.linspace2 (xy (kp_10 f)) (xy (kp_7 f)) (n3 + 1);
  l4 ← np.linspace2 (xy (kp_7 f)) (xy (kp_8 f)) (n1 + 1);
  l5 ← np.linspace2 (xy (kp_8 f)) (xy (kp_9 f)) (n2 + 1);
  l6 ← np.linspace2 (xy (kp_11 f)) (xy (kp_4 f)) (n3 + 1);
  let l7 := xy <$> np.slice 0 (Some (n1 + 1)%Z) points in
  let l8 := xy <$> np.slice n1 (Some (n1 + n2 + 1)%Z) points in
  let l9 := arc (r_inner f) theta_f in
  l10 ← np.linspace2 (xy (kp_7 f)) (xy (kp_1 f)) (na + 1);
  l11 ← np.linspace2 (xy (kp_8 f)) (xy (kp_2 f)) (na + 1);
  let l12 := arc ra theta_a in
  let l13 := arc (r_inner f) theta_ff in
  l14 ← np.linspace2 (xy (kp_4 f)) (xy (kp_7 f)) (na + 1);
  l15 ← np.linspace2 (xy (kp_5 f)) (xy (kp_8 f)) (na + 1);
  let l16 := arc ra theta_aa in
  Ok [l0; l1; l2; l3; l4; l5; l6; l7; l8; l9; l10; l11; l12; l13; l14; l15;
      l16].

Definition key_points_12 (f : frame) : list vec3 :=
  [kp_0 f; kp_1 f; kp_2 f; kp_3 f; kp_4 f; kp_5 f; kp_6 f; kp_7 f; kp_8 f;
   kp_9 f; kp_10 f; kp_11 f].

(** Lines 302-446 *)
Definition mesh_reduced (f : frame) : result QuadrangleMesh :=
  let key_points := key_points_12 f in
  half_edge ← reduced_half_edge;
  line ← common_lines f;
  quad_mesh ← gen half_edge (xy <$> key_points) line;
  stitch_reduced (xy <$> key_points) n1 n2 n3 (int_value (z f)) (rot_phi f)
    quad_mesh.

(** Lines 448-643 *)
Definition mesh_normal (f : frame) : result QuadrangleMesh :=
  let kp_12_angle := angle0 f - delta_angle f / 2 in
  let kp_14_angle := angle2 f + delta_angle f / 2 in
  let r_inner := r_inner f in
  let kp_12 := (r_inner * cos kp_12_angle, r_inner * sin kp_12_angle, 0) in
  let kp_13 := (rf * cos kp_12_angle, rf * sin kp_12_angle, 0) in
  let kp_14 := (r_inner * cos kp_14_angle, r_inner * sin kp_14_angle, 0) in
  let kp_15 := (rf * cos kp_14_angle, rf * sin kp_14_angle, 0) in
  let key_points := key_points_12 f ++ [kp_12; kp_13; kp_14; kp_15] in
  half_edge ← normal_half_edge;
  line ← common_lines f;
  theta_b1 ← np.linspace kp_12_angle (t_f f) (nf + 1);
  theta_b2 ← np.linspace (t_ff f) kp_14_angle (nf + 1);
  l17 ← np.linspace2 (xy kp_12) (xy kp_13) (n3 + 1);
  l18 ← np.linspace2 (xy kp_14) (xy kp_15) (n3 + 1);
  let line :=
    line ++ [l17; l18; arc r_inner theta_b1; arc rf theta_b1;
             arc r_inner theta_b2; arc rf theta_b2] in
  quad_mesh ← gen half_edge (xy <$> key_points) line;
  stitch_normal (xy <$> key_points) n1 n2 n3 na nf (int_value (z f))
    (rot_phi f) quad_mesh.

(** [generate_mesh], lines 231-646; returns the mesh and the instance with
    [self.mesh] assigned. *)
Definition generate_mesh : result (QuadrangleMesh * t) :=
  f ← tooth_geometry;
  t_mesh ← match select_topology f with
           | Reduced => mesh_reduced f
           | Normal => mesh_normal f
           end;
  Ok (t_mesh, set_mesh self t_mesh).

End GenerateMesh.

End ExternalGear.

(** ** class InternalGear: construction and tooth profile *)

Module InternalGear.

Record t : Type := mk {
  base : Gear.t;
  outer_diam : R;
  z_cutter : Z;
  xn_cutter : R;
  d_a : R;
  r_a : R;
  d_f : R;
  r_f : R;
  d_cutter : R;
  r_cutter : R;
  db_cutter : R;
  rb_cutter : R;
  da_cutter : R;
  ra_cutter : R;
  df_cutter : R;
  rf_cutter : R;
  etab : R;
  rc : R;
  t_ : list R   (* the attribute [self.t] *)
}.

(** [self.t = v] *)
Definition set_t (g : t) (v : list R) : t :=
  mk (base g) (outer_diam g) (z_cutter g) (xn_cutter g) (d_a g) (r_a g)
     (d_f g) (r_f g) (d_cutter g) (r_cutter g) (db_cutter g) (rb_cutter g)
     (da_cutter g) (ra_cutter g) (df_cutter g) (rf_cutter g) (etab g) (rc g) v.

(** [self.mesh = m] *)
Definition set_mesh (g : t) (m : QuadrangleMesh) : t :=
  mk (Gear.set_mesh (base g) m) (outer_diam g) (z_cutter g) (xn_cutter g)
     (d_a g) (r_a g) (d_f g) (r_f g) (d_cutter g) (r_cutter g) (db_cutter g)
     (rb_cutter g) (da_cutter g) (ra_cutter g) (df_cutter g) (rf_cutter g)
     (etab g) (rc g) (t_ g).

(** Point of the cutter involute at roll angle [u], the expression shared
    by the two systems of equations below. *)
Definition cutter_involute_x (rb etab u : R) : R :=
  rb * cos etab * (sin u - u * cos u) - rb * sin etab * (cos u + u * sin u).
Definition cutter_involute_y (rb etab u : R) : R :=
  rb * cos etab * (cos u + u * sin u) + rb * sin etab * (sin u - u * cos u).
Definition cutter_involute_slope (rb etab u : R) : R :=
  (rb * u * sin etab * sin u + rb * u * cos etab * cos u)
  / (rb * u * cos etab * sin u - rb * u * cos u * sin etab).

(** The 3-unknown system of the constructor, lines 704-711 *)
Definition init_system (rb_cutter ra_cutter etab : R) (t : list R) : list R :=
  let t0 := t !!! 0%nat in
  let t1 := t !!! 1%nat in
  let t2 := t !!! 2%nat in
  [ cutter_involute_x rb_cutter etab t0 - t2 * cos t1;
    cutter_involute_y rb_cutter etab t0 - (t2 * sin t1 + ra_cutter - t2);
    cutter_involute_slope rb_cutter etab t0 + cos t1 / sin t1 ].

(** [InternalGear.__init__], lines 671-712 *)
Definition __init__ (slv : solver) (a : Gear.args)
    (outer_diam : R) (z_cutter : Z) (xn_cutter : R) : result t :=
  g ← Gear.__init__ a;
  let ha := Gear.m_n g * (Gear.hac g - Gear.x_n g) in
  let d_a := Gear.d g - 2 * ha in
  let r_a := d_a / 2 in
  let hf := Gear.m_n g * (Gear.hac g + Gear.cc g + Gear.x_n g) in
  let d_f := Gear.d g + 2 * hf in
  let r_f := d_f / 2 in
  let d_cutter := Gear.m_t g * IZR z_cutter in
  let r_cutter := d_cutter / 2 in
  let db_cutter := d_cutter * cos (Gear.alpha_t g) in
  let rb_cutter := db_cutter / 2 in
  let ha_cutter := Gear.m_n g * (Gear.hac g + Gear.cc g + xn_cutter) in
  let da_cutter := d_cutter + 2 * ha_cutter in
  let ra_cutter := da_cutter / 2 in
  let hf_cutter := Gear.m_n g * (Gear.hac g - xn_cutter) in
  let df_cutter := d_cutter - 2 * hf_cutter in
  let rf_cutter := df_cutter / 2 in
  let eta := (PI - 4 * xn_cutter * tan (Gear.alpha_n g)) / (2 * IZR z_cutter) in
  (* [pi / self.z_cutter] divides two Python numbers *)
  if decide (z_cutter = 0%Z) then Raise ZeroDivisionError
  else
    let etab :=
      PI / IZR z_cutter - (eta - (tan (Gear.alpha_t g) - Gear.alpha_t g)) in
    let rc := Gear.m_n g * Gear.rcc g in
    let t := fsolve slv (init_system rb_cutter ra_cutter etab)
               [1; 0.75 * PI; 0.25 * Gear.m_n g] in
    Ok (mk g outer_diam z_cutter xn_cutter d_a r_a d_f r_f d_cutter r_cutter
          db_cutter rb_cutter da_cutter ra_cutter df_cutter rf_cutter
          etab rc t).

(** [InternalGear.ainv], lines 714-721.  The [while] loop runs on a bound
    [fuel] of iterations. *)
Fixpoint ainv_loop (fuel : nat) (x temp alpha : R) : result R :=
  if Rgt_dec (Rabs (alpha - temp)) 1e-25 then
    match fuel with
    | O => Raise OutOfFuel
    | S fuel' => ainv_loop fuel' x alpha (atan (x + alpha))
    end
  else Ok alpha.

Definition ainv (fuel : nat) (x : R) : result R :=
  ainv_loop fuel x 0 (atan x).

Section Methods.
Variable slv : solver.
Variable fuel : nat.
Variable self : t.

Let g := base self.
Let n1 := Gear.n1 g.
Let n2 := Gear.n2 g.

(** [get_involute_points], lines 723-736; [pi / z] divides two Python
    numbers. *)
Definition involute_point (t : R) : vec2 :=
  let alphan := Gear.alpha_n g in
  let alphat := Gear.alpha_t g in
  let rb := Gear.r_b g in
  let xn := Gear.x_n g in
  let z := IZR (Gear.z g) in
  let eta := (PI - 4 * xn * tan alphan) / (2 * z) in
  let etab := PI / z - (eta - (tan alphat - alphat)) in
  (cutter_involute_x rb etab t, cutter_involute_y rb etab t).

Definition get_involute_points (t : list R) : result (list vec2) :=
  if decide (Gear.z g = 0%Z) then Raise ZeroDivisionError
  else Ok (involute_point <$> t).

(** [get_tip_intersection_points], lines 738-741 *)
Definition tip_radius_at (t : R) : R :=
  let p := involute_point t in sqrt (p.1 ^ 2 + p.2 ^ 2).

(** [fsolve(lambda t: self.get_tip_intersection_points(t) - target, 1)[0]];
    the solver evaluates the function, hence [get_involute_points], at
    least once. *)
Definition solve_tip_radius (target : R) : result R :=
  _ ← get_involute_points [1];
  fsolve_scalar slv (fun t => tip_radius_at t - target) 1.

(** The meshing equation [f(phi, tt)] of [calc_phi], lines 746-755 *)
Definition meshing_equation (E x0 y0 rc ratio tt phi : R) : R :=
  let cos_phi := cos (phi * (ratio - 1)) in
  let sin_phi := sin (phi * (ratio - 1)) in
  let term1 :=
    - (rc * cos_phi * cos tt + rc * sin_phi * sin tt)
    * (E * cos phi + sin_phi * (x0 + rc * cos tt) * (ratio - 1)
       - cos_phi * (y0 + rc * sin tt) * (ratio - 1)) in
  let term2 :=
    - (rc * cos_phi * sin tt - rc * sin_phi * cos tt)
    * (E * sin phi + cos_phi * (x0 + rc * cos tt) * (ratio - 1)
       + sin_phi * (y0 + rc * sin tt) * (ratio - 1)) in
  term1 + term2.

(** [get_transition_points], lines 743-769: one root-finding per sample *)
Definition transition_point (E x0 y0 rc ratio t : R) : result vec2 :=
  phi ← fsolve_scalar slv (meshing_equation E x0 y0 rc ratio t) 0;
  let xt :=
    sin (phi * (ratio - 1)) * (y0 + rc * sin t) - E * sin phi
    + cos (phi * (ratio - 1)) * (x0 + rc * cos t) in
  let yt :=
    E * cos phi - sin (phi * (ratio - 1)) * (x0 + rc * cos t)
    + cos (phi * (ratio - 1)) * (y0 + rc * sin t) in
  Ok (xt, yt).

Fixpoint get_transition_points (E x0 y0 rc ratio : R) (t : list R)
  : result (list vec2) :=
  match t with
  | [] => Ok []
  | ti :: t' =>
      p ← transition_point E x0 y0 rc ratio ti;
      ps ← get_transition_points E x0 y0 rc ratio t';
      Ok (p :: ps)
  end.

(** The 4-unknown system of the thin-fillet branch, lines 815-826 *)
Definition fillet_system (rb_cutter ra_cutter etab rc : R) (t : list R)
  : list R :=
  let t0 := t !!! 0%nat in
  let t1 := t !!! 1%nat in
  let t2 := t !!! 2%nat in
  let t3 := t !!! 3%nat in
  [ cutter_involute_x rb_cutter etab t0 - (rc * cos t1 + t2);
    cutter_involute_y rb_cutter etab t0 - (rc * sin t1 + t3);
    cutter_involute_slope rb_cutter etab t0 + cos t1 / sin t1;
    t2 ^ 2 + t3 ^ 2 - (ra_cutter - rc) ^ 2 ].

(** The mirrored side: [points[h+1:, 0] = -points[0:h, 0][::-1]] and
    [points[h+1:, 1] = points[0:h, 1][::-1]] *)
Definition mirror_reversed (h : Z) (points : list vec3) : result (list vec3) :=
  points ← np.slice_assign put_x (h + 1) None
             (Ropp <$> reverse (col_x <$> np.slice 0 (Some h) points)) points;
  np.slice_assign put_y (h + 1) None
    (reverse (col_y <$> np.slice 0 (Some h) points)) points.

(** [points[i, :] = (points[j, :] + points[k, :]) / 2] *)
Definition midpoint (a b : vec3) : vec3 :=
  ((col_x a + col_x b) / 2, (col_y a + col_y b) / 2, (a.2 + b.2) / 2).

(** [get_profile_points], lines 771-861.  The method may assign [self.t],
    so it returns the instance together with the points. *)
Definition get_profile_points : result (list vec3 * t) :=
  let ra_cutter := ra_cutter self in
  let rb_cutter := rb_cutter self in
  let t := t_ self in
  let rc := rc self in
  let etab := etab self in
  (* [self.z / self.z_cutter] divides two Python integers *)
  if decide (z_cutter self = 0%Z) then Raise ZeroDivisionError
  else
  let ratio := IZR (Gear.z g) / IZR (z_cutter self) in
  alphawt ← ainv fuel
    (2 * (Gear.x_n g - xn_cutter self) * tan (Gear.alpha_n g)
       / IZR (Gear.z g - z_cutter self)
     + (tan (Gear.alpha_t g) - Gear.alpha_t g));
  let E :=
    0.5 * (Gear.d g - d_cutter self)
    + Gear.m_t g
      * (0.5 * IZR (Gear.z g - z_cutter self)
         * (cos (Gear.alpha_t g) / cos alphawt - 1)) in
  let df11 := 2 * (E + ra_cutter) in
  t_2 ← np.getitem t 2;
  if Rge_dec rc t_2 then
    points ← np.zeros3 (2 * (n1 + n2) + 1);
    let x0 := 0 in
    let y0 := ra_cutter - rc in
    t_1 ← np.getitem t 1;
    tt ← np.linspace_open t_1 (PI / 2) n2;
    tp ← get_transition_points E x0 y0 rc ratio tt;
    points ← np.slice_assign put_xy n1 (Some (n1 + n2)%Z) tp points;
    (* the centre point *)
    points ← np.setitem put_x (n1 + n2) 0 points;
    points ← np.setitem put_y (n1 + n2) (0.5 * df11) points;
    p ← np.getitem points n1;
    t2 ← solve_tip_radius (sqrt (col_x p ^ 2 + col_y p ^ 2));
    t1 ← solve_tip_radius (0.5 * d_a self);
    tt ← np.linspace_open t1 t2 n1;
    ip ← get_involute_points tt;
    points ← np.slice_assign put_xy 0 (Some n1) ip points;
    points ← mirror_reversed (n1 + n2) points;
    Ok (points, self)
  else
    let nf := Gear.nf g in
    points ← np.zeros3 (2 * (n1 + n2 + nf) + 1);
    let t := fsolve slv (fillet_system rb_cutter ra_cutter etab rc)
               [1; 0.75 * PI; 0; ra_cutter] in
    let self := set_t self t in
    x0 ← np.getitem t 2;
    y0 ← np.getitem t 3;
    let t3 := PI / 2 - atan (x0 / y0) in
    t4 ← np.getitem t 1;
    tt ← np.linspace_open t4 t3 n2;
    tp ← get_transition_points E x0 y0 rc ratio tt;
    points ← np.slice_assign put_xy (n1 + 1) (Some (n1 + n2 + 1)%Z) tp points;
    let t5 := PI / 2 - atan (x0 / y0) in
    let t6 := PI / 2 in
    tt ← np.linspace_open t5 t6 (nf - 1);
    tp ← get_transition_points E 0 0 ra_cutter ratio tt;
    points ← np.slice_assign put_xy (n1 + n2 + 1) (Some (n1 + n2 + nf)%Z)
               tp points;
    points ← np.setitem put_x (n1 + n2 + nf) 0 points;
    points ← np.setitem put_y (n1 + n2 + nf) (0.5 * df11) points;
    p ← np.getitem points (n1 + 1);
    t2 ← solve_tip_radius (sqrt (col_x p ^ 2 + col_y p ^ 2));
    t1 ← solve_tip_radius (0.5 * d_a self);
    tt ← np.linspace_open t1 t2 n1;
    ip ← get_involute_points tt;
    points ← np.slice_assign put_xy 0 (Some n1) ip points;
    pa ← np.getitem points (n1 - 1);
    pb ← np.getitem points (n1 + 1);
    points ← np.setitem put_all n1 (midpoint pa pb) points;
    points ← mirror_reversed (n1 + n2 + nf) points;
    Ok (points, self).

End Methods.

(** *** Assembling the wheel from the single-tooth mesh *)

Section Stitch.
Local Open Scope Z_scope.

(** Lines 1001-1086 and, with the 18-row key point array, 1236-1319: the
    two topology branches run the same statements.  [K] is
    [len(key_points)], [S] is [n1 + n2 + n3 - 3] and [single_node_num] the
    number of nodes a copy adds. *)

(** Lines 1018-1028 (1252-1262) *)
Definition relink_left (K S single_node_num : Z) (tm : list Z)
  : result (list Z) :=
  tm ← copy_item 0 4 tm tm;
  tm ← copy_item 1 5 tm tm;
  tm ← copy_item 2 6 tm tm;
  tm ← copy_item 3 7 tm tm;
  tm ← copy_slice K (K + S) (K + S) (K + 2 * S) tm tm;
  tm ← np.slice_iadd 4 (Some K) (single_node_num + S) tm;
  np.slice_iadd (K + S) None single_node_num tm.

(** Lines 1044-1053 (1277-1286) *)
Definition relink_middle (K S single_node_num : Z) (tm : list Z)
  : result (list Z) :=
  tm ← copy_item 0 4 tm tm;
  tm ← copy_item 1 5 tm tm;
  tm ← copy_item 2 6 tm tm;
  tm ← copy_item 3 7 tm tm;
  tm ← copy_slice K (K + S) (K + S) (K + 2 * S) tm tm;
  tm ← np.slice_iadd 4 (Some K) single_node_num tm;
  np.slice_iadd (K + S) None single_node_num tm.

(** Lines 1064-1080 (1297-1313); [T] is [n1 + n2 + n3 + 1]. *)
Definition relink_right (K S T single_node_num : Z)
    (origin_trans_matrix tm : list Z) : result (list Z) :=
  tm ← copy_item 0 4 tm tm;
  tm ← copy_item 1 5 tm tm;
  tm ← copy_item 2 6 tm tm;
  tm ← copy_item 3 7 tm tm;
  tm ← copy_item 4 0 origin_trans_matrix tm;
  tm ← copy_item 5 1 origin_trans_matrix tm;
  tm ← copy_item 6 2 origin_trans_matrix tm;
  tm ← copy_item 7 3 origin_trans_matrix tm;
  tm ← copy_slice K (K + S) (K + S) (K + 2 * S) tm tm;
  tm ← copy_slice (K + S) (K + 2 * S) K (K + S) origin_trans_matrix tm;
  tm ← np.slice_iadd 8 (Some K) (single_node_num - 4) tm;
  np.slice_iadd (K + 2 * S) None (single_node_num - T) tm.

Definition stitch (key_points : list vec2) (n1 n2 n3 z : Z)
    (quad_mesh : QuadrangleMesh) : result QuadrangleMesh :=
  let tooth_node := node quad_mesh in
  let tooth_cell := cell quad_mesh in
  let origin_cell := cell quad_mesh in
  rot_phi ← np.linspace_open 0 (2 * PI) z;
  let K := Z.of_nat (length key_points) in
  let S := n1 + n2 + n3 - 3 in
  let single_node_num := Z.of_nat (length tooth_node) - (n1 + n2 + n3 + 1) in
  let temp_node :=
    np.slice 4 (Some K) tooth_node ++ np.slice (K + S) None tooth_node in
  let temp_node_last :=
    np.slice 8 (Some K) tooth_node ++ np.slice (K + 2 * S) None tooth_node in
  let origin_trans_matrix := np.arange (length tooth_node) in
  let trans_matrix := np.arange (length tooth_node) in
  (* left tooth *)
  tm ← relink_left K S single_node_num trans_matrix;
  phi ← np.getitem rot_phi 1;
  st ← append_copy tm (rotate_nodes phi temp_node) origin_cell
         (mkStitch tm tooth_node tooth_cell);
  (* middle teeth *)
  st ← for_each (fun i st =>
         phi ← np.getitem rot_phi i;
         let new_node := rotate_nodes phi temp_node in
         tm ← relink_middle K S single_node_num (s_trans_matrix st);
         append_copy tm new_node origin_cell st)
       (range 2 (z - 1)) st;
  (* right tooth *)
  phi ← np.getitem rot_phi (-1);
  let new_node := rotate_nodes phi temp_node_last in
  tm ← relink_right K S (n1 + n2 + n3 + 1) single_node_num
         origin_trans_matrix (s_trans_matrix st);
  st ← append_copy tm new_node origin_cell st;
  Ok (mkMesh (s_tooth_node st) (s_tooth_cell st)).

End Stitch.

(** *** generate_mesh *)

Section Tables.
Local Open Scope Z_scope.

(** The sub-region edges and the half-edge table of the branch
    [rc >= t[2]], lines 913-931 and 962-994 *)
Definition thick_edge : list (Z * Z) :=
  [(0, 1); (1, 2); (2, 3); (4, 5); (5, 6); (6, 7); (8, 9); (9, 12); (10, 11);
   (11, 12); (8, 0); (9, 1); (12, 2); (13, 3); (4, 10); (5, 11); (6, 12);
   (7, 13); (12, 13)].

Definition thick_half_edge : result (list (list Z)) :=
  let edge := thick_edge in
  let half_edge := np.zeros_int (Z.of_nat (length edge) * 2) 5 in
  half_edge ← np.index_assign (np.stride2 0 (length half_edge)) 0
                (Values (snd <$> edge)) half_edge;
  half_edge ← np.index_assign (np.stride2 1 (length half_edge)) 0
                (Values (fst <$> edge)) half_edge;
  half_edge ← np.index_assign (np.stride2 0 (length half_edge)) 4
                (Values ((fun i => 2 * i + 1) <$> np.arange (length edge)))
                half_edge;
  half_edge ← np.index_assign (np.stride2 1 (length half_edge)) 4
                (Values ((fun i => 2 * i) <$> np.arange (length edge)))
                half_edge;
  half_edge ← np.index_assign ((fun i => i * 2) <$> [0; 1; 2]) 1
                (Values [0; 1; 2]) half_edge;
  half_edge ← np.index_assign ((fun i => i * 2 + 1) <$> [0; 1; 2]) 1
                (Scalar (-1)) half_edge;
  half_edge ← np.index_assign ((fun i => i * 2) <$> [3; 4; 5]) 1
                (Scalar (-1)) half_edge;
  half_edge ← np.index_assign ((fun i => i * 2 + 1) <$> [3; 4; 5]) 1
                (Values [3; 4; 5]) half_edge;
  half_edge ← np.index_assign ((fun i => i * 2) <$> [6; 7]) 1
                (Scalar (-1)) half_edge;
  half_edge ← np.index_assign ((fun i => i * 2 + 1) <$> [6; 7]) 1
                (Values [0; 1]) half_edge;
  half_edge ← np.index_assign ((fun i => i * 2) <$> [8; 9]) 1
                (Values [3; 4]) half_edge;
  half_edge ← np.index_assign ((fun i => i * 2 + 1) <$> [8; 9]) 1
                (Scalar (-1)) half_edge;
  half_edge ← np.index_assign ((fun i => i * 2) <$> [10; 14]) 1
                (Values [0; 3]) half_edge;
  half_edge ← np.index_assign ((fun i => i * 2 + 1) <$> [10; 14]) 1
                (Scalar (-1)) half_edge;
  half_edge ← np.index_assign ((fun i => i * 2) <$> [13; 17]) 1
                (Scalar (-1)) half_edge;
  half_edge ← np.index_assign ((fun i => i * 2 + 1) <$> [13; 17]) 1
                (Values [2; 5]) half_edge;
  half_edge ← np.index_assign ((fun i => i * 2) <$> [11; 12; 15; 16]) 1
                (Values [1; 2; 4; 5]) half_edge;
  half_edge ← np.index_assign ((fun i => i * 2 + 1) <$> [11; 12; 15; 16]) 1
                (Values [0; 1; 3; 4]) half_edge;
  half_edge ← np.index_assign [18 * 2] 1 (Scalar 5) half_edge;
  half_edge ← np.index_assign [18 * 2 + 1] 1 (Scalar 2) half_edge;
  half_edge ← np.index_assign (np.stride2 0 (length half_edge)) 2
                (Values [23; 25; 27; 8; 10; 34; 14; 19; 31; 33; 0; 2; 4; 5;
                   16; 18; 36; 26; 35]) half_edge;
  half_edge ← np.index_assign (np.stride2 1 (length half_edge)) 2
                (Values [21; 1; 3; 28; 30; 32; 20; 22; 29; 17; 12; 13; 15;
                   37; 6; 7; 9; 11; 24]) half_edge;
  half_edge ← np.index_assign (np.stride2 0 (length half_edge)) 3
                (Values [20; 22; 24; 29; 6; 8; 21; 12; 28; 30; 13; 15; 37;
                   34; 7; 9; 11; 10; 32]) half_edge;
  half_edge ← np.index_assign (np.stride2 1 (length half_edge)) 3
                (Values [3; 5; 26; 31; 33; 35; 23; 25; 19; 14; 1; 0; 2; 4;
                   17; 16; 18; 36; 27]) half_edge;
  Ok half_edge.

(** The sub-region edges and the half-edge table of the thin-fillet
    branch, lines 1134-1158 and 1194-1230 *)
Definition thin_edge : list (Z * Z) :=
  [(0, 1); (1, 2); (2, 3); (4, 5); (5, 6); (6, 7); (8, 9); (9, 14); (10, 11);
   (11, 16); (8, 0); (9, 1); (14, 2); (15, 3); (4, 10); (5, 11); (6, 16);
   (7, 17); (14, 15); (12, 13); (16, 17); (12, 14); (16, 12); (13, 15);
   (17, 13)].

Definition thin_half_edge : result (list (list Z)) :=
  let edge := thin_edge in
  let half_edge := np.zeros_int (Z.of_nat (length edge) * 2) 5 in
  half_edge ← np.index_assign (np.stride2 0 (length half_edge)) 0
                (Values (snd <$> edge)) half_edge;
  half_edge ← np.index_assign (np.stride2 1 (length half_edge)) 0
                (Values (fst <$> edge)) half_edge;
  half_edge ← np.index_assign (np.stride2 0 (length half_edge)) 4
                (Values ((fun i => 2 * i + 1) <$> np.arange (length edge)))
                half_edge;
  half_edge ← np.index_assign (np.stride2 1 (length half_edge)) 4
                (Values ((fun i => 2 * i) <$> np.arange (length edge)))
                half_edge;
  half_edge ← np.index_assign ((fun i => i * 2) <$> [0; 1; 2]) 1
                (Values [0; 1; 2]) half_edge;
  half_edge ← np.index_assign ((fun i => i * 2 + 1) <$> [0; 1; 2]) 1
                (Scalar (-1)) half_edge;
  half_edge ← np.index_assign ((fun i => i * 2) <$> [3; 4; 5]) 1
                (Scalar (-1)) half_edge;
  half_edge ← np.index_assign ((fun i => i * 2 + 1) <$> [3; 4; 5]) 1
                (Values [3; 4; 5]) half_edge;
  half_edge ← np.index_assign ((fun i => i * 2) <$> [6; 7]) 1
                (Scalar (-1)) half_edge;
  half_edge ← np.index_assign ((fun i => i * 2 + 1) <$> [6; 7]) 1
                (Values [0; 1]) half_edge;
  half_edge ← np.index_assign ((fun i => i * 2) <$> [8; 9]) 1
                (Values [3; 4]) half_edge;
  half_edge ← np.index_assign ((fun i => i * 2 + 1) <$> [8; 9]) 1
                (Scalar (-1)) half_edge;
  half_edge ← np.index_assign ((fun i => i * 2) <$> [10; 14]) 1
                (Values [0; 3]) half_edge;
  half_edge ← np.index_assign ((fun i => i * 2 + 1) <$> [10; 14]) 1
                (Scalar (-1)) half_edge;
  half_edge ← np.index_assign ((fun i => i * 2) <$> [13; 17]) 1
                (Scalar (-1)) half_edge;
  half_edge ← np.index_assign ((fun i => i * 2 + 1) <$> [13; 17]) 1
                (Values [2; 5]) half_edge;
  half_edge ← np.index_assign ((fun i => i * 2) <$> [11; 12; 15; 16]) 1
                (Values [1; 2; 4; 5]) half_edge;
  half_edge ← np.index_assign ((fun i => i * 2 + 1) <$> [11; 12; 15; 16]) 1
                (Values [0; 1; 3; 4]) half_edge;
  half_edge ← np.index_assign ((fun i => i * 2) <$> [18; 19; 20]) 1
                (Values [6; 7; 5]) half_edge;
  half_edge ← np.index_assign ((fun i => i * 2 + 1) <$> [18; 19; 20]) 1
                (Values [2; 6; 7]) half_edge;
  half_edge ← np.index_assign ((fun i => i * 2) <$> [21; 22]) 1
                (Values [6; 7]) half_edge;
  half_edge ← np.index_assign ((fun i => i * 2 + 1) <$> [21; 22]) 1
                (Scalar (-1)) half_edge;
  half_edge ← np.index_assign ((fun i => i * 2) <$> [23; 24]) 1
                (Scalar (-1)) half_edge;
  half_edge ← np.index_assign ((fun i => i * 2 + 1) <$> [23; 24]) 1
                (Values [6; 7]) half_edge;
  half_edge ← np.index_assign (np.stride2 0 (length half_edge)) 2
                (Values [23; 25; 27; 8; 10; 34; 14; 43; 31; 33; 0; 2; 4; 5;
                   16; 18; 40; 48; 47; 49; 35; 36; 38; 26; 46]) half_edge;
  half_edge ← np.index_assign (np.stride2 1 (length half_edge)) 2
                (Values [21; 1; 3; 28; 30; 32; 20; 22; 29; 17; 12; 13; 15;
                   37; 6; 7; 9; 11; 24; 42; 44; 45; 19; 39; 41]) half_edge;
  half_edge ← np.index_assign (np.stride2 0 (length half_edge)) 3
                (Values [20; 22; 24; 29; 6; 8; 21; 12; 28; 30; 13; 15; 37;
                   46; 7; 9; 11; 10; 42; 44; 32; 39; 41; 48; 34]) half_edge;
  half_edge ← np.index_assign (np.stride2 1 (length half_edge)) 3
                (Values [3; 5; 26; 31; 33; 35; 23; 25; 19; 45; 1; 0; 2; 4;
                   17; 16; 18; 40; 27; 47; 49; 14; 43; 36; 38]) half_edge;
  Ok half_edge.

End Tables.

Section GenerateMesh.
Variable slv : solver.
Variable fuel : nat.
Variable gen : mesh_generator.
Variable G : globals.

(** [np.linspace(key_points[edge[i, 0]], key_points[edge[i, 1]], num)] *)
Definition edge_line (key_points : list vec2) (edge : list (Z * Z))
    (i : Z) (num : Z) : result (list vec2) :=
  e ← np.getitem edge i;
  a ← np.getitem key_points e.1;
  b ← np.getitem key_points e.2;
  np.linspace2 a b num.

(** The polar angle [arctan2(kp[:, 1], kp[:, 0])] of a one-row block.  The
    blocks are slices of [points]; [points[0:1]] and [points[-1:]] always
    hold one row, and for the others a block without its row makes the
    key point built from the angle an array of another shape, which
    [np.concatenate] refuses. *)
Definition block_angle (kp : list vec2) : result R :=
  match kp with
  | [p] => Ok (np.arctan2 p.2 p.1)
  | _ => Raise ValueError
  end.

(** Lines 877-898 and 1092-1113, the same statements in the two branches:
    the angles [phi00], [phi01], the rim radius and the key points
    [kp0] to [kp7].  [outer_diam] is not bound in the method and is not
    read from [self]: it is looked up among the module globals. *)
Definition rim_key_points (self : t)
  : result (R * R * R * list vec2) :=
  let z := Gear.z (base self) in
  let ra := r_a self in
  (* [2 * pi / z] divides two Python numbers *)
  if decide (z = 0%Z) then Raise ZeroDivisionError
  else
  let phi00 := PI / 2 - 2 * PI / IZR z / 2 in
  let phi01 := PI / 2 + 2 * PI / IZR z / 2 in
  v ← load_global G "outer_diam";
  outer_diam ← num_value v;
  let t1 := (r_f self - ra) / (outer_diam / 2 - ra) * 1.236 in
  let t2 := 0.618 * t1 in
  let kp0 := (ra * cos phi00, ra * sin phi00) in
  let kp3 := (outer_diam / 2 * cos phi00, outer_diam / 2 * sin phi00) in
  let kp1 := ((1 - t2) * kp0.1 + t2 * kp3.1, (1 - t2) * kp0.2 + t2 * kp3.2) in
  let kp2 := ((1 - t1) * kp0.1 + t1 * kp3.1, (1 - t1) * kp0.2 + t1 * kp3.2) in
  let kp4 := (- kp0.1, kp0.2) in
  let kp5 := (- kp1.1, kp1.2) in
  let kp6 := (- kp2.1, kp2.2) in
  let kp7 := (- kp3.1, kp3.2) in
  Ok (phi00, phi01, outer_diam, [kp0; kp1; kp2; kp3; kp4; kp5; kp6; kp7]).

(** [points[i:i+1, 0:2]] *)
Definition row_block (points : list vec3) (i : Z) : list vec2 :=
  drop_last_col <$> np.slice i (Some (i + 1)%Z) points.

(** Lines 875-1088, after the call of [get_profile_points] *)
Definition mesh_thick (self : t) (points : list vec3)
  : result QuadrangleMesh :=
  let g := base self in
  let n1 := Gear.n1 g in
  let n2 := Gear.n2 g in
  let n3 := Gear.n3 g in
  let na := Gear.na g in
  let ra := r_a self in
  '(phi00, phi01, outer_diam, rim) ← rim_key_points self;
  let kp10 := row_block points 0 in
  let kp11 := row_block points n1 in
  let kp8 := drop_last_col <$> np.slice (-1) None points in
  let kp9 := row_block points (n1 + 2 * n2) in
  let kp12 := row_block points (n1 + n2) in
  let kp13 := [(0, outer_diam / 2)] in
  let key_points := rim ++ kp8 ++ kp9 ++ kp10 ++ kp11 ++ kp12 ++ kp13 in
  let edge := thick_edge in
  phi20 ← block_angle kp8;
  phi21 ← block_angle kp10;
  delta00 ← np.linspace phi20 phi00 (na + 1);
  delta01 ← np.linspace phi01 phi21 (na + 1);
  delta10 ← np.linspace (PI / 2) phi00 (na + 1);
  delta11 ← np.linspace phi01 (PI / 2) (na + 1);
  l0 ← edge_line key_points edge 0 (n1 + 1);
  l1 ← edge_line key_points edge 1 (n2 + 1);
  l2 ← edge_line key_points edge 2 (n3 + 1);
  l3 ← edge_line key_points edge 3 (n1 + 1);
  l4 ← edge_line key_points edge 4 (n2 + 1);
  l5 ← edge_line key_points edge 5 (n3 + 1);
  let l6 := reverse (drop_last_col <$> np.slice (n1 + 2 * n2) None points) in
  let l7 :=
    reverse (drop_last_col
               <$> np.slice (n1 + n2) (Some (n1 + 2 * n2 + 1)%Z) points) in
  let l8 := drop_last_col <$> np.slice 0 (Some (n1 + 1)%Z) points in
  let l9 := drop_last_col <$> np.slice n1 (Some (n1 + n2 + 1)%Z) points in
  let l10 := arc ra delta00 in
  l11 ← edge_line key_points edge 11 (na + 1);
  l12 ← edge_line key_points edge 12 (na + 1);
  let l13 := arc (outer_diam / 2) delta10 in
  let l14 := arc ra delta01 in
  l15 ← edge_line key_points edge 15 (na + 1);
  l16 ← edge_line key_points edge 16 (na + 1);
  let l17 := arc (outer_diam / 2) delta11 in
  l18 ← edge_line key_points edge 18 (n3 + 1);
  let line :=
    [l0; l1; l2; l3; l4; l5; l6; l7; l8; l9; l10; l11; l12; l13; l14; l15;
     l16; l17; l18] in
  half_edge ← thick_half_edge;
  quad_mesh ← gen half_edge key_points line;
  stitch key_points n1 n2 n3 (Gear.z g) quad_mesh.

(** Lines 1090-1319, after the call of [get_profile_points] *)
Definition mesh_thin (self : t) (points : list vec3)
  : result QuadrangleMesh :=
  let g := base self in
  let n1 := Gear.n1 g in
  let n2 := Gear.n2 g in
  let n3 := Gear.n3 g in
  let na := Gear.na g in
  let nf := Gear.nf g in
  let ra := r_a self in
  '(phi00, phi01, outer_diam, rim) ← rim_key_points self;
  let kp10 := row_block points 0 in
  let kp11 := row_block points n1 in
  let kp16 := row_block points (n1 + n2) in
  let kp12 := row_block points (n1 + n2 + nf) in
  let kp8 := drop_last_col <$> np.slice (-1) None points in
  let kp9 := row_block points (n1 + 2 * n2 + 2 * nf) in
  let kp14 := row_block points (n1 + n2 + 2 * nf) in
  let kp13 := [(0, outer_diam / 2)] in
  phi10 ← block_angle kp14;
  phi11 ← block_angle kp16;
  let kp15 := [(outer_diam / 2 * cos phi10, outer_diam / 2 * sin phi10)] in
  let kp17 := [(outer_diam / 2 * cos phi11, outer_diam / 2 * sin phi11)] in
  let key_points :=
    rim ++ kp8 ++ kp9 ++ kp10 ++ kp11 ++ kp12 ++ kp13 ++ kp14 ++ kp15
        ++ kp16 ++ kp17 in
  let edge := thin_edge in
  phi20 ← block_angle kp8;
  phi21 ← block_angle kp10;
  delta00 ← np.linspace phi20 phi00 (na + 1);
  delta01 ← np.linspace phi01 phi21 (na + 1);
  delta10 ← np.linspace phi10 phi00 (na + 1);
  delta11 ← np.linspace phi01 phi11 (na + 1);
  delta20 ← np.linspace (PI / 2) phi10 (nf + 1);
  delta21 ← np.linspace phi11 (PI / 2) (nf + 1);
  l0 ← edge_line key_points edge 0 (n1 + 1);
  l1 ← edge_line key_points edge 1 (n2 + 1);
  l2 ← edge_line key_points edge 2 (n3 + 1);
  l3 ← edge_line key_points edge 3 (n1 + 1);
  l4 ← edge_line key_points edge 4 (n2 + 1);
  l5 ← edge_line key_points edge 5 (n3 + 1);
  let l6 :=
    reverse (drop_last_col
               <$> np.slice (n1 + 2 * n2 + 2 * nf) None points) in
  let l7 :=
    reverse (drop_last_col
               <$> np.slice (n1 + n2 + 2 * nf)
                     (Some (n1 + 2 * n2 + 2 * nf + 1)%Z) points) in
  let l8 := drop_last_col <$> np.slice 0 (Some (n1 + 1)%Z) points in
  let l9 := drop_last_col <$> np.slice n1 (Some (n1 + n2 + 1)%Z) points in
  let l10 := arc ra delta00 in
  l11 ← edge_line key_points edge 11 (na + 1);
  l12 ← edge_line key_points edge 12 (na + 1);
  let l13 := arc (outer_diam / 2) delta10 in
  let l14 := arc ra delta01 in
  l15 ← edge_line key_points edge 15 (na + 1);
  l16 ← edge_line key_points edge 16 (na + 1);
  let l17 := arc (outer_diam / 2) delta11 in
  l18 ← edge_line key_points edge 18 (n3 + 1);
  l19 ← edge_line key_points edge 19 (n3 + 1);
  l20 ← edge_line key_points edge 20 (n3 + 1);
  let l21 :=
    drop_last_col
      <$> np.slice (n1 + n2 + nf) (Some (n1 + n2 + 2 * nf + 1)%Z) points in
  let l22 :=
    drop_last_col <$> np.slice (n1 + n2) (Some (n1 + n2 + nf + 1)%Z) points in
  let l23 := arc (outer_diam / 2) delta20 in
  let l24 := arc (outer_diam / 2) delta21 in
  let line :=
    [l0; l1; l2; l3; l4; l5; l6; l7; l8; l9; l10; l11; l12; l13; l14; l15;
     l16; l17; l18; l19; l20; l21; l22; l23; l24] in
  half_edge ← thin_half_edge;
  quad_mesh ← gen half_edge key_points line;
  stitch key_points n1 n2 n3 (Gear.z g) quad_mesh.

(** [generate_mesh], lines 863-1322; returns the mesh and the instance
    with [self.mesh] (and possibly [self.t]) assigned. *)
Definition generate_mesh (self : t) : result (QuadrangleMesh * t) :=
  let rc := rc self in
  let t := t_ self in
  t_2 ← np.getitem t 2;
  if Rge_dec rc t_2 then
    '(points, self) ← get_profile_points slv fuel self;
    t_mesh ← mesh_thick self points;
    Ok (t_mesh, set_mesh self t_mesh)
  else
    '(points, self) ← get_profile_points slv fuel self;
    t_mesh ← mesh_thin self points;
    Ok (t_mesh, set_mesh self t_mesh).

End GenerateMesh.

End InternalGear.

(** ** Gear.show_mesh, lines 81-90

    The method raises [AssertionError] while no mesh has been generated;
    otherwise what it does is a sequence of calls to matplotlib, recorded
    here in the order of the statements. *)

Inductive plot_call : Type :=
  | subplots                       (* [plt.subplots(figsize=(38, 20))] *)
  | add_plot (m : QuadrangleMesh)  (* [self.mesh.add_plot(ax, linewidth=0.1)] *)
  | savefig (path : string)        (* [plt.savefig(save_path, dpi=600, ...)] *)
  | show.                          (* [plt.show()] *)

Inductive shown : Type :=
  | AssertionError (msg : string)
  | Plotted (calls : list plot_call).

Definition show_mesh (self : Gear.t) (save_path : option string) : shown :=
  match Gear.mesh self with
  | None => AssertionError "The mesh is not yet created."
  | Some m =>
      Plotted ([subplots; add_plot m]
               ++ match save_path with
                  | Some path => [savefig path]
                  | None => []
                  end
               ++ [show])
  end.

(** ** Vocabulary of the properties *)

(** [q] is the mirror image of [p] about the tooth centre line (the y
    axis), as far as the two plane coordinates go. *)
Definition mirror_xy (p q : vec3) : Prop :=
  col_x q = - col_x p /\ col_y q = col_y p.

(** The parameter of the [i]-th sample of the external transition curve:
    entry [i] of [np.linspace(1.5 * pi, 2 * pi - alpha_t, n2 + 1)]. *)
Definition transition_parameter (self : ExternalGear.t) (i : nat) : R :=
  let alpha_t := Gear.alpha_t (ExternalGear.base self) in
  let n2 := Gear.n2 (ExternalGear.base self) in
  1.5 * PI
  + IZR (Z.of_nat i) * ((2 * PI - alpha_t - 1.5 * PI) / IZR (n2 + 1 - 1)).

(** An internal profile with [h] points per flank: [2 * h + 1] rows, the
    centre row on the axis and row [2 * h - i] the mirror image of row
    [i]. *)
Definition symmetric_profile (h : nat) (pts : list vec3) : Prop :=
  length pts = (2 * h + 1)%nat
  /\ col_x (pts !!! h) = 0
  /\ forall i, (i < h)%nat -> mirror_xy (pts !!! i) (pts !!! (2 * h - i)%nat).

(** What [get_profile_points] of an internal gear assigns to [self.t] in
    the thin-fillet branch: the solution of the 4-unknown system. *)
Definition fillet_solution (slv : solver) (self : InternalGear.t) : list R :=
  fsolve slv
    (InternalGear.fillet_system (InternalGear.rb_cutter self)
       (InternalGear.ra_cutter self) (InternalGear.etab self)
       (InternalGear.rc self))
    [1; 0.75 * PI; 0; InternalGear.ra_cutter self].

(** Entry [j] of an index array. *)
Definition entry (l : list Z) (j : Z) : Z := l !!! Z.to_nat j.

(** Every node index of the cell is an index into an array of [n]
    nodes. *)
Definition cell_valid (n : nat) (c : quad) : Prop :=
  Forall (fun v => (0 <= v < Z.of_nat n)%Z) (quad_nodes c).

Definition mesh_valid (m : QuadrangleMesh) : Prop :=
  Forall (cell_valid (length (node m))) (cell m).

(** [tm] renumbers the [N] nodes of one tooth into an array of [M]
    nodes. *)
Definition renumbering (N M : nat) (tm : list Z) : Prop :=
  length tm = N
  /\ forall j, (0 <= j < Z.of_nat N)%Z -> (0 <= entry tm j < Z.of_nat M)%Z.

(** What is known of [trans_matrix] when the loop of the reduced topology
    has appended [k] copies of the tooth to the [N] nodes of the first
    one: entries 0, 1 and those of the interior nodes of the edge shared
    with the previous tooth point into what is already there; the others
    are the nodes of copy [k]. *)
Definition reduced_links (n1 n2 n3 : Z) (N k : nat) (tm : list Z) : Prop :=
  let sn := (Z.of_nat N - (n3 + 1))%Z in
  length tm = N
  /\ forall j, (0 <= j < Z.of_nat N)%Z ->
       (0 <= entry tm j < Z.of_nat N + Z.of_nat k * sn)%Z
       /\ ((2 <= j < 12)%Z ->
           entry tm j = (j + (n3 - 1) + Z.of_nat k * sn)%Z)
       /\ ((12 + (n3 - 1) <= j)%Z ->
           entry tm j = (j + Z.of_nat k * sn)%Z).

(** The same for the normal topology; the shared nodes are key points 12
    and 13 and the interior nodes of the edge that starts at [A]. *)
Definition normal_links (A n3 : Z) (N k : nat) (tm : list Z) : Prop :=
  let sn := (Z.of_nat N - (n3 + 1))%Z in
  length tm = N
  /\ forall j, (0 <= j < Z.of_nat N)%Z ->
       (0 <= entry tm j < Z.of_nat N + Z.of_nat k * sn)%Z
       /\ ((0 <= j < 12)%Z ->
           entry tm j = (j + (n3 + 1) + Z.of_nat k * sn)%Z)
       /\ ((14 <= j < A)%Z ->
           entry tm j = (j + (n3 - 1) + Z.of_nat k * sn)%Z)
       /\ ((A + (n3 - 1) <= j)%Z ->
           entry tm j = (j + Z.of_nat k * sn)%Z).

(** The same for the internal gear; the shared nodes are key points 0 to 3
    and the [E] interior nodes that follow the key points. *)
Definition internal_links (K E : Z) (N k : nat) (tm : list Z) : Prop :=
  let sn := (Z.of_nat N - (E + 4))%Z in
  length tm = N
  /\ forall j, (0 <= j < Z.of_nat N)%Z ->
       (0 <= entry tm j < Z.of_nat N + Z.of_nat k * sn)%Z
       /\ ((4 <= j < K)%Z -> entry tm j = (j + E + Z.of_nat k * sn)%Z)
       /\ ((K + E <= j)%Z -> entry tm j = (j + Z.of_nat k * sn)%Z).

(** The shape the three stitching loops share: the pass over
    [trans_matrix] for the left tooth, the loop over the middle teeth and
    the pass for the right tooth, each followed by the concatenation of
    the rotated nodes and of the renumbered cells. *)
Definition assemble (left middle right : list Z -> result (list Z))
    (temp_node temp_node_last : list vec2) (z : Z) (rot_phi : list R)
    (quad_mesh : QuadrangleMesh) : result QuadrangleMesh :=
  let tooth_node := node quad_mesh in
  let tooth_cell := cell quad_mesh in
  let origin_cell := cell quad_mesh in
  tm ← left (np.arange (length tooth_node));
  phi ← np.getitem rot_phi 1;
  st ← append_copy tm (rotate_nodes phi temp_node) origin_cell
         (mkStitch tm tooth_node tooth_cell);
  st ← for_each (fun i st =>
         phi ← np.getitem rot_phi i;
         let new_node := rotate_nodes phi temp_node in
         tm ← middle (s_trans_matrix st);
         append_copy tm new_node origin_cell st)
       (range 2 (z - 1)) st;
  phi ← np.getitem rot_phi (-1);
  let new_node := rotate_nodes phi temp_node_last in
  tm ← right (s_trans_matrix st);
  st ← append_copy tm new_node origin_cell st;
  Ok (mkMesh (s_tooth_node st) (s_tooth_cell st)).

(** The number of copies of the tooth the loops put together: the left
    tooth, [max(0, z - 3)] middle teeth, the right tooth, and the tooth
    the mesh generator returned. *)
Definition copies (z : Z) : nat := (Z.to_nat (z - 3) + 3)%nat.

(** The number of interior points of the boundary lines: a line sampled
    at [n + 1] points has [n - 1] of them. *)
Definition interior_nodes (line : list (list vec2)) : nat :=
  sum_list ((fun l => (length l - 2)%nat) <$> line).

(** What the stitching code takes for granted in the mesh that
    [QuadrangleMesh.sub_domain_mesh_generator] returns: the cells index
    the node array, and the node array holds the key points, then the
    interior points of the boundary lines, then the nodes inside the
    sub-domains. *)
Definition generator_contract (gen : mesh_generator) : Prop :=
  forall half_edge key_points line m,
    gen half_edge key_points line = Ok m ->
    mesh_valid m
    /\ (length key_points + interior_nodes line <= length (node m))%nat.

(** The iterates of the loop of [InternalGear.ainv]: [temp] and [alpha]
    are always two consecutive terms of this sequence. *)
Fixpoint ainv_seq (x : R) (k : nat) : R :=
  match k with
  | O => 0
  | S k' => atan (x + ainv_seq x k')
  end.

(** The test [rc >= t[2]] of an internal gear holds: the branch without a
    separate root arc. *)
Definition thick_fillet (self : InternalGear.t) : Prop :=
  exists t_2, InternalGear.t_ self !! 2%nat = Some t_2
              /\ InternalGear.rc self >= t_2.

(** The call does not end in a [NameError], whatever the name. *)
Definition no_name_error {A} (m : result A) : Prop :=
  forall name, m <> Raise (NameError name).

(** Column [c] of row [e] of a half-edge table.  The columns are the key
    point the half edge points to, its sub-domain ([-1] outside the
    tooth), the next and the previous half edge around the sub-domain and
    the opposite half edge. *)
Definition half_edge_col (he : list (list Z)) (e : Z) (c : nat) : Z :=
  (he !!! Z.to_nat e) !!! c.

(** A half-edge table over [K] key points is consistent: every row points
    to a key point and to rows of the table; opposite is an involution
    without fixed point; next and previous are inverse of each other; the
    next half edge belongs to the same sub-domain and starts where this
    one ends; and the half edges of a sub-domain form a cycle of four. *)
Definition half_edge_consistent (K : Z) (he : list (list Z)) : bool :=
  let n := Z.of_nat (length he) in
  let inside (e : Z) := ((0 <=? e) && (e <? n))%Z in
  forallb (fun e =>
    let next := half_edge_col he e 2 in
    let prev := half_edge_col he e 3 in
    let opp := half_edge_col he e 4 in
    ((0 <=? half_edge_col he e 0) && (half_edge_col he e 0 <? K))%Z
    && inside next && inside prev && inside opp
    && (half_edge_col he opp 4 =? e)%Z && negb (opp =? e)%Z
    && (half_edge_col he next 3 =? e)%Z
    && (half_edge_col he prev 2 =? e)%Z
    && (half_edge_col he next 1 =? half_edge_col he e 1)%Z
    && (half_edge_col he (half_edge_col he next 4) 0
        =? half_edge_col he e 0)%Z
    && ((half_edge_col he e 1 <? 0)%Z
        || (half_edge_col he
              (half_edge_col he (half_edge_col he next 2) 2) 2 =? e)%Z))
    (seqZ 0 n).

(** The table is built without an exception and is consistent. *)
Definition builds_consistent (K : Z) (table : result (list (list Z)))
  : bool :=
  match table with
  | Ok he => half_edge_consistent K he
  | Raise _ => false
  end.

(** ** Concrete inputs used by the examples *)

(** The gear of the specification's scenario: module 2 mm, 20 teeth,
    pressure angle 20 degrees, straight-cut, no profile shift. *)
Definition std_args : Gear.args :=
  Gear.mkargs 2 (PyInt 20) 20 0 0 1 0.25 0.38 0 5 5 5 3 3.

(** The same gear with module 0. *)
Definition zero_module_args : Gear.args :=
  Gear.mkargs 0 (PyInt 20) 20 0 0 1 0.25 0.38 0 5 5 5 3 3.

(** A tooth count given as the float 20.0. *)
Definition float_teeth_args : Gear.args :=
  Gear.mkargs 2 (PyFloat 20) 20 0 0 1 0.25 0.38 0 5 5 5 3 3.

(** An external gear cut by a sharp-cornered tool ([rcc = 0]) with the
    profile shift [x_n = hac + cc = 1.25], otherwise the standard gear. *)
Definition sharp_tip_args : Gear.args :=
  Gear.mkargs 2 (PyInt 20) 20 0 1.25 1 0.25 0 0 5 5 5 3 3.

(** The instance [ExternalGear(sharp_tip_args, chamfer_dia=0,
    inner_diam=30)], attribute by attribute. *)
Definition sharp_tip_gear : ExternalGear.t :=
  ExternalGear.mk
    (Gear.mk 2 20 (PI / 9) 0 1.25 1 0.25 0 0 5 5 5 3 3 None
       1.25 (PI / 9) 2 40 20 (40 * cos (PI / 9)) (40 * cos (PI / 9) / 2))
    30 0 49 24.5 40 20 49 24.5 2.5 0.

(** The tip radius coefficient of a tool whose tip is a single arc, with
    no straight part left, for the standard proportions ([hac = 1],
    [cc = 0.25], pressure angle 20 degrees):
    [(pi / 4 - (hac + cc) * tan(20 deg)) / tan(35 deg)], about 0.4719. *)
Definition full_fillet_rcc : R :=
  (PI / 4 - 1.25 * tan (PI / 9)) / tan (PI / 4 - PI / 18).

(** The standard gear cut by that tool. *)
Definition full_fillet_args : Gear.args :=
  Gear.mkargs 2 (PyInt 20) 20 0 0 1 0.25 full_fillet_rcc 0 5 5 5 3 3.

(** The instance [ExternalGear(full_fillet_args, chamfer_dia=0,
    inner_diam=30)], attribute by attribute. *)
Definition full_fillet_gear : ExternalGear.t :=
  ExternalGear.mk
    (Gear.mk 2 20 (PI / 9) 0 0 1 0.25 full_fillet_rcc 0 5 5 5 3 3 None
       0 (PI / 9) 2 40 20 (40 * cos (PI / 9)) (40 * cos (PI / 9) / 2))
    30 0 44 22 35 17.5 44 22 2.5 (2 * full_fillet_rcc).

(** Arguments of an internal gear with 60 teeth; the rim diameter is 140,
    the cutter has 20 teeth and no shift. *)
Definition internal_args : Gear.args :=
  Gear.mkargs 2 (PyInt 60) 20 0 0 1 0.25 0.38 0 5 5 5 3 3.

(** The arguments of the internal gear with the tooth count 0, which the
    constructor accepts. *)
Definition zero_teeth_args : Gear.args :=
  Gear.mkargs 2 (PyInt 0) 20 0 0 1 0.25 0.38 0 5 5 5 3 3.

(** The arguments of the internal gear with 2 teeth. *)
Definition two_teeth_args : Gear.args :=
  Gear.mkargs 2 (PyInt 2) 20 0 0 1 0.25 0.38 0 5 5 5 3 3.

(** The same internal gear cut by a sharp-cornered tool ([rcc = 0]). *)
Definition sharp_internal_args : Gear.args :=
  Gear.mkargs 2 (PyInt 60) 20 0 0 1 0.25 0 0 5 5 5 3 3.

(** A mesh generator that meshes nothing inside the sub-domains: it
    returns the key points followed by the interior points of the boundary
    lines, and the one cell spanned by the first four key points. *)
Definition frame_generator : mesh_generator :=
  fun _ key_points line =>
    Ok (mkMesh
          (key_points
           ++ concat ((fun l => np.slice 1 (Some (-1)%Z) l) <$> line))
          (if decide (4 <= length key_points)%nat then [Quad 0 1 2 3]
           else [])).




(** Module globals as the [__main__] block of the module leaves them, as
    far as the methods read them: the names [z] and [outer_diam]. *)
Definition script_globals (z : Z) (outer_diam : R) : globals :=
  <["z" := PyInt z]> (<["outer_diam" := PyFloat outer_diam]> ∅).

(** A solver that returns its initial guess: what [fsolve] does when the
    guess already solves the system.  It only serves to run the
    definitions on concrete inputs. *)
Definition guess_solver : solver :=
  Solver (fun _ x0 => x0) (fun _ _ => eq_refl).

(** A single-tooth mesh of 20 nodes and two cells, and the rotation
    angles of a wheel of [z] teeth, for running the stitchers. *)
Definition sample_tooth : QuadrangleMesh :=
  mkMesh (replicate 20 (0, 0)) [Quad 0 1 5 4; Quad 16 17 18 19].

Definition sample_angles (z : Z) : list R :=
  (fun i : Z => 0 + IZR i * ((2 * PI - 0) / IZR z)) <$> seqZ 0 z.

(** * Properties *)

(** ** The error monad *)

Lemma bind_Ok {A B} (m : result A) (k : A -> result B) (b : B) :
  m ≫= k = Ok b -> exists a, m = Ok a /\ k a = Ok b.
Proof. destruct m as [a|e]; [eauto | discriminate]. Qed.

Lemma bind_Raise {A B} (m : result A) (k : A -> result B) (e : exn) :
  m = Raise e -> m ≫= k = Raise e.
Proof. intros ->; reflexivity. Qed.

Lemma is_ok_true {A} (m : result A) : is_ok m = true <-> exists a, m = Ok a.
Proof.
  destruct m; simpl; split; eauto; try discriminate.
  intros [a Ha]; discriminate.
Qed.

(** Splits a hypothesis [x ← m; k = Ok r] into its two runs. *)
Tactic Notation "inv_bind" hyp(H) "as" ident(x) ident(Hx) :=
  apply bind_Ok in H; destruct H as (x & Hx & H).

(** ** Construction *)

Lemma normalize_angle_small (a : R) :
  a < 2 * PI -> Gear.normalize_angle a = a.
Proof. intros H; unfold Gear.normalize_angle; destruct (Rlt_dec _ _); tauto. Qed.

Lemma normalize_angle_large (a : R) :
  2 * PI <= a -> Gear.normalize_angle a = a * (PI / 180).
Proof.
  intros H; unfold Gear.normalize_angle, np.radians.
  destruct (Rlt_dec _ _); [lra | reflexivity].
Qed.

Lemma Gear_init_Ok (a : Gear.args) (g : Gear.t) :
  Gear.__init__ a = Ok g ->
  isinstance_int (Gear.a_z a) = true
  /\ Gear.z g = int_value (Gear.a_z a)
  /\ Gear.m_n g = Gear.a_m_n a
  /\ Gear.alpha_n g = Gear.normalize_angle (Gear.a_alpha_n a)
  /\ Gear.beta g = Gear.normalize_angle (Gear.a_beta a)
  /\ Gear.x_n g = Gear.a_x_n a
  /\ Gear.hac g = Gear.a_hac a
  /\ Gear.cc g = Gear.a_cc a
  /\ Gear.x_t g = Gear.x_n g / cos (Gear.beta g)
  /\ Gear.m_t g = Gear.m_n g / cos (Gear.beta g)
  /\ Gear.d g = Gear.m_t g * IZR (Gear.z g)
  /\ Gear.r g = Gear.d g / 2
  /\ Gear.r_b g = Gear.d g * cos (Gear.alpha_t g) / 2
  /\ Gear.alpha_t g = atan (tan (Gear.alpha_n g) / cos (Gear.beta g)).
Proof.
  unfold Gear.__init__.
  destruct (isinstance_int (Gear.a_z a)) eqn:Hz; simpl.
  - destruct (Gear.a_z a); simpl in *; try discriminate;
      intros [= <-]; simpl; repeat split; reflexivity.
  - discriminate.
Qed.

Lemma Gear_init_int (a : Gear.args) :
  isinstance_int (Gear.a_z a) = true -> exists g, Gear.__init__ a = Ok g.
Proof.
  intros Hz. unfold Gear.__init__.
  destruct (Gear.a_z a); simpl in *; try discriminate; eauto.
Qed.

Lemma Gear_init_not_int (a : Gear.args) :
  isinstance_int (Gear.a_z a) = false -> Gear.__init__ a = Raise TypeError.
Proof. intros Hz. unfold Gear.__init__. rewrite Hz. reflexivity. Qed.

(** C10. Every constructor stores each angle argument unchanged when it is
    below [2 * pi] and converted from degrees to radians (multiplied by
    [pi / 180]) when it is [2 * pi] or more: [Gear.__init__], and through
    it the constructors of the two subclasses. *)
Theorem C10_angles_normalised (a : Gear.args) (g : Gear.t) :
  Gear.__init__ a = Ok g ->
  (Gear.a_alpha_n a < 2 * PI -> Gear.alpha_n g = Gear.a_alpha_n a)
  /\ (2 * PI <= Gear.a_alpha_n a ->
      Gear.alpha_n g = Gear.a_alpha_n a * (PI / 180))
  /\ (Gear.a_beta a < 2 * PI -> Gear.beta g = Gear.a_beta a)
  /\ (2 * PI <= Gear.a_beta a -> Gear.beta g = Gear.a_beta a * (PI / 180))
  /\ (forall c i eg, ExternalGear.__init__ a c i = Ok eg ->
        ExternalGear.base eg = g)
  /\ (forall slv od zc xc ig, InternalGear.__init__ slv a od zc xc = Ok ig ->
        InternalGear.base ig = g).
Proof.
  intros Hg. pose proof (Gear_init_Ok _ _ Hg) as (_ & _ & _ & Ha & Hb & _).
  rewrite Ha, Hb.
  repeat split.
  - apply normalize_angle_small.
  - apply normalize_angle_large.
  - apply normalize_angle_small.
  - apply normalize_angle_large.
  - intros c i eg. unfold ExternalGear.__init__. rewrite Hg. simpl.
    intros [= <-]. reflexivity.
  - intros slv od zc xc ig. unfold InternalGear.__init__. rewrite Hg. simpl.
    destruct (decide (zc = 0%Z)); [discriminate|]. intros [= <-]. reflexivity.
Qed.

Lemma two_PI_le_20 : 2 * PI <= 20.
Proof. pose proof PI_4. lra. Qed.

Lemma zero_lt_two_PI : 0 < 2 * PI.
Proof. pose proof PI_RGT_0. lra. Qed.

(** The standard gear is given a pressure angle of 20 (degrees) and a helix
    angle of 0 (radians): the first is converted, the second kept. *)
Lemma C10_witness :
  exists g, Gear.__init__ std_args = Ok g
            /\ Gear.alpha_n g = 20 * (PI / 180) /\ Gear.beta g = 0.
Proof.
  eexists. split; [reflexivity|].
  pose proof (C10_angles_normalised std_args _ eq_refl)
    as (_ & Ha & Hb & _).
  split.
  - apply Ha. apply two_PI_le_20.
  - apply Hb. apply zero_lt_two_PI.
Defined.

Lemma ExternalGear_init_Ok (a : Gear.args) (c i : R) (eg : ExternalGear.t) :
  ExternalGear.__init__ a c i = Ok eg ->
  let g := ExternalGear.base eg in
  Gear.__init__ a = Ok g
  /\ ExternalGear.r_a eg
     = (Gear.d g + 2 * (Gear.m_n g * (Gear.hac g + Gear.x_t g))) / 2
  /\ ExternalGear.r_f eg
     = (Gear.d g - 2 * (Gear.m_n g * (Gear.hac g + Gear.cc g - Gear.x_t g)))
       / 2.
Proof.
  unfold ExternalGear.__init__. intros H. inv_bind H as g Hg.
  injection H as <-. simpl. auto.
Qed.

Lemma InternalGear_init_Ok (slv : solver) (a : Gear.args) (od : R) (zc : Z)
    (xc : R) (ig : InternalGear.t) :
  InternalGear.__init__ slv a od zc xc = Ok ig ->
  let g := InternalGear.base ig in
  Gear.__init__ a = Ok g
  /\ zc <> 0%Z
  /\ InternalGear.r_a ig
     = (Gear.d g - 2 * (Gear.m_n g * (Gear.hac g - Gear.x_n g))) / 2
  /\ InternalGear.r_f ig
     = (Gear.d g + 2 * (Gear.m_n g * (Gear.hac g + Gear.cc g + Gear.x_n g)))
       / 2
  /\ length (InternalGear.t_ ig) = 3%nat.
Proof.
  unfold InternalGear.__init__. intros H. inv_bind H as g Hg.
  destruct (decide (zc = 0%Z)); [discriminate|].
  injection H as <-. simpl. rewrite fsolve_shape. auto.
Qed.

(** C8, as the code has it.  The constructors check one thing: a tooth
    count that is not a Python [int] raises [TypeError] at construction.
    With an [int] tooth count [Gear.__init__] and [ExternalGear.__init__]
    return an instance whatever the module and the angles are, and
    [InternalGear.__init__] fails only on a zero cutter tooth count. *)
Theorem C8_constructor_checks_tooth_count_only (a : Gear.args) :
  (isinstance_int (Gear.a_z a) = false ->
     Gear.__init__ a = Raise TypeError
     /\ (forall c i, ExternalGear.__init__ a c i = Raise TypeError)
     /\ (forall slv od zc xc,
           InternalGear.__init__ slv a od zc xc = Raise TypeError))
  /\ (isinstance_int (Gear.a_z a) = true ->
     is_ok (Gear.__init__ a) = true
     /\ (forall c i, is_ok (ExternalGear.__init__ a c i) = true)
     /\ (forall slv od zc xc,
           is_ok (InternalGear.__init__ slv a od zc xc) = true <-> zc <> 0%Z)).
Proof.
  split; intros Hz.
  - pose proof (Gear_init_not_int a Hz) as Hg.
    repeat split; [exact Hg | |]; intros;
      [unfold ExternalGear.__init__ | unfold InternalGear.__init__];
      rewrite Hg; reflexivity.
  - destruct (Gear_init_int a Hz) as [g Hg].
    repeat split.
    + rewrite Hg; reflexivity.
    + intros c i. unfold ExternalGear.__init__. rewrite Hg. reflexivity.
    + unfold InternalGear.__init__. rewrite Hg. simpl.
      destruct (decide (zc = 0%Z)); [discriminate | auto].
    + intros Hzc. unfold InternalGear.__init__. rewrite Hg. simpl.
      destruct (decide (zc = 0%Z)); [contradiction | reflexivity].
Qed.

(** C8 fails as stated: an external gear with module 0 (a non-positive
    module, and base and pitch radius 0) is constructed without any error,
    and so is the base class instance. *)
Lemma C8_counterexample :
  Gear.a_m_n zero_module_args <= 0
  /\ exists eg, ExternalGear.__init__ zero_module_args 0 30 = Ok eg
                /\ Gear.m_n (ExternalGear.base eg) = 0
                /\ Gear.r_b (ExternalGear.base eg) = 0
                /\ Gear.r (ExternalGear.base eg) = 0.
Proof.
  split; [simpl; lra|].
  eexists. split; [reflexivity|]. simpl.
  repeat split; unfold Rdiv; ring.
Qed.

(** ** Radii *)

Lemma cos_lower (a : R) : -2 <= a -> a <= 2 -> 1 - a ^ 2 / 2 <= cos a.
Proof.
  intros H1 H2. destruct (pre_cos_bound a 0 H1 H2) as [H _].
  unfold cos_approx, cos_term in H. simpl in H. lra.
Qed.

Lemma PI_gt_3 : 3 < PI.
Proof. pose proof PI2_3_2. lra. Qed.

Lemma cos_PI_9_lower : 0.9 < cos (PI / 9).
Proof.
  pose proof PI_gt_3. pose proof PI_4.
  apply Rlt_le_trans with (cos (4 / 9)).
  - pose proof (cos_lower (4 / 9) ltac:(lra) ltac:(lra)). lra.
  - apply cos_decr_1; lra.
Qed.

(** C4, as the code has it.  For an external gear with non-negative module
    and tooth count, a helix angle whose cosine is positive, and a
    transverse shift coefficient between [-hac] and [hac + cc]:
    [r_f <= r <= r_a] and [r_b <= r].  For an internal gear with
    non-negative module and a normal shift coefficient between
    [-(hac + cc)] and [hac]: [r_a <= r <= r_f]. *)
Theorem C4_radii_ordering (a : Gear.args) :
  (forall c i eg, ExternalGear.__init__ a c i = Ok eg ->
     let g := ExternalGear.base eg in
     0 <= Gear.m_n g -> (0 <= Gear.z g)%Z -> 0 < cos (Gear.beta g) ->
     - Gear.hac g <= Gear.x_t g <= Gear.hac g + Gear.cc g ->
     ExternalGear.r_f eg <= Gear.r g <= ExternalGear.r_a eg
     /\ Gear.r_b g <= Gear.r g)
  /\ (forall slv od zc xc ig, InternalGear.__init__ slv a od zc xc = Ok ig ->
     let g := InternalGear.base ig in
     0 <= Gear.m_n g ->
     - (Gear.hac g + Gear.cc g) <= Gear.x_n g <= Gear.hac g ->
     InternalGear.r_a ig <= Gear.r g <= InternalGear.r_f ig).
Proof.
  split.
  - intros c i eg Heg g Hm Hz Hc [Hx1 Hx2].
    pose proof (ExternalGear_init_Ok _ _ _ _ Heg) as (Hg & Ha & Hf).
    fold g in Hg, Ha, Hf.
    pose proof (Gear_init_Ok _ _ Hg)
      as (_ & _ & _ & _ & _ & _ & _ & _ & _ & Hmt & Hd & Hr & Hb & _).
    rewrite Ha, Hf, Hb, Hr.
    assert (0 <= Gear.d g) as Hd0.
    { rewrite Hd, Hmt. apply Rmult_le_pos; [|apply IZR_le; exact Hz].
      unfold Rdiv. apply Rmult_le_pos; [exact Hm|].
      left. apply Rinv_0_lt_compat. exact Hc. }
    pose proof (COS_bound (Gear.alpha_t g)) as [_ Hcos].
    repeat split; nra.
  - intros slv od zc xc ig Hig g Hm [Hx1 Hx2].
    pose proof (InternalGear_init_Ok _ _ _ _ _ _ Hig) as (Hg & _ & Ha & Hf & _).
    fold g in Hg, Ha, Hf.
    pose proof (Gear_init_Ok _ _ Hg)
      as (_ & _ & _ & _ & _ & _ & _ & _ & _ & _ & _ & Hr & _).
    rewrite Ha, Hf, Hr. split; nra.
Qed.

Lemma cos_0_pos : 0 < cos 0.
Proof. rewrite cos_0; lra. Qed.

Lemma std_normalize_beta : Gear.normalize_angle 0 = 0.
Proof. apply normalize_angle_small, zero_lt_two_PI. Qed.

Lemma std_normalize_alpha : Gear.normalize_angle 20 = PI / 9.
Proof. rewrite normalize_angle_large by apply two_PI_le_20. field. Qed.

(** The standard external gear and an internal gear with the same
    arguments satisfy the hypotheses. *)
Lemma C4_witness :
  (exists eg, ExternalGear.__init__ std_args 0 30 = Ok eg
     /\ ExternalGear.r_f eg <= Gear.r (ExternalGear.base eg)
        <= ExternalGear.r_a eg
     /\ Gear.r_b (ExternalGear.base eg) <= Gear.r (ExternalGear.base eg))
  /\ (exists ig, InternalGear.__init__ guess_solver std_args 60 10 0 = Ok ig
     /\ InternalGear.r_a ig <= Gear.r (InternalGear.base ig)
        <= InternalGear.r_f ig).
Proof.
  destruct (C4_radii_ordering std_args) as [He Hi].
  split.
  - eexists. split; [reflexivity|].
    apply (He 0 30 _ eq_refl); simpl.
    + lra.
    + lia.
    + rewrite std_normalize_beta. apply cos_0_pos.
    + rewrite std_normalize_beta, cos_0. lra.
  - eexists. split; [reflexivity|].
    apply (Hi guess_solver 60 10%Z 0 _ eq_refl); simpl; lra.
Defined.

(** C4 fails as stated: for the standard 20-tooth gear the base radius
    ([20 * cos 20deg], above 18) exceeds the root radius (17.5). *)
Lemma C4_counterexample :
  exists eg, ExternalGear.__init__ std_args 0 30 = Ok eg
    /\ ExternalGear.r_f eg = 17.5
    /\ 18 < Gear.r_b (ExternalGear.base eg)
    /\ ~ (Gear.r_b (ExternalGear.base eg) <= ExternalGear.r_f eg).
Proof.
  eexists. split; [reflexivity|]. simpl.
  rewrite std_normalize_beta, std_normalize_alpha, cos_0.
  replace (tan (PI / 9) / 1) with (tan (PI / 9)) by field.
  rewrite atan_tan by (pose proof PI_RGT_0; split; lra).
  pose proof cos_PI_9_lower.
  repeat split; try lra.
Qed.

(** ** Slices *)

Section Slices.
Local Open Scope nat_scope.


Lemma slice_bound_le (len : nat) (i : Z) : np.slice_bound len i <= len.
Proof. unfold np.slice_bound. destruct (Z.ltb_spec i 0); lia. Qed.

Lemma slice_bound_inside (len : nat) (i : Z) :
  (0 <= i <= Z.of_nat len)%Z -> np.slice_bound len i = Z.to_nat i.
Proof. intros H. unfold np.slice_bound. destruct (Z.ltb_spec i 0); lia. Qed.

Lemma slice_stop_le (len : nat) (b : option Z) : np.slice_stop len b <= len.
Proof. destruct b; simpl; [apply slice_bound_le | lia]. Qed.

Lemma lookup_patch {A} (l mid : list A) (s m i : nat) :
  length mid = m -> s + m <= length l ->
  (take s l ++ mid ++ drop (s + m) l) !! i
  = if decide (i < s) then l !! i
    else if decide (i < s + m) then mid !! (i - s)
    else l !! i.
Proof.
  intros Hm Hl.
  assert (length (take s l) = s) as Hts by (rewrite length_take; lia).
  destruct (decide (i < s)).
  - rewrite lookup_app_l by lia. rewrite lookup_take. 
    destruct (decide (i < s)); [done | lia].
  - rewrite lookup_app_r by lia. rewrite Hts.
    destruct (decide (i < s + m)).
    + rewrite lookup_app_l by lia. done.
    + rewrite lookup_app_r by lia. rewrite lookup_drop. f_equal. lia.
Qed.

Lemma length_patch {A} (l mid : list A) (s m : nat) :
  length mid = m -> s + m <= length l ->
  length (take s l ++ mid ++ drop (s + m) l) = length l.
Proof.
  intros Hm Hl. rewrite !length_app, length_take, length_drop. lia.
Qed.

Section SliceAssign.
Context {A B : Type} (put : B -> A -> A).

Lemma slice_assign_exact (a : Z) (b : option Z) (v : list B) (l : list A) :
  let s := np.slice_bound (length l) a in
  let e := np.slice_stop (length l) b in
  length v = e - s ->
  np.slice_assign put a b v l
  = Ok (take s l ++ zip_with put v (take (e - s) (drop s l))
          ++ drop (s + (e - s)) l).
Proof.
  intros s e Hv. unfold np.slice_assign. fold s e.
  destruct (decide (length v = e - s)); [reflexivity | contradiction].
Qed.

Lemma slice_assign_length (a : Z) (b : option Z) (v : list B) (l l' : list A) :
  np.slice_assign put a b v l = Ok l' -> length l' = length l.
Proof.
  unfold np.slice_assign.
  set (s := np.slice_bound (length l) a).
  set (e := np.slice_stop (length l) b).
  pose proof (slice_bound_le (length l) a).
  pose proof (slice_stop_le (length l) b).
  assert (length (take (e - s) (drop s l)) = e - s) as Hm
    by (rewrite length_take, length_drop; lia).
  intros H'.
  destruct (decide (length v = e - s)).
  - injection H' as <-. apply length_patch; [|lia].
    rewrite length_zip_with, Hm. lia.
  - destruct v as [|x [|]]; try discriminate.
    injection H' as <-. apply length_patch; [|lia].
    rewrite length_fmap. exact Hm.
Qed.

Lemma slice_assign_outside (a : Z) (b : option Z) (v : list B)
    (l l' : list A) (i : nat) :
  np.slice_assign put a b v l = Ok l' ->
  i < np.slice_bound (length l) a \/ np.slice_stop (length l) b <= i ->
  l' !! i = l !! i.
Proof.
  unfold np.slice_assign.
  set (s := np.slice_bound (length l) a).
  set (e := np.slice_stop (length l) b).
  pose proof (slice_bound_le (length l) a).
  pose proof (slice_stop_le (length l) b).
  assert (length (take (e - s) (drop s l)) = e - s) as Hm
    by (rewrite length_take, length_drop; lia).
  intros H' Hi.
  assert (forall mid, length mid = e - s ->
            (take s l ++ mid ++ drop (s + (e - s)) l) !! i = l !! i) as Hp.
  { intros mid Hmid. rewrite (lookup_patch _ _ _ (e - s)) by (auto; lia).
    repeat case_decide; auto; lia. }
  destruct (decide (length v = e - s)).
  - injection H' as <-. apply Hp. rewrite length_zip_with, Hm. lia.
  - destruct v as [|x [|]]; try discriminate.
    injection H' as <-. apply Hp. rewrite length_fmap. exact Hm.
Qed.

Lemma slice_assign_inside (a : Z) (b : option Z) (v : list B)
    (l l' : list A) (i : nat) (x : B) (y : A) :
  np.slice_assign put a b v l = Ok l' ->
  length v = np.slice_stop (length l) b - np.slice_bound (length l) a ->
  np.slice_bound (length l) a <= i < np.slice_stop (length l) b ->
  v !! (i - np.slice_bound (length l) a) = Some x ->
  l !! i = Some y ->
  l' !! i = Some (put x y).
Proof.
  intros H' Hv Hi Hx Hy.
  rewrite slice_assign_exact in H' by exact Hv.
  injection H' as <-.
  set (s := np.slice_bound (length l) a) in *.
  set (e := np.slice_stop (length l) b) in *.
  pose proof (slice_stop_le (length l) b). fold e in H.
  rewrite (lookup_patch _ _ _ (e - s)).
  - repeat case_decide; try lia.
    rewrite lookup_zip_with, Hx. simpl.
    rewrite lookup_take. case_decide; [|lia].
    rewrite lookup_drop. replace (s + (i - s)) with i by lia.
    rewrite Hy. reflexivity.
  - rewrite length_zip_with, length_take, length_drop. lia.
  - lia.
Qed.

End SliceAssign.

End Slices.

(** ** Arrays: items, slices and samples *)

Section Arrays.
Local Open Scope nat_scope.

Lemma slice_lookup {A} (a : Z) (b : option Z) (l : list A) (i : nat) :
  np.slice a b l !! i
  = if decide (i < np.slice_stop (length l) b - np.slice_bound (length l) a)
    then l !! (np.slice_bound (length l) a + i) else None.
Proof.
  unfold np.slice. rewrite lookup_take. case_decide; [|done].
  apply lookup_drop.
Qed.

Lemma slice_length {A} (a : Z) (b : option Z) (l : list A) :
  length (np.slice a b l)
  = np.slice_stop (length l) b - np.slice_bound (length l) a.
Proof.
  unfold np.slice. rewrite length_take, length_drop.
  pose proof (slice_stop_le (length l) b). lia.
Qed.

Lemma zeros3_Ok (n : Z) (l : list vec3) :
  np.zeros3 n = Ok l ->
  (0 <= n)%Z /\ l = replicate (Z.to_nat n) (0, 0, 0)%R
  /\ length l = Z.to_nat n.
Proof.
  unfold np.zeros3. case_decide; [discriminate|].
  intros [= <-]. rewrite length_replicate. split; [lia | auto].
Qed.

Lemma linspace_Ok (a b : R) (n : Z) (l : list R) :
  np.linspace a b n = Ok l -> (0 <= n)%Z /\ length l = Z.to_nat n.
Proof.
  unfold np.linspace. case_decide; [discriminate|].
  case_decide.
  - intros [= <-]. subst. simpl. lia.
  - intros [= <-]. rewrite length_fmap, length_seqZ. lia.
Qed.

Lemma linspace_lookup (a b : R) (n : Z) (l : list R) (i : nat) :
  np.linspace a b n = Ok l -> i < length l ->
  l !! i = Some (a + IZR (Z.of_nat i) * ((b - a) / IZR (n - 1)))%R.
Proof.
  unfold np.linspace. case_decide; [discriminate|].
  case_decide.
  - intros [= <-]. simpl. intros Hi. destruct i; [|lia]. simpl.
    f_equal. change (Z.of_nat 0) with 0%Z. lra.
  - intros [= <-]. rewrite length_fmap, length_seqZ. intros Hi.
    rewrite list_lookup_fmap, lookup_seqZ_lt by lia. simpl.
    do 3 f_equal. 
Qed.

Lemma linspace_open_Ok (a b : R) (n : Z) (l : list R) :
  np.linspace_open a b n = Ok l -> (0 <= n)%Z /\ length l = Z.to_nat n.
Proof.
  unfold np.linspace_open. case_decide; [discriminate|].
  intros [= <-]. rewrite length_fmap, length_seqZ. lia.
Qed.

Lemma fsolve_scalar_Ok (slv : solver) (f : R -> R) (x0 : R) :
  exists x, fsolve_scalar slv f x0 = Ok x.
Proof.
  unfold fsolve_scalar, np.getitem.
  pose proof (fsolve_shape slv (fmap f) [x0]) as Hl.
  destruct (fsolve slv (fmap f) [x0]) as [|x [|]]; try discriminate.
  exists x. reflexivity.
Qed.

Lemma lookup_total_Some {A} `{Inhabited A} (l : list A) (i : nat) (x : A) :
  l !! i = Some x -> l !!! i = x.
Proof. intros Hx. apply list_lookup_total_correct. exact Hx. Qed.

Lemma index_inside (len : nat) (i : Z) :
  (0 <= i < Z.of_nat len)%Z -> np.index len i = Ok (Z.to_nat i).
Proof. intros H. unfold np.index. case_decide; [reflexivity | lia]. Qed.

Lemma index_Ok (len : nat) (i : Z) (k : nat) :
  np.index len i = Ok k ->
  k < len /\ ((0 <= i)%Z -> k = Z.to_nat i).
Proof.
  unfold np.index. repeat case_decide; try discriminate; intros [= <-]; lia.
Qed.

Lemma getitem_Ok {A} (l : list A) (i : Z) (x : A) :
  np.getitem l i = Ok x ->
  exists k, np.index (length l) i = Ok k /\ l !! k = Some x.
Proof.
  unfold np.getitem. intros H. inv_bind H as k Hk. exists k. split; [done|].
  destruct (l !! k); [congruence | discriminate].
Qed.

Lemma getitem_inside {A} (l : list A) (i : Z) (x : A) :
  (0 <= i)%Z -> l !! Z.to_nat i = Some x -> np.getitem l i = Ok x.
Proof.
  intros Hi Hx. unfold np.getitem.
  pose proof (lookup_lt_Some _ _ _ Hx).
  rewrite index_inside by lia. simpl. rewrite Hx. reflexivity.
Qed.

Lemma setitem_Ok {A B} (put : B -> A -> A) (i : Z) (x : B) (l l' : list A) :
  np.setitem put i x l = Ok l' ->
  exists k, np.index (length l) i = Ok k /\ l' = alter (put x) k l.
Proof.
  unfold np.setitem. intros H. inv_bind H as k Hk. injection H as <-. eauto.
Qed.

End Arrays.

(** ** Tooth profiles *)

Section Profiles.
Local Open Scope nat_scope.

(** *** The two mirror assignments of the external profile *)

Lemma external_mirror_steps (H : Z) (p2 p3 p4 : list vec3) :
  (0 <= H)%Z -> length p2 = 2 * Z.to_nat H ->
  np.slice_assign put_x H None
    (Ropp <$> (col_x <$> np.slice 0 (Some H) p2)) p2 = Ok p3 ->
  np.slice_assign put_y H None
    (col_y <$> np.slice 0 (Some H) p3) p3 = Ok p4 ->
  length p4 = 2 * Z.to_nat H
  /\ forall i, i < Z.to_nat H ->
       p4 !! i = p2 !! i
       /\ mirror_xy (p4 !!! i) (p4 !!! (Z.to_nat H + i)).
Proof.
  intros HH Hl2 H3 H4.
  pose proof (slice_assign_length _ _ _ _ _ _ H3) as Hl3.
  pose proof (slice_assign_length _ _ _ _ _ _ H4) as Hl4.
  split; [lia|].
  intros i Hi.
  assert (np.slice_bound (length p2) H = Z.to_nat H) as Hs2
    by (apply slice_bound_inside; lia).
  assert (np.slice_bound (length p3) H = Z.to_nat H) as Hs3
    by (apply slice_bound_inside; lia).
  assert (np.slice_bound (length p2) 0 = 0) as Hz2
    by (apply slice_bound_inside; lia).
  assert (np.slice_bound (length p3) 0 = 0) as Hz3
    by (apply slice_bound_inside; lia).
  assert (p3 !! i = p2 !! i) as E3
    by (eapply slice_assign_outside; [exact H3 | left; lia]).
  assert (p4 !! i = p3 !! i) as E4
    by (eapply slice_assign_outside; [exact H4 | left; lia]).
  split; [congruence|].
  destruct (lookup_lt_is_Some_2 p2 i ltac:(lia)) as [p Hp].
  destruct (lookup_lt_is_Some_2 p2 (Z.to_nat H + i) ltac:(lia)) as [q Hq].
  assert (p3 !! (Z.to_nat H + i) = Some (put_x (- col_x p)%R q)) as Hq3.
  { eapply slice_assign_inside; [exact H3 | | | | exact Hq]; simpl.
    - rewrite !length_fmap, slice_length. simpl. rewrite Hs2, Hz2. lia.
    - rewrite Hs2. lia.
    - rewrite Hs2. replace (Z.to_nat H + i - Z.to_nat H) with i by lia.
      rewrite !list_lookup_fmap, slice_lookup. simpl. rewrite Hs2, Hz2.
      case_decide; [|lia]. simpl. rewrite Hp. reflexivity. }
  assert (p4 !! (Z.to_nat H + i)
          = Some (put_y (col_y p) (put_x (- col_x p)%R q))) as Hq4.
  { eapply slice_assign_inside; [exact H4 | | | | exact Hq3]; simpl.
    - rewrite !length_fmap, slice_length. simpl. rewrite Hs3, Hz3. lia.
    - rewrite Hs3. lia.
    - rewrite Hs3. replace (Z.to_nat H + i - Z.to_nat H) with i by lia.
      rewrite !list_lookup_fmap, slice_lookup. simpl. rewrite Hs3, Hz3.
      case_decide; [|lia]. simpl. rewrite E3, Hp. reflexivity. }
  rewrite (lookup_total_Some _ _ _ Hq4).
  rewrite (lookup_total_Some p4 i p) by congruence.
  split; reflexivity.
Qed.

Lemma external_profile_spec (slv : solver) (self : ExternalGear.t)
    (pts : list vec3) :
  ExternalGear.get_profile_points slv self = Ok pts ->
  let n1 := Gear.n1 (ExternalGear.base self) in
  let n2 := Gear.n2 (ExternalGear.base self) in
  let h := Z.to_nat (n1 + n2 + 1) in
  (0 <= n1)%Z /\ (0 <= n2 + 1)%Z
  /\ length pts = 2 * h
  /\ (forall i, i < h -> mirror_xy (pts !!! i) (pts !!! (h + i)))
  /\ (forall i, i < Z.to_nat (n2 + 1) ->
        drop_last_col (pts !!! i)
        = ExternalGear.transition_point self
            (transition_parameter self i)).
Proof.
  intros Hp n1 n2 h. unfold ExternalGear.get_profile_points in Hp.
  fold n1 n2 in Hp.
  inv_bind Hp as p0 Hp0. apply zeros3_Ok in Hp0 as (Hh & Ep0 & Hl0).
  inv_bind Hp as t2 Ht2.
  inv_bind Hp as ts Hts.
  pose proof (linspace_Ok _ _ _ _ Hts) as [Hn2 Hlts].
  inv_bind Hp as p1 Hp1.
  inv_bind Hp as ti Hti.
  pose proof (linspace_Ok _ _ _ _ Hti) as [Hn1 Hlti].
  inv_bind Hp as p2 Hp2.
  inv_bind Hp as p3 Hp3.
  inv_bind Hp as p4 Hp4.
  injection Hp as <-.
  pose proof (slice_assign_length _ _ _ _ _ _ Hp1) as Hl1.
  pose proof (slice_assign_length _ _ _ _ _ _ Hp2) as Hl2.
  replace (n2 + n1 + 1)%Z with (n1 + n2 + 1)%Z in * by lia.
  assert (length p2 = 2 * h) as Hl2' by (unfold h; lia).
  destruct (external_mirror_steps (n1 + n2 + 1) p2 p3 p4 ltac:(lia) Hl2' Hp3 Hp4)
    as [Hl4 Hm].
  split; [exact Hn1|]. split; [exact Hn2|]. split; [exact Hl4|].
  split; [intros i Hi; apply (Hm i Hi)|].
  intros i Hi.
  destruct (Hm i ltac:(lia)) as [E4 _].
  assert (p2 !! i = p1 !! i) as E2.
  { eapply slice_assign_outside; [exact Hp2|]. left.
    rewrite slice_bound_inside by lia. lia. }
  assert (p1 !! i
          = Some (put_xy (ExternalGear.transition_point self
                            (transition_parameter self i))
                    (0, 0, 0)%R)) as E1.
  { eapply slice_assign_inside; [exact Hp1| | | |].
    - unfold ExternalGear.get_transition_points. rewrite length_fmap.
      simpl. rewrite !slice_bound_inside by lia. lia.
    - simpl. rewrite !slice_bound_inside by lia. lia.
    - rewrite slice_bound_inside by lia.
      unfold ExternalGear.get_transition_points.
      change (Z.to_nat 0) with 0. rewrite Nat.sub_0_r.
      rewrite list_lookup_fmap.
      rewrite (linspace_lookup _ _ _ _ i Hts) by lia. reflexivity.
    - rewrite Ep0. apply lookup_replicate_2. lia. }
  rewrite (lookup_total_Some p4 i _ (eq_trans E4 (eq_trans E2 E1))).
  reflexivity.
Qed.

Lemma internal_mirror_steps (H : Z) (p p' : list vec3) :
  (0 <= H)%Z -> length p = 2 * Z.to_nat H + 1 ->
  InternalGear.mirror_reversed H p = Ok p' ->
  length p' = 2 * Z.to_nat H + 1
  /\ (forall i, i <= Z.to_nat H -> p' !! i = p !! i)
  /\ (forall i, i < Z.to_nat H ->
        mirror_xy (p' !!! i) (p' !!! (2 * Z.to_nat H - i))).
Proof.
  intros HH Hl Hm. unfold InternalGear.mirror_reversed in Hm.
  inv_bind Hm as p3 H3. rename Hm into H4.
  pose proof (slice_assign_length _ _ _ _ _ _ H3) as Hl3.
  pose proof (slice_assign_length _ _ _ _ _ _ H4) as Hl4.
  set (h := Z.to_nat H) in *.
  assert (np.slice_bound (length p) (H + 1) = h + 1) as Hs2
    by (rewrite slice_bound_inside; lia).
  assert (np.slice_bound (length p3) (H + 1) = h + 1) as Hs3
    by (rewrite slice_bound_inside; lia).
  assert (np.slice_bound (length p) H = h) as Hh2
    by (rewrite slice_bound_inside; lia).
  assert (np.slice_bound (length p3) H = h) as Hh3
    by (rewrite slice_bound_inside; lia).
  assert (np.slice_bound (length p) 0 = 0) as Hz2
    by (apply slice_bound_inside; lia).
  assert (np.slice_bound (length p3) 0 = 0) as Hz3
    by (apply slice_bound_inside; lia).
  assert (forall i, i <= h -> p3 !! i = p !! i) as E3.
  { intros i Hi. eapply slice_assign_outside; [exact H3 | left; lia]. }
  assert (forall i, i <= h -> p' !! i = p3 !! i) as E4.
  { intros i Hi. eapply slice_assign_outside; [exact H4 | left; lia]. }
  split; [lia|]. split; [intros i Hi; rewrite E4, E3; auto|].
  intros i Hi.
  destruct (lookup_lt_is_Some_2 p i ltac:(lia)) as [a Ha].
  destruct (lookup_lt_is_Some_2 p (2 * h - i) ltac:(lia)) as [q Hq].
  assert (p3 !! (2 * h - i) = Some (put_x (- col_x a)%R q)) as Hq3.
  { eapply slice_assign_inside; [exact H3 | | | | exact Hq]; simpl.
    - rewrite length_fmap, length_reverse, length_fmap, slice_length.
      simpl. rewrite Hs2, Hz2, Hh2. lia.
    - rewrite Hs2. lia.
    - rewrite Hs2. rewrite list_lookup_fmap.
      rewrite reverse_lookup
        by (rewrite length_fmap, slice_length; simpl; rewrite Hz2, Hh2; lia).
      rewrite length_fmap, slice_length. simpl. rewrite Hz2, Hh2.
      rewrite list_lookup_fmap, slice_lookup. simpl. rewrite Hz2, Hh2.
      case_decide; [|lia]. simpl.
      match goal with |- context [p !! ?k] => replace k with i by lia end.
      rewrite Ha. reflexivity. }
  assert (p' !! (2 * h - i)
          = Some (put_y (col_y a) (put_x (- col_x a)%R q))) as Hq4.
  { eapply slice_assign_inside; [exact H4 | | | | exact Hq3]; simpl.
    - rewrite length_reverse, length_fmap, slice_length.
      simpl. rewrite Hs3, Hz3, Hh3. lia.
    - rewrite Hs3. lia.
    - rewrite Hs3.
      rewrite reverse_lookup
        by (rewrite length_fmap, slice_length; simpl; rewrite Hz3, Hh3; lia).
      rewrite length_fmap, slice_length. simpl. rewrite Hz3, Hh3.
      rewrite list_lookup_fmap, slice_lookup. simpl. rewrite Hz3, Hh3.
      case_decide; [|lia]. simpl.
      match goal with |- context [p3 !! ?k] => replace k with i by lia end.
      rewrite E3, Ha by lia. reflexivity. }
  rewrite (lookup_total_Some _ _ _ Hq4).
  rewrite (lookup_total_Some p' i a) by (rewrite E4, E3 by lia; exact Ha).
  split; reflexivity.
Qed.

Lemma center_on_axis (pa pb pc : list vec3) (H : Z) (y : R) :
  (0 <= H < Z.of_nat (length pa))%Z ->
  np.setitem put_x H 0%R pa = Ok pb ->
  np.setitem put_y H y pb = Ok pc ->
  length pc = length pa
  /\ exists q, pc !! Z.to_nat H = Some q /\ col_x q = 0%R.
Proof.
  intros HH Hb Hc.
  apply setitem_Ok in Hb as (k & Hk & ->).
  rewrite index_inside in Hk by lia. injection Hk as <-.
  apply setitem_Ok in Hc as (k & Hk & ->).
  rewrite length_alter, index_inside in Hk by lia. injection Hk as <-.
  rewrite !length_alter. split; [reflexivity|].
  destruct (lookup_lt_is_Some_2 pa (Z.to_nat H) ltac:(lia)) as [[[x y'] w] Hq].
  exists (put_y y (put_x 0%R (x, y', w))).
  rewrite !list_lookup_alter_eq, Hq. split; reflexivity.
Qed.

Lemma internal_profile_spec (slv : solver) (fuel : nat)
    (self self' : InternalGear.t) (pts : list vec3) :
  InternalGear.get_profile_points slv fuel self = Ok (pts, self') ->
  let g := InternalGear.base self in
  exists t_2, np.getitem (InternalGear.t_ self) 2 = Ok t_2
    /\ ((InternalGear.rc self >= t_2)%R
        /\ self' = self
        /\ symmetric_profile (Z.to_nat (Gear.n1 g + Gear.n2 g)) pts
        \/ ~ (InternalGear.rc self >= t_2)%R
        /\ self' = InternalGear.set_t self (fillet_solution slv self)
        /\ symmetric_profile
             (Z.to_nat (Gear.n1 g + Gear.n2 g + Gear.nf g)) pts).
Proof.
  intros Hp g. unfold InternalGear.get_profile_points in Hp.
  fold g in Hp.
  set (n1 := Gear.n1 g) in *. set (n2 := Gear.n2 g) in *.
  set (nf := Gear.nf g) in *.
  destruct (decide (InternalGear.z_cutter self = 0%Z)); [discriminate|].
  inv_bind Hp as alphawt Halpha.
  inv_bind Hp as t_2 Ht_2. exists t_2. split; [exact Ht_2|].
  destruct (Rge_dec (InternalGear.rc self) t_2) as [Hrc|Hrc]; [left|right].
  - inv_bind Hp as p0 Hp0. apply zeros3_Ok in Hp0 as (Hh & _ & Hl0).
    inv_bind Hp as t_1 Ht_1.
    inv_bind Hp as tt Htt. apply linspace_open_Ok in Htt as [Hn2 _].
    inv_bind Hp as tp Htp.
    inv_bind Hp as p1 Hp1.
    pose proof (slice_assign_length _ _ _ _ _ _ Hp1) as Hl1.
    inv_bind Hp as p2 Hp2.
    inv_bind Hp as p3 Hp3.
    inv_bind Hp as q Hq.
    inv_bind Hp as t2 Ht2.
    inv_bind Hp as t1 Ht1.
    inv_bind Hp as ti Hti. apply linspace_open_Ok in Hti as [Hn1 _].
    inv_bind Hp as ip Hip.
    inv_bind Hp as p4 Hp4.
    pose proof (slice_assign_length _ _ _ _ _ _ Hp4) as Hl4.
    inv_bind Hp as p5 Hp5.
    injection Hp as <- <-.
    destruct (center_on_axis p1 p2 p3 (n1 + n2) _ ltac:(lia) Hp2 Hp3)
      as (Hl3 & c & Hc & Hcx).
    destruct (internal_mirror_steps (n1 + n2) p4 p5 ltac:(lia) ltac:(lia) Hp5)
      as (Hl5 & Hkeep & Hmir).
    split; [exact Hrc|]. split; [reflexivity|].
    unfold symmetric_profile. split; [exact Hl5|]. split; [|exact Hmir].
    rewrite (lookup_total_Some p5 _ c); [exact Hcx|].
    rewrite Hkeep by lia. rewrite <- Hc.
    eapply slice_assign_outside; [exact Hp4|]. right. simpl.
    rewrite slice_bound_inside by lia. lia.
  - inv_bind Hp as p0 Hp0. apply zeros3_Ok in Hp0 as (Hh & _ & Hl0).
    inv_bind Hp as x0 Hx0.
    inv_bind Hp as y0 Hy0.
    inv_bind Hp as t4 Ht4.
    inv_bind Hp as tt Htt. apply linspace_open_Ok in Htt as [Hn2 _].
    inv_bind Hp as tp Htp.
    inv_bind Hp as p1 Hp1.
    pose proof (slice_assign_length _ _ _ _ _ _ Hp1) as Hl1.
    inv_bind Hp as tt2 Htt2. apply linspace_open_Ok in Htt2 as [Hnf _].
    inv_bind Hp as tp2 Htp2.
    inv_bind Hp as p1' Hp1'.
    pose proof (slice_assign_length _ _ _ _ _ _ Hp1') as Hl1'.
    inv_bind Hp as p2 Hp2.
    inv_bind Hp as p3 Hp3.
    inv_bind Hp as q Hq.
    inv_bind Hp as t2 Ht2.
    inv_bind Hp as t1 Ht1.
    inv_bind Hp as ti Hti. apply linspace_open_Ok in Hti as [Hn1 _].
    inv_bind Hp as ip Hip.
    inv_bind Hp as p4 Hp4.
    pose proof (slice_assign_length _ _ _ _ _ _ Hp4) as Hl4.
    inv_bind Hp as pa Hpa.
    inv_bind Hp as pb Hpb.
    inv_bind Hp as p4' Hp4'.
    inv_bind Hp as p5 Hp5.
    injection Hp as <- <-.
    destruct (center_on_axis p1' p2 p3 (n1 + n2 + nf) _ ltac:(lia) Hp2 Hp3)
      as (Hl3 & c & Hc & Hcx).
    apply setitem_Ok in Hp4' as (k & Hk & ->).
    apply index_Ok in Hk as [Hk1 Hk2]. specialize (Hk2 Hn1). subst k.
    apply internal_mirror_steps in Hp5 as (Hl5 & Hkeep & Hmir);
      [| lia | rewrite length_alter; lia].
    split; [exact Hrc|]. split; [reflexivity|].
    unfold symmetric_profile. split; [exact Hl5|]. split; [|exact Hmir].
    rewrite (lookup_total_Some p5 _ c); [exact Hcx|].
    rewrite Hkeep by lia.
    rewrite list_lookup_alter_ne by lia. rewrite <- Hc.
    eapply slice_assign_outside; [exact Hp4|]. right. simpl.
    rewrite slice_bound_inside by lia. lia.
Qed.

End Profiles.

(** ** Termination of [ainv] *)

Lemma atan_le (a b : R) : a <= b -> atan a <= atan b.
Proof.
  intros [H | ->]; [left; apply atan_increasing; exact H | right; reflexivity].
Qed.

Lemma ainv_seq_growing (x : R) : 0 <= x -> Un_growing (ainv_seq x).
Proof.
  intros Hx k. induction k as [|k IH]; simpl.
  - replace (x + 0) with x by ring. rewrite <- atan_0. apply atan_le, Hx.
  - apply atan_le. simpl in IH. lra.
Qed.

Lemma ainv_seq_decreasing (x : R) : x <= 0 -> Un_decreasing (ainv_seq x).
Proof.
  intros Hx k. induction k as [|k IH]; simpl.
  - replace (x + 0) with x by ring. rewrite <- atan_0. apply atan_le, Hx.
  - apply atan_le. simpl in IH. lra.
Qed.

Lemma ainv_seq_bound (x : R) (k : nat) : - PI / 2 < ainv_seq x k < PI / 2.
Proof.
  destruct k; simpl; [pose proof PI_RGT_0; lra | apply atan_bound].
Qed.

Lemma ainv_seq_cv (x : R) : exists l, Un_cv (ainv_seq x) l.
Proof.
  destruct (Rle_dec 0 x) as [Hx | Hx].
  - destruct (growing_cv (ainv_seq x) (ainv_seq_growing x Hx)) as [l Hl].
    + exists (PI / 2). intros y [k ->]. left. apply ainv_seq_bound.
    + exists l. exact Hl.
  - destruct (decreasing_cv (ainv_seq x)
                (ainv_seq_decreasing x ltac:(lra))) as [l Hl].
    + exists (PI / 2). intros y [k ->].
      pose proof (ainv_seq_bound x k). unfold opp_seq. lra.
    + exists l. exact Hl.
Qed.

(** Consecutive iterates get as close as one wishes. *)
Lemma ainv_seq_steps_small (x eps : R) :
  0 < eps -> exists k, Rabs (ainv_seq x (S k) - ainv_seq x k) <= eps.
Proof.
  intros He. destruct (ainv_seq_cv x) as [l Hl].
  destruct (Hl (eps / 2) ltac:(lra)) as [N HN].
  exists N.
  pose proof (HN N ltac:(lia)) as H1.
  pose proof (HN (S N) ltac:(lia)) as H2.
  unfold Rdist in H1, H2.
  replace (ainv_seq x (S N) - ainv_seq x N)
    with ((ainv_seq x (S N) - l) - (ainv_seq x N - l)) by ring.
  apply Rabs_def2 in H1 as [? ?]. apply Rabs_def2 in H2 as [? ?].
  apply Rabs_le. lra.
Qed.

Lemma ainv_loop_enough (x : R) (j k : nat) :
  Rabs (ainv_seq x (S (k + j)) - ainv_seq x (k + j)) <= 1e-25 ->
  exists alpha, InternalGear.ainv_loop j x (ainv_seq x k) (ainv_seq x (S k))
                = Ok alpha.
Proof.
  revert k. induction j as [|j IH]; intros k Hj; simpl.
  - replace (k + 0)%nat with k in Hj by lia. simpl in Hj.
    destruct (Rgt_dec _ _); [lra | eauto].
  - destruct (Rgt_dec _ _); [|eauto].
    apply (IH (S k)). replace (S k + j)%nat with (k + S j)%nat by lia.
    exact Hj.
Qed.

Lemma ainv_loop_more_fuel (x : R) (fuel : nat) :
  forall temp alpha a,
    InternalGear.ainv_loop fuel x temp alpha = Ok a ->
    InternalGear.ainv_loop (S fuel) x temp alpha = Ok a.
Proof.
  induction fuel as [|fuel IH]; intros temp alpha a; simpl.
  - destruct (Rgt_dec _ _); [discriminate | auto].
  - destruct (Rgt_dec _ _); [|auto]. intros H. apply IH in H. exact H.
Qed.

(** [ainv] returns for every argument once the loop is given enough
    iterations, and more iterations do not change the result. *)
Lemma ainv_terminates (x : R) :
  exists fuel alpha, forall fuel', (fuel <= fuel')%nat ->
    InternalGear.ainv fuel' x = Ok alpha.
Proof.
  destruct (ainv_seq_steps_small x 1e-25 ltac:(lra)) as [k Hk].
  destruct (ainv_loop_enough x k 0 Hk) as [alpha Ha].
  exists k, alpha. intros fuel' Hf. unfold InternalGear.ainv.
  replace (atan x) with (ainv_seq x 1) by (simpl; f_equal; ring).
  change 0 with (ainv_seq x 0) at 1.
  induction Hf as [|m Hm IH]; [exact Ha|].
  apply ainv_loop_more_fuel. exact IH.
Qed.

(** ** Runs that do not raise *)

Section Success.
Local Open Scope nat_scope.

Lemma bind_Ok_l {A B} (a : A) (k : A -> result B) : Ok a ≫= k = k a.
Proof. reflexivity. Qed.

Lemma zeros3_succeeds (n : Z) :
  (0 <= n)%Z -> np.zeros3 n = Ok (replicate (Z.to_nat n) (0, 0, 0)%R).
Proof. intros H. unfold np.zeros3. case_decide; [lia | reflexivity]. Qed.

Lemma linspace_succeeds (a b : R) (n : Z) :
  (0 <= n)%Z ->
  exists l, np.linspace a b n = Ok l /\ length l = Z.to_nat n.
Proof.
  intros H. destruct (np.linspace a b n) as [l|e] eqn:E.
  - exists l. split; [reflexivity|]. apply linspace_Ok in E. tauto.
  - unfold np.linspace in E. repeat case_decide; (lia || discriminate).
Qed.

Lemma linspace_open_succeeds (a b : R) (n : Z) :
  (0 <= n)%Z ->
  exists l, np.linspace_open a b n = Ok l /\ length l = Z.to_nat n.
Proof.
  intros H. destruct (np.linspace_open a b n) as [l|e] eqn:E.
  - exists l. split; [reflexivity|]. apply linspace_open_Ok in E. tauto.
  - unfold np.linspace_open in E. case_decide; (lia || discriminate).
Qed.

Lemma slice_assign_succeeds {A B} (put : B -> A -> A) (a : Z) (b : option Z)
    (v : list B) (l : list A) :
  length v = np.slice_stop (length l) b - np.slice_bound (length l) a ->
  exists l', np.slice_assign put a b v l = Ok l' /\ length l' = length l.
Proof.
  intros Hv. rewrite slice_assign_exact by exact Hv.
  eexists. split; [reflexivity|].
  pose proof (slice_stop_le (length l) b).
  pose proof (slice_bound_le (length l) a).
  apply length_patch; [|lia].
  rewrite length_zip_with, length_take, length_drop. lia.
Qed.

Lemma index_succeeds (len : nat) (i : Z) :
  (- Z.of_nat len <= i < Z.of_nat len)%Z ->
  exists k, np.index len i = Ok k /\ k < len.
Proof.
  intros H. unfold np.index. repeat case_decide; try lia; eexists;
    (split; [reflexivity | lia]).
Qed.

Lemma getitem_succeeds {A} (l : list A) (i : Z) :
  (- Z.of_nat (length l) <= i < Z.of_nat (length l))%Z ->
  exists x, np.getitem l i = Ok x.
Proof.
  intros H. unfold np.getitem.
  destruct (index_succeeds _ _ H) as (k & -> & Hk). simpl.
  destruct (lookup_lt_is_Some_2 l k Hk) as [x ->]. eauto.
Qed.

Lemma setitem_succeeds {A B} (put : B -> A -> A) (i : Z) (x : B)
    (l : list A) :
  (- Z.of_nat (length l) <= i < Z.of_nat (length l))%Z ->
  exists l', np.setitem put i x l = Ok l' /\ length l' = length l.
Proof.
  intros H. unfold np.setitem.
  destruct (index_succeeds _ _ H) as (k & -> & Hk). simpl.
  eexists. split; [reflexivity|]. apply length_alter.
Qed.

End Success.

(** Runs the next statement of a method body whose outcome is known to be
    [Ok]. *)
Ltac run_with lem :=
  let x := fresh "x" in
  let Hx := fresh "Hrun" in
  let Hl := fresh "Hlen" in
  destruct lem as (x & Hx & Hl); [try lia .. | rewrite Hx, bind_Ok_l].

Ltac run_linspace :=
  match goal with
  | |- context [np.linspace ?a ?b ?n ≫= _] =>
      run_with (linspace_succeeds a b n)
  | |- context [np.linspace_open ?a ?b ?n ≫= _] =>
      run_with (linspace_open_succeeds a b n)
  end.

Ltac run_slice_assign :=
  match goal with
  | |- context [np.slice_assign ?put ?a ?b ?v ?l ≫= _] =>
      run_with (slice_assign_succeeds put a b v l)
  | |- context [np.slice_assign ?put ?a ?b ?v ?l] =>
      let x := fresh "x" in
      let Hx := fresh "Hrun" in
      let Hl := fresh "Hlen" in
      destruct (slice_assign_succeeds put a b v l) as (x & Hx & Hl);
      [try lia .. | rewrite Hx]
  end.

Ltac run_setitem :=
  match goal with
  | |- context [np.setitem ?put ?i ?x ?l ≫= _] =>
      run_with (setitem_succeeds put i x l)
  end.

Ltac run_getitem :=
  match goal with
  | |- context [np.getitem ?l ?i ≫= _] =>
      let x := fresh "x" in
      let Hx := fresh "Hrun" in
      destruct (getitem_succeeds l i) as (x & Hx);
      [try lia | rewrite Hx, bind_Ok_l]
  end.

Ltac run_fsolve :=
  match goal with
  | |- context [fsolve_scalar ?slv ?f ?x0 ≫= _] =>
      let x := fresh "x" in
      let Hx := fresh "Hrun" in
      destruct (fsolve_scalar_Ok slv f x0) as (x & Hx);
      rewrite Hx, bind_Ok_l
  end.

Section Success2.
Local Open Scope nat_scope.

Lemma external_profile_succeeds (slv : solver) (self : ExternalGear.t) :
  (0 <= Gear.n1 (ExternalGear.base self))%Z ->
  (0 <= Gear.n2 (ExternalGear.base self) + 1)%Z ->
  exists pts, ExternalGear.get_profile_points slv self = Ok pts.
Proof.
  intros Hn1 Hn2. unfold ExternalGear.get_profile_points.
  set (n1 := Gear.n1 (ExternalGear.base self)) in *.
  set (n2 := Gear.n2 (ExternalGear.base self)) in *.
  rewrite zeros3_succeeds, bind_Ok_l by lia.
  run_fsolve.
  run_linspace.
  run_slice_assign.
  { unfold ExternalGear.get_transition_points.
    rewrite length_fmap, length_replicate. simpl.
    rewrite !slice_bound_inside by lia. lia. }
  run_linspace.
  run_slice_assign.
  { unfold ExternalGear.get_involute_points.
    rewrite length_fmap. simpl.
    rewrite !slice_bound_inside by (rewrite ?length_replicate in *; lia). lia. }
  run_slice_assign.
  { rewrite !length_fmap, slice_length. simpl.
    rewrite !slice_bound_inside by (rewrite ?length_replicate in *; lia).
    rewrite length_replicate in *. lia. }
  run_slice_assign.
  { rewrite !length_fmap, slice_length. simpl.
    rewrite !slice_bound_inside by (rewrite ?length_replicate in *; lia).
    rewrite length_replicate in *. lia. }
  eauto.
Qed.

End Success2.

Section Success3.
Local Open Scope nat_scope.

Lemma internal_transition_succeeds (slv : solver) (E x0 y0 rc ratio : R)
    (t : list R) :
  exists tp, InternalGear.get_transition_points slv E x0 y0 rc ratio t = Ok tp
             /\ length tp = length t.
Proof.
  induction t as [|ti t (tp & IH & Hl)]; simpl.
  - exists []. auto.
  - unfold InternalGear.transition_point.
    destruct (fsolve_scalar_Ok slv
                (InternalGear.meshing_equation E x0 y0 rc ratio ti) 0%R)
      as (phi & ->).
    rewrite !bind_Ok_l, IH, bind_Ok_l. eexists. split; [reflexivity|].
    simpl. lia.
Qed.

Lemma internal_involute_succeeds (self : InternalGear.t) (t : list R) :
  Gear.z (InternalGear.base self) <> 0%Z ->
  exists ip, InternalGear.get_involute_points self t = Ok ip
             /\ length ip = length t.
Proof.
  intros Hz. unfold InternalGear.get_involute_points.
  case_decide; [contradiction|]. eexists. split; [reflexivity|].
  apply length_fmap.
Qed.

Lemma solve_tip_radius_succeeds (slv : solver) (self : InternalGear.t)
    (target : R) :
  Gear.z (InternalGear.base self) <> 0%Z ->
  exists t, InternalGear.solve_tip_radius slv self target = Ok t.
Proof.
  intros Hz. unfold InternalGear.solve_tip_radius.
  destruct (internal_involute_succeeds self [1%R] Hz) as (ip & -> & _).
  rewrite bind_Ok_l. apply fsolve_scalar_Ok.
Qed.

Lemma mirror_reversed_succeeds (H : Z) (p : list vec3) :
  (0 <= H)%Z -> length p = 2 * Z.to_nat H + 1 ->
  exists p', InternalGear.mirror_reversed H p = Ok p'.
Proof.
  intros HH Hl. unfold InternalGear.mirror_reversed.
  run_slice_assign.
  { rewrite length_fmap, length_reverse, length_fmap, slice_length. simpl.
    rewrite !slice_bound_inside by lia. lia. }
  run_slice_assign.
  { rewrite length_reverse, length_fmap, slice_length. simpl.
    rewrite !slice_bound_inside by lia. lia. }
  eauto.
Qed.

End Success3.

Ltac run_internal slv self :=
  match goal with
  | |- context [InternalGear.get_transition_points slv ?E ?x0 ?y0 ?rc ?ratio ?t
                ≫= _] =>
      run_with (internal_transition_succeeds slv E x0 y0 rc ratio t)
  | |- context [InternalGear.solve_tip_radius slv ?s ?target ≫= _] =>
      let x := fresh "x" in
      let Hx := fresh "Hrun" in
      destruct (solve_tip_radius_succeeds slv s target) as (x & Hx);
      [assumption | rewrite Hx, bind_Ok_l]
  | |- context [InternalGear.get_involute_points ?s ?t ≫= _] =>
      run_with (internal_involute_succeeds s t)
  end.

Section Success4.
Local Open Scope nat_scope.

Lemma internal_profile_succeeds (slv : solver) (self : InternalGear.t) :
  let g := InternalGear.base self in
  Gear.z g <> 0%Z -> InternalGear.z_cutter self <> 0%Z ->
  (0 <= Gear.n1 g)%Z -> (0 <= Gear.n2 g)%Z ->
  (1 <= Gear.nf g)%Z \/ thick_fillet self ->
  3 <= length (InternalGear.t_ self) ->
  exists fuel0, forall fuel, fuel0 <= fuel ->
    exists pts self',
      InternalGear.get_profile_points slv fuel self = Ok (pts, self').
Proof.
  intros g Hz Hzc Hn1 Hn2 Hnf Ht.
  unfold InternalGear.get_profile_points. fold g.
  set (n1 := Gear.n1 g) in *. set (n2 := Gear.n2 g) in *.
  set (nf := Gear.nf g) in *.
  case_decide; [contradiction|].
  match goal with
  | |- context [InternalGear.ainv _ ?x] =>
      destruct (ainv_terminates x) as (fuel0 & alphawt & Ha)
  end.
  exists fuel0. intros fuel Hf. rewrite (Ha fuel Hf), bind_Ok_l.
  destruct (lookup_lt_is_Some_2 (InternalGear.t_ self) 2 ltac:(lia))
    as [t_2 Ht2].
  rewrite (getitem_inside _ 2 t_2 ltac:(lia) Ht2), bind_Ok_l.
  destruct (Rge_dec (InternalGear.rc self) t_2) as [Hrc|Hrc].
  - rewrite zeros3_succeeds, bind_Ok_l by lia.
    run_getitem.
    run_linspace.
    run_internal slv self.
    run_slice_assign.
    { rewrite length_replicate. simpl.
      rewrite !slice_bound_inside by (rewrite ?length_replicate; lia). lia. }
    rewrite length_replicate in *.
    run_setitem. run_setitem. run_getitem.
    run_internal slv self. run_internal slv self.
    run_linspace.
    run_internal slv self; [assumption|].
    run_slice_assign.
    { simpl. rewrite !slice_bound_inside by lia. lia. }
    match goal with
    | |- context [InternalGear.mirror_reversed ?H ?p] =>
        destruct (mirror_reversed_succeeds H p) as (p' & ->); [lia | lia |]
    end.
    rewrite bind_Ok_l. eauto.
  - assert (1 <= nf)%Z as Hnf'.
    { destruct Hnf as [?|(t' & Ht' & Hge)]; [assumption|].
      rewrite Ht2 in Ht'. injection Ht' as <-. contradiction. }
    rewrite zeros3_succeeds, bind_Ok_l by lia.
    pose proof (fsolve_shape slv
      (InternalGear.fillet_system (InternalGear.rb_cutter self)
         (InternalGear.ra_cutter self) (InternalGear.etab self)
         (InternalGear.rc self))
      [1%R; (0.75 * PI)%R; 0%R; InternalGear.ra_cutter self]) as Hsh.
    simpl in Hsh.
    run_getitem. run_getitem. run_getitem.
    run_linspace.
    run_internal slv self.
    run_slice_assign.
    { rewrite length_replicate. simpl.
      rewrite !slice_bound_inside by (rewrite ?length_replicate; lia). lia. }
    rewrite length_replicate in *.
    run_linspace.
    run_internal slv self.
    run_slice_assign.
    { simpl. rewrite !slice_bound_inside by lia. lia. }
    run_setitem. run_setitem. run_getitem.
    run_internal slv self. run_internal slv self.
    run_linspace.
    run_internal slv self; [assumption|].
    run_slice_assign.
    { simpl. rewrite !slice_bound_inside by lia. lia. }
    run_getitem. run_getitem. run_setitem.
    match goal with
    | |- context [InternalGear.mirror_reversed ?H ?p] =>
        destruct (mirror_reversed_succeeds H p) as (p' & ->); [lia | lia |]
    end.
    rewrite bind_Ok_l. eauto.
Qed.

End Success4.

(** ** The sharp-tip external gear *)

Lemma atan_tan_PI_9 : atan (tan (PI / 9) / 1) = PI / 9.
Proof.
  replace (tan (PI / 9) / 1) with (tan (PI / 9)) by field.
  apply atan_tan. pose proof PI_RGT_0. split; lra.
Qed.

Lemma sharp_tip_init :
  ExternalGear.__init__ sharp_tip_args 0 30 = Ok sharp_tip_gear.
Proof.
  unfold ExternalGear.__init__, Gear.__init__, sharp_tip_args. simpl.
  rewrite std_normalize_beta, std_normalize_alpha, cos_0, atan_tan_PI_9.
  unfold sharp_tip_gear. f_equal.
  f_equal; [f_equal|..]; lra.
Qed.

Lemma tan_PI_9_bounds : 0 < tan (PI / 9) < 1.
Proof.
  pose proof PI_RGT_0. split.
  - apply tan_gt_0; lra.
  - rewrite <- tan_PI4. apply tan_increasing; lra.
Qed.

(** With [rc = 0] and [y0 = 0] every sample of the transition curve of the
    sharp-tip gear is the same point of the pitch circle, left of the
    axis. *)
Lemma sharp_tip_transition_x (t : R) :
  sin t <> 0 ->
  (ExternalGear.transition_point sharp_tip_gear t).1
  = 20 * sin (- (PI / 2 + 2.5 * tan (PI / 9)) / 20).
Proof.
  intros Ht. unfold ExternalGear.transition_point. simpl. rewrite cos_0.
  set (x0 := - PI * 2 / 2
             + (PI * 2 / 4 - 2.5 * tan (PI / 9)
                - 0 * tan (0.25 * PI - 0.5 * (PI / 9)))).
  set (y0 := - (2.5 - 0) + 2 * 1.25).
  assert (y0 = 0) as -> by (unfold y0; lra).
  assert (x0 = - (PI / 2 + 2.5 * tan (PI / 9))) as Hx0 by (unfold x0; lra).
  match goal with
  | |- context [sin (?n / (20 * 1 * sin t))] =>
      replace (n / (20 * 1 * sin t)) with (x0 / 20) by (field; exact Ht)
  end.
  rewrite <- Hx0. field.
Qed.

Lemma sharp_tip_transition_left (t : R) :
  sin t <> 0 -> (ExternalGear.transition_point sharp_tip_gear t).1 < 0.
Proof.
  intros Ht. rewrite sharp_tip_transition_x by exact Ht.
  pose proof tan_PI_9_bounds as [? ?]. pose proof PI_gt_3. pose proof PI_4.
  replace (- (PI / 2 + 2.5 * tan (PI / 9)) / 20)
    with (- ((PI / 2 + 2.5 * tan (PI / 9)) / 20)) by field.
  rewrite sin_neg.
  assert (0 < sin ((PI / 2 + 2.5 * tan (PI / 9)) / 20)).
  { apply sin_gt_0; lra. }
  lra.
Qed.

Lemma sharp_tip_last_parameter :
  transition_parameter sharp_tip_gear 5 = 2 * PI - PI / 9.
Proof.
  unfold transition_parameter. simpl.
  change (Z.of_nat 5) with 5%Z. change (5 + 1 - 1)%Z with 5%Z. field.
Qed.

Lemma sin_last_parameter : sin (2 * PI - PI / 9) <> 0.
Proof.
  pose proof PI_RGT_0.
  assert (sin (2 * PI - PI / 9) < 0) by (apply sin_lt_0; lra). lra.
Qed.

(** ** Mirror symmetry of the profile (C5) *)

Section ProfileSymmetry.
Local Open Scope nat_scope.

Lemma symmetric_profile_pairs (h : nat) (pts : list vec3) (i : nat) :
  symmetric_profile h pts -> i < length pts ->
  mirror_xy (pts !!! i) (pts !!! (length pts - 1 - i)).
Proof.
  intros (Hl & Hc & Hm) Hi. rewrite Hl.
  replace (2 * h + 1 - 1 - i) with (2 * h - i) by lia.
  destruct (Nat.lt_trichotomy i h) as [Hlt | [-> | Hgt]].
  - apply Hm, Hlt.
  - replace (2 * h - h) with h by lia. split; [rewrite Hc; lra | reflexivity].
  - destruct (Hm (2 * h - i) ltac:(lia)) as [Hx Hy].
    replace (2 * h - (2 * h - i)) with i in Hx, Hy by lia.
    split; [rewrite Hx; lra | congruence].
Qed.

(** C5, as the code has it.  The profile of an external gear has [2 * n]
    rows, [n = n1 + n2 + 1] being the half-profile length, and row [n + i]
    is the mirror image of row [i] for [0 <= i < n]: the second half
    repeats the first in the same order.  The profile of an internal gear
    has an odd number [L] of rows and row [L - 1 - i] is the mirror image
    of row [i] for every [0 <= i < L]. *)
Theorem C5_profile_mirror_pairs :
  (forall slv self pts,
     ExternalGear.get_profile_points slv self = Ok pts ->
     let n := Z.to_nat (Gear.n1 (ExternalGear.base self)
                        + Gear.n2 (ExternalGear.base self) + 1) in
     length pts = 2 * n
     /\ forall i, i < n -> mirror_xy (pts !!! i) (pts !!! (n + i)))
  /\ (forall slv fuel self pts self',
     InternalGear.get_profile_points slv fuel self = Ok (pts, self') ->
     Nat.Odd (length pts)
     /\ forall i, i < length pts ->
          mirror_xy (pts !!! i) (pts !!! (length pts - 1 - i))).
Proof.
  split.
  - intros slv self pts Hp n.
    pose proof (external_profile_spec slv self pts Hp) as (_ & _ & Hl & Hm & _).
    split; [exact Hl | exact Hm].
  - intros slv fuel self pts self' Hp.
    destruct (internal_profile_spec slv fuel self self' pts Hp)
      as (t_2 & _ & [(_ & _ & Hs) | (_ & _ & Hs)]);
      (split; [destruct Hs as (Hl & _); rewrite Hl; eexists; reflexivity
              | intros i Hi; eapply symmetric_profile_pairs; eauto]).
Qed.

(** Both parts at concrete gears: the sharp-tip external gear with any
    solver, and the 60-tooth internal gear. *)
Lemma C5_witness :
  (forall slv, exists pts,
     ExternalGear.get_profile_points slv sharp_tip_gear = Ok pts
     /\ length pts = 22
     /\ mirror_xy (pts !!! 0) (pts !!! 11))
  /\ (exists ig, InternalGear.__init__ guess_solver internal_args 140 20 0
                 = Ok ig
      /\ exists fuel pts ig',
           InternalGear.get_profile_points guess_solver fuel ig = Ok (pts, ig')
           /\ mirror_xy (pts !!! 0) (pts !!! (length pts - 1 - 0))).
Proof.
  destruct C5_profile_mirror_pairs as [Hext Hint]. split.
  - intros slv.
    destruct (external_profile_succeeds slv sharp_tip_gear) as [pts Hp];
      [simpl; lia | simpl; lia |].
    exists pts. split; [exact Hp|].
    destruct (Hext slv sharp_tip_gear pts Hp) as [Hl Hm].
    split; [exact Hl | apply (Hm 0); simpl; lia].
  - eexists. split; [reflexivity|].
    match goal with
    | |- context [InternalGear.get_profile_points _ _ ?ig] =>
        destruct (internal_profile_succeeds guess_solver ig)
          as (fuel & Hrun);
        [simpl; lia | simpl; lia | simpl; lia | simpl; lia
         | left; simpl; lia | simpl; lia |];
        destruct (Hrun fuel (Nat.le_refl _)) as (pts & ig' & Hp)
    end.
    exists fuel, pts, ig'. split; [exact Hp|].
    destruct (Hint _ _ _ _ _ Hp) as [[k Hk] Hm]. apply Hm. lia.
Defined.

(** C5 fails as stated.  For the sharp-tip external gear the half-profile
    has [n = 11] points; at [i = 5] the claimed partner [n - 1 - i] is row 5
    itself, which lies left of the axis, so its [x] is not its own
    opposite.  Row 5 is the last sample of the transition curve and does
    not depend on the solver. *)
Lemma C5_counterexample :
  ExternalGear.__init__ sharp_tip_args 0 30 = Ok sharp_tip_gear
  /\ forall slv, exists pts,
       ExternalGear.get_profile_points slv sharp_tip_gear = Ok pts
       /\ length pts = 2 * 11
       /\ (col_x (pts !!! 5%nat) < 0)%R
       /\ ~ mirror_xy (pts !!! 5) (pts !!! (11 - 1 - 5)).
Proof.
  split; [exact sharp_tip_init|]. intros slv.
  destruct (external_profile_succeeds slv sharp_tip_gear) as [pts Hp];
    [simpl; lia | simpl; lia |].
  exists pts. split; [exact Hp|].
  pose proof (external_profile_spec slv sharp_tip_gear pts Hp)
    as (_ & _ & Hl & _ & Ht).
  split; [exact Hl|].
  assert (col_x (pts !!! 5%nat) < 0)%R as Hneg.
  { specialize (Ht 5 ltac:(simpl; lia)).
    rewrite sharp_tip_last_parameter in Ht.
    pose proof (sharp_tip_transition_left _ sin_last_parameter) as Hx.
    rewrite <- Ht in Hx. exact Hx. }
  split; [exact Hneg|].
  intros [Hx _]. change (11 - 1 - 5) with 5 in Hx. lra.
Qed.

End ProfileSymmetry.

(** ** What [get_profile_points] does to the instance (C9) *)

Section Frame.
Local Open Scope nat_scope.

Lemma set_t_same (self : InternalGear.t) :
  InternalGear.set_t self (InternalGear.t_ self) = self.
Proof. destruct self; reflexivity. Qed.

Lemma set_t_set_t (self : InternalGear.t) (v w : list R) :
  InternalGear.set_t (InternalGear.set_t self v) w = InternalGear.set_t self w.
Proof. reflexivity. Qed.

Lemma thick_fillet_getitem (self : InternalGear.t) (t_2 : R) :
  np.getitem (InternalGear.t_ self) 2 = Ok t_2 ->
  thick_fillet self <-> (InternalGear.rc self >= t_2)%R.
Proof.
  intros Hg. apply getitem_Ok in Hg as (k & Hk & Hl).
  apply index_Ok in Hk as [_ Hk]. specialize (Hk ltac:(lia)). subst k.
  change (Z.to_nat 2) with 2 in Hl. unfold thick_fillet. split.
  - intros (t' & Ht' & Hge). congruence.
  - intros Hge. eauto.
Qed.

(** C9, as the code has it.  The constructor solves a 3-unknown system
    once and stores the solution in [self.t].  [get_profile_points()]
    assigns no attribute other than [self.t]; when the test [rc >= t[2]]
    holds it leaves the whole instance unchanged; otherwise it solves the
    4-unknown system during the call and stores that solution, an array of
    4 numbers, in [self.t]. *)
Theorem C9_profile_assigns_only_t :
  (forall slv a od zc xc ig,
     InternalGear.__init__ slv a od zc xc = Ok ig ->
     length (InternalGear.t_ ig) = 3
     /\ InternalGear.t_ ig
        = fsolve slv
            (InternalGear.init_system (InternalGear.rb_cutter ig)
               (InternalGear.ra_cutter ig) (InternalGear.etab ig))
            [1; 0.75 * PI; 0.25 * Gear.m_n (InternalGear.base ig)]%R)
  /\ (forall slv fuel self pts self',
     InternalGear.get_profile_points slv fuel self = Ok (pts, self') ->
     InternalGear.set_t self' (InternalGear.t_ self) = self
     /\ (thick_fillet self -> self' = self)
     /\ (~ thick_fillet self ->
         InternalGear.t_ self' = fillet_solution slv self
         /\ length (InternalGear.t_ self') = 4)).
Proof.
  split.
  - intros slv a od zc xc ig Hig.
    pose proof (InternalGear_init_Ok _ _ _ _ _ _ Hig) as (_ & _ & _ & _ & Hl).
    split; [exact Hl|].
    unfold InternalGear.__init__ in Hig. inv_bind Hig as g Hg.
    destruct (decide (zc = 0%Z)); [discriminate|].
    injection Hig as <-. reflexivity.
  - intros slv fuel self pts self' Hp.
    destruct (internal_profile_spec slv fuel self self' pts Hp)
      as (t_2 & Ht2 & [(Hrc & -> & _) | (Hrc & -> & _)]);
      pose proof (thick_fillet_getitem self t_2 Ht2) as Hth.
    + split; [apply set_t_same|]. split; [reflexivity|].
      intros Hn. tauto.
    + split; [rewrite set_t_set_t; apply set_t_same|].
      split; [tauto|]. intros _. split; [reflexivity|].
      unfold fillet_solution. simpl. apply fsolve_shape.
Qed.

(** Both branches at the 60-tooth internal gear: with the cutter tip
    radius 0.76 the test [rc >= t[2]] holds for the guess solver and the
    instance is returned as it was. *)
Lemma C9_witness :
  exists ig, InternalGear.__init__ guess_solver internal_args 140 20 0 = Ok ig
    /\ length (InternalGear.t_ ig) = 3
    /\ exists fuel pts ig',
         InternalGear.get_profile_points guess_solver fuel ig = Ok (pts, ig')
         /\ ig' = ig.
Proof.
  destruct C9_profile_assigns_only_t as [Hinit Hprof].
  eexists. split; [reflexivity|].
  split; [apply (Hinit guess_solver internal_args 140%R 20%Z 0%R _ eq_refl)|].
  match goal with
  | |- context [InternalGear.get_profile_points _ _ ?ig] =>
      destruct (internal_profile_succeeds guess_solver ig)
        as (fuel & Hrun);
      [simpl; lia | simpl; lia | simpl; lia | simpl; lia
       | left; simpl; lia | simpl; lia |];
      destruct (Hrun fuel (Nat.le_refl _)) as (pts & ig' & Hp)
  end.
  exists fuel, pts, ig'. split; [exact Hp|].
  destruct (Hprof _ _ _ _ _ Hp) as (_ & Hthick & _).
  apply Hthick. exists (0.25 * 2)%R. split; [reflexivity|]. simpl. lra.
Defined.

(** C9 fails as stated: for the internal gear cut by a sharp-cornered tool
    ([rc = 0], below the fillet radius [t[2]]) the call of
    [get_profile_points()] replaces the 3 numbers the constructor stored in
    [self.t] by 4 other numbers. *)
Lemma C9_counterexample :
  exists ig,
    InternalGear.__init__ guess_solver sharp_internal_args 140 20 0 = Ok ig
    /\ length (InternalGear.t_ ig) = 3
    /\ exists fuel pts ig',
         InternalGear.get_profile_points guess_solver fuel ig = Ok (pts, ig')
         /\ length (InternalGear.t_ ig') = 4
         /\ InternalGear.t_ ig' <> InternalGear.t_ ig.
Proof.
  eexists. split; [reflexivity|]. split; [reflexivity|].
  match goal with
  | |- context [InternalGear.get_profile_points _ _ ?ig] =>
      destruct (internal_profile_succeeds guess_solver ig)
        as (fuel & Hrun);
      [simpl; lia | simpl; lia | simpl; lia | simpl; lia
       | left; simpl; lia | simpl; lia |];
      destruct (Hrun fuel (Nat.le_refl _)) as (pts & ig' & Hp)
  end.
  exists fuel, pts, ig'. split; [exact Hp|].
  destruct (internal_profile_spec _ _ _ _ _ Hp)
    as (t_2 & Ht2 & [(Hrc & _) | (_ & -> & _)]).
  - exfalso. injection Ht2 as <-. simpl in Hrc. lra.
  - split; [reflexivity|]. simpl. discriminate.
Qed.

End Frame.

(** Runs every indexing whose array is already known. *)
Ltac run_item :=
  match goal with
  | |- context [np.getitem ?l ?i ≫= _] =>
      let x := fresh "x" in
      let Hx := fresh "Hrun" in
      destruct (getitem_succeeds l i) as (x & Hx);
      [rewrite ?length_fmap; lia | rewrite Hx; rewrite ?bind_Ok_l]
  end.


(** ** Selection of the topology *)

Section Topology.
Local Open Scope nat_scope.

Lemma linspace_open_lookup (a b : R) (n : Z) (l : list R) (i : nat) :
  np.linspace_open a b n = Ok l -> i < length l ->
  l !! i = Some (a + IZR (Z.of_nat i) * ((b - a) / IZR n))%R.
Proof.
  unfold np.linspace_open. case_decide; [discriminate|].
  intros [= <-]. rewrite length_fmap, length_seqZ. intros Hi.
  rewrite list_lookup_fmap, lookup_seqZ_lt by lia. reflexivity.
Qed.

Lemma load_global_Ok (G : globals) (name : string) (v : pyval) :
  load_global G name = Ok v <-> G !! name = Some v.
Proof.
  unfold load_global. destruct (G !! name); split; congruence.
Qed.

(** The second rotation angle is one tooth pitch. *)
Lemma rotation_angles_pitch (z : pyval) (rot_phi : list R) (phi : R) :
  rotation_angles z = Ok rot_phi ->
  np.getitem rot_phi 1 = Ok phi ->
  isinstance_int z = true /\ (2 <= int_value z)%Z
  /\ length rot_phi = Z.to_nat (int_value z)
  /\ phi = (2 * PI / IZR (int_value z))%R.
Proof.
  unfold rotation_angles. destruct (isinstance_int z); [|discriminate].
  intros Hl Hg. pose proof (linspace_open_Ok _ _ _ _ Hl) as [Hz Hlen].
  apply getitem_Ok in Hg as (k & Hk & Hphi).
  apply index_Ok in Hk as [Hk1 Hk2]. specialize (Hk2 ltac:(lia)). subst k.
  change (Z.to_nat 1) with 1 in *.
  rewrite (linspace_open_lookup _ _ _ _ 1 Hl) in Hphi by lia.
  injection Hphi as <-.
  split; [reflexivity|]. split; [lia|]. split; [exact Hlen|].
  change (Z.of_nat 1) with 1%Z. unfold Rdiv. ring.
Qed.

Lemma tooth_geometry_Ok (slv : solver) (G : globals) (self : ExternalGear.t)
    (f : ExternalGear.frame) :
  ExternalGear.tooth_geometry slv G self = Ok f ->
  let n1 := Gear.n1 (ExternalGear.base self) in
  let n2 := Gear.n2 (ExternalGear.base self) in
  ExternalGear.get_profile_points slv self = Ok (ExternalGear.points f)
  /\ ExternalGear.points f !! 0 = Some (ExternalGear.kp_4 f)
  /\ ExternalGear.points f !! Z.to_nat (n1 + n2 + 1)
     = Some (ExternalGear.kp_1 f)
  /\ G !! "z" = Some (ExternalGear.z f)
  /\ rotation_angles (ExternalGear.z f) = Ok (ExternalGear.rot_phi f)
  /\ (2 <= int_value (ExternalGear.z f))%Z
  /\ ExternalGear.delta_angle f
     = Rabs (ExternalGear.angle1 f - ExternalGear.angle2 f)
  /\ ExternalGear.angle1 f
     = (let q := rotate (2 * PI / IZR (int_value (ExternalGear.z f)))
                   (drop_last_col (ExternalGear.kp_1 f)) in
        np.arctan2 q.2 q.1)
  /\ ExternalGear.angle2 f
     = np.arctan2 (col_y (ExternalGear.kp_4 f)) (col_x (ExternalGear.kp_4 f)).
Proof.
  intros Hf n1 n2. unfold ExternalGear.tooth_geometry in Hf.
  fold n1 n2 in Hf.
  inv_bind Hf as pts Hpts.
  pose proof (external_profile_spec _ _ _ Hpts) as (Hn1 & Hn2 & Hl & _).
  fold n1 n2 in Hn1, Hn2, Hl.
  inv_bind Hf as p_last Hlast.
  inv_bind Hf as p_first Hfirst.
  inv_bind Hf as theta Htheta.
  inv_bind Hf as kp1 Hkp1.
  inv_bind Hf as kp4 Hkp4.
  inv_bind Hf as kp2 Hkp2.
  inv_bind Hf as kp5 Hkp5.
  inv_bind Hf as kp3 Hkp3.
  inv_bind Hf as kp6 Hkp6.
  inv_bind Hf as x_f0 Hx_f0.
  inv_bind Hf as y_f0 Hy_f0.
  inv_bind Hf as x_fl Hx_fl.
  inv_bind Hf as y_fl Hy_fl.
  destruct (Req_dec_T _ 0); [discriminate|].
  inv_bind Hf as z Hz.
  inv_bind Hf as rot_phi Hrot.
  inv_bind Hf as phi Hphi.
  injection Hf as <-. simpl.
  pose proof (rotation_angles_pitch _ _ _ Hrot Hphi) as (_ & Hz2 & _ & ->).
  apply getitem_Ok in Hkp4 as (k & Hk & Hkp4).
  apply index_Ok in Hk as [_ Hk]. specialize (Hk ltac:(lia)). subst k.
  apply getitem_Ok in Hkp1 as (k & Hk & Hkp1).
  apply index_Ok in Hk as [_ Hk]. specialize (Hk ltac:(lia)). subst k.
  apply load_global_Ok in Hz.
  repeat split; auto.
Qed.

Lemma rotation_angles_succeeds (z : pyval) :
  isinstance_int z = true -> (0 <= int_value z)%Z ->
  exists rot_phi, rotation_angles z = Ok rot_phi
                  /\ length rot_phi = Z.to_nat (int_value z).
Proof.
  intros Hi Hz. unfold rotation_angles. rewrite Hi.
  apply linspace_open_succeeds. exact Hz.
Qed.

Lemma tooth_geometry_succeeds (slv : solver) (G : globals)
    (self : ExternalGear.t) (zv : pyval) :
  let g := ExternalGear.base self in
  (0 <= Gear.n1 g)%Z -> (0 <= Gear.n2 g)%Z ->
  (IZR (Gear.n1 g) * 1.236 + IZR (Gear.n2 g) * 0.618 + IZR (Gear.n3 g)
   <> 0)%R ->
  G !! "z" = Some zv -> isinstance_int zv = true -> (2 <= int_value zv)%Z ->
  exists f, ExternalGear.tooth_geometry slv G self = Ok f.
Proof.
  intros g Hn1 Hn2 Hn Hz Hi Hz2.
  destruct (external_profile_succeeds slv self) as [pts Hp];
    [exact Hn1 | fold g; lia |].
  pose proof (external_profile_spec _ _ _ Hp) as (_ & _ & Hl & _).
  fold g in Hl.
  unfold ExternalGear.tooth_geometry. fold g. rewrite Hp, bind_Ok_l.
  set (n1 := Gear.n1 g) in *. set (n2 := Gear.n2 g) in *.
  repeat run_item.
  run_linspace.
  repeat run_item.
  destruct (Req_dec_T _ 0); [contradiction|].
  apply load_global_Ok in Hz. rewrite Hz, bind_Ok_l.
  destruct (rotation_angles_succeeds zv Hi ltac:(lia)) as (rot & -> & Hlr).
  rewrite bind_Ok_l.
  repeat run_item. eauto.
Qed.

(** [generate_mesh] of an external gear with at least one transition
    segment takes the reduced (12 key point) topology exactly when the
    polar angle of the mirror image of the first transition sample,
    turned by [rot_phi[1] = 2 * pi / z], differs from the polar angle of
    that sample by less than [1e-12] in absolute value, and the normal
    (16 key point) topology otherwise.  [z] is the module global that the
    method reads. *)
Lemma topology_selection (slv : solver) (gen : mesh_generator)
    (G : globals) (self : ExternalGear.t) (f : ExternalGear.frame) :
  (0 <= Gear.n2 (ExternalGear.base self))%Z ->
  ExternalGear.tooth_geometry slv G self = Ok f ->
  let P := ExternalGear.transition_point self (1.5 * PI) in
  let pitch := (2 * PI / IZR (int_value (ExternalGear.z f)))%R in
  let Q := rotate pitch (- P.1, P.2)%R in
  let delta := Rabs (np.arctan2 Q.2 Q.1 - np.arctan2 P.2 P.1) in
  G !! "z" = Some (ExternalGear.z f)
  /\ ((delta < 1e-12)%R ->
      ExternalGear.select_topology f = ExternalGear.Reduced
      /\ ExternalGear.generate_mesh slv gen G self
         = (m ← ExternalGear.mesh_reduced gen self f;
            Ok (m, ExternalGear.set_mesh self m)))
  /\ (~ (delta < 1e-12)%R ->
      ExternalGear.select_topology f = ExternalGear.Normal
      /\ ExternalGear.generate_mesh slv gen G self
         = (m ← ExternalGear.mesh_normal gen self f;
            Ok (m, ExternalGear.set_mesh self m))).
Proof.
  intros Hn2 Hf P pitch Q delta.
  pose proof (tooth_geometry_Ok _ _ _ _ Hf)
    as (Hpts & Hk4 & Hk1 & Hz & _ & _ & Hd & Ha1 & Ha2).
  pose proof (external_profile_spec _ _ _ Hpts) as (Hn1 & _ & Hl & Hm & Ht).
  set (h := Z.to_nat (Gear.n1 (ExternalGear.base self)
                      + Gear.n2 (ExternalGear.base self) + 1)) in *.
  assert (drop_last_col (ExternalGear.kp_4 f) = P) as HP.
  { specialize (Ht 0 ltac:(lia)).
    rewrite (lookup_total_Some _ _ _ Hk4) in Ht. rewrite Ht.
    unfold P, transition_parameter. f_equal.
    change (Z.of_nat 0) with 0%Z. lra. }
  assert (drop_last_col (ExternalGear.kp_1 f) = (- P.1, P.2)%R) as HM.
  { destruct (Hm 0 ltac:(lia)) as [Hx Hy].
    rewrite Nat.add_0_r in Hx, Hy.
    rewrite (lookup_total_Some _ _ _ Hk4) in Hx, Hy.
    rewrite (lookup_total_Some _ _ _ Hk1) in Hx, Hy.
    rewrite <- HP. destruct (ExternalGear.kp_1 f) as [[x y] w].
    destruct (ExternalGear.kp_4 f) as [[x' y'] w'].
    unfold col_x, col_y in *. simpl in *. congruence. }
  assert (ExternalGear.delta_angle f = delta) as Hdelta.
  { rewrite Hd, Ha1, Ha2, HM. unfold delta, Q, pitch.
    rewrite <- HP. destruct (ExternalGear.kp_4 f) as [[x' y'] w'].
    reflexivity. }
  split; [exact Hz|].
  unfold ExternalGear.generate_mesh, ExternalGear.select_topology.
  rewrite Hf, bind_Ok_l, Hdelta.
  split; intros Hlt; destruct (Rlt_dec delta 1e-12); try contradiction;
    split; reflexivity.
Qed.

(** The name [z] is looked up when the rotation angles are computed,
    after the profile and the key points: what [generate_mesh] raises
    depends on the module global. *)
Lemma tooth_geometry_global (slv : solver) (G : globals)
    (self : ExternalGear.t) :
  let g := ExternalGear.base self in
  (0 <= Gear.n1 g)%Z -> (0 <= Gear.n2 g)%Z ->
  (IZR (Gear.n1 g) * 1.236 + IZR (Gear.n2 g) * 0.618 + IZR (Gear.n3 g)
   <> 0)%R ->
  (G !! "z" = None ->
   ExternalGear.tooth_geometry slv G self = Raise (NameError "z"))
  /\ (forall zv, G !! "z" = Some zv ->
        (isinstance_int zv = false ->
         ExternalGear.tooth_geometry slv G self = Raise TypeError)
        /\ (isinstance_int zv = true -> (int_value zv < 0)%Z ->
            ExternalGear.tooth_geometry slv G self = Raise ValueError)
        /\ (isinstance_int zv = true -> (0 <= int_value zv < 2)%Z ->
            ExternalGear.tooth_geometry slv G self = Raise IndexError)).
Proof.
  intros g Hn1 Hn2 Hn.
  destruct (external_profile_succeeds slv self) as [pts Hp];
    [exact Hn1 | fold g; lia |].
  pose proof (external_profile_spec _ _ _ Hp) as (_ & _ & Hl & _).
  fold g in Hl.
  unfold ExternalGear.tooth_geometry. fold g. rewrite Hp, bind_Ok_l.
  set (n1 := Gear.n1 g) in *. set (n2 := Gear.n2 g) in *.
  repeat run_item.
  run_linspace.
  repeat run_item.
  destruct (Req_dec_T _ 0); [contradiction|].
  unfold load_global. split.
  - intros ->. reflexivity.
  - intros zv ->. rewrite bind_Ok_l. unfold rotation_angles.
    split; [intros ->; reflexivity|].
    split; intros -> Hz.
    + unfold np.linspace_open.
      destruct (decide (int_value zv < 0)%Z); [reflexivity | lia].
    + destruct (linspace_open_succeeds 0 (2 * PI) (int_value zv))
        as (rot & -> & Hrot); [lia|].
      rewrite bind_Ok_l. unfold np.getitem, np.index.
      rewrite Hrot.
      destruct (decide (0 <= 1 < Z.of_nat (Z.to_nat (int_value zv)))%Z);
        [lia|].
      destruct (decide (- Z.of_nat (Z.to_nat (int_value zv)) <= 1 < 0)%Z);
        [lia|].
      reflexivity.
Qed.

End Topology.

(** ** The tooth pitch in [ExternalGear.generate_mesh] (C7) *)

Section GlobalPitch.

(** The first transition sample in polar form: it lies on the circle of
    radius [r - ha_cutter + m_n * x_t] (the root circle). *)
Lemma transition_start (self : ExternalGear.t) :
  let g := ExternalGear.base self in
  let x0 := - PI * Gear.m_n g / 2
            + (PI * Gear.m_n g / 4
               - ExternalGear.ha_cutter self * tan (Gear.alpha_t g)
               - ExternalGear.rc self
                 * tan (0.25 * PI - 0.5 * Gear.alpha_t g)) in
  let rho := Gear.r g - ExternalGear.ha_cutter self
             + Gear.m_n g * Gear.x_t g in
  let phi := x0 / (Gear.r g * cos (Gear.beta g)) in
  cos (Gear.beta g) <> 0 -> Gear.r g <> 0 ->
  ExternalGear.transition_point self (1.5 * PI)
  = (rho * sin phi, rho * cos phi).
Proof.
  intros g x0 rho phi Hb Hr. unfold ExternalGear.transition_point.
  fold g. replace (1.5 * PI) with (3 * (PI / 2)) by lra.
  rewrite sin_3PI2, cos_3PI2. fold x0.
  set (rc := ExternalGear.rc self).
  set (y0 := - (ExternalGear.ha_cutter self - rc)
             + Gear.m_n g * Gear.x_t g).
  replace ((x0 * -1 + rc * 0 * -1 - y0 * cos (Gear.beta g) ^ 2 * 0
            - rc * cos (Gear.beta g) ^ 2 * 0 * -1)
           / (Gear.r g * cos (Gear.beta g) * -1))
    with phi by (unfold phi; field; split; assumption).
  assert (phi * Gear.r g = x0 / cos (Gear.beta g)) as Hphi
    by (unfold phi; field; split; assumption).
  f_equal.
  - replace (Gear.r g * sin phi + sin phi * (y0 + rc * -1)
             - phi * Gear.r g * cos phi
             + cos phi * (x0 + rc * 0) / cos (Gear.beta g))
      with ((Gear.r g + y0 - rc) * sin phi
            + cos phi * (x0 / cos (Gear.beta g) - phi * Gear.r g))
      by (field; assumption).
    rewrite Hphi. unfold rho, y0. ring.
  - replace (Gear.r g * cos phi + cos phi * (y0 + rc * -1)
             + phi * Gear.r g * sin phi
             - sin phi * (x0 + rc * 0) / cos (Gear.beta g))
      with ((Gear.r g + y0 - rc) * cos phi
            - sin phi * (x0 / cos (Gear.beta g) - phi * Gear.r g))
      by (field; assumption).
    rewrite Hphi. unfold rho, y0. ring.
Qed.

(** [arctan2] of a point of the second quadrant given in polar form
    about the y axis. *)
Lemma arctan2_left_of_axis (rho u : R) :
  0 < rho -> 0 < u < PI / 2 ->
  np.arctan2 (rho * cos u) (- (rho * sin u)) = PI / 2 + u.
Proof.
  intros Hrho [Hu1 Hu2].
  assert (0 < sin u) as Hs by (apply sin_gt_0; lra).
  assert (0 < cos u) as Hc by (apply cos_gt_0; lra).
  assert (0 < rho * sin u) as Hx by (apply Rmult_lt_0_compat; assumption).
  assert (0 < rho * cos u) as Hy by (apply Rmult_lt_0_compat; assumption).
  unfold np.arctan2.
  destruct (Rlt_dec 0 (- (rho * sin u))); [lra|].
  destruct (Rlt_dec (- (rho * sin u)) 0); [|lra].
  destruct (Rle_dec 0 (rho * cos u)); [|lra].
  replace (rho * cos u / - (rho * sin u)) with (- tan (PI / 2 - u)).
  - rewrite atan_opp, atan_tan by lra. lra.
  - unfold tan. rewrite sin_shift, cos_shift. field. split; lra.
Qed.

Lemma arctan2_on_axis (rho : R) : 0 < rho -> np.arctan2 rho 0 = PI / 2.
Proof.
  intros Hrho. unfold np.arctan2.
  destruct (Rlt_dec 0 0); [lra|].
  destruct (Rlt_dec 0 rho); [reflexivity | lra].
Qed.

(** *** The gear cut by a tool with a full tip radius *)

Lemma tan_35_degrees : 0 < tan (PI / 4 - PI / 18).
Proof. pose proof PI_RGT_0. apply tan_gt_0; lra. Qed.

Lemma full_fillet_init :
  ExternalGear.__init__ full_fillet_args 0 30 = Ok full_fillet_gear.
Proof.
  unfold ExternalGear.__init__, Gear.__init__, full_fillet_args. simpl.
  rewrite std_normalize_beta, std_normalize_alpha, cos_0, atan_tan_PI_9.
  unfold full_fillet_gear. f_equal.
  f_equal; [f_equal|..]; lra.
Qed.

(** The two root fillets of neighbouring teeth meet: the profile starts
    on the line between two teeth, half a pitch ([pi / 20]) left of the
    tooth axis, on the root circle of radius 17.5. *)
Lemma full_fillet_start :
  ExternalGear.transition_point full_fillet_gear (1.5 * PI)
  = (- (17.5 * sin (PI / 20)), 17.5 * cos (PI / 20)).
Proof.
  rewrite transition_start; simpl; rewrite ?cos_0; try lra.
  pose proof tan_35_degrees as Ht.
  replace (0.25 * PI - 0.5 * (PI / 9)) with (PI / 4 - PI / 18) by lra.
  set (T := tan (PI / 4 - PI / 18)) in *.
  replace ((- PI * 2 / 2
            + (PI * 2 / 4 - 2.5 * tan (PI / 9) - 2 * full_fillet_rcc * T))
           / (20 * 1))
    with (- (PI / 20)).
  - rewrite sin_neg, cos_neg. f_equal; lra.
  - unfold full_fillet_rcc. fold T.
    replace (2 * ((PI / 4 - 1.25 * tan (PI / 9)) / T) * T)
      with (2 * (PI / 4 - 1.25 * tan (PI / 9))) by (field; lra).
    lra.
Qed.

(** Turned by the pitch of 20 teeth, the mirror image of that point is
    the point itself. *)
Lemma full_fillet_own_pitch (u : R) :
  let a := 2 * u in
  cos a * - - (17.5 * sin u) - sin a * (17.5 * cos u) = - (17.5 * sin u)
  /\ sin a * - - (17.5 * sin u) + cos a * (17.5 * cos u) = 17.5 * cos u.
Proof.
  intros a. unfold a. rewrite sin_2a, cos_2a.
  pose proof (sin2_cos2 u) as H. unfold Rsqr in H.
  split.
  - replace ((cos u * cos u - sin u * sin u) * - - (17.5 * sin u)
             - 2 * sin u * cos u * (17.5 * cos u))
      with (- (17.5 * sin u) * (sin u * sin u + cos u * cos u)) by ring.
    rewrite H. ring.
  - replace (2 * sin u * cos u * - - (17.5 * sin u)
             + (cos u * cos u - sin u * sin u) * (17.5 * cos u))
      with (17.5 * cos u * (sin u * sin u + cos u * cos u)) by ring.
    rewrite H. ring.
Qed.

(** Turned by half of it, the mirror image lies on the tooth axis. *)
Lemma full_fillet_half_pitch (u : R) :
  cos u * - - (17.5 * sin u) - sin u * (17.5 * cos u) = 0
  /\ sin u * - - (17.5 * sin u) + cos u * (17.5 * cos u) = 17.5.
Proof.
  pose proof (sin2_cos2 u) as H. unfold Rsqr in H.
  split; [ring|].
  replace (sin u * - - (17.5 * sin u) + cos u * (17.5 * cos u))
    with (17.5 * (sin u * sin u + cos u * cos u)) by ring.
  rewrite H. ring.
Qed.

Lemma full_fillet_geometry (slv : solver) (z : Z) :
  (2 <= z)%Z ->
  exists f,
    ExternalGear.tooth_geometry slv (<["z" := PyInt z]> ∅) full_fillet_gear
    = Ok f
    /\ ExternalGear.z f = PyInt z.
Proof.
  intros Hz.
  destruct (tooth_geometry_succeeds slv (<["z" := PyInt z]> ∅)
              full_fillet_gear (PyInt z)) as [f Hf].
  - simpl. lia.
  - simpl. lia.
  - simpl. lra.
  - apply lookup_insert_eq.
  - reflexivity.
  - exact Hz.
  - exists f. split; [exact Hf|].
    pose proof (tooth_geometry_Ok _ _ _ _ Hf) as (_ & _ & _ & HG & _).
    rewrite lookup_insert_eq in HG. congruence.
Qed.

(** C7.  The angle by which [ExternalGear.generate_mesh] turns the mirror
    image of the first transition sample before it compares the polar
    angles is one pitch of the module global [z] (the free name of line
    288), not of the gear's own tooth count.  For the 20-tooth gear cut by
    a tool with a full tip radius, turning by the gear's own pitch
    [2 * pi / 20] brings the mirror image onto the sample itself: the
    angles differ by 0, less than [1e-12].  The method takes the reduced
    topology where the module global [z] is 20; where it is 40 the
    compared angles differ by [pi / 20] and the method takes the normal
    topology; where the module defines no [z] it raises [NameError] and
    takes neither. *)
Theorem C7_pitch_read_from_global_z (slv : solver) (gen : mesh_generator) :
  let self := full_fillet_gear in
  let P := ExternalGear.transition_point self (1.5 * PI) in
  let pitch := 2 * PI / IZR (Gear.z (ExternalGear.base self)) in
  let Q := (cos pitch * - P.1 - sin pitch * P.2,
            sin pitch * - P.1 + cos pitch * P.2) in
  let run (G : globals) (top : ExternalGear.topology)
          (branch : ExternalGear.frame -> result QuadrangleMesh) :=
    exists f,
      ExternalGear.tooth_geometry slv G self = Ok f
      /\ ExternalGear.select_topology f = top
      /\ ExternalGear.generate_mesh slv gen G self
         = (m ← branch f; Ok (m, ExternalGear.set_mesh self m)) in
  ExternalGear.__init__ full_fillet_args 0 30 = Ok self
  /\ Gear.z (ExternalGear.base self) = 20%Z
  /\ Rabs (np.arctan2 Q.2 Q.1 - np.arctan2 P.2 P.1) < 1e-12
  /\ run (<["z" := PyInt 20]> ∅) ExternalGear.Reduced
         (ExternalGear.mesh_reduced gen self)
  /\ run (<["z" := PyInt 40]> ∅) ExternalGear.Normal
         (ExternalGear.mesh_normal gen self)
  /\ ExternalGear.generate_mesh slv gen ∅ self = Raise (NameError "z").
Proof.
  intros self P pitch Q run.
  pose proof PI_gt_3 as Hpi. pose proof PI_4 as Hpi4.
  assert (P = (- (17.5 * sin (PI / 20)), 17.5 * cos (PI / 20))) as HP
    by apply full_fillet_start.
  split; [apply full_fillet_init|]. split; [reflexivity|].
  split; [|split; [|split]].
  - unfold Q, pitch. rewrite HP. cbn [fst snd self full_fillet_gear
      ExternalGear.base Gear.z].
    replace (2 * PI / 20) with (2 * (PI / 20)) by lra.
    destruct (full_fillet_own_pitch (PI / 20)) as [-> ->].
    rewrite Rminus_diag, Rabs_R0. lra.
  - destruct (full_fillet_geometry slv 20 ltac:(lia)) as (f & Hf & Hz).
    exists f. split; [exact Hf|].
    destruct (topology_selection slv gen _ self f ltac:(simpl; lia) Hf)
      as (_ & Hred & _).
    apply Hred. fold P. rewrite Hz, HP. cbn [fst snd int_value].
    unfold rotate. cbn [fst snd].
    replace (2 * PI / 20) with (2 * (PI / 20)) by lra.
    destruct (full_fillet_own_pitch (PI / 20)) as [-> ->].
    rewrite Rminus_diag, Rabs_R0. lra.
  - destruct (full_fillet_geometry slv 40 ltac:(lia)) as (f & Hf & Hz).
    exists f. split; [exact Hf|].
    destruct (topology_selection slv gen _ self f ltac:(simpl; lia) Hf)
      as (_ & _ & Hnorm).
    apply Hnorm. fold P. rewrite Hz, HP. cbn [fst snd int_value].
    unfold rotate. cbn [fst snd].
    replace (2 * PI / 40) with (PI / 20) by lra.
    destruct (full_fillet_half_pitch (PI / 20)) as [-> ->].
    rewrite arctan2_on_axis by lra.
    rewrite arctan2_left_of_axis by lra.
    replace (PI / 2 - (PI / 2 + PI / 20)) with (- (PI / 20)) by lra.
    rewrite Rabs_Ropp, Rabs_pos_eq by lra. lra.
  - destruct (tooth_geometry_global slv ∅ self) as [Hnone _].
    + simpl. lia.
    + simpl. lia.
    + simpl. lra.
    + unfold ExternalGear.generate_mesh. rewrite (Hnone eq_refl).
      reflexivity.
Qed.

End GlobalPitch.


(** ** The unbound name in [InternalGear.generate_mesh] (C3) *)

Section UnboundName.
Local Open Scope nat_scope.

Lemma rim_key_points_unbound (G : globals) (self : InternalGear.t) :
  G !! "outer_diam" = None ->
  InternalGear.rim_key_points G self
  = Raise (if decide (Gear.z (InternalGear.base self) = 0%Z)
           then ZeroDivisionError else NameError "outer_diam").
Proof.
  intros HG. unfold InternalGear.rim_key_points, load_global.
  case_decide; [reflexivity|]. rewrite HG. reflexivity.
Qed.

Lemma mesh_thick_unbound (gen : mesh_generator) (G : globals)
    (self : InternalGear.t) (points : list vec3) :
  G !! "outer_diam" = None ->
  InternalGear.mesh_thick gen G self points
  = Raise (if decide (Gear.z (InternalGear.base self) = 0%Z)
           then ZeroDivisionError else NameError "outer_diam").
Proof.
  intros HG. unfold InternalGear.mesh_thick.
  rewrite (rim_key_points_unbound G self HG). reflexivity.
Qed.

Lemma mesh_thin_unbound (gen : mesh_generator) (G : globals)
    (self : InternalGear.t) (points : list vec3) :
  G !! "outer_diam" = None ->
  InternalGear.mesh_thin gen G self points
  = Raise (if decide (Gear.z (InternalGear.base self) = 0%Z)
           then ZeroDivisionError else NameError "outer_diam").
Proof.
  intros HG. unfold InternalGear.mesh_thin.
  rewrite (rim_key_points_unbound G self HG). reflexivity.
Qed.

(** [get_profile_points] does not change the tooth count. *)
Lemma internal_profile_base (slv : solver) (fuel : nat)
    (self self' : InternalGear.t) (pts : list vec3) :
  InternalGear.get_profile_points slv fuel self = Ok (pts, self') ->
  InternalGear.base self' = InternalGear.base self.
Proof.
  intros Hp.
  destruct (internal_profile_spec _ _ _ _ _ Hp)
    as (t_2 & _ & [(_ & -> & _) | (_ & -> & _)]); reflexivity.
Qed.

(** *** No statement before the key points raises [NameError] *)

Lemma no_name_error_bind {A B} (m : result A) (k : A -> result B) :
  no_name_error m -> (forall x, no_name_error (k x)) ->
  no_name_error (m ≫= k).
Proof.
  intros Hm Hk name. destruct m as [x|e]; [apply Hk|].
  intros H. apply (Hm name). injection H as ->. reflexivity.
Qed.

Lemma index_no_name_error (len : nat) (i : Z) : no_name_error (np.index len i).
Proof. intros name. unfold np.index. repeat case_decide; discriminate. Qed.

Lemma getitem_no_name_error {A} (l : list A) (i : Z) :
  no_name_error (np.getitem l i).
Proof.
  unfold np.getitem. apply no_name_error_bind; [apply index_no_name_error|].
  intros k name. destruct (l !! k); discriminate.
Qed.

Lemma setitem_no_name_error {A B} (put : B -> A -> A) (i : Z) (x : B)
    (l : list A) :
  no_name_error (np.setitem put i x l).
Proof.
  unfold np.setitem. apply no_name_error_bind; [apply index_no_name_error|].
  intros k name. discriminate.
Qed.

Lemma slice_assign_no_name_error {A B} (put : B -> A -> A) (a : Z)
    (b : option Z) (v : list B) (l : list A) :
  no_name_error (np.slice_assign put a b v l).
Proof.
  intros name. unfold np.slice_assign. case_decide; [discriminate|].
  destruct v as [|x [|y v]]; discriminate.
Qed.

Lemma zeros3_no_name_error (n : Z) : no_name_error (np.zeros3 n).
Proof. intros name. unfold np.zeros3. case_decide; discriminate. Qed.

Lemma linspace_open_no_name_error (a b : R) (n : Z) :
  no_name_error (np.linspace_open a b n).
Proof. intros name. unfold np.linspace_open. case_decide; discriminate. Qed.

Lemma ainv_no_name_error (fuel : nat) (x : R) :
  no_name_error (InternalGear.ainv fuel x).
Proof.
  unfold InternalGear.ainv. generalize 0%R (atan x). intros temp alpha name.
  revert temp alpha.
  induction fuel as [|fuel IH]; intros temp alpha; simpl;
    destruct (Rgt_dec _ _); try discriminate.
  apply IH.
Qed.

Lemma transition_points_no_name_error (slv : solver) (E x0 y0 rc ratio : R)
    (t : list R) :
  no_name_error (InternalGear.get_transition_points slv E x0 y0 rc ratio t).
Proof.
  destruct (internal_transition_succeeds slv E x0 y0 rc ratio t)
    as (tp & -> & _).
  intros name. discriminate.
Qed.

Lemma involute_points_no_name_error (self : InternalGear.t) (t : list R) :
  no_name_error (InternalGear.get_involute_points self t).
Proof.
  intros name. unfold InternalGear.get_involute_points.
  case_decide; discriminate.
Qed.

Lemma solve_tip_radius_no_name_error (slv : solver) (self : InternalGear.t)
    (target : R) :
  no_name_error (InternalGear.solve_tip_radius slv self target).
Proof.
  unfold InternalGear.solve_tip_radius.
  apply no_name_error_bind; [apply involute_points_no_name_error|].
  intros _. unfold fsolve_scalar. apply getitem_no_name_error.
Qed.

Lemma mirror_reversed_no_name_error (h : Z) (points : list vec3) :
  no_name_error (InternalGear.mirror_reversed h points).
Proof.
  unfold InternalGear.mirror_reversed.
  apply no_name_error_bind; [apply slice_assign_no_name_error|].
  intros p. apply slice_assign_no_name_error.
Qed.

(** Goes through a method body statement by statement. *)
Ltac no_name_error_step :=
  match goal with
  | |- no_name_error (_ ≫= _) => apply no_name_error_bind; [|intros ?]
  | |- no_name_error (Ok _) => intros ? ?; discriminate
  | |- no_name_error (Raise _) => intros ? ?; discriminate
  | |- no_name_error (if ?c then _ else _) => destruct c
  | |- no_name_error (np.getitem _ _) => apply getitem_no_name_error
  | |- no_name_error (np.setitem _ _ _ _) => apply setitem_no_name_error
  | |- no_name_error (np.slice_assign _ _ _ _ _) =>
      apply slice_assign_no_name_error
  | |- no_name_error (np.zeros3 _) => apply zeros3_no_name_error
  | |- no_name_error (np.linspace_open _ _ _) =>
      apply linspace_open_no_name_error
  | |- no_name_error (InternalGear.ainv _ _) => apply ainv_no_name_error
  | |- no_name_error (InternalGear.get_transition_points _ _ _ _ _ _ _) =>
      apply transition_points_no_name_error
  | |- no_name_error (InternalGear.get_involute_points _ _) =>
      apply involute_points_no_name_error
  | |- no_name_error (InternalGear.solve_tip_radius _ _ _) =>
      apply solve_tip_radius_no_name_error
  | |- no_name_error (InternalGear.mirror_reversed _ _) =>
      apply mirror_reversed_no_name_error
  end.

Lemma internal_profile_no_name_error (slv : solver) (fuel : nat)
    (self : InternalGear.t) :
  no_name_error (InternalGear.get_profile_points slv fuel self).
Proof.
  unfold InternalGear.get_profile_points. repeat no_name_error_step.
Qed.

(** What a call of [get_profile_points] that returned says of the
    instance. *)
Lemma internal_profile_Ok_instance (slv : solver) (fuel : nat)
    (self self' : InternalGear.t) (pts : list vec3) :
  InternalGear.get_profile_points slv fuel self = Ok (pts, self') ->
  let g := InternalGear.base self in
  Gear.z g <> 0%Z /\ InternalGear.z_cutter self <> 0%Z
  /\ (0 <= Gear.n1 g)%Z /\ (0 <= Gear.n2 g)%Z
  /\ ((1 <= Gear.nf g)%Z \/ thick_fillet self)
  /\ 3 <= length (InternalGear.t_ self).
Proof.
  intros Hp g. unfold InternalGear.get_profile_points in Hp.
  fold g in Hp.
  destruct (decide (InternalGear.z_cutter self = 0%Z)) as [|Hzc];
    [discriminate|].
  inv_bind Hp as alphawt Halpha.
  inv_bind Hp as t_2 Ht_2.
  apply getitem_Ok in Ht_2 as (k & Hk & Ht_2).
  apply index_Ok in Hk as [_ Hk]. specialize (Hk ltac:(lia)). subst k.
  pose proof (lookup_lt_Some _ _ _ Ht_2) as Hlen.
  change (Z.to_nat 2) with 2 in *.
  assert (forall target t, InternalGear.solve_tip_radius slv self target = Ok t
                           -> Gear.z g <> 0%Z) as Hsolve.
  { intros target t. unfold InternalGear.solve_tip_radius,
      InternalGear.get_involute_points. fold g.
    case_decide; [discriminate | auto]. }
  destruct (Rge_dec (InternalGear.rc self) t_2) as [Hrc|Hrc].
  - inv_bind Hp as p0 Hp0.
    inv_bind Hp as t_1 Ht_1.
    inv_bind Hp as tt Htt. apply linspace_open_Ok in Htt as [Hn2 _].
    inv_bind Hp as tp Htp.
    inv_bind Hp as p1 Hp1.
    inv_bind Hp as p2 Hp2.
    inv_bind Hp as p3 Hp3.
    inv_bind Hp as q Hq.
    inv_bind Hp as t2 Ht2. apply Hsolve in Ht2.
    inv_bind Hp as t1 Ht1.
    inv_bind Hp as ti Hti. apply linspace_open_Ok in Hti as [Hn1 _].
    repeat split; try assumption; try lia.
    right. exists t_2. split; assumption.
  - inv_bind Hp as p0 Hp0.
    inv_bind Hp as x0 Hx0.
    inv_bind Hp as y0 Hy0.
    inv_bind Hp as t4 Ht4.
    inv_bind Hp as tt Htt. apply linspace_open_Ok in Htt as [Hn2 _].
    inv_bind Hp as tp Htp.
    inv_bind Hp as p1 Hp1.
    inv_bind Hp as tt2 Htt2. apply linspace_open_Ok in Htt2 as [Hnf _].
    inv_bind Hp as tp2 Htp2.
    inv_bind Hp as p1' Hp1'.
    inv_bind Hp as p2 Hp2.
    inv_bind Hp as p3 Hp3.
    inv_bind Hp as q Hq.
    inv_bind Hp as t2 Ht2. apply Hsolve in Ht2.
    inv_bind Hp as t1 Ht1.
    inv_bind Hp as ti Hti. apply linspace_open_Ok in Hti as [Hn1 _].
    repeat split; try assumption; lia.
Qed.

(** Where [outer_diam] is not defined, a [NameError] of [generate_mesh]
    is the one for [outer_diam], and the profile had been computed. *)
Lemma generate_mesh_name_error (slv : solver) (fuel : nat)
    (gen : mesh_generator) (G : globals) (self : InternalGear.t)
    (name : string) :
  G !! "outer_diam" = None ->
  InternalGear.generate_mesh slv fuel gen G self = Raise (NameError name) ->
  let g := InternalGear.base self in
  name = "outer_diam"
  /\ Gear.z g <> 0%Z /\ InternalGear.z_cutter self <> 0%Z
  /\ (0 <= Gear.n1 g)%Z /\ (0 <= Gear.n2 g)%Z
  /\ ((1 <= Gear.nf g)%Z \/ thick_fillet self)
  /\ 3 <= length (InternalGear.t_ self).
Proof.
  intros HG H g. unfold InternalGear.generate_mesh in H.
  destruct (np.getitem (InternalGear.t_ self) 2) as [t_2|e] eqn:Ht2;
    [|exfalso; injection H as ->;
      exact (getitem_no_name_error _ _ _ Ht2)].
  rewrite bind_Ok_l in H.
  assert (forall pts self',
            InternalGear.get_profile_points slv fuel self = Ok (pts, self') ->
            (if decide (Gear.z (InternalGear.base self') = 0%Z)
             then ZeroDivisionError else NameError "outer_diam")
            = NameError name ->
            name = "outer_diam"
            /\ Gear.z g <> 0%Z /\ InternalGear.z_cutter self <> 0%Z
            /\ (0 <= Gear.n1 g)%Z /\ (0 <= Gear.n2 g)%Z
            /\ ((1 <= Gear.nf g)%Z \/ thick_fillet self)
            /\ 3 <= length (InternalGear.t_ self)) as Hend.
  { intros pts self' Hp He.
    split; [case_decide; [discriminate | congruence]|].
    exact (internal_profile_Ok_instance _ _ _ _ _ Hp). }
  destruct (Rge_dec _ _);
    (destruct (InternalGear.get_profile_points slv fuel self)
       as [[pts self']|e] eqn:Hp;
     [|exfalso; injection H as ->;
       exact (internal_profile_no_name_error _ _ _ _ Hp)]);
    rewrite bind_Ok_l in H.
  - rewrite mesh_thick_unbound in H by exact HG.
    injection H as H. exact (Hend pts self' eq_refl H).
  - rewrite mesh_thin_unbound in H by exact HG.
    injection H as H. exact (Hend pts self' eq_refl H).
Qed.

(** With the tooth count 0 the involute cannot be sampled:
    [get_involute_points] divides by [z]. *)
Lemma internal_profile_zero_teeth (slv : solver) (self : InternalGear.t) :
  let g := InternalGear.base self in
  Gear.z g = 0%Z -> InternalGear.z_cutter self <> 0%Z ->
  (0 <= Gear.n1 g)%Z -> (0 <= Gear.n2 g)%Z ->
  (1 <= Gear.nf g)%Z \/ thick_fillet self ->
  3 <= length (InternalGear.t_ self) ->
  exists fuel0, forall fuel, fuel0 <= fuel ->
    InternalGear.get_profile_points slv fuel self = Raise ZeroDivisionError.
Proof.
  intros g Hz Hzc Hn1 Hn2 Hnf Ht.
  unfold InternalGear.get_profile_points. fold g.
  set (n1 := Gear.n1 g) in *. set (n2 := Gear.n2 g) in *.
  set (nf := Gear.nf g) in *.
  case_decide; [contradiction|].
  match goal with
  | |- context [InternalGear.ainv _ ?x] =>
      destruct (ainv_terminates x) as (fuel0 & alphawt & Ha)
  end.
  exists fuel0. intros fuel Hf. rewrite (Ha fuel Hf), bind_Ok_l.
  destruct (lookup_lt_is_Some_2 (InternalGear.t_ self) 2 ltac:(lia))
    as [t_2 Ht2].
  rewrite (getitem_inside _ 2 t_2 ltac:(lia) Ht2), bind_Ok_l.
  assert (forall target,
            InternalGear.solve_tip_radius slv self target
            = Raise ZeroDivisionError) as Hsolve.
  { intros target. unfold InternalGear.solve_tip_radius,
      InternalGear.get_involute_points. fold g.
    case_decide; [reflexivity | contradiction]. }
  destruct (Rge_dec (InternalGear.rc self) t_2) as [Hrc|Hrc].
  - rewrite zeros3_succeeds, bind_Ok_l by lia.
    run_getitem.
    run_linspace.
    run_internal slv self.
    run_slice_assign.
    { rewrite length_replicate. simpl.
      rewrite !slice_bound_inside by (rewrite ?length_replicate; lia). lia. }
    rewrite length_replicate in *.
    run_setitem. run_setitem. run_getitem.
    rewrite !Hsolve. reflexivity.
  - assert (1 <= nf)%Z as Hnf'.
    { destruct Hnf as [?|(t' & Ht' & Hge)]; [assumption|].
      rewrite Ht2 in Ht'. injection Ht' as <-. contradiction. }
    rewrite zeros3_succeeds, bind_Ok_l by lia.
    pose proof (fsolve_shape slv
      (InternalGear.fillet_system (InternalGear.rb_cutter self)
         (InternalGear.ra_cutter self) (InternalGear.etab self)
         (InternalGear.rc self))
      [1%R; (0.75 * PI)%R; 0%R; InternalGear.ra_cutter self]) as Hsh.
    simpl in Hsh.
    run_getitem. run_getitem. run_getitem.
    run_linspace.
    run_internal slv self.
    run_slice_assign.
    { rewrite length_replicate. simpl.
      rewrite !slice_bound_inside by (rewrite ?length_replicate; lia). lia. }
    rewrite length_replicate in *.
    run_linspace.
    run_internal slv self.
    run_slice_assign.
    { simpl. rewrite !slice_bound_inside by lia. lia. }
    run_setitem. run_setitem. run_getitem.
    rewrite !Hsolve. reflexivity.
Qed.

Lemma generate_mesh_zero_teeth (slv : solver) (gen : mesh_generator)
    (G : globals) (self : InternalGear.t) :
  let g := InternalGear.base self in
  Gear.z g = 0%Z -> InternalGear.z_cutter self <> 0%Z ->
  (0 <= Gear.n1 g)%Z -> (0 <= Gear.n2 g)%Z ->
  (1 <= Gear.nf g)%Z \/ thick_fillet self ->
  3 <= length (InternalGear.t_ self) ->
  exists fuel0, forall fuel, fuel0 <= fuel ->
    InternalGear.generate_mesh slv fuel gen G self = Raise ZeroDivisionError.
Proof.
  intros g Hz Hzc Hn1 Hn2 Hnf Ht.
  destruct (internal_profile_zero_teeth slv self Hz Hzc Hn1 Hn2 Hnf Ht)
    as (fuel0 & Hrun).
  exists fuel0. intros fuel Hf. unfold InternalGear.generate_mesh.
  destruct (lookup_lt_is_Some_2 (InternalGear.t_ self) 2 ltac:(lia))
    as [t_2 Ht2].
  rewrite (getitem_inside _ 2 t_2 ltac:(lia) Ht2), bind_Ok_l.
  destruct (Rge_dec _ _); rewrite (Hrun fuel Hf); reflexivity.
Qed.

(** C3.  [InternalGear.generate_mesh] reads the name [outer_diam], which
    the method does not bind, in both topology branches.  Where the module
    globals do not define it, no call of [generate_mesh()] returns a mesh.
    The call raises [NameError] for [outer_diam] (once [ainv] is given
    enough iterations) exactly for the instances on which the statements
    before the key points run through: a non-zero tooth count and cutter
    tooth count, non-negative segment counts [n1] and [n2], [nf >= 1]
    when the thin-fillet branch is taken, and at least 3 numbers in
    [self.t].  On every other instance another exception is raised before
    [outer_diam] is read. *)
Theorem C3_outer_diam_unbound (slv : solver) (gen : mesh_generator)
    (G : globals) (self : InternalGear.t) :
  G !! "outer_diam" = None ->
  let g := InternalGear.base self in
  let reaches_key_points :=
    Gear.z g <> 0%Z /\ InternalGear.z_cutter self <> 0%Z
    /\ (0 <= Gear.n1 g)%Z /\ (0 <= Gear.n2 g)%Z
    /\ ((1 <= Gear.nf g)%Z \/ thick_fillet self)
    /\ 3 <= length (InternalGear.t_ self) in
  (forall fuel r, InternalGear.generate_mesh slv fuel gen G self <> Ok r)
  /\ (reaches_key_points ->
      exists fuel0, forall fuel, fuel0 <= fuel ->
        InternalGear.generate_mesh slv fuel gen G self
        = Raise (NameError "outer_diam"))
  /\ (forall fuel name,
        InternalGear.generate_mesh slv fuel gen G self
        = Raise (NameError name) ->
        name = "outer_diam" /\ reaches_key_points).
Proof.
  intros HG g reaches. split; [|split].
  - intros fuel r Hr. unfold InternalGear.generate_mesh in Hr.
    inv_bind Hr as t_2 Ht2.
    destruct (Rge_dec _ _); inv_bind Hr as ps Hps; destruct ps as [pts self'];
      inv_bind Hr as m Hm.
    + rewrite mesh_thick_unbound in Hm by exact HG. discriminate.
    + rewrite mesh_thin_unbound in Hm by exact HG. discriminate.
  - intros (Hz & Hzc & Hn1 & Hn2 & Hnf & Ht).
    destruct (internal_profile_succeeds slv self Hz Hzc Hn1 Hn2 Hnf Ht)
      as (fuel0 & Hrun).
    exists fuel0. intros fuel Hf.
    destruct (Hrun fuel Hf) as (pts & self' & Hp).
    pose proof (internal_profile_base _ _ _ _ _ Hp) as Hb.
    unfold InternalGear.generate_mesh.
    destruct (lookup_lt_is_Some_2 (InternalGear.t_ self) 2 ltac:(lia))
      as [t_2 Ht2].
    rewrite (getitem_inside _ 2 t_2 ltac:(lia) Ht2), bind_Ok_l.
    destruct (Rge_dec _ _); rewrite Hp, bind_Ok_l; simpl.
    + rewrite mesh_thick_unbound by exact HG. rewrite Hb.
      fold g. destruct (decide (Gear.z g = 0%Z)); [contradiction | reflexivity].
    + rewrite mesh_thin_unbound by exact HG. rewrite Hb.
      fold g. destruct (decide (Gear.z g = 0%Z)); [contradiction | reflexivity].
  - intros fuel name H.
    exact (generate_mesh_name_error slv fuel gen G self name HG H).
Qed.

(** The 60-tooth internal gear used from a module that defines no global
    [outer_diam] (every user of the class except the script itself). *)
Lemma C3_witness :
  exists ig, InternalGear.__init__ guess_solver internal_args 140 20 0 = Ok ig
    /\ exists fuel0, forall fuel, fuel0 <= fuel ->
         InternalGear.generate_mesh guess_solver fuel
           (fun _ _ _ => Raise ValueError) ∅ ig
         = Raise (NameError "outer_diam").
Proof.
  eexists. split; [reflexivity|].
  match goal with
  | |- context [InternalGear.generate_mesh _ _ _ _ ?ig] =>
      destruct (C3_outer_diam_unbound guess_solver
                  (fun _ _ _ => Raise ValueError) ∅ ig) as (_ & H & _);
      [reflexivity |
       apply H; repeat split; [simpl; lia | simpl; lia | simpl; lia
                               | simpl; lia | left; simpl; lia | simpl; lia]]
  end.
Defined.

(** The internal gear with the tooth count 0: the call ends in
    [ZeroDivisionError] while the involute is sampled, before
    [outer_diam] is read. *)
Lemma C3_counterexample :
  exists ig,
    InternalGear.__init__ guess_solver zero_teeth_args 140 20 0 = Ok ig
    /\ (forall fuel gen,
          InternalGear.generate_mesh guess_solver fuel gen ∅ ig
          <> Raise (NameError "outer_diam"))
    /\ exists fuel0, forall fuel gen, fuel0 <= fuel ->
         InternalGear.generate_mesh guess_solver fuel gen ∅ ig
         = Raise ZeroDivisionError.
Proof.
  eexists. split; [reflexivity|]. split.
  - intros fuel gen H.
    apply (generate_mesh_name_error _ _ _ ∅) in H as (_ & Hz & _);
      [|reflexivity].
    apply Hz. reflexivity.
  - match goal with
    | |- context [InternalGear.generate_mesh _ _ _ _ ?ig] =>
        destruct (internal_profile_zero_teeth guess_solver ig)
          as (fuel0 & Hrun);
        [reflexivity | simpl; lia | simpl; lia | simpl; lia
         | left; simpl; lia | simpl; lia |];
        exists fuel0; intros fuel gen Hf;
        unfold InternalGear.generate_mesh;
        rewrite (Hrun fuel Hf)
    end.
    simpl. destruct (Rge_dec _ _); reflexivity.
Qed.

End UnboundName.

(** ** The stitching loops (C1, C2) *)

(** *** The three loops are instances of [assemble] *)

Section Skeleton.
Local Open Scope Z_scope.

Lemma stitch_reduced_assemble (key_points : list vec2) (n1 n2 n3 z : Z)
    (rot_phi : list R) (quad_mesh : QuadrangleMesh) :
  ExternalGear.stitch_reduced key_points n1 n2 n3 z rot_phi quad_mesh
  = let tooth_node := node quad_mesh in
    let K := Z.of_nat (length key_points) in
    let sn := Z.of_nat (length tooth_node) - (n3 + 1) in
    assemble
      (ExternalGear.reduced_left K n1 n2 n3 sn)
      (ExternalGear.reduced_middle K n1 n2 n3 sn)
      (ExternalGear.reduced_right K n1 n2 n3 sn
         (np.arange (length tooth_node)))
      (np.slice 2 (Some K) tooth_node
       ++ np.slice (K + (n3 - 1)) None tooth_node)
      (np.slice 2 (Some 4) tooth_node
       ++ np.slice 5 (Some 11) tooth_node
       ++ np.slice (K + (n3 - 1)) (Some (K + 2 * (n1 + n2 + n3 - 3)))
            tooth_node
       ++ np.slice (K + 2 * (n1 + n2 + n3 - 3) + n3 - 1) None tooth_node)
      z rot_phi quad_mesh.
Proof. reflexivity. Qed.

Lemma stitch_normal_assemble (key_points : list vec2) (n1 n2 n3 na nf z : Z)
    (rot_phi : list R) (quad_mesh : QuadrangleMesh) :
  ExternalGear.stitch_normal key_points n1 n2 n3 na nf z rot_phi quad_mesh
  = let tooth_node := node quad_mesh in
    let K := Z.of_nat (length key_points) in
    let edge_node_num :=
      (na - 1) * 8 + (n2 - 1) * 3 + (n1 - 1) * 3 + (n3 - 1) * 5
      + (nf - 1) * 4 in
    let A := K + edge_node_num - (4 * (nf - 1) + 2 * (n3 - 1)) in
    let B := K + edge_node_num - (4 * (nf - 1) + (n3 - 1)) in
    let C := K + edge_node_num - 4 * (nf - 1) in
    let sn := Z.of_nat (length tooth_node) - (n3 + 1) in
    assemble
      (ExternalGear.normal_left A B C n3 sn)
      (ExternalGear.normal_middle A B C sn)
      (ExternalGear.normal_right A B C n3 sn (np.arange (length tooth_node)))
      (np.slice 0 (Some 12) tooth_node ++ np.slice 14 (Some A) tooth_node
       ++ np.slice B None tooth_node)
      (np.slice 0 (Some 12) tooth_node ++ np.slice 16 (Some A) tooth_node
       ++ np.slice C None tooth_node)
      z rot_phi quad_mesh.
Proof. reflexivity. Qed.

Lemma internal_stitch_assemble (key_points : list vec2) (n1 n2 n3 z : Z)
    (quad_mesh : QuadrangleMesh) :
  InternalGear.stitch key_points n1 n2 n3 z quad_mesh
  = (rot_phi ← np.linspace_open 0 (2 * PI) z;
     let tooth_node := node quad_mesh in
     let K := Z.of_nat (length key_points) in
     let S := n1 + n2 + n3 - 3 in
     let sn := Z.of_nat (length tooth_node) - (n1 + n2 + n3 + 1) in
     assemble
       (InternalGear.relink_left K S sn)
       (InternalGear.relink_middle K S sn)
       (InternalGear.relink_right K S (n1 + n2 + n3 + 1) sn
          (np.arange (length tooth_node)))
       (np.slice 4 (Some K) tooth_node ++ np.slice (K + S) None tooth_node)
       (np.slice 8 (Some K) tooth_node
        ++ np.slice (K + 2 * S) None tooth_node)
       z rot_phi quad_mesh).
Proof. reflexivity. Qed.

End Skeleton.

(** *** Statements on index arrays *)

Section IndexArrays.
Local Open Scope Z_scope.

Lemma entry_default (l : list Z) (j : Z) :
  entry l j = default inhabitant (l !! Z.to_nat j).
Proof. unfold entry. apply list_lookup_total_alt. Qed.

Lemma length_arange (n : nat) : length (np.arange n) = n.
Proof. unfold np.arange. rewrite length_seqZ. lia. Qed.

Lemma entry_arange (n : nat) (j : Z) :
  0 <= j < Z.of_nat n -> entry (np.arange n) j = j.
Proof.
  intros Hj. rewrite entry_default. unfold np.arange.
  rewrite lookup_seqZ_lt by lia. simpl. lia.
Qed.

Lemma zip_with_put_all {A} (v w : list A) :
  length v = length w -> zip_with put_all v w = v.
Proof.
  revert w. induction v as [|x v IH]; intros [|y w] Hl; simpl in *;
    try discriminate; [reflexivity|].
  f_equal. apply IH. lia.
Qed.

Lemma copy_item_entry (i j : Z) (src dst : list Z) :
  0 <= i < Z.of_nat (length dst) -> 0 <= j < Z.of_nat (length src) ->
  exists dst', copy_item i j src dst = Ok dst'
    /\ length dst' = length dst
    /\ forall x, 0 <= x ->
         entry dst' x = if decide (x = i) then entry src j else entry dst x.
Proof.
  intros Hi Hj. unfold copy_item.
  destruct (lookup_lt_is_Some_2 src (Z.to_nat j) ltac:(lia)) as [v Hv].
  rewrite (getitem_inside src j v ltac:(lia) Hv), bind_Ok_l.
  unfold np.setitem. rewrite index_inside by lia. rewrite bind_Ok_l.
  eexists. split; [reflexivity|]. split; [apply length_alter|].
  intros x Hx. rewrite !entry_default.
  destruct (decide (x = i)) as [->|Hne].
  - rewrite list_lookup_alter_eq.
    destruct (lookup_lt_is_Some_2 dst (Z.to_nat i) ltac:(lia)) as [w Hw].
    rewrite Hw, Hv. reflexivity.
  - rewrite list_lookup_alter_ne by lia. reflexivity.
Qed.

Lemma copy_slice_entry (a b c d : Z) (src dst : list Z) :
  0 <= a <= b -> b <= Z.of_nat (length dst) ->
  0 <= c -> d <= Z.of_nat (length src) -> d - c = b - a ->
  exists dst', copy_slice a b c d src dst = Ok dst'
    /\ length dst' = length dst
    /\ forall x, 0 <= x ->
         entry dst' x
         = if decide (a <= x < b) then entry src (x - a + c) else entry dst x.
Proof.
  intros Hab Hb Hc Hd Hcd. unfold copy_slice.
  assert (length (np.slice c (Some d) src) = Z.to_nat (b - a)) as Hlen.
  { rewrite slice_length. simpl. rewrite !slice_bound_inside by lia. lia. }
  rewrite slice_assign_exact;
    [| simpl; rewrite !slice_bound_inside by lia; lia].
  simpl. rewrite !slice_bound_inside by lia.
  rewrite zip_with_put_all
    by (rewrite length_take, length_drop; lia).
  eexists. split; [reflexivity|]. split.
  { apply length_patch; lia. }
  intros x Hx. rewrite !entry_default.
  rewrite lookup_patch with (m := (Z.to_nat b - Z.to_nat a)%nat) by lia.
  repeat case_decide; try lia; try reflexivity.
  rewrite slice_lookup. simpl. rewrite !slice_bound_inside by lia.
  case_decide; [|lia]. do 2 f_equal. lia.
Qed.

Lemma slice_iadd_entry (a b c : Z) (l : list Z) :
  0 <= a <= b -> b <= Z.of_nat (length l) -> np.int64_range c ->
  exists l', np.slice_iadd a (Some b) c l = Ok l'
    /\ length l' = length l
    /\ forall x, 0 <= x ->
         entry l' x
         = if decide (a <= x < b) then np.wrap64 (entry l x + c)
           else entry l x.
Proof.
  intros Hab Hb Hc. unfold np.slice_iadd.
  destruct (decide (np.int64_range c)); [|contradiction].
  simpl. rewrite !slice_bound_inside by lia.
  eexists. split; [reflexivity|]. split.
  { apply length_patch; [|lia].
    rewrite length_fmap, length_take, length_drop. lia. }
  intros x Hx. rewrite !entry_default.
  rewrite lookup_patch with (m := (Z.to_nat b - Z.to_nat a)%nat);
    [| rewrite length_fmap, length_take, length_drop; lia | lia].
  repeat case_decide; try lia; try reflexivity.
  rewrite list_lookup_fmap, lookup_take, lookup_drop.
  case_decide; [|lia].
  replace (Z.to_nat a + (Z.to_nat x - Z.to_nat a))%nat with (Z.to_nat x)
    by lia.
  destruct (lookup_lt_is_Some_2 l (Z.to_nat x) ltac:(lia)) as [w ->].
  reflexivity.
Qed.

Lemma slice_iadd_end_entry (a c : Z) (l : list Z) :
  0 <= a <= Z.of_nat (length l) -> np.int64_range c ->
  exists l', np.slice_iadd a None c l = Ok l'
    /\ length l' = length l
    /\ forall x, 0 <= x ->
         entry l' x
         = if decide (a <= x < Z.of_nat (length l))
           then np.wrap64 (entry l x + c) else entry l x.
Proof.
  intros Ha Hc. unfold np.slice_iadd.
  destruct (decide (np.int64_range c)); [|contradiction].
  simpl. rewrite !slice_bound_inside by lia.
  eexists. split; [reflexivity|]. split.
  { apply length_patch; [|lia].
    rewrite length_fmap, length_take, length_drop. lia. }
  intros x Hx. rewrite !entry_default.
  rewrite lookup_patch with (m := (length l - Z.to_nat a)%nat);
    [| rewrite length_fmap, length_take, length_drop; lia | lia].
  repeat case_decide; try lia; try reflexivity.
  - rewrite list_lookup_fmap, lookup_take, lookup_drop.
    case_decide; [|lia].
    replace (Z.to_nat a + (Z.to_nat x - Z.to_nat a))%nat with (Z.to_nat x)
      by lia.
    destruct (lookup_lt_is_Some_2 l (Z.to_nat x) ltac:(lia)) as [w ->].
    reflexivity.
Qed.

Lemma wrap64_id (x : Z) : np.int64_range x -> np.wrap64 x = x.
Proof.
  unfold np.int64_range, np.wrap64. intros H.
  rewrite Z.mod_small by lia. lia.
Qed.

End IndexArrays.

(** *** Renumbered cells and the loop *)


Section Cells.
Local Open Scope Z_scope.

Lemma cell_valid_mono (n n' : nat) (c : quad) :
  (n <= n')%nat -> cell_valid n c -> cell_valid n' c.
Proof.
  intros Hn Hc. unfold cell_valid in *.
  eapply Forall_impl; [exact Hc|]. simpl. intros v Hv. lia.
Qed.

Lemma cells_valid_mono (n n' : nat) (cs : list quad) :
  (n <= n')%nat -> Forall (cell_valid n) cs -> Forall (cell_valid n') cs.
Proof.
  intros Hn Hc. eapply Forall_impl; [exact Hc|].
  intros c. apply cell_valid_mono, Hn.
Qed.

Lemma getitem_entry (tm : list Z) (j : Z) :
  0 <= j < Z.of_nat (length tm) -> np.getitem tm j = Ok (entry tm j).
Proof.
  intros Hj.
  destruct (lookup_lt_is_Some_2 tm (Z.to_nat j) ltac:(lia)) as [v Hv].
  rewrite (getitem_inside tm j v ltac:(lia) Hv).
  rewrite entry_default, Hv. reflexivity.
Qed.

Lemma remap_cell_valid (N M : nat) (tm : list Z) (c : quad) :
  renumbering N M tm -> cell_valid N c ->
  exists c', remap_cell tm c = Ok c' /\ cell_valid M c'.
Proof.
  intros [Hl Hr] Hc. unfold cell_valid, quad_nodes in Hc.
  rewrite !Forall_cons in Hc. destruct Hc as (H0 & H1 & H2 & H3 & _).
  unfold remap_cell.
  rewrite !getitem_entry by lia. rewrite !bind_Ok_l.
  eexists. split; [reflexivity|].
  unfold cell_valid, quad_nodes. simpl.
  repeat (apply Forall_cons; split; [apply Hr; lia|]). apply Forall_nil.
  exact I.
Qed.

Lemma remap_cells_valid (N M : nat) (tm : list Z) (cs : list quad) :
  renumbering N M tm -> Forall (cell_valid N) cs ->
  exists cs', remap_cells tm cs = Ok cs'
    /\ length cs' = length cs /\ Forall (cell_valid M) cs'.
Proof.
  intros Htm. induction cs as [|c cs IH]; intros Hcs.
  - exists []. simpl. auto.
  - apply Forall_cons in Hcs. destruct Hcs as [Hc Hcs].
    destruct (remap_cell_valid N M tm c Htm Hc) as (c' & Hc' & Hv).
    destruct (IH Hcs) as (cs' & Hcs' & Hlen & Hvs).
    exists (c' :: cs'). simpl. rewrite Hc', bind_Ok_l, Hcs', bind_Ok_l.
    split; [reflexivity|]. split; [simpl; lia|].
    apply Forall_cons; auto.
Qed.

Lemma append_copy_valid (N M : nat) (tm : list Z) (new_node : list vec2)
    (cs : list quad) (st : stitch_state) :
  renumbering N M tm -> Forall (cell_valid N) cs ->
  exists new_cell,
    append_copy tm new_node cs st
    = Ok (mkStitch tm (s_tooth_node st ++ new_node)
            (s_tooth_cell st ++ new_cell))
    /\ length new_cell = length cs /\ Forall (cell_valid M) new_cell.
Proof.
  intros Htm Hcs.
  destruct (remap_cells_valid N M tm cs Htm Hcs) as (cs' & Hcs' & Hl & Hv).
  exists cs'. unfold append_copy. rewrite Hcs', bind_Ok_l. auto.
Qed.

Lemma length_rotate_nodes (phi : R) (nodes : list vec2) :
  length (rotate_nodes phi nodes) = length nodes.
Proof. apply length_fmap. Qed.

Lemma for_each_invariant {A St} (body : A -> St -> result St)
    (I : nat -> St -> Prop) (l : list A) (k0 : nat) (st : St) :
  (forall i x st, l !! i = Some x -> I (k0 + i)%nat st ->
     exists st', body x st = Ok st' /\ I (k0 + S i)%nat st') ->
  I k0 st ->
  exists st', for_each body l st = Ok st' /\ I (k0 + length l)%nat st'.
Proof.
  revert k0 st. induction l as [|x l IH]; intros k0 st Hbody H0.
  - exists st. simpl. rewrite Nat.add_0_r. auto.
  - destruct (Hbody 0%nat x st eq_refl) as (st1 & Hst1 & H1).
    { rewrite Nat.add_0_r. exact H0. }
    destruct (IH (S k0) st1) as (st' & Hst' & HI).
    + intros i y st2 Hy Hst2.
      replace (S k0 + i)%nat with (k0 + S i)%nat in Hst2 by lia.
      destruct (Hbody (S i) y st2 Hy Hst2) as (st3 & ? & ?).
      exists st3. split; [assumption|].
      replace (S k0 + S i)%nat with (k0 + S (S i))%nat by lia. assumption.
    + replace (S k0) with (k0 + 1)%nat by lia. exact H1.
    + exists st'. simpl. rewrite Hst1, bind_Ok_l. split; [exact Hst'|].
      replace (k0 + S (length l))%nat with (S k0 + length l)%nat by lia.
      exact HI.
Qed.

End Cells.

Section Assemble.
Local Open Scope nat_scope.

Variables left middle right : list Z -> result (list Z).
Variables temp_node temp_node_last : list vec2.
Variable z : Z.
Variable rot_phi : list R.
Variable quad_mesh : QuadrangleMesh.
Variable P : nat -> list Z -> Prop.

Let N := length (node quad_mesh).
Let sn := length temp_node.
Let snl := length temp_node_last.
Let m := Z.to_nat (z - 3).

Hypothesis P_renumbering :
  forall k tm, 1 <= k <= S m -> P k tm -> renumbering N (N + k * sn) tm.
Hypothesis left_ok : exists tm, left (np.arange N) = Ok tm /\ P 1 tm.
Hypothesis middle_ok :
  forall k tm, 1 <= k <= m -> P k tm ->
    exists tm', middle tm = Ok tm' /\ P (S k) tm'.
Hypothesis right_ok :
  forall tm, P (S m) tm ->
    exists tm', right tm = Ok tm'
      /\ renumbering N (N + S m * sn + snl) tm'.
Hypothesis Hvalid : mesh_valid quad_mesh.
Hypothesis Hz : (2 <= z)%Z.
Hypothesis Hrot : length rot_phi = Z.to_nat z.

Lemma assemble_spec :
  exists mesh,
    assemble left middle right temp_node temp_node_last z rot_phi quad_mesh
    = Ok mesh
    /\ length (node mesh) = N + S m * sn + snl
    /\ length (cell mesh) = copies z * length (cell quad_mesh)
    /\ mesh_valid mesh.
Proof.
  assert (m = Z.to_nat (z - 3)) as Hm by reflexivity.
  unfold assemble. fold N.
  destruct left_ok as (tm1 & -> & HP1). rewrite bind_Ok_l.
  destruct (lookup_lt_is_Some_2 rot_phi 1 ltac:(lia)) as [phi1 Hphi1].
  rewrite (getitem_inside rot_phi 1 phi1 ltac:(lia) Hphi1), bind_Ok_l.
  pose proof (P_renumbering 1 tm1 ltac:(lia) HP1) as Hr1.
  destruct (append_copy_valid N (N + 1 * sn) tm1
              (rotate_nodes phi1 temp_node) (cell quad_mesh)
              (mkStitch tm1 (node quad_mesh) (cell quad_mesh)) Hr1 Hvalid)
    as (c1 & -> & Hc1 & Hv1).
  rewrite bind_Ok_l. simpl s_tooth_node. simpl s_tooth_cell.
  set (I := fun (k : nat) (st : stitch_state) =>
    k <= S m /\ P k (s_trans_matrix st)
    /\ length (s_tooth_node st) = N + k * sn
    /\ length (s_tooth_cell st) = S k * length (cell quad_mesh)
    /\ Forall (cell_valid (N + k * sn)) (s_tooth_cell st)).
  destruct (for_each_invariant
    (fun i st =>
       phi ← np.getitem rot_phi i;
       tm ← middle (s_trans_matrix st);
       append_copy tm (rotate_nodes phi temp_node) (cell quad_mesh) st)
    I (range 2 (z - 1)) 1
    (mkStitch tm1 (node quad_mesh ++ rotate_nodes phi1 temp_node)
       (cell quad_mesh ++ c1))) as (st & Hst & HI).
  { intros i x st Hx (Hk & HP & Hn & Hc & Hv).
    unfold range in Hx. apply lookup_seqZ in Hx. destruct Hx as [-> Hi].
    destruct (lookup_lt_is_Some_2 rot_phi (Z.to_nat (2 + Z.of_nat i))
                ltac:(lia)) as [phi Hphi].
    rewrite (getitem_inside rot_phi (2 + Z.of_nat i)%Z phi ltac:(lia) Hphi),
      bind_Ok_l.
    destruct (middle_ok (1 + i) (s_trans_matrix st) ltac:(lia) HP)
      as (tm' & -> & HP').
    rewrite bind_Ok_l.
    pose proof (P_renumbering (S (1 + i)) tm' ltac:(lia) HP') as Hr.
    destruct (append_copy_valid N _ tm' (rotate_nodes phi temp_node)
                (cell quad_mesh) st Hr Hvalid) as (c & -> & Hlc & Hvc).
    eexists. split; [reflexivity|]. unfold I. simpl.
    replace (i + 1) with (S i) by lia.
    split; [lia|]. split; [exact HP'|].
    rewrite !length_app, length_rotate_nodes, Hn, Hc, Hlc.
    split; [fold sn; lia|]. split; [lia|].
    apply Forall_app. split; [|exact Hvc].
    revert Hv. apply cells_valid_mono. lia. }
  { unfold I. simpl. split; [lia|]. split; [exact HP1|].
    rewrite !length_app, length_rotate_nodes, Hc1. fold N sn.
    split; [lia|]. split; [lia|].
    apply Forall_app. split; [|exact Hv1].
    revert Hvalid. apply cells_valid_mono. lia. }
  rewrite Hst, bind_Ok_l.
  destruct HI as (_ & HP & Hn & Hc & Hv).
  assert (length (range 2 (z - 1)) = m) as Hlen.
  { unfold range. rewrite length_seqZ. lia. }
  rewrite Hlen in HP, Hn, Hc, Hv.
  destruct (getitem_succeeds rot_phi (-1)) as (phil & ->); [lia|].
  rewrite bind_Ok_l.
  destruct (right_ok (s_trans_matrix st) HP) as (tm' & -> & Hr).
  rewrite bind_Ok_l.
  destruct (append_copy_valid N _ tm' (rotate_nodes phil temp_node_last)
              (cell quad_mesh) st Hr Hvalid) as (c & -> & Hlc & Hvc).
  rewrite bind_Ok_l. eexists. split; [reflexivity|]. simpl.
  rewrite !length_app, length_rotate_nodes, Hn, Hc, Hlc. fold snl.
  split; [lia|]. split; [unfold copies; fold m; lia|].
  unfold mesh_valid. simpl.
  rewrite !length_app, length_rotate_nodes, Hn. fold snl.
  apply Forall_app. split.
  - revert Hv. apply cells_valid_mono. lia.
  - revert Hvc. apply cells_valid_mono. lia.
Qed.

End Assemble.

(** *** The passes over [trans_matrix] *)

(** Runs the next statement of a pass over [trans_matrix]. *)
Ltac run_pass_step :=
  let t := fresh "tm" in
  let L := fresh "Hlen" in
  let E := fresh "Hentry" in
  match goal with
  | |- context [copy_item ?i ?j ?src ?dst] =>
      destruct (copy_item_entry i j src dst) as (t & -> & L & E);
      [try rewrite length_arange; lia .. |]
  | |- context [copy_slice ?a ?b ?c ?d ?src ?dst] =>
      destruct (copy_slice_entry a b c d src dst) as (t & -> & L & E);
      [try rewrite length_arange; lia .. |]
  | |- context [np.slice_iadd ?a (Some ?b) ?c ?l] =>
      destruct (slice_iadd_entry a b c l) as (t & -> & L & E);
      [try (unfold np.int64_range); lia .. |]
  | |- context [np.slice_iadd ?a None ?c ?l] =>
      destruct (slice_iadd_end_entry a c l) as (t & -> & L & E);
      [try (unfold np.int64_range); lia .. |]
  end;
  rewrite ?bind_Ok_l.

(** Unfolds the entry of the array a pass has produced, statement by
    statement. *)
Ltac unfold_entry :=
  repeat match goal with
  | E : forall x, (0 <= x)%Z -> entry ?l x = _ |- context [entry ?l ?x] =>
      rewrite (E x) by lia; case_decide; try lia
  end.

(** Brings in what is known of the entries of [tm] the goal mentions. *)
Ltac use_links H tm :=
  repeat match goal with
  | |- context [entry tm ?x] =>
      lazymatch goal with
      | _ : (0 <= entry tm x < _)%Z /\ _ |- _ => fail
      | _ => pose proof (H x ltac:(lia))
      end
  end.

Section Reduced.
Local Open Scope Z_scope.
Variables n1 n2 n3 : Z.
Variable N : nat.
Hypothesis Hn1 : 1 <= n1.
Hypothesis Hn2 : 1 <= n2.
Hypothesis Hn3 : 1 <= n3.
Hypothesis HN : 12 + 2 * (n1 + n2 + n3 - 3) + (n3 - 1) <= Z.of_nat N.

Let sn := Z.of_nat N - (n3 + 1).

Lemma reduced_left_links :
  Z.of_nat N + sn < 2 ^ 63 ->
  exists tm, ExternalGear.reduced_left 12 n1 n2 n3 sn (np.arange N) = Ok tm
    /\ reduced_links n1 n2 n3 N 1 tm.
Proof.
  intros Hb. unfold ExternalGear.reduced_left.
  assert (length (np.arange N) = N) as HlenA by apply length_arange.
  repeat run_pass_step.
  eexists. split; [reflexivity|]. split; [lia|].
  intros j Hj. unfold_entry;
    rewrite ?entry_arange by lia;
    rewrite ?wrap64_id by (unfold np.int64_range; lia); lia.
Qed.

Lemma reduced_middle_links (k : nat) (tm : list Z) :
  (1 <= k)%nat ->
  Z.of_nat N + Z.of_nat (S k) * sn < 2 ^ 63 ->
  reduced_links n1 n2 n3 N k tm ->
  exists tm', ExternalGear.reduced_middle 12 n1 n2 n3 sn tm = Ok tm'
    /\ reduced_links n1 n2 n3 N (S k) tm'.
Proof.
  intros Hk Hb [Hlen Hl]. fold sn in Hl. unfold ExternalGear.reduced_middle.
  assert (0 <= Z.of_nat k * sn) as Hks by (apply Z.mul_nonneg_nonneg; lia).
  repeat run_pass_step.
  eexists. split; [reflexivity|]. split; [lia|].
  intros j Hj. fold sn. unfold_entry; use_links Hl tm;
    rewrite ?wrap64_id by (unfold np.int64_range; lia); lia.
Qed.

Lemma reduced_right_links (k : nat) (tm : list Z) :
  (1 <= k)%nat ->
  Z.of_nat N + Z.of_nat k * sn + (sn - (n3 + 1)) < 2 ^ 63 ->
  reduced_links n1 n2 n3 N k tm ->
  exists tm',
    ExternalGear.reduced_right 12 n1 n2 n3 sn (np.arange N) tm = Ok tm'
    /\ length tm' = N
    /\ forall j, 0 <= j < Z.of_nat N ->
         0 <= entry tm' j
         < Z.of_nat N + Z.of_nat k * sn + (sn - (n3 + 1)).
Proof.
  intros Hk Hb [Hlen Hl]. fold sn in Hl. unfold ExternalGear.reduced_right.
  assert (length (np.arange N) = N) as HlenA by apply length_arange.
  assert (0 <= Z.of_nat k * sn) as Hks by (apply Z.mul_nonneg_nonneg; lia).
  repeat run_pass_step.
  eexists. split; [reflexivity|]. split; [lia|].
  intros j Hj. unfold_entry; use_links Hl tm;
    rewrite ?entry_arange by lia;
    rewrite ?wrap64_id by (unfold np.int64_range; lia); lia.
Qed.

End Reduced.

Section Normal.
Local Open Scope Z_scope.
Variables A B C n3 sn : Z.
Variable N : nat.
Hypothesis Hn3 : 1 <= n3.
Hypothesis HA : 16 <= A.
Hypothesis HB : B = A + (n3 - 1).
Hypothesis HC : C = A + 2 * (n3 - 1).
Hypothesis HN : C <= Z.of_nat N.
Hypothesis Hsn : sn = Z.of_nat N - (n3 + 1).

Lemma normal_left_links :
  Z.of_nat N + sn < 2 ^ 63 ->
  exists tm, ExternalGear.normal_left A B C n3 sn (np.arange N) = Ok tm
    /\ normal_links A n3 N 1 tm.
Proof.
  intros Hb. unfold ExternalGear.normal_left.
  assert (length (np.arange N) = N) as HlenA by apply length_arange.
  repeat run_pass_step.
  eexists. split; [reflexivity|]. split; [lia|].
  intros j Hj. rewrite <- Hsn. unfold_entry;
    rewrite ?entry_arange by lia;
    rewrite ?wrap64_id by (unfold np.int64_range; lia); lia.
Qed.

Lemma normal_middle_links (k : nat) (tm : list Z) :
  (1 <= k)%nat ->
  Z.of_nat N + Z.of_nat (S k) * sn < 2 ^ 63 ->
  normal_links A n3 N k tm ->
  exists tm', ExternalGear.normal_middle A B C sn tm = Ok tm'
    /\ normal_links A n3 N (S k) tm'.
Proof.
  intros Hk Hb [Hlen Hl]. rewrite <- Hsn in Hl.
  unfold ExternalGear.normal_middle.
  assert (0 <= Z.of_nat k * sn) as Hks by (apply Z.mul_nonneg_nonneg; lia).
  repeat run_pass_step.
  eexists. split; [reflexivity|]. split; [lia|].
  intros j Hj. rewrite <- Hsn. unfold_entry; use_links Hl tm;
    rewrite ?wrap64_id by (unfold np.int64_range; lia); lia.
Qed.

Lemma normal_right_links (k : nat) (tm : list Z) :
  (1 <= k)%nat ->
  Z.of_nat N + Z.of_nat k * sn + (sn - (n3 + 1)) < 2 ^ 63 ->
  normal_links A n3 N k tm ->
  exists tm',
    ExternalGear.normal_right A B C n3 sn (np.arange N) tm = Ok tm'
    /\ length tm' = N
    /\ forall j, 0 <= j < Z.of_nat N ->
         0 <= entry tm' j
         < Z.of_nat N + Z.of_nat k * sn + (sn - (n3 + 1)).
Proof.
  intros Hk Hb [Hlen Hl]. rewrite <- Hsn in Hl.
  unfold ExternalGear.normal_right.
  assert (length (np.arange N) = N) as HlenA by apply length_arange.
  assert (0 <= Z.of_nat k * sn) as Hks by (apply Z.mul_nonneg_nonneg; lia).
  repeat run_pass_step.
  eexists. split; [reflexivity|]. split; [lia|].
  intros j Hj. unfold_entry; use_links Hl tm;
    rewrite ?entry_arange by lia;
    rewrite ?wrap64_id by (unfold np.int64_range; lia); lia.
Qed.

End Normal.

Section Internal.
Local Open Scope Z_scope.
Variables K E sn : Z.
Variable N : nat.
Hypothesis HK : 8 <= K.
Hypothesis HE : 0 <= E.
Hypothesis HN : K + 2 * E <= Z.of_nat N.
Hypothesis Hsn : sn = Z.of_nat N - (E + 4).

Lemma relink_left_links :
  Z.of_nat N + sn < 2 ^ 63 ->
  exists tm, InternalGear.relink_left K E sn (np.arange N) = Ok tm
    /\ internal_links K E N 1 tm.
Proof.
  intros Hb. unfold InternalGear.relink_left.
  assert (length (np.arange N) = N) as HlenA by apply length_arange.
  repeat run_pass_step.
  eexists. split; [reflexivity|]. split; [lia|].
  intros j Hj. rewrite <- Hsn. unfold_entry;
    rewrite ?entry_arange by lia;
    rewrite ?wrap64_id by (unfold np.int64_range; lia); lia.
Qed.

Lemma relink_middle_links (k : nat) (tm : list Z) :
  (1 <= k)%nat ->
  Z.of_nat N + Z.of_nat (S k) * sn < 2 ^ 63 ->
  internal_links K E N k tm ->
  exists tm', InternalGear.relink_middle K E sn tm = Ok tm'
    /\ internal_links K E N (S k) tm'.
Proof.
  intros Hk Hb [Hlen Hl]. rewrite <- Hsn in Hl.
  unfold InternalGear.relink_middle.
  assert (0 <= Z.of_nat k * sn) as Hks by (apply Z.mul_nonneg_nonneg; lia).
  repeat run_pass_step.
  eexists. split; [reflexivity|]. split; [lia|].
  intros j Hj. rewrite <- Hsn. unfold_entry; use_links Hl tm;
    rewrite ?wrap64_id by (unfold np.int64_range; lia); lia.
Qed.

Lemma relink_right_links (T : Z) (k : nat) (tm : list Z) :
  T = E + 4 ->
  (1 <= k)%nat ->
  Z.of_nat N + Z.of_nat k * sn + (sn - T) < 2 ^ 63 ->
  internal_links K E N k tm ->
  exists tm',
    InternalGear.relink_right K E T sn (np.arange N) tm = Ok tm'
    /\ length tm' = N
    /\ forall j, 0 <= j < Z.of_nat N ->
         0 <= entry tm' j < Z.of_nat N + Z.of_nat k * sn + (sn - T).
Proof.
  intros HT Hk Hb [Hlen Hl]. rewrite <- Hsn in Hl.
  unfold InternalGear.relink_right.
  assert (length (np.arange N) = N) as HlenA by apply length_arange.
  assert (0 <= Z.of_nat k * sn) as Hks by (apply Z.mul_nonneg_nonneg; lia).
  repeat run_pass_step.
  eexists. split; [reflexivity|]. split; [lia|].
  intros j Hj. unfold_entry; use_links Hl tm;
    rewrite ?entry_arange by lia;
    rewrite ?wrap64_id by (unfold np.int64_range; lia); lia.
Qed.

End Internal.

(** *** The three stitchers *)

Section StitchSpec.
Local Open Scope Z_scope.

Lemma slice_length_inside {A} (a b : Z) (l : list A) :
  0 <= a <= b -> b <= Z.of_nat (length l) ->
  Z.of_nat (length (np.slice a (Some b) l)) = b - a.
Proof.
  intros Hab Hb. rewrite slice_length. simpl.
  rewrite !slice_bound_inside by lia. lia.
Qed.

Lemma slice_length_end {A} (a : Z) (l : list A) :
  0 <= a <= Z.of_nat (length l) ->
  Z.of_nat (length (np.slice a None l)) = Z.of_nat (length l) - a.
Proof.
  intros Ha. rewrite slice_length. simpl.
  rewrite !slice_bound_inside by lia. lia.
Qed.

Lemma mul_le_copies (k m : nat) (sn : Z) :
  (k <= m)%nat -> 0 <= sn -> Z.of_nat k * sn <= Z.of_nat m * sn.
Proof. intros Hk Hs. apply Z.mul_le_mono_nonneg_r; lia. Qed.

Lemma stitch_reduced_spec (key_points : list vec2) (n1 n2 n3 z : Z)
    (rot_phi : list R) (quad_mesh : QuadrangleMesh) :
  let N := length (node quad_mesh) in
  length key_points = 12%nat ->
  1 <= n1 -> 1 <= n2 -> 1 <= n3 ->
  12 + 2 * (n1 + n2 + n3 - 3) + (n3 - 1) <= Z.of_nat N ->
  mesh_valid quad_mesh ->
  2 <= z -> length rot_phi = Z.to_nat z ->
  Z.of_nat (copies z) * (Z.of_nat N - (n3 + 1)) < 2 ^ 63 ->
  exists mesh,
    ExternalGear.stitch_reduced key_points n1 n2 n3 z rot_phi quad_mesh
    = Ok mesh
    /\ Z.of_nat (length (node mesh))
       = Z.of_nat (copies z) * (Z.of_nat N - (n3 + 1))
    /\ length (cell mesh) = (copies z * length (cell quad_mesh))%nat
    /\ mesh_valid mesh.
Proof.
  intros N HK Hn1 Hn2 Hn3 HN Hvalid Hz Hrot Hb.
  rewrite stitch_reduced_assemble. cbv zeta. rewrite HK. fold N.
  change (Z.of_nat 12) with 12.
  set (sn := Z.of_nat N - (n3 + 1)) in *.
  set (m := Z.to_nat (z - 3)).
  assert (copies z = (m + 3)%nat) as Hcopies by reflexivity.
  match goal with
  | |- context [assemble _ _ _ ?tn ?tl] =>
      set (temp_node := tn); set (temp_node_last := tl)
  end.
  assert (Z.of_nat (length temp_node) = sn) as Hsn.
  { unfold temp_node. rewrite length_app, Nat2Z.inj_add.
    rewrite slice_length_inside, slice_length_end by (fold N; lia).
    fold N. unfold sn. lia. }
  assert (Z.of_nat (length temp_node_last) = sn - (n3 + 1)) as Hsnl.
  { unfold temp_node_last. rewrite !length_app, !Nat2Z.inj_add.
    rewrite !slice_length_inside, slice_length_end by (fold N; lia).
    fold N. unfold sn. lia. }
  assert (forall k : nat, (k <= S m)%nat ->
            Z.of_nat N + Z.of_nat k * sn < 2 ^ 63) as Hbk.
  { intros k Hk.
    pose proof (mul_le_copies k (S m) sn Hk ltac:(unfold sn; lia)).
    rewrite Hcopies in Hb.
    replace (Z.of_nat (m + 3)) with (Z.of_nat (S m) + 2) in Hb by lia.
    unfold sn in *. lia. }
  destruct (assemble_spec
    (ExternalGear.reduced_left 12 n1 n2 n3 sn)
    (ExternalGear.reduced_middle 12 n1 n2 n3 sn)
    (ExternalGear.reduced_right 12 n1 n2 n3 sn (np.arange N))
    temp_node temp_node_last z rot_phi quad_mesh
    (fun k tm => reduced_links n1 n2 n3 N k tm))
    as (mesh & Hmesh & Hnode & Hcell & Hv).
  - intros k tm Hk [Hlen Hl]. split; [exact Hlen|].
    intros j Hj. destruct (Hl j Hj) as [H0 _].
    rewrite Nat2Z.inj_add, Nat2Z.inj_mul, Hsn. exact H0.
  - apply reduced_left_links; try assumption.
    specialize (Hbk 1%nat ltac:(lia)). lia.
  - intros k tm Hk. apply reduced_middle_links; try assumption; [lia|].
    apply Hbk. fold m in Hk. lia.
  - intros tm Hl. fold m in Hl.
    destruct (reduced_right_links n1 n2 n3 N Hn1 Hn2 Hn3 HN (S m) tm)
      as (tm' & Htm' & Hlen & Hr); [lia | | exact Hl |].
    { rewrite Hcopies in Hb.
      replace (Z.of_nat (m + 3)) with (Z.of_nat (S m) + 2) in Hb by lia.
      unfold sn in *. lia. }
    exists tm'. split; [exact Htm'|]. split; [exact Hlen|].
    intros j Hj. fold m.
    rewrite !Nat2Z.inj_add, Nat2Z.inj_mul, Hsn, Hsnl. apply Hr, Hj.
  - exact Hvalid.
  - exact Hz.
  - exact Hrot.
  - exists mesh. split; [exact Hmesh|]. split; [|split; assumption].
    rewrite Hnode. fold m.
    rewrite !Nat2Z.inj_add, Nat2Z.inj_mul, Hsn, Hsnl, Hcopies. lia.
Qed.

Lemma stitch_normal_spec (key_points : list vec2) (n1 n2 n3 na nf z : Z)
    (rot_phi : list R) (quad_mesh : QuadrangleMesh) :
  let N := length (node quad_mesh) in
  let edge_node_num :=
    (na - 1) * 8 + (n2 - 1) * 3 + (n1 - 1) * 3 + (n3 - 1) * 5
    + (nf - 1) * 4 in
  length key_points = 16%nat ->
  1 <= n1 -> 1 <= n2 -> 1 <= n3 -> 1 <= na -> 1 <= nf ->
  16 + edge_node_num - 4 * (nf - 1) <= Z.of_nat N ->
  mesh_valid quad_mesh ->
  2 <= z -> length rot_phi = Z.to_nat z ->
  Z.of_nat (copies z) * (Z.of_nat N - (n3 + 1)) < 2 ^ 63 ->
  exists mesh,
    ExternalGear.stitch_normal key_points n1 n2 n3 na nf z rot_phi quad_mesh
    = Ok mesh
    /\ Z.of_nat (length (node mesh))
       = Z.of_nat (copies z) * (Z.of_nat N - (n3 + 1))
    /\ length (cell mesh) = (copies z * length (cell quad_mesh))%nat
    /\ mesh_valid mesh.
Proof.
  intros N E HK Hn1 Hn2 Hn3 Hna Hnf HN Hvalid Hz Hrot Hb.
  rewrite stitch_normal_assemble. cbv zeta. rewrite HK. fold N E.
  change (Z.of_nat 16) with 16.
  set (A := 16 + E - (4 * (nf - 1) + 2 * (n3 - 1))).
  set (B := 16 + E - (4 * (nf - 1) + (n3 - 1))).
  set (C := 16 + E - 4 * (nf - 1)) in *.
  set (sn := Z.of_nat N - (n3 + 1)) in *.
  set (m := Z.to_nat (z - 3)).
  assert (16 <= A) as HA by (unfold A, E; lia).
  assert (B = A + (n3 - 1)) as HB by (unfold A, B; lia).
  assert (C = A + 2 * (n3 - 1)) as HC by (unfold A, C; lia).
  assert (copies z = (m + 3)%nat) as Hcopies by reflexivity.
  match goal with
  | |- context [assemble _ _ _ ?tn ?tl] =>
      set (temp_node := tn); set (temp_node_last := tl)
  end.
  assert (Z.of_nat (length temp_node) = sn) as Hsn.
  { unfold temp_node. rewrite !length_app, !Nat2Z.inj_add.
    rewrite !slice_length_inside, slice_length_end by (fold N; lia).
    fold N. unfold sn. lia. }
  assert (Z.of_nat (length temp_node_last) = sn - (n3 + 1)) as Hsnl.
  { unfold temp_node_last. rewrite !length_app, !Nat2Z.inj_add.
    rewrite !slice_length_inside, slice_length_end by (fold N; lia).
    fold N. unfold sn. lia. }
  assert (forall k : nat, (k <= S m)%nat ->
            Z.of_nat N + Z.of_nat k * sn < 2 ^ 63) as Hbk.
  { intros k Hk.
    pose proof (mul_le_copies k (S m) sn Hk ltac:(unfold sn; lia)).
    rewrite Hcopies in Hb.
    replace (Z.of_nat (m + 3)) with (Z.of_nat (S m) + 2) in Hb by lia.
    unfold sn in *. lia. }
  destruct (assemble_spec
    (ExternalGear.normal_left A B C n3 sn)
    (ExternalGear.normal_middle A B C sn)
    (ExternalGear.normal_right A B C n3 sn (np.arange N))
    temp_node temp_node_last z rot_phi quad_mesh
    (fun k tm => normal_links A n3 N k tm))
    as (mesh & Hmesh & Hnode & Hcell & Hv).
  - intros k tm Hk [Hlen Hl]. split; [exact Hlen|].
    intros j Hj. destruct (Hl j Hj) as [H0 _].
    rewrite Nat2Z.inj_add, Nat2Z.inj_mul, Hsn. exact H0.
  - apply normal_left_links; try assumption; try reflexivity.
    specialize (Hbk 1%nat ltac:(lia)). lia.
  - intros k tm Hk.
    apply normal_middle_links; try assumption; try reflexivity; [lia|].
    apply Hbk. fold m in Hk. lia.
  - intros tm Hl. fold m in Hl.
    destruct (normal_right_links A B C n3 sn N Hn3 HA HB HC HN eq_refl
                (S m) tm) as (tm' & Htm' & Hlen & Hr); [lia | | exact Hl |].
    { rewrite Hcopies in Hb.
      replace (Z.of_nat (m + 3)) with (Z.of_nat (S m) + 2) in Hb by lia.
      unfold sn in *. lia. }
    exists tm'. split; [exact Htm'|]. split; [exact Hlen|].
    intros j Hj. fold m.
    rewrite !Nat2Z.inj_add, Nat2Z.inj_mul, Hsn, Hsnl. apply Hr, Hj.
  - exact Hvalid.
  - exact Hz.
  - exact Hrot.
  - exists mesh. split; [exact Hmesh|]. split; [|split; assumption].
    rewrite Hnode. fold m.
    rewrite !Nat2Z.inj_add, Nat2Z.inj_mul, Hsn, Hsnl, Hcopies. lia.
Qed.

Lemma internal_stitch_spec (key_points : list vec2) (n1 n2 n3 z : Z)
    (quad_mesh : QuadrangleMesh) :
  let N := length (node quad_mesh) in
  let K := Z.of_nat (length key_points) in
  8 <= K ->
  1 <= n1 -> 1 <= n2 -> 1 <= n3 ->
  K + 2 * (n1 + n2 + n3 - 3) <= Z.of_nat N ->
  mesh_valid quad_mesh ->
  2 <= z ->
  Z.of_nat (copies z) * (Z.of_nat N - (n1 + n2 + n3 + 1)) < 2 ^ 63 ->
  exists mesh,
    InternalGear.stitch key_points n1 n2 n3 z quad_mesh = Ok mesh
    /\ Z.of_nat (length (node mesh))
       = Z.of_nat (copies z) * (Z.of_nat N - (n1 + n2 + n3 + 1))
    /\ length (cell mesh) = (copies z * length (cell quad_mesh))%nat
    /\ mesh_valid mesh.
Proof.
  intros N K HK Hn1 Hn2 Hn3 HN Hvalid Hz Hb.
  rewrite internal_stitch_assemble.
  destruct (linspace_open_succeeds 0 (2 * PI) z) as (rot_phi & -> & Hrot);
    [lia|].
  rewrite bind_Ok_l. cbv zeta. fold N K.
  set (E := n1 + n2 + n3 - 3) in *.
  set (T := n1 + n2 + n3 + 1) in *.
  set (sn := Z.of_nat N - T) in *.
  set (m := Z.to_nat (z - 3)).
  assert (T = E + 4) as HT by (unfold T, E; lia).
  assert (copies z = (m + 3)%nat) as Hcopies by reflexivity.
  match goal with
  | |- context [assemble _ _ _ ?tn ?tl] =>
      set (temp_node := tn); set (temp_node_last := tl)
  end.
  assert (Z.of_nat (length temp_node) = sn) as Hsn.
  { unfold temp_node. rewrite !length_app, !Nat2Z.inj_add.
    rewrite !slice_length_inside, slice_length_end by (fold N; lia).
    fold N. unfold sn. lia. }
  assert (Z.of_nat (length temp_node_last) = sn - T) as Hsnl.
  { unfold temp_node_last. rewrite !length_app, !Nat2Z.inj_add.
    rewrite !slice_length_inside, slice_length_end by (fold N; lia).
    fold N. unfold sn. lia. }
  assert (forall k : nat, (k <= S m)%nat ->
            Z.of_nat N + Z.of_nat k * sn < 2 ^ 63) as Hbk.
  { intros k Hk.
    pose proof (mul_le_copies k (S m) sn Hk ltac:(unfold sn; lia)).
    rewrite Hcopies in Hb.
    replace (Z.of_nat (m + 3)) with (Z.of_nat (S m) + 2) in Hb by lia.
    unfold sn in *. lia. }
  assert (sn = Z.of_nat N - (E + 4)) as Hsn' by (unfold sn; lia).
  destruct (assemble_spec
    (InternalGear.relink_left K E sn)
    (InternalGear.relink_middle K E sn)
    (InternalGear.relink_right K E T sn (np.arange N))
    temp_node temp_node_last z rot_phi quad_mesh
    (fun k tm => internal_links K E N k tm))
    as (mesh & Hmesh & Hnode & Hcell & Hv).
  - intros k tm Hk [Hlen Hl]. split; [exact Hlen|].
    intros j Hj. destruct (Hl j Hj) as [H0 _].
    rewrite Nat2Z.inj_add, Nat2Z.inj_mul, Hsn, Hsn'. exact H0.
  - apply relink_left_links; try assumption; try lia.
    specialize (Hbk 1%nat ltac:(lia)). lia.
  - intros k tm Hk.
    apply relink_middle_links; try assumption; try lia.
    apply Hbk. fold m in Hk. lia.
  - intros tm Hl. fold m in Hl.
    destruct (relink_right_links K E sn N HK ltac:(unfold E; lia) HN
                Hsn' T (S m) tm HT) as (tm' & Htm' & Hlen & Hr);
      [lia | | exact Hl |].
    { rewrite Hcopies in Hb.
      replace (Z.of_nat (m + 3)) with (Z.of_nat (S m) + 2) in Hb by lia.
      unfold sn in *. lia. }
    exists tm'. split; [exact Htm'|]. split; [exact Hlen|].
    intros j Hj. fold m.
    rewrite !Nat2Z.inj_add, Nat2Z.inj_mul, Hsn, Hsnl. apply Hr, Hj.
  - exact Hvalid.
  - exact Hz.
  - rewrite Hrot. reflexivity.
  - exists mesh. split; [exact Hmesh|]. split; [|split; assumption].
    rewrite Hnode. fold m.
    rewrite !Nat2Z.inj_add, Nat2Z.inj_mul, Hsn, Hsnl, Hcopies. lia.
Qed.

End StitchSpec.

(** *** What a run of the loop that returned has done *)

Section AssembleOk.
Local Open Scope nat_scope.

Lemma remap_cells_length (tm : list Z) (cs cs' : list quad) :
  remap_cells tm cs = Ok cs' -> length cs' = length cs.
Proof.
  revert cs'. induction cs as [|c cs IH]; intros cs' H; simpl in H.
  - injection H as <-. reflexivity.
  - inv_bind H as c' Hc'. inv_bind H as cs1 Hcs1. injection H as <-.
    simpl. f_equal. apply IH, Hcs1.
Qed.

Lemma append_copy_Ok (tm : list Z) (new_node : list vec2) (cs : list quad)
    (st st' : stitch_state) :
  append_copy tm new_node cs st = Ok st' ->
  length (s_tooth_node st') = length (s_tooth_node st) + length new_node
  /\ length (s_tooth_cell st') = length (s_tooth_cell st) + length cs.
Proof.
  unfold append_copy. intros H. inv_bind H as cs' Hcs'. injection H as <-.
  simpl. rewrite !length_app, (remap_cells_length _ _ _ Hcs'). auto.
Qed.

Lemma for_each_Ok {A St} (body : A -> St -> result St)
    (I : nat -> St -> Prop) (l : list A) (k0 : nat) (st st' : St) :
  for_each body l st = Ok st' ->
  (forall k x st st', body x st = Ok st' -> I k st -> I (S k) st') ->
  I k0 st -> I (k0 + length l) st'.
Proof.
  intros H Hbody. revert k0 st H.
  induction l as [|x l IH]; intros k0 st H H0.
  - simpl in H. injection H as <-. rewrite Nat.add_0_r. exact H0.
  - simpl in H. inv_bind H as st1 Hst1.
    replace (k0 + length (x :: l)) with (S k0 + length l) by (simpl; lia).
    apply (IH (S k0) st1 H). eapply Hbody; eauto.
Qed.

Lemma getitem_length {A} (l : list A) (i : Z) (x : A) :
  np.getitem l i = Ok x -> (0 <= i)%Z -> Z.to_nat i < length l.
Proof.
  intros H Hi. apply getitem_Ok in H as (k & Hk & _).
  apply index_Ok in Hk as [Hlt Hk]. rewrite <- (Hk Hi). exact Hlt.
Qed.

Lemma assemble_Ok (left middle right : list Z -> result (list Z))
    (temp_node temp_node_last : list vec2) (z : Z) (rot_phi : list R)
    (quad_mesh mesh : QuadrangleMesh) :
  assemble left middle right temp_node temp_node_last z rot_phi quad_mesh
  = Ok mesh ->
  2 <= length rot_phi
  /\ length (node mesh)
     = length (node quad_mesh) + S (Z.to_nat (z - 3)) * length temp_node
       + length temp_node_last
  /\ length (cell mesh) = copies z * length (cell quad_mesh).
Proof.
  unfold assemble. intros H.
  inv_bind H as tm1 Htm1. inv_bind H as phi1 Hphi1.
  inv_bind H as st1 Hst1. inv_bind H as st2 Hst2.
  inv_bind H as phil Hphil. inv_bind H as tm2 Htm2.
  inv_bind H as st3 Hst3. injection H as <-. simpl.
  apply getitem_length in Hphi1; [|lia].
  apply append_copy_Ok in Hst1 as [Hn1 Hc1]. simpl in Hn1, Hc1.
  apply append_copy_Ok in Hst3 as [Hn3 Hc3].
  rewrite length_rotate_nodes in Hn1, Hn3.
  eapply (for_each_Ok _
    (fun k st =>
       length (s_tooth_node st)
       = length (node quad_mesh) + k * length temp_node
       /\ length (s_tooth_cell st) = S k * length (cell quad_mesh))
    _ 1) in Hst2.
  - destruct Hst2 as [Hn2 Hc2]. unfold range in Hn2, Hc2. rewrite length_seqZ in Hn2, Hc2.
    split; [simpl in Hphi1; lia|]. unfold copies.
    replace (Z.to_nat (z - 1 - 2)) with (Z.to_nat (z - 3)) in * by lia.
    split; lia.
  - intros k x st st' Hb [Hn Hc].
    inv_bind Hb as phi Hphi. inv_bind Hb as tm Htm.
    apply append_copy_Ok in Hb as [Hn' Hc'].
    rewrite length_rotate_nodes in Hn'. split; lia.
  - split; lia.
Qed.

End AssembleOk.

(** *** The boundary lines *)

Section Lines.
Local Open Scope nat_scope.

Lemma linspace2_Ok (a b : vec2) (n : Z) (l : list vec2) :
  np.linspace2 a b n = Ok l -> (0 <= n)%Z /\ length l = Z.to_nat n.
Proof.
  unfold np.linspace2. intros H.
  inv_bind H as xs Hxs. inv_bind H as ys Hys. injection H as <-.
  apply linspace_Ok in Hxs as [Hn Hxs]. apply linspace_Ok in Hys as [_ Hys].
  split; [exact Hn|]. rewrite length_zip_with. lia.
Qed.

Lemma linspace2_succeeds (a b : vec2) (n : Z) :
  (0 <= n)%Z ->
  exists l, np.linspace2 a b n = Ok l /\ length l = Z.to_nat n.
Proof.
  intros Hn. unfold np.linspace2.
  destruct (linspace_succeeds a.1 b.1 n Hn) as (xs & -> & Hxs).
  destruct (linspace_succeeds a.2 b.2 n Hn) as (ys & -> & Hys).
  rewrite !bind_Ok_l. eexists. split; [reflexivity|].
  rewrite length_zip_with. lia.
Qed.

Lemma length_arc (r : R) (theta : list R) :
  length (arc r theta) = length theta.
Proof. apply length_fmap. Qed.

Lemma interior_nodes_cons (l : list vec2) (line : list (list vec2)) :
  interior_nodes (l :: line) = length l - 2 + interior_nodes line.
Proof. reflexivity. Qed.

Lemma interior_nodes_app (line line' : list (list vec2)) :
  interior_nodes (line ++ line')
  = interior_nodes line + interior_nodes line'.
Proof.
  induction line as [|l line IH]; [reflexivity|].
  simpl. rewrite !interior_nodes_cons, IH. lia.
Qed.

Lemma slice_length_Z {A} (a b : Z) (l : list A) :
  (0 <= a <= b)%Z -> (b <= Z.of_nat (length l))%Z ->
  length (np.slice a (Some b) l) = Z.to_nat (b - a).
Proof.
  intros Hab Hb. rewrite slice_length. simpl.
  rewrite !slice_bound_inside by lia. lia.
Qed.

End Lines.

(** *** What a stitcher that returned has built *)

(** Names the two node blocks of the call of [assemble] in [H]. *)
Ltac name_temp_nodes H N :=
  match type of H with
  | context [assemble _ _ _ ?tn ?tl] =>
      set (temp_node := tn) in *; set (temp_node_last := tl) in *
  end.

Section StitchOk.
Local Open Scope Z_scope.

Lemma stitch_reduced_Ok (key_points : list vec2) (n1 n2 n3 z : Z)
    (rot_phi : list R) (quad_mesh mesh : QuadrangleMesh) :
  let N := length (node quad_mesh) in
  length key_points = 12%nat ->
  1 <= n1 -> 1 <= n2 -> 1 <= n3 ->
  12 + 2 * (n1 + n2 + n3 - 3) + (n3 - 1) <= Z.of_nat N ->
  mesh_valid quad_mesh ->
  length rot_phi = Z.to_nat z ->
  ExternalGear.stitch_reduced key_points n1 n2 n3 z rot_phi quad_mesh
  = Ok mesh ->
  Z.of_nat (length (node mesh))
  = Z.of_nat (copies z) * (Z.of_nat N - (n3 + 1))
  /\ length (cell mesh) = (copies z * length (cell quad_mesh))%nat
  /\ (Z.of_nat (length (node mesh)) < 2 ^ 63 -> mesh_valid mesh).
Proof.
  intros N HK Hn1 Hn2 Hn3 HN Hvalid Hrot Hmesh.
  pose proof Hmesh as H. rewrite stitch_reduced_assemble in H.
  cbv zeta in H. rewrite HK in H. fold N in H.
  change (Z.of_nat 12) with 12 in H.
  name_temp_nodes H N.
  apply assemble_Ok in H as (Hz & Hnode & Hcell). fold N in Hnode.
  assert (Z.of_nat (length temp_node) = Z.of_nat N - (n3 + 1)) as Hsn.
  { unfold temp_node. rewrite length_app, Nat2Z.inj_add.
    rewrite slice_length_inside, slice_length_end by (fold N; lia).
    fold N. lia. }
  assert (Z.of_nat (length temp_node_last)
          = Z.of_nat N - (n3 + 1) - (n3 + 1)) as Hsnl.
  { unfold temp_node_last. rewrite !length_app, !Nat2Z.inj_add.
    rewrite !slice_length_inside, slice_length_end by (fold N; lia).
    fold N. lia. }
  assert (Z.of_nat (length (node mesh))
          = Z.of_nat (copies z) * (Z.of_nat N - (n3 + 1))) as Hcount.
  { rewrite Hnode, !Nat2Z.inj_add, Nat2Z.inj_mul, Hsn, Hsnl.
    unfold copies. lia. }
  split; [exact Hcount|]. split; [exact Hcell|].
  intros Hb. rewrite Hcount in Hb.
  destruct (stitch_reduced_spec key_points n1 n2 n3 z rot_phi quad_mesh
              HK Hn1 Hn2 Hn3 HN Hvalid ltac:(lia) Hrot Hb)
    as (mesh' & Hmesh' & _ & _ & Hv).
  rewrite Hmesh' in Hmesh. injection Hmesh as <-. exact Hv.
Qed.

Lemma stitch_normal_Ok (key_points : list vec2) (n1 n2 n3 na nf z : Z)
    (rot_phi : list R) (quad_mesh mesh : QuadrangleMesh) :
  let N := length (node quad_mesh) in
  let edge_node_num :=
    (na - 1) * 8 + (n2 - 1) * 3 + (n1 - 1) * 3 + (n3 - 1) * 5
    + (nf - 1) * 4 in
  length key_points = 16%nat ->
  1 <= n1 -> 1 <= n2 -> 1 <= n3 -> 1 <= na -> 1 <= nf ->
  16 + edge_node_num - 4 * (nf - 1) <= Z.of_nat N ->
  mesh_valid quad_mesh ->
  length rot_phi = Z.to_nat z ->
  ExternalGear.stitch_normal key_points n1 n2 n3 na nf z rot_phi quad_mesh
  = Ok mesh ->
  Z.of_nat (length (node mesh))
  = Z.of_nat (copies z) * (Z.of_nat N - (n3 + 1))
  /\ length (cell mesh) = (copies z * length (cell quad_mesh))%nat
  /\ (Z.of_nat (length (node mesh)) < 2 ^ 63 -> mesh_valid mesh).
Proof.
  intros N E HK Hn1 Hn2 Hn3 Hna Hnf HN Hvalid Hrot Hmesh.
  pose proof Hmesh as H. rewrite stitch_normal_assemble in H.
  cbv zeta in H. rewrite HK in H. fold N E in H.
  change (Z.of_nat 16) with 16 in H.
  name_temp_nodes H N.
  apply assemble_Ok in H as (Hz & Hnode & Hcell). fold N in Hnode.
  assert (Z.of_nat (length temp_node) = Z.of_nat N - (n3 + 1)) as Hsn.
  { unfold temp_node. rewrite !length_app, !Nat2Z.inj_add.
    rewrite !slice_length_inside, slice_length_end
      by (fold N; unfold E in *; lia).
    fold N. lia. }
  assert (Z.of_nat (length temp_node_last)
          = Z.of_nat N - (n3 + 1) - (n3 + 1)) as Hsnl.
  { unfold temp_node_last. rewrite !length_app, !Nat2Z.inj_add.
    rewrite !slice_length_inside, slice_length_end
      by (fold N; unfold E in *; lia).
    fold N. lia. }
  assert (Z.of_nat (length (node mesh))
          = Z.of_nat (copies z) * (Z.of_nat N - (n3 + 1))) as Hcount.
  { rewrite Hnode, !Nat2Z.inj_add, Nat2Z.inj_mul, Hsn, Hsnl.
    unfold copies. lia. }
  split; [exact Hcount|]. split; [exact Hcell|].
  intros Hb. rewrite Hcount in Hb.
  destruct (stitch_normal_spec key_points n1 n2 n3 na nf z rot_phi quad_mesh
              HK Hn1 Hn2 Hn3 Hna Hnf HN Hvalid ltac:(lia) Hrot Hb)
    as (mesh' & Hmesh' & _ & _ & Hv).
  rewrite Hmesh' in Hmesh. injection Hmesh as <-. exact Hv.
Qed.

Lemma internal_stitch_Ok (key_points : list vec2) (n1 n2 n3 z : Z)
    (quad_mesh mesh : QuadrangleMesh) :
  let N := length (node quad_mesh) in
  let K := Z.of_nat (length key_points) in
  8 <= K ->
  1 <= n1 -> 1 <= n2 -> 1 <= n3 ->
  K + 2 * (n1 + n2 + n3 - 3) <= Z.of_nat N ->
  mesh_valid quad_mesh ->
  InternalGear.stitch key_points n1 n2 n3 z quad_mesh = Ok mesh ->
  Z.of_nat (length (node mesh))
  = Z.of_nat (copies z) * (Z.of_nat N - (n1 + n2 + n3 + 1))
  /\ length (cell mesh) = (copies z * length (cell quad_mesh))%nat
  /\ (Z.of_nat (length (node mesh)) < 2 ^ 63 -> mesh_valid mesh).
Proof.
  intros N K HK Hn1 Hn2 Hn3 HN Hvalid Hmesh.
  pose proof Hmesh as H. rewrite internal_stitch_assemble in H.
  inv_bind H as rot_phi Hrot. apply linspace_open_Ok in Hrot as [Hz0 Hrot].
  cbv zeta in H. fold N K in H.
  name_temp_nodes H N.
  apply assemble_Ok in H as (Hz & Hnode & Hcell). fold N in Hnode.
  assert (Z.of_nat (length temp_node)
          = Z.of_nat N - (n1 + n2 + n3 + 1)) as Hsn.
  { unfold temp_node. rewrite !length_app, !Nat2Z.inj_add.
    rewrite !slice_length_inside, slice_length_end by (fold N K; lia).
    fold N K. lia. }
  assert (Z.of_nat (length temp_node_last)
          = Z.of_nat N - (n1 + n2 + n3 + 1) - (n1 + n2 + n3 + 1)) as Hsnl.
  { unfold temp_node_last. rewrite !length_app, !Nat2Z.inj_add.
    rewrite !slice_length_inside, slice_length_end by (fold N K; lia).
    fold N K. lia. }
  assert (Z.of_nat (length (node mesh))
          = Z.of_nat (copies z) * (Z.of_nat N - (n1 + n2 + n3 + 1)))
    as Hcount.
  { rewrite Hnode, !Nat2Z.inj_add, Nat2Z.inj_mul, Hsn, Hsnl.
    unfold copies. lia. }
  split; [exact Hcount|]. split; [exact Hcell|].
  intros Hb. rewrite Hcount in Hb.
  destruct (internal_stitch_spec key_points n1 n2 n3 z quad_mesh
              HK Hn1 Hn2 Hn3 HN Hvalid ltac:(lia) Hb)
    as (mesh' & Hmesh' & _ & _ & Hv).
  rewrite Hmesh' in Hmesh. injection Hmesh as <-. exact Hv.
Qed.

End StitchOk.

(** *** ExternalGear.generate_mesh *)

Section ExternalMesh.
Local Open Scope Z_scope.

Lemma rotation_angles_length (zv : pyval) (rot : list R) :
  rotation_angles zv = Ok rot -> length rot = Z.to_nat (int_value zv).
Proof.
  unfold rotation_angles. destruct (isinstance_int zv); [|discriminate].
  intros H. apply linspace_open_Ok in H as [_ H]. exact H.
Qed.

Variable self : ExternalGear.t.
Variable f : ExternalGear.frame.

Let n1 := Gear.n1 (ExternalGear.base self).
Let n2 := Gear.n2 (ExternalGear.base self).
Let n3 := Gear.n3 (ExternalGear.base self).
Let na := Gear.na (ExternalGear.base self).
Let nf := Gear.nf (ExternalGear.base self).

Hypothesis Hn1 : 1 <= n1.
Hypothesis Hn2 : 1 <= n2.
Hypothesis Hn3 : 1 <= n3.
Hypothesis Hna : 1 <= na.
Hypothesis Hpoints :
  length (ExternalGear.points f) = (2 * Z.to_nat (n1 + n2 + 1))%nat.

Lemma common_lines_interior (line : list (list vec2)) :
  ExternalGear.common_lines self f = Ok line ->
  length line = 17%nat
  /\ Z.of_nat (interior_nodes line)
     = 3 * (n3 - 1) + 3 * (n1 - 1) + 3 * (n2 - 1) + 8 * (na - 1).
Proof.
  unfold ExternalGear.common_lines. fold n1 n2 n3 na. intros H.
  inv_bind H as theta_f Htheta_f. inv_bind H as theta_ff Htheta_ff.
  inv_bind H as theta_a Htheta_a. inv_bind H as theta_aa Htheta_aa.
  inv_bind H as l0 Hl0. inv_bind H as l3 Hl3. inv_bind H as l4 Hl4.
  inv_bind H as l5 Hl5. inv_bind H as l6 Hl6. inv_bind H as l10 Hl10.
  inv_bind H as l11 Hl11. inv_bind H as l14 Hl14. inv_bind H as l15 Hl15.
  injection H as <-. split; [reflexivity|].
  apply linspace_Ok in Htheta_f as [_ Htheta_f].
  apply linspace_Ok in Htheta_ff as [_ Htheta_ff].
  apply linspace_Ok in Htheta_a as [_ Htheta_a].
  apply linspace_Ok in Htheta_aa as [_ Htheta_aa].
  apply linspace2_Ok in Hl0 as [_ Hl0]. apply linspace2_Ok in Hl3 as [_ Hl3].
  apply linspace2_Ok in Hl4 as [_ Hl4]. apply linspace2_Ok in Hl5 as [_ Hl5].
  apply linspace2_Ok in Hl6 as [_ Hl6].
  apply linspace2_Ok in Hl10 as [_ Hl10].
  apply linspace2_Ok in Hl11 as [_ Hl11].
  apply linspace2_Ok in Hl14 as [_ Hl14].
  apply linspace2_Ok in Hl15 as [_ Hl15].
  rewrite !interior_nodes_cons. unfold interior_nodes. simpl sum_list.
  rewrite !length_arc, !length_fmap.
  rewrite !slice_length_Z by lia.
  rewrite Htheta_f, Htheta_ff, Htheta_a, Htheta_aa, Hl0, Hl3, Hl4, Hl5, Hl6,
    Hl10, Hl11, Hl14, Hl15.
  lia.
Qed.

Variable gen : mesh_generator.
Hypothesis Hgen : generator_contract gen.
Hypothesis Hrot :
  length (ExternalGear.rot_phi f)
  = Z.to_nat (int_value (ExternalGear.z f)).

Let z := int_value (ExternalGear.z f).

Lemma mesh_reduced_Ok (mesh : QuadrangleMesh) :
  ExternalGear.mesh_reduced gen self f = Ok mesh ->
  exists half_edge key_points line quad_mesh,
    gen half_edge key_points line = Ok quad_mesh
    /\ Z.of_nat (length (node mesh))
       = Z.of_nat (copies z)
         * (Z.of_nat (length (node quad_mesh)) - (n3 + 1))
    /\ length (cell mesh) = (copies z * length (cell quad_mesh))%nat
    /\ (Z.of_nat (length (node mesh)) < 2 ^ 63 -> mesh_valid mesh).
Proof.
  unfold ExternalGear.mesh_reduced. fold n1 n2 n3. intros H.
  inv_bind H as half_edge Hhe. inv_bind H as line Hline.
  inv_bind H as quad_mesh Hqm.
  destruct (Hgen _ _ _ _ Hqm) as [Hvalid Hnodes].
  destruct (common_lines_interior line Hline) as [_ Hint].
  rewrite length_fmap in Hnodes. simpl length in Hnodes.
  exists half_edge, (drop_last_col <$> ExternalGear.key_points_12 f), line,
    quad_mesh.
  split; [exact Hqm|].
  apply (fun HK HN => stitch_reduced_Ok _ _ _ _ _ _ _ _ HK Hn1 Hn2 Hn3 HN
                         Hvalid Hrot H); [reflexivity | lia].
Qed.

Hypothesis Hnf : 1 <= nf.

Lemma mesh_normal_Ok (mesh : QuadrangleMesh) :
  ExternalGear.mesh_normal gen self f = Ok mesh ->
  exists half_edge key_points line quad_mesh,
    gen half_edge key_points line = Ok quad_mesh
    /\ Z.of_nat (length (node mesh))
       = Z.of_nat (copies z)
         * (Z.of_nat (length (node quad_mesh)) - (n3 + 1))
    /\ length (cell mesh) = (copies z * length (cell quad_mesh))%nat
    /\ (Z.of_nat (length (node mesh)) < 2 ^ 63 -> mesh_valid mesh).
Proof.
  unfold ExternalGear.mesh_normal. fold n1 n2 n3 na nf. intros H.
  inv_bind H as half_edge Hhe. inv_bind H as line Hline.
  inv_bind H as theta_b1 Hb1. inv_bind H as theta_b2 Hb2.
  inv_bind H as l17 Hl17. inv_bind H as l18 Hl18.
  inv_bind H as quad_mesh Hqm.
  destruct (Hgen _ _ _ _ Hqm) as [Hvalid Hnodes].
  destruct (common_lines_interior line Hline) as [_ Hint].
  apply linspace_Ok in Hb1 as [_ Hb1]. apply linspace_Ok in Hb2 as [_ Hb2].
  apply linspace2_Ok in Hl17 as [_ Hl17].
  apply linspace2_Ok in Hl18 as [_ Hl18].
  rewrite length_fmap, interior_nodes_app in Hnodes.
  rewrite !interior_nodes_cons in Hnodes.
  rewrite !length_arc, Hb1, Hb2, Hl17, Hl18 in Hnodes.
  rewrite length_app in Hnodes. simpl length in Hnodes.
  do 4 eexists. split; [exact Hqm|].
  unfold interior_nodes in Hnodes at 2. simpl sum_list in Hnodes.
  apply (fun HK HN => stitch_normal_Ok _ _ _ _ _ _ _ _ _ _ HK Hn1 Hn2 Hn3
                         Hna Hnf HN Hvalid Hrot H); [reflexivity | lia].
Qed.

End ExternalMesh.

Lemma external_generate_mesh_Ok (slv : solver) (gen : mesh_generator)
    (G : globals) (self self' : ExternalGear.t) (mesh : QuadrangleMesh) :
  let g := ExternalGear.base self in
  generator_contract gen ->
  (1 <= Gear.n1 g)%Z -> (1 <= Gear.n2 g)%Z -> (1 <= Gear.n3 g)%Z ->
  (1 <= Gear.na g)%Z -> (1 <= Gear.nf g)%Z ->
  ExternalGear.generate_mesh slv gen G self = Ok (mesh, self') ->
  exists zv half_edge key_points line quad_mesh,
    G !! "z" = Some zv
    /\ gen half_edge key_points line = Ok quad_mesh
    /\ Z.of_nat (length (node mesh))
       = (Z.of_nat (copies (int_value zv))
          * (Z.of_nat (length (node quad_mesh)) - (Gear.n3 g + 1)))%Z
    /\ length (cell mesh)
       = (copies (int_value zv) * length (cell quad_mesh))%nat
    /\ ((Z.of_nat (length (node mesh)) < 2 ^ 63)%Z -> mesh_valid mesh).
Proof.
  intros g Hgen Hn1 Hn2 Hn3 Hna Hnf H.
  unfold ExternalGear.generate_mesh in H.
  inv_bind H as f Hf. inv_bind H as t_mesh Hmesh. injection H as <- _.
  pose proof (tooth_geometry_Ok _ _ _ _ Hf)
    as (Hp & _ & _ & HG & Hrot & _).
  pose proof (external_profile_spec _ _ _ Hp) as (_ & _ & Hl & _).
  apply rotation_angles_length in Hrot.
  exists (ExternalGear.z f).
  destruct (ExternalGear.select_topology f).
  - destruct (mesh_reduced_Ok self f Hn1 Hn2 Hn3 Hna Hl gen Hgen Hrot
                t_mesh Hmesh) as (he & kp & line & qm & ?).
    exists he, kp, line, qm. auto.
  - destruct (mesh_normal_Ok self f Hn1 Hn2 Hn3 Hna Hl gen Hgen Hrot Hnf
                t_mesh Hmesh) as (he & kp & line & qm & ?).
    exists he, kp, line, qm. auto.
Qed.

(** *** InternalGear.generate_mesh *)

(** Splits a hypothesis [H] that a sequence of statements returned into
    the runs of the statements. *)
Ltac inv_binds H :=
  repeat (let x := fresh "x" in
          let Hx := fresh "Hx" in
          lazymatch type of H with
          | (_ ≫= _) = _ => apply bind_Ok in H; destruct H as (x & Hx & H)
          end).

Section InternalMesh.
Local Open Scope Z_scope.

Lemma edge_line_Ok (key_points : list vec2) (edge : list (Z * Z)) (i num : Z)
    (l : list vec2) :
  InternalGear.edge_line key_points edge i num = Ok l ->
  length l = Z.to_nat num.
Proof.
  unfold InternalGear.edge_line. intros H.
  inv_bind H as e He. inv_bind H as a Ha. inv_bind H as b Hb.
  apply linspace2_Ok in H as [_ H]. exact H.
Qed.

Lemma rim_key_points_Ok (G : globals) (self : InternalGear.t)
    (phi00 phi01 outer_diam : R) (rim : list vec2) :
  InternalGear.rim_key_points G self = Ok (phi00, phi01, outer_diam, rim) ->
  length rim = 8%nat.
Proof.
  unfold InternalGear.rim_key_points. intros H.
  destruct (decide _); [discriminate|].
  inv_bind H as v Hv. inv_bind H as od Hod. injection H as _ _ _ <-.
  reflexivity.
Qed.

Variable gen : mesh_generator.
Variable G : globals.
Variable self : InternalGear.t.
Variable points : list vec3.

Let g := InternalGear.base self.
Let n1 := Gear.n1 g.
Let n2 := Gear.n2 g.
Let n3 := Gear.n3 g.
Let z := Gear.z g.

Hypothesis Hgen : generator_contract gen.
Hypothesis Hn1 : 1 <= n1.
Hypothesis Hn2 : 1 <= n2.
Hypothesis Hn3 : 1 <= n3.

Lemma mesh_thick_Ok (mesh : QuadrangleMesh) :
  InternalGear.mesh_thick gen G self points = Ok mesh ->
  exists half_edge key_points line quad_mesh,
    gen half_edge key_points line = Ok quad_mesh
    /\ (8 <= length key_points)%nat
    /\ Z.of_nat (length (node mesh))
       = Z.of_nat (copies z)
         * (Z.of_nat (length (node quad_mesh)) - (n1 + n2 + n3 + 1))
    /\ length (cell mesh) = (copies z * length (cell quad_mesh))%nat
    /\ (Z.of_nat (length (node mesh)) < 2 ^ 63 -> mesh_valid mesh).
Proof.
  unfold InternalGear.mesh_thick. fold g n1 n2 n3 z. intros H.
  inv_bind H as r Hr. destruct r as [[[phi00 phi01] outer_diam] rim].
  apply rim_key_points_Ok in Hr.
  inv_binds H.
  repeat match goal with
  | Hx : InternalGear.edge_line _ _ _ _ = Ok _ |- _ =>
      apply edge_line_Ok in Hx
  end.
  match goal with
  | Hq : gen _ _ _ = Ok ?qm |- _ =>
      destruct (Hgen _ _ _ _ Hq) as [Hvalid Hnodes];
      do 4 eexists; split; [exact Hq|]
  end.
  do 6 rewrite interior_nodes_cons in Hnodes.
  rewrite length_app, Hr in Hnodes.
  match type of H with
  | InternalGear.stitch ?kp _ _ _ ?zz ?qm = _ =>
      assert (8 <= Z.of_nat (length kp)) as HK
        by (rewrite length_app, Hr; lia);
      assert (Z.of_nat (length kp) + 2 * (n1 + n2 + n3 - 3)
              <= Z.of_nat (length (node qm))) as HN
        by (rewrite length_app, Hr; lia);
      split; [lia|];
      exact (internal_stitch_Ok kp n1 n2 n3 zz qm mesh HK Hn1 Hn2 Hn3 HN
               Hvalid H)
  end.
Qed.

Lemma mesh_thin_Ok (mesh : QuadrangleMesh) :
  InternalGear.mesh_thin gen G self points = Ok mesh ->
  exists half_edge key_points line quad_mesh,
    gen half_edge key_points line = Ok quad_mesh
    /\ (8 <= length key_points)%nat
    /\ Z.of_nat (length (node mesh))
       = Z.of_nat (copies z)
         * (Z.of_nat (length (node quad_mesh)) - (n1 + n2 + n3 + 1))
    /\ length (cell mesh) = (copies z * length (cell quad_mesh))%nat
    /\ (Z.of_nat (length (node mesh)) < 2 ^ 63 -> mesh_valid mesh).
Proof.
  unfold InternalGear.mesh_thin. fold g n1 n2 n3 z. intros H.
  inv_bind H as r Hr. destruct r as [[[phi00 phi01] outer_diam] rim].
  apply rim_key_points_Ok in Hr.
  inv_binds H.
  repeat match goal with
  | Hx : InternalGear.edge_line _ _ _ _ = Ok _ |- _ =>
      apply edge_line_Ok in Hx
  end.
  match goal with
  | Hq : gen _ _ _ = Ok ?qm |- _ =>
      destruct (Hgen _ _ _ _ Hq) as [Hvalid Hnodes];
      do 4 eexists; split; [exact Hq|]
  end.
  do 6 rewrite interior_nodes_cons in Hnodes.
  rewrite length_app, Hr in Hnodes.
  match type of H with
  | InternalGear.stitch ?kp _ _ _ ?zz ?qm = _ =>
      assert (8 <= Z.of_nat (length kp)) as HK
        by (rewrite length_app, Hr; lia);
      assert (Z.of_nat (length kp) + 2 * (n1 + n2 + n3 - 3)
              <= Z.of_nat (length (node qm))) as HN
        by (rewrite length_app, Hr; lia);
      split; [lia|];
      exact (internal_stitch_Ok kp n1 n2 n3 zz qm mesh HK Hn1 Hn2 Hn3 HN
               Hvalid H)
  end.
Qed.

End InternalMesh.

Lemma internal_generate_mesh_Ok (slv : solver) (fuel : nat)
    (gen : mesh_generator) (G : globals) (self self' : InternalGear.t)
    (mesh : QuadrangleMesh) :
  let g := InternalGear.base self in
  generator_contract gen ->
  (1 <= Gear.n1 g)%Z -> (1 <= Gear.n2 g)%Z -> (1 <= Gear.n3 g)%Z ->
  InternalGear.generate_mesh slv fuel gen G self = Ok (mesh, self') ->
  exists half_edge key_points line quad_mesh,
    gen half_edge key_points line = Ok quad_mesh
    /\ (8 <= length key_points)%nat
    /\ Z.of_nat (length (node mesh))
       = (Z.of_nat (copies (Gear.z g))
          * (Z.of_nat (length (node quad_mesh))
             - (Gear.n1 g + Gear.n2 g + Gear.n3 g + 1)))%Z
    /\ length (cell mesh) = (copies (Gear.z g) * length (cell quad_mesh))%nat
    /\ ((Z.of_nat (length (node mesh)) < 2 ^ 63)%Z -> mesh_valid mesh).
Proof.
  intros g Hgen Hn1 Hn2 Hn3 H.
  unfold InternalGear.generate_mesh in H.
  inv_bind H as t_2 Ht2.
  destruct (Rge_dec _ _); inv_bind H as ps Hps; destruct ps as [pts self1];
    inv_bind H as t_mesh Hmesh; injection H as <- _;
    pose proof (internal_profile_base _ _ _ _ _ Hps) as Hb.
  - apply mesh_thick_Ok in Hmesh; rewrite ?Hb; try assumption.
    rewrite Hb in Hmesh. exact Hmesh.
  - apply mesh_thin_Ok in Hmesh; rewrite ?Hb; try assumption.
    rewrite Hb in Hmesh. exact Hmesh.
Qed.

(** ** The stitchers on a wheel of [z] teeth *)

Section StitchedWheel.
Local Open Scope Z_scope.

Lemma sample_tooth_valid : mesh_valid sample_tooth.
Proof.
  unfold mesh_valid, cell_valid, sample_tooth. simpl.
  repeat first [apply List.Forall_nil | apply List.Forall_cons]; simpl; lia.
Qed.

(** X1.  The stitcher of the reduced topology of [ExternalGear]: with 12
    key points, positive segment counts, a single-tooth mesh whose cells
    index its [N] nodes and that has the key points and the interior nodes
    of the first seven boundary lines, and [z >= 2] rotation angles, it
    returns a mesh of [copies z * (N - (n3 + 1))] nodes and [copies z]
    times the cells of the tooth, every cell of which indexes the node
    array; [copies z] is [z] from 3 teeth on and 3 for 2 teeth. *)
Theorem X1_reduced_stitcher (key_points : list vec2) (n1 n2 n3 z : Z)
    (rot_phi : list R) (quad_mesh : QuadrangleMesh) :
  let N := length (node quad_mesh) in
  length key_points = 12%nat ->
  1 <= n1 -> 1 <= n2 -> 1 <= n3 ->
  12 + 2 * (n1 + n2 + n3 - 3) + (n3 - 1) <= Z.of_nat N ->
  mesh_valid quad_mesh ->
  2 <= z -> length rot_phi = Z.to_nat z ->
  Z.of_nat (copies z) * (Z.of_nat N - (n3 + 1)) < 2 ^ 63 ->
  exists mesh,
    ExternalGear.stitch_reduced key_points n1 n2 n3 z rot_phi quad_mesh
    = Ok mesh
    /\ Z.of_nat (length (node mesh))
       = Z.of_nat (copies z) * (Z.of_nat N - (n3 + 1))
    /\ length (cell mesh) = (copies z * length (cell quad_mesh))%nat
    /\ mesh_valid mesh
    /\ copies z = Z.to_nat (Z.max 3 z).
Proof.
  intros N HK Hn1 Hn2 Hn3 HN Hvalid Hz Hrot Hb.
  destruct (stitch_reduced_spec key_points n1 n2 n3 z rot_phi quad_mesh
              HK Hn1 Hn2 Hn3 HN Hvalid Hz Hrot Hb)
    as (mesh & Hm & Hnode & Hcell & Hv).
  exists mesh. repeat split; try assumption. unfold copies. lia.
Qed.

(** A wheel of 4 teeth from the sample tooth. *)
Lemma X1_witness :
  exists mesh,
    ExternalGear.stitch_reduced (replicate 12 (0, 0)%R) 1 1 1 4
      (sample_angles 4) sample_tooth = Ok mesh
    /\ Z.of_nat (length (node mesh)) = 72
    /\ length (cell mesh) = 8%nat
    /\ mesh_valid mesh.
Proof.
  destruct (X1_reduced_stitcher (replicate 12 (0, 0)%R) 1 1 1 4
              (sample_angles 4) sample_tooth)
    as (mesh & Hm & Hnode & Hcell & Hv & _);
    [reflexivity | lia | lia | lia | unfold sample_tooth; simpl; lia
     | apply sample_tooth_valid | lia | reflexivity
     | vm_compute; reflexivity |].
  exists mesh. repeat split; assumption.
Defined.

(** X2.  The stitcher of the normal topology of [ExternalGear] (16 key
    points): under the same conditions, with the interior nodes of the
    boundary lines up to the two radial edges shared with the neighbours,
    it returns a mesh of [copies z * (N - (n3 + 1))] nodes and [copies z]
    times the cells of the tooth, every cell of which indexes the node
    array. *)
Theorem X2_normal_stitcher (key_points : list vec2) (n1 n2 n3 na nf z : Z)
    (rot_phi : list R) (quad_mesh : QuadrangleMesh) :
  let N := length (node quad_mesh) in
  let edge_node_num :=
    (na - 1) * 8 + (n2 - 1) * 3 + (n1 - 1) * 3 + (n3 - 1) * 5
    + (nf - 1) * 4 in
  length key_points = 16%nat ->
  1 <= n1 -> 1 <= n2 -> 1 <= n3 -> 1 <= na -> 1 <= nf ->
  16 + edge_node_num - 4 * (nf - 1) <= Z.of_nat N ->
  mesh_valid quad_mesh ->
  2 <= z -> length rot_phi = Z.to_nat z ->
  Z.of_nat (copies z) * (Z.of_nat N - (n3 + 1)) < 2 ^ 63 ->
  exists mesh,
    ExternalGear.stitch_normal key_points n1 n2 n3 na nf z rot_phi quad_mesh
    = Ok mesh
    /\ Z.of_nat (length (node mesh))
       = Z.of_nat (copies z) * (Z.of_nat N - (n3 + 1))
    /\ length (cell mesh) = (copies z * length (cell quad_mesh))%nat
    /\ mesh_valid mesh.
Proof.
  intros N E HK Hn1 Hn2 Hn3 Hna Hnf HN Hvalid Hz Hrot Hb.
  exact (stitch_normal_spec key_points n1 n2 n3 na nf z rot_phi quad_mesh
           HK Hn1 Hn2 Hn3 Hna Hnf HN Hvalid Hz Hrot Hb).
Qed.

(** A wheel of 5 teeth from the sample tooth. *)
Lemma X2_witness :
  exists mesh,
    ExternalGear.stitch_normal (replicate 16 (0, 0)%R) 1 1 1 1 1 5
      (sample_angles 5) sample_tooth = Ok mesh
    /\ Z.of_nat (length (node mesh)) = 90
    /\ length (cell mesh) = 10%nat
    /\ mesh_valid mesh.
Proof.
  apply (X2_normal_stitcher (replicate 16 (0, 0)%R) 1 1 1 1 1 5
           (sample_angles 5) sample_tooth);
    [reflexivity | lia | lia | lia | lia | lia
     | unfold sample_tooth; simpl; lia | apply sample_tooth_valid | lia
     | reflexivity | vm_compute; reflexivity].
Defined.

(** X3.  The stitcher of [InternalGear] (both topologies run the same
    statements): with at least 8 key points, positive segment counts, a
    single-tooth mesh whose cells index its [N] nodes and that has the key
    points and the interior nodes of the first six boundary lines, and
    [z >= 2], it returns a mesh of [copies z * (N - (n1 + n2 + n3 + 1))]
    nodes and [copies z] times the cells of the tooth, every cell of which
    indexes the node array. *)
Theorem X3_internal_stitcher (key_points : list vec2) (n1 n2 n3 z : Z)
    (quad_mesh : QuadrangleMesh) :
  let N := length (node quad_mesh) in
  let K := Z.of_nat (length key_points) in
  8 <= K ->
  1 <= n1 -> 1 <= n2 -> 1 <= n3 ->
  K + 2 * (n1 + n2 + n3 - 3) <= Z.of_nat N ->
  mesh_valid quad_mesh ->
  2 <= z ->
  Z.of_nat (copies z) * (Z.of_nat N - (n1 + n2 + n3 + 1)) < 2 ^ 63 ->
  exists mesh,
    InternalGear.stitch key_points n1 n2 n3 z quad_mesh = Ok mesh
    /\ Z.of_nat (length (node mesh))
       = Z.of_nat (copies z) * (Z.of_nat N - (n1 + n2 + n3 + 1))
    /\ length (cell mesh) = (copies z * length (cell quad_mesh))%nat
    /\ mesh_valid mesh.
Proof.
  intros N K HK Hn1 Hn2 Hn3 HN Hvalid Hz Hb.
  exact (internal_stitch_spec key_points n1 n2 n3 z quad_mesh
           HK Hn1 Hn2 Hn3 HN Hvalid Hz Hb).
Qed.

(** A ring of 2 teeth from the sample tooth: three copies. *)
Lemma X3_witness :
  exists mesh,
    InternalGear.stitch (replicate 14 (0, 0)%R) 1 1 1 2 sample_tooth
    = Ok mesh
    /\ Z.of_nat (length (node mesh)) = 48
    /\ length (cell mesh) = 6%nat
    /\ mesh_valid mesh.
Proof.
  apply (X3_internal_stitcher (replicate 14 (0, 0)%R) 1 1 1 2 sample_tooth);
    [simpl; lia | lia | lia | lia | unfold sample_tooth; simpl; lia
     | apply sample_tooth_valid | lia | vm_compute; reflexivity].
Defined.

End StitchedWheel.

(** ** Runs of [ExternalGear.generate_mesh] that return *)

Section ExternalRuns.
Local Open Scope Z_scope.

Lemma reduced_half_edge_Ok :
  exists half_edge, ExternalGear.reduced_half_edge = Ok half_edge.
Proof. apply is_ok_true. vm_compute. reflexivity. Qed.

Lemma normal_half_edge_Ok :
  exists half_edge, ExternalGear.normal_half_edge = Ok half_edge.
Proof. apply is_ok_true. vm_compute. reflexivity. Qed.

Lemma common_lines_succeeds (self : ExternalGear.t) (f : ExternalGear.frame) :
  let g := ExternalGear.base self in
  0 <= Gear.n1 g + 1 -> 0 <= Gear.n2 g + 1 -> 0 <= Gear.n3 g + 1 ->
  0 <= Gear.na g + 1 ->
  exists line, ExternalGear.common_lines self f = Ok line.
Proof.
  intros g Hn1 Hn2 Hn3 Hna. unfold ExternalGear.common_lines. fold g.
  repeat match goal with
  | |- context [np.linspace ?a ?b ?n ≫= _] =>
      let x := fresh "x" in
      destruct (linspace_succeeds a b n) as (x & -> & _);
      [assumption | rewrite bind_Ok_l]
  | |- context [np.linspace2 ?a ?b ?n ≫= _] =>
      let x := fresh "x" in
      destruct (linspace2_succeeds a b n) as (x & -> & _);
      [assumption | rewrite bind_Ok_l]
  end.
  eauto.
Qed.

Lemma copies_bound (z a b : Z) :
  a <= b -> Z.of_nat (copies z) * b < 2 ^ 63 ->
  Z.of_nat (copies z) * a < 2 ^ 63.
Proof.
  intros Hab Hb.
  pose proof (Z.mul_le_mono_nonneg_l a b (Z.of_nat (copies z))
                ltac:(lia) Hab).
  lia.
Qed.

Variable gen : mesh_generator.
Variable inner : nat.
Variable self : ExternalGear.t.
Variable f : ExternalGear.frame.

Let n1 := Gear.n1 (ExternalGear.base self).
Let n2 := Gear.n2 (ExternalGear.base self).
Let n3 := Gear.n3 (ExternalGear.base self).
Let na := Gear.na (ExternalGear.base self).
Let nf := Gear.nf (ExternalGear.base self).
Let z := int_value (ExternalGear.z f).
Let edge_node_num :=
  (na - 1) * 8 + (n2 - 1) * 3 + (n1 - 1) * 3 + (n3 - 1) * 5 + (nf - 1) * 4.

Hypothesis Hret : forall he kp line, exists m, gen he kp line = Ok m.
Hypothesis Hgen : generator_contract gen.
Hypothesis Hinner :
  forall he kp line m, gen he kp line = Ok m ->
    (length (node m) <= length kp + interior_nodes line + inner)%nat.
Hypothesis Hn1 : 1 <= n1.
Hypothesis Hn2 : 1 <= n2.
Hypothesis Hn3 : 1 <= n3.
Hypothesis Hna : 1 <= na.
Hypothesis Hnf : 1 <= nf.
Hypothesis Hpoints :
  length (ExternalGear.points f) = (2 * Z.to_nat (n1 + n2 + 1))%nat.
Hypothesis Hrot : length (ExternalGear.rot_phi f) = Z.to_nat z.
Hypothesis Hz : 2 <= z.
Hypothesis Hsize :
  Z.of_nat (copies z) * (16 + edge_node_num + Z.of_nat inner) < 2 ^ 63.

Lemma mesh_reduced_succeeds :
  exists mesh,
    ExternalGear.mesh_reduced gen self f = Ok mesh /\ mesh_valid mesh.
Proof.
  unfold ExternalGear.mesh_reduced. fold n1 n2 n3.
  destruct reduced_half_edge_Ok as [he ->]. rewrite bind_Ok_l.
  destruct (common_lines_succeeds self f) as [line Hline];
    [fold n1; lia | fold n2; lia | fold n3; lia | fold na; lia |].
  rewrite Hline, bind_Ok_l.
  match goal with
  | |- context [gen he ?kp ?ln] =>
      destruct (Hret he kp ln) as [qm Hqm]; rewrite Hqm, bind_Ok_l;
      destruct (Hgen _ _ _ _ Hqm) as [Hvalid Hnodes];
      pose proof (Hinner _ _ _ _ Hqm) as Hmost
  end.
  destruct (common_lines_interior self f Hn1 Hn2 Hn3 Hna Hpoints line Hline)
    as [_ Hint].
  rewrite length_fmap in Hnodes, Hmost. simpl length in Hnodes, Hmost.
  match goal with
  | |- context [ExternalGear.stitch_reduced ?kp] =>
      destruct (stitch_reduced_spec kp n1 n2 n3 z (ExternalGear.rot_phi f)
                  qm)
        as (mesh & Hm & _ & _ & Hv);
      [reflexivity | assumption | assumption | assumption | lia
       | assumption | assumption | assumption | | eauto]
  end.
  apply copies_bound with (b := 16 + edge_node_num + Z.of_nat inner);
    [unfold edge_node_num; lia | exact Hsize].
Qed.

Lemma mesh_normal_succeeds :
  exists mesh,
    ExternalGear.mesh_normal gen self f = Ok mesh /\ mesh_valid mesh.
Proof.
  unfold ExternalGear.mesh_normal. fold n1 n2 n3 na nf.
  destruct normal_half_edge_Ok as [he ->]. rewrite bind_Ok_l.
  destruct (common_lines_succeeds self f) as [line Hline];
    [fold n1; lia | fold n2; lia | fold n3; lia | fold na; lia |].
  rewrite Hline, bind_Ok_l.
  destruct (common_lines_interior self f Hn1 Hn2 Hn3 Hna Hpoints line Hline)
    as [_ Hint].
  repeat match goal with
  | |- context [np.linspace ?a ?b ?n ≫= _] =>
      let x := fresh "x" in
      let Hx := fresh "Hx" in
      destruct (linspace_succeeds a b n) as (x & -> & Hx);
      [lia | rewrite bind_Ok_l]
  | |- context [np.linspace2 ?a ?b ?n ≫= _] =>
      let x := fresh "x" in
      let Hx := fresh "Hx" in
      destruct (linspace2_succeeds a b n) as (x & -> & Hx);
      [lia | rewrite bind_Ok_l]
  end.
  match goal with
  | |- context [gen he ?kp ?ln] =>
      destruct (Hret he kp ln) as [qm Hqm]; rewrite Hqm, bind_Ok_l;
      destruct (Hgen _ _ _ _ Hqm) as [Hvalid Hnodes];
      pose proof (Hinner _ _ _ _ Hqm) as Hmost
  end.
  rewrite length_fmap, interior_nodes_app in Hnodes, Hmost.
  rewrite !interior_nodes_cons in Hnodes, Hmost.
  rewrite !length_arc in Hnodes, Hmost.
  rewrite length_app in Hnodes, Hmost. simpl length in Hnodes, Hmost.
  unfold interior_nodes in Hnodes at 2. unfold interior_nodes in Hmost at 2.
  simpl sum_list in Hnodes, Hmost.
  match goal with
  | |- context [ExternalGear.stitch_normal ?kp] =>
      destruct (stitch_normal_spec kp n1 n2 n3 na nf z
                  (ExternalGear.rot_phi f) qm)
        as (mesh & Hm & _ & _ & Hv);
      [reflexivity | assumption | assumption | assumption | assumption
       | assumption | lia | assumption | assumption | assumption | | eauto]
  end.
  apply copies_bound with (b := 16 + edge_node_num + Z.of_nat inner);
    [unfold edge_node_num; lia | exact Hsize].
Qed.

End ExternalRuns.

Lemma external_generate_mesh_succeeds (slv : solver) (gen : mesh_generator)
    (G : globals) (self : ExternalGear.t) (zv : pyval) (inner : nat) :
  let g := ExternalGear.base self in
  let z := int_value zv in
  let edge_node_num :=
    ((Gear.na g - 1) * 8 + (Gear.n2 g - 1) * 3 + (Gear.n1 g - 1) * 3
     + (Gear.n3 g - 1) * 5 + (Gear.nf g - 1) * 4)%Z in
  (1 <= Gear.n1 g)%Z -> (1 <= Gear.n2 g)%Z -> (1 <= Gear.n3 g)%Z ->
  (1 <= Gear.na g)%Z -> (1 <= Gear.nf g)%Z ->
  G !! "z" = Some zv -> isinstance_int zv = true -> (2 <= z)%Z ->
  (forall he kp line, exists m, gen he kp line = Ok m) ->
  generator_contract gen ->
  (forall he kp line m, gen he kp line = Ok m ->
     (length (node m) <= length kp + interior_nodes line + inner)%nat) ->
  (Z.of_nat (copies z) * (16 + edge_node_num + Z.of_nat inner) < 2 ^ 63)%Z ->
  exists mesh,
    ExternalGear.generate_mesh slv gen G self
    = Ok (mesh, ExternalGear.set_mesh self mesh)
    /\ mesh_valid mesh.
Proof.
  intros g z E Hn1 Hn2 Hn3 Hna Hnf HG Hint Hz Hret Hgen Hinner Hsize.
  destruct (tooth_geometry_succeeds slv G self zv) as [f Hf];
    try assumption; try (fold g; lia).
  { fold g. apply IZR_le in Hn1, Hn2, Hn3. lra. }
  pose proof (tooth_geometry_Ok _ _ _ _ Hf) as (Hp & _ & _ & HG' & Hrot & _).
  pose proof (external_profile_spec _ _ _ Hp) as (_ & _ & Hl & _).
  apply rotation_angles_length in Hrot.
  rewrite HG in HG'. injection HG' as HG'.
  unfold ExternalGear.generate_mesh. rewrite Hf, bind_Ok_l.
  destruct (ExternalGear.select_topology f).
  - destruct (mesh_reduced_succeeds gen inner self f) as (mesh & -> & Hv);
      try assumption; try (rewrite <- HG'; assumption).
    rewrite bind_Ok_l. eauto.
  - destruct (mesh_normal_succeeds gen inner self f) as (mesh & -> & Hv);
      try assumption; try (rewrite <- HG'; assumption).
    rewrite bind_Ok_l. eauto.
Qed.

(** *** The frame generator *)

Section FrameGenerator.
Local Open Scope nat_scope.

Lemma interior_slice_length {A} (l : list A) :
  length (np.slice 1 (Some (-1)%Z) l) = length l - 2.
Proof.
  rewrite slice_length. unfold np.slice_stop, np.slice_bound.
  destruct l as [|x [|y l]]; simpl; lia.
Qed.

Lemma frame_nodes_length (line : list (list vec2)) :
  length (concat ((fun l => np.slice 1 (Some (-1)%Z) l) <$> line))
  = interior_nodes line.
Proof.
  induction line as [|l line IH]; [reflexivity|].
  rewrite fmap_cons, interior_nodes_cons. cbn [concat].
  rewrite length_app, IH, interior_slice_length. reflexivity.
Qed.

Lemma frame_generator_Ok (he : list (list Z)) (kp : list vec2)
    (line : list (list vec2)) (m : QuadrangleMesh) :
  frame_generator he kp line = Ok m ->
  mesh_valid m /\ length (node m) = length kp + interior_nodes line.
Proof.
  unfold frame_generator. intros H. injection H as <-.
  unfold mesh_valid. cbn [node cell].
  rewrite length_app, frame_nodes_length.
  split; [|reflexivity].
  destruct (decide (4 <= length kp)); [|apply List.Forall_nil].
  apply List.Forall_cons; [|apply List.Forall_nil].
  unfold cell_valid, quad_nodes.
  repeat first [apply List.Forall_nil | apply List.Forall_cons];
    cbn [q0 q1 q2 q3]; lia.
Qed.

Lemma frame_generator_contract : generator_contract frame_generator.
Proof.
  intros he kp line m H. apply frame_generator_Ok in H as [Hv Hl].
  split; [exact Hv | lia].
Qed.

End FrameGenerator.

(** ** What [generate_mesh] returns *)

Section ReturnedMesh.

(** X4.  Every mesh that [ExternalGear.generate_mesh] returns, for a gear
    with positive segment counts and a mesh generator that keeps its
    contract, is made of [copies z] copies of the mesh the generator
    returned for one tooth, [z] being the value of the module global [z]:
    it has [copies z] times its cells and [copies z * (N - (n3 + 1))]
    nodes, and when the node array has fewer than [2 ^ 63] rows every cell
    indexes it. *)
Theorem X4_external_mesh_returned (slv : solver) (gen : mesh_generator)
    (G : globals) (self self' : ExternalGear.t) (mesh : QuadrangleMesh) :
  let g := ExternalGear.base self in
  generator_contract gen ->
  (1 <= Gear.n1 g)%Z -> (1 <= Gear.n2 g)%Z -> (1 <= Gear.n3 g)%Z ->
  (1 <= Gear.na g)%Z -> (1 <= Gear.nf g)%Z ->
  ExternalGear.generate_mesh slv gen G self = Ok (mesh, self') ->
  exists zv half_edge key_points line quad_mesh,
    G !! "z" = Some zv
    /\ gen half_edge key_points line = Ok quad_mesh
    /\ Z.of_nat (length (node mesh))
       = (Z.of_nat (copies (int_value zv))
          * (Z.of_nat (length (node quad_mesh)) - (Gear.n3 g + 1)))%Z
    /\ length (cell mesh)
       = (copies (int_value zv) * length (cell quad_mesh))%nat
    /\ ((Z.of_nat (length (node mesh)) < 2 ^ 63)%Z -> mesh_valid mesh).
Proof.
  intros g Hgen Hn1 Hn2 Hn3 Hna Hnf H.
  exact (external_generate_mesh_Ok slv gen G self self' mesh
           Hgen Hn1 Hn2 Hn3 Hna Hnf H).
Qed.

Lemma sharp_tip_run :
  exists mesh,
    ExternalGear.generate_mesh guess_solver frame_generator
      (script_globals 20 140) sharp_tip_gear
    = Ok (mesh, ExternalGear.set_mesh sharp_tip_gear mesh)
    /\ mesh_valid mesh.
Proof.
  apply (external_generate_mesh_succeeds guess_solver frame_generator
           (script_globals 20 140) sharp_tip_gear (PyInt 20) 0).
  - simpl. lia.
  - simpl. lia.
  - simpl. lia.
  - simpl. lia.
  - simpl. lia.
  - reflexivity.
  - reflexivity.
  - simpl. lia.
  - intros he kp line. eexists. reflexivity.
  - apply frame_generator_contract.
  - intros he kp line m H. apply frame_generator_Ok in H as [_ ->]. lia.
  - cbn [ExternalGear.base sharp_tip_gear Gear.n1 Gear.n2 Gear.n3 Gear.na
         Gear.nf int_value]. unfold copies. lia.
Qed.

(** The sharp-tip gear run in the script, where the global [z] is 20, with
    the frame generator. *)
Lemma X4_witness :
  exists mesh self',
    ExternalGear.generate_mesh guess_solver frame_generator
      (script_globals 20 140) sharp_tip_gear = Ok (mesh, self')
    /\ exists zv half_edge key_points line quad_mesh,
         script_globals 20 140 !! "z" = Some zv
         /\ frame_generator half_edge key_points line = Ok quad_mesh
         /\ Z.of_nat (length (node mesh))
            = (Z.of_nat (copies (int_value zv))
               * (Z.of_nat (length (node quad_mesh)) - (5 + 1)))%Z
         /\ length (cell mesh)
            = (copies (int_value zv) * length (cell quad_mesh))%nat
         /\ ((Z.of_nat (length (node mesh)) < 2 ^ 63)%Z -> mesh_valid mesh).
Proof.
  destruct sharp_tip_run as (mesh & Hrun & _).
  exists mesh, (ExternalGear.set_mesh sharp_tip_gear mesh).
  split; [exact Hrun|].
  apply (X4_external_mesh_returned guess_solver frame_generator
           (script_globals 20 140) sharp_tip_gear
           (ExternalGear.set_mesh sharp_tip_gear mesh) mesh);
    [apply frame_generator_contract | simpl; lia | simpl; lia | simpl; lia
     | simpl; lia | simpl; lia | exact Hrun].
Defined.

(** X5.  [ExternalGear.generate_mesh] returns, and assigns the mesh it
    returns to [self.mesh], for a gear with positive segment counts when
    the module global [z] is an [int] of at least 2 and the mesh generator
    returns, keeps its contract and adds at most [inner] nodes to the key
    points and the interior points of the boundary lines, the mesh staying
    below [2 ^ 63] nodes; every cell of the mesh indexes its node
    array. *)
Theorem X5_external_mesh_returns (slv : solver) (gen : mesh_generator)
    (G : globals) (self : ExternalGear.t) (zv : pyval) (inner : nat) :
  let g := ExternalGear.base self in
  let z := int_value zv in
  let edge_node_num :=
    ((Gear.na g - 1) * 8 + (Gear.n2 g - 1) * 3 + (Gear.n1 g - 1) * 3
     + (Gear.n3 g - 1) * 5 + (Gear.nf g - 1) * 4)%Z in
  (1 <= Gear.n1 g)%Z -> (1 <= Gear.n2 g)%Z -> (1 <= Gear.n3 g)%Z ->
  (1 <= Gear.na g)%Z -> (1 <= Gear.nf g)%Z ->
  G !! "z" = Some zv -> isinstance_int zv = true -> (2 <= z)%Z ->
  (forall he kp line, exists m, gen he kp line = Ok m) ->
  generator_contract gen ->
  (forall he kp line m, gen he kp line = Ok m ->
     (length (node m) <= length kp + interior_nodes line + inner)%nat) ->
  (Z.of_nat (copies z) * (16 + edge_node_num + Z.of_nat inner) < 2 ^ 63)%Z ->
  exists mesh,
    ExternalGear.generate_mesh slv gen G self
    = Ok (mesh, ExternalGear.set_mesh self mesh)
    /\ Gear.mesh (ExternalGear.base (ExternalGear.set_mesh self mesh))
       = Some mesh
    /\ mesh_valid mesh.
Proof.
  intros g z E Hn1 Hn2 Hn3 Hna Hnf HG Hint Hz Hret Hgen Hinner Hsize.
  destruct (external_generate_mesh_succeeds slv gen G self zv inner
              Hn1 Hn2 Hn3 Hna Hnf HG Hint Hz Hret Hgen Hinner Hsize)
    as (mesh & Hrun & Hv).
  exists mesh. split; [exact Hrun|]. split; [reflexivity | exact Hv].
Qed.

Lemma X5_witness :
  exists mesh,
    ExternalGear.generate_mesh guess_solver frame_generator
      (script_globals 20 140) sharp_tip_gear
    = Ok (mesh, ExternalGear.set_mesh sharp_tip_gear mesh)
    /\ Gear.mesh
         (ExternalGear.base (ExternalGear.set_mesh sharp_tip_gear mesh))
       = Some mesh
    /\ mesh_valid mesh.
Proof.
  apply (X5_external_mesh_returns guess_solver frame_generator
           (script_globals 20 140) sharp_tip_gear (PyInt 20) 0).
  - simpl. lia.
  - simpl. lia.
  - simpl. lia.
  - simpl. lia.
  - simpl. lia.
  - reflexivity.
  - reflexivity.
  - simpl. lia.
  - intros he kp line. eexists. reflexivity.
  - apply frame_generator_contract.
  - intros he kp line m H. apply frame_generator_Ok in H as [_ ->]. lia.
  - cbn [ExternalGear.base sharp_tip_gear Gear.n1 Gear.n2 Gear.n3 Gear.na
         Gear.nf int_value]. unfold copies. lia.
Defined.

End ReturnedMesh.

(** ** The inverse involute and the involute of the internal gear *)

Section InternalInvolute.

(** What the loop returns is one of the iterates [arctan(x + temp)]. *)
Lemma ainv_loop_iterate (fuel : nat) (x : R) (k : nat) (r : R) :
  InternalGear.ainv_loop fuel x (ainv_seq x k) (ainv_seq x (S k)) = Ok r ->
  exists j, r = ainv_seq x (S j).
Proof.
  revert k. induction fuel as [|fuel IH]; intros k H; simpl in H;
    destruct (Rgt_dec _ _); try discriminate.
  - injection H as <-. exists k. reflexivity.
  - exact (IH (S k) H).
  - injection H as <-. exists k. reflexivity.
Qed.

Lemma ainv_seq_above (x : R) (k : nat) :
  0 <= x -> atan x <= ainv_seq x (S k).
Proof.
  intros Hx. induction k as [|k IH].
  - simpl. rewrite Rplus_0_r. lra.
  - pose proof (ainv_seq_growing x Hx (S k)). lra.
Qed.

Lemma ainv_seq_below (x : R) (k : nat) :
  x <= 0 -> ainv_seq x (S k) <= atan x.
Proof.
  intros Hx. induction k as [|k IH].
  - simpl. rewrite Rplus_0_r. lra.
  - pose proof (ainv_seq_decreasing x Hx (S k)). lra.
Qed.

(** The loop commutes with the change of sign of its three variables. *)
Lemma ainv_loop_opp (fuel : nat) (x temp alpha : R) :
  InternalGear.ainv_loop fuel (- x) (- temp) (- alpha)
  = Ropp <$> InternalGear.ainv_loop fuel x temp alpha.
Proof.
  revert temp alpha. induction fuel as [|fuel IH]; intros temp alpha; simpl;
    replace (- alpha - - temp) with (- (alpha - temp)) by ring;
    rewrite Rabs_Ropp; destruct (Rgt_dec _ _); try reflexivity.
  replace (- x + - alpha) with (- (x + alpha)) by ring.
  rewrite atan_opp. apply IH.
Qed.

(** X6.  [InternalGear.ainv(x)] returns once its loop is given enough
    iterations, and more iterations do not change the result.  The angle
    it returns lies between [-pi/2] and [pi/2]; it is not below
    [arctan(x)] for [x >= 0] and not above it for [x <= 0]; and [ainv] is
    odd: on [-x] it returns the opposite angle. *)
Theorem X6_ainv_returns_odd_bounded (x : R) :
  exists fuel alpha,
    (forall fuel', (fuel <= fuel')%nat ->
       InternalGear.ainv fuel' x = Ok alpha
       /\ InternalGear.ainv fuel' (- x) = Ok (- alpha))
    /\ - PI / 2 < alpha < PI / 2
    /\ (0 <= x -> atan x <= alpha)
    /\ (x <= 0 -> alpha <= atan x).
Proof.
  destruct (ainv_terminates x) as (fuel & alpha & Hrun).
  exists fuel, alpha. split; [|].
  - intros fuel' Hf. specialize (Hrun fuel' Hf). split; [exact Hrun|].
    unfold InternalGear.ainv in *. rewrite atan_opp.
    rewrite <- Ropp_0 at 1. rewrite ainv_loop_opp, Hrun. reflexivity.
  - specialize (Hrun fuel (Nat.le_refl _)). unfold InternalGear.ainv in Hrun.
    change 0 with (ainv_seq x 0) in Hrun at 1.
    replace (atan x) with (ainv_seq x 1) in Hrun
      by (simpl; f_equal; ring).
    apply ainv_loop_iterate in Hrun as [j ->].
    split; [apply ainv_seq_bound|].
    split; intros Hx; [apply ainv_seq_above | apply ainv_seq_below]; exact Hx.
Qed.

(** At [x = 1]: the angle is between [pi / 4] and [pi / 2]. *)
Lemma X6_witness :
  exists fuel alpha,
    InternalGear.ainv fuel 1 = Ok alpha /\ PI / 4 <= alpha < PI / 2.
Proof.
  destruct (X6_ainv_returns_odd_bounded 1)
    as (fuel & alpha & Hrun & Hb & Hpos & _).
  exists fuel, alpha. split; [apply (Hrun fuel (Nat.le_refl _))|].
  rewrite <- atan_1. split; [apply Hpos; lra | apply Hb].
Defined.

Lemma involute_norm (rb etab t : R) :
  InternalGear.cutter_involute_x rb etab t ^ 2
  + InternalGear.cutter_involute_y rb etab t ^ 2
  = rb ^ 2 * (1 + t ^ 2).
Proof.
  unfold InternalGear.cutter_involute_x, InternalGear.cutter_involute_y.
  pose proof (sin2_cos2 etab) as He. pose proof (sin2_cos2 t) as Ht.
  unfold Rsqr in He, Ht.
  replace ((rb * cos etab * (sin t - t * cos t)
            - rb * sin etab * (cos t + t * sin t)) ^ 2
           + (rb * cos etab * (cos t + t * sin t)
              + rb * sin etab * (sin t - t * cos t)) ^ 2)
    with (rb ^ 2 * (sin etab * sin etab + cos etab * cos etab)
          * ((sin t * sin t + cos t * cos t)
             + t ^ 2 * (sin t * sin t + cos t * cos t))) by ring.
  rewrite He, Ht. ring.
Qed.

(** X7.  The point that [InternalGear.get_involute_points] computes for
    the roll angle [t] is at the distance [|r_b| * sqrt(1 + t^2)] from the
    centre, which is what [get_tip_intersection_points] returns: the
    samples of the involute are never inside the base circle. *)
Theorem X7_internal_involute_radius (self : InternalGear.t) (t : R) :
  let r_b := Gear.r_b (InternalGear.base self) in
  InternalGear.tip_radius_at self t = Rabs r_b * sqrt (1 + t ^ 2)
  /\ Rabs r_b <= InternalGear.tip_radius_at self t.
Proof.
  intros r_b.
  assert (InternalGear.tip_radius_at self t = Rabs r_b * sqrt (1 + t ^ 2))
    as Heq.
  { unfold InternalGear.tip_radius_at, InternalGear.involute_point.
    cbn [fst snd]. fold r_b. rewrite involute_norm.
    rewrite sqrt_mult_alt by apply pow2_ge_0.
    f_equal. rewrite <- Rsqr_pow2. apply sqrt_Rsqr_abs. }
  split; [exact Heq|]. rewrite Heq.
  rewrite <- (Rmult_1_r (Rabs r_b)) at 1.
  apply Rmult_le_compat_l; [apply Rabs_pos|].
  rewrite <- sqrt_1 at 1. apply sqrt_le_1_alt.
  pose proof (pow2_ge_0 t). lra.
Qed.

End InternalInvolute.

(** ** The rows of the external tooth profile *)

Section ExternalProfileRows.
Local Open Scope Z_scope.

Lemma slice_assign_raises {A B} (put : B -> A -> A) (a : Z) (b : option Z)
    (v : list B) (l : list A) (e : exn) :
  np.slice_assign put a b v l = Raise e -> e = ValueError.
Proof.
  unfold np.slice_assign. destruct (decide _); [discriminate|].
  destruct v as [|x [|y v]]; intros H; try discriminate; congruence.
Qed.

Lemma linspace_negative (a b : R) (n : Z) :
  n < 0 -> np.linspace a b n = Raise ValueError.
Proof. intros H. unfold np.linspace. case_decide; [reflexivity | lia]. Qed.

Lemma slice_assign_keeps {A B} (put : B -> A -> A) (P : A -> Prop)
    (a : Z) (b : option Z) (v : list B) (l l' : list A) :
  (forall x y, P y -> P (put x y)) ->
  Forall P l -> np.slice_assign put a b v l = Ok l' -> Forall P l'.
Proof.
  intros Hput Hl H. unfold np.slice_assign in H.
  assert (forall w (k : list A), Forall P k -> Forall P (zip_with put w k))
    as Hzip.
  { intros w k Hk. revert w. induction Hk as [|y k Hy Hk IH]; intros [|x w];
      simpl; constructor; auto. }
  destruct (decide _).
  - injection H as <-. rewrite !Forall_app. repeat split.
    + apply Forall_take, Hl.
    + apply Hzip, Forall_take, Forall_drop, Hl.
    + apply Forall_drop, Hl.
  - destruct v as [|x [|y v]]; try discriminate. injection H as <-.
    rewrite !Forall_app. repeat split.
    + apply Forall_take, Hl.
    + apply Forall_fmap. eapply Forall_impl;
        [apply Forall_take, Forall_drop, Hl|]. simpl. auto.
    + apply Forall_drop, Hl.
Qed.

Lemma external_profile_planar (slv : solver) (self : ExternalGear.t)
    (pts : list vec3) :
  ExternalGear.get_profile_points slv self = Ok pts ->
  Forall (fun row : vec3 => row.2 = 0%R) pts.
Proof.
  unfold ExternalGear.get_profile_points. intros H.
  inv_bind H as p0 Hp0. apply zeros3_Ok in Hp0 as (_ & -> & _).
  inv_bind H as t2 Ht2. inv_bind H as ts Hts.
  inv_bind H as p1 Hp1. inv_bind H as ti Hti.
  inv_bind H as p2 Hp2. inv_bind H as p3 Hp3. inv_bind H as p4 Hp4.
  injection H as <-.
  assert (Forall (fun row : vec3 => row.2 = 0%R)
            (replicate
               (Z.to_nat
                  ((Gear.n1 (ExternalGear.base self)
                    + Gear.n2 (ExternalGear.base self) + 1) * 2))
               (0, 0, 0)%R)) as H0.
  { apply Forall_replicate. reflexivity. }
  set (P := fun row : vec3 => row.2 = 0%R) in *.
  assert (forall (x : vec2) (y : vec3), P y -> P (put_xy x y)) as Hxy
    by (intros x y Hy; exact Hy).
  assert (forall (x : R) (y : vec3), P y -> P (put_x x y)) as Hx
    by (intros x y Hy; exact Hy).
  assert (forall (x : R) (y : vec3), P y -> P (put_y x y)) as Hy
    by (intros x y Hy; exact Hy).
  apply (slice_assign_keeps _ P _ _ _ _ _ Hxy H0) in Hp1.
  apply (slice_assign_keeps _ P _ _ _ _ _ Hxy Hp1) in Hp2.
  apply (slice_assign_keeps _ P _ _ _ _ _ Hx Hp2) in Hp3.
  apply (slice_assign_keeps _ P _ _ _ _ _ Hy Hp3) in Hp4.
  exact Hp4.
Qed.

Lemma external_profile_raises (slv : solver) (self : ExternalGear.t) :
  let n1 := Gear.n1 (ExternalGear.base self) in
  let n2 := Gear.n2 (ExternalGear.base self) in
  n1 < 0 \/ n2 < -1 ->
  ExternalGear.get_profile_points slv self = Raise ValueError.
Proof.
  intros n1 n2 Hneg. unfold ExternalGear.get_profile_points. fold n1 n2.
  unfold np.zeros3.
  destruct (decide ((n1 + n2 + 1) * 2 < 0)); [reflexivity|].
  rewrite bind_Ok_l. run_fsolve.
  destruct (decide (n2 + 1 < 0)) as [Hn2|Hn2].
  { rewrite (linspace_negative _ _ (n2 + 1) Hn2). reflexivity. }
  destruct (linspace_succeeds (1.5 * PI)
              (2 * PI - Gear.alpha_t (ExternalGear.base self)) (n2 + 1))
    as (ts & -> & _); [lia|].
  rewrite bind_Ok_l.
  match goal with
  | |- context [np.slice_assign ?put ?a ?b ?v ?l ≫= _] =>
      destruct (np.slice_assign put a b v l) as [p1|e] eqn:Hp1
  end.
  - rewrite bind_Ok_l.
    rewrite (linspace_negative _ _ n1 ltac:(lia)). reflexivity.
  - apply slice_assign_raises in Hp1 as ->. reflexivity.
Qed.

(** X8.  [ExternalGear.get_profile_points] returns exactly when
    [n1 >= 0] and [n2 >= -1], whatever the solver finds: it then returns
    [2 * (n1 + n2 + 1)] rows whose third coordinate is 0 (the profile is
    planar); with a smaller segment count numpy refuses the negative
    length and the call raises [ValueError]. *)
Theorem X8_external_profile_rows (slv : solver) (self : ExternalGear.t) :
  let n1 := Gear.n1 (ExternalGear.base self) in
  let n2 := Gear.n2 (ExternalGear.base self) in
  (0 <= n1 -> -1 <= n2 ->
   exists pts,
     ExternalGear.get_profile_points slv self = Ok pts
     /\ length pts = (2 * Z.to_nat (n1 + n2 + 1))%nat
     /\ Forall (fun row : vec3 => row.2 = 0%R) pts)
  /\ (n1 < 0 \/ n2 < -1 ->
      ExternalGear.get_profile_points slv self = Raise ValueError).
Proof.
  intros n1 n2. split.
  - intros Hn1 Hn2.
    destruct (external_profile_succeeds slv self) as [pts Hp];
      [exact Hn1 | fold n2; lia |].
    exists pts. split; [exact Hp|].
    pose proof (external_profile_spec _ _ _ Hp) as (_ & _ & Hl & _).
    split; [exact Hl | exact (external_profile_planar _ _ _ Hp)].
  - apply external_profile_raises.
Qed.

(** The sharp-tip gear has 22 profile rows. *)
Lemma X8_witness :
  exists pts,
    ExternalGear.get_profile_points guess_solver sharp_tip_gear = Ok pts
    /\ length pts = 22%nat
    /\ Forall (fun row : vec3 => row.2 = 0%R) pts.
Proof.
  destruct (X8_external_profile_rows guess_solver sharp_tip_gear) as [H _].
  apply H; simpl; lia.
Defined.

End ExternalProfileRows.

(** ** The involute of the external gear *)

Section ExternalInvolute.

Lemma rotated_norm (a b S C : R) :
  S * S + C * C = 1 ->
  (a * S + b * C) ^ 2 + (a * C - b * S) ^ 2 = a ^ 2 + b ^ 2.
Proof.
  intros H.
  replace ((a * S + b * C) ^ 2 + (a * C - b * S) ^ 2)
    with ((a ^ 2 + b ^ 2) * (S * S + C * C)) by ring.
  rewrite H. ring.
Qed.

Lemma external_involute_norm (self : ExternalGear.t) (t : R) :
  let g := ExternalGear.base self in
  let r := Gear.r g in
  let s := sin (Gear.alpha_t g) in
  let c := cos (Gear.alpha_t g) in
  cos (Gear.beta g) = 1 -> s <> 0 -> r <> 0 ->
  let p := ExternalGear.involute_point self t in
  p.1 ^ 2 + p.2 ^ 2 = (r + t * c) ^ 2 + (t * c ^ 2 / s) ^ 2.
Proof.
  intros g r s c Hb Hs Hr p. unfold p, ExternalGear.involute_point.
  cbn [fst snd]. fold g. fold r. rewrite Hb, cos_shift, sin_shift.
  fold s c.
  set (k := - (PI * Gear.m_n g / 4
               + Gear.m_n g * Gear.x_t g * tan (Gear.alpha_t g))).
  set (phi := (t * s ^ 2 + k * s + t * 1 ^ 2 * c ^ 2) / (r * 1 * s)).
  assert (k + t * s - phi * r = - (t * c ^ 2 / s)) as Hk.
  { unfold phi. field. split; assumption. }
  replace (r * sin phi - phi * r * cos phi + t * sin phi * c
           + cos phi * (k + t * s) / 1)
    with ((r + t * c) * sin phi + (k + t * s - phi * r) * cos phi)
    by (field).
  replace (r * cos phi + phi * r * sin phi + t * cos phi * c
           - sin phi * (k + t * s) / 1)
    with ((r + t * c) * cos phi - (k + t * s - phi * r) * sin phi)
    by (field).
  rewrite rotated_norm by (pose proof (sin2_cos2 phi) as H; exact H).
  rewrite Hk. ring.
Qed.

(** X9.  For a spur gear ([cos(beta) = 1]) with a nonzero pitch radius and
    [sin(alpha_t) <> 0], the point that [ExternalGear.get_involute_points]
    computes for the parameter [t] is at the distance
    [sqrt((r + t cos(alpha_t))^2 + (t cos(alpha_t)^2 / sin(alpha_t))^2)]
    from the centre, which is what [get_tip_intersection_points] returns,
    and this is never less than the base radius [|r cos(alpha_t)|]. *)
Theorem X9_external_involute_outside_base (self : ExternalGear.t) (t : R) :
  let g := ExternalGear.base self in
  let r := Gear.r g in
  let s := sin (Gear.alpha_t g) in
  let c := cos (Gear.alpha_t g) in
  cos (Gear.beta g) = 1 -> s <> 0 -> r <> 0 ->
  ExternalGear.tip_radius_at self t
  = sqrt ((r + t * c) ^ 2 + (t * c ^ 2 / s) ^ 2)
  /\ Rabs (r * c) <= ExternalGear.tip_radius_at self t.
Proof.
  intros g r s c Hb Hs Hr.
  assert (ExternalGear.tip_radius_at self t
          = sqrt ((r + t * c) ^ 2 + (t * c ^ 2 / s) ^ 2)) as Heq.
  { unfold ExternalGear.tip_radius_at. cbv zeta.
    rewrite (external_involute_norm self t Hb Hs Hr). reflexivity. }
  split; [exact Heq|]. rewrite Heq.
  rewrite <- sqrt_Rsqr_abs. apply sqrt_le_1_alt. unfold Rsqr.
  assert ((r + t * c) ^ 2 + (t * c ^ 2 / s) ^ 2 - r * c * (r * c)
          = ((r * s ^ 2 + t * c) / s) ^ 2
            + (Rsqr s + Rsqr c - 1) * (t ^ 2 * c ^ 2 - r ^ 2 * s ^ 2) / s ^ 2)
    as Hid.
  { unfold Rsqr. field. exact Hs. }
  assert (Rsqr s + Rsqr c = 1) as Hsc by apply sin2_cos2.
  rewrite Hsc in Hid.
  pose proof (pow2_ge_0 ((r * s ^ 2 + t * c) / s)) as Hsq.
  replace ((1 - 1) * (t ^ 2 * c ^ 2 - r ^ 2 * s ^ 2) / s ^ 2) with 0 in Hid
    by (field; exact Hs).
  lra.
Qed.

(** The sharp-tip gear: base radius [20 cos(pi/9)]. *)
Lemma X9_witness :
  Rabs (20 * cos (PI / 9)) <= ExternalGear.tip_radius_at sharp_tip_gear 1.
Proof.
  apply (X9_external_involute_outside_base sharp_tip_gear 1).
  - simpl. apply cos_0.
  - simpl. apply Rgt_not_eq. apply sin_gt_0; pose proof PI_RGT_0; lra.
  - simpl. lra.
Defined.

End ExternalInvolute.

(** ** Quantities derived at construction *)

Section Derived.

(** X10.  For a spur gear (helix angle 0) whose pressure angle, once
    normalised, lies between [-pi/2] and [pi/2], [Gear.__init__] makes the
    transverse quantities equal to the normal ones: [x_t = x_n],
    [m_t = m_n], [alpha_t = alpha_n]; the pitch diameter is [m_n * z] and
    the base radius [r * cos(alpha_n)]. *)
Theorem X10_spur_gear_transverse (a : Gear.args) (g : Gear.t) :
  Gear.__init__ a = Ok g ->
  Gear.a_beta a = 0 ->
  - PI / 2 < Gear.alpha_n g < PI / 2 ->
  Gear.beta g = 0
  /\ Gear.x_t g = Gear.x_n g
  /\ Gear.m_t g = Gear.m_n g
  /\ Gear.alpha_t g = Gear.alpha_n g
  /\ Gear.d g = Gear.m_n g * IZR (Gear.z g)
  /\ Gear.r_b g = Gear.r g * cos (Gear.alpha_n g).
Proof.
  intros Hg Hb Ha.
  apply Gear_init_Ok in Hg
    as (_ & _ & _ & _ & Hbeta & _ & _ & _ & Hxt & Hmt & Hd & Hr & Hrb & Hat).
  rewrite Hb in Hbeta. unfold Gear.normalize_angle in Hbeta.
  destruct (Rlt_dec 0 (2 * PI)) as [_|Hn];
    [|exfalso; apply Hn; pose proof PI_RGT_0; lra].
  rewrite Hbeta, cos_0 in *.
  assert (Gear.alpha_t g = Gear.alpha_n g) as Hat'.
  { rewrite Hat. unfold Rdiv. rewrite Rinv_1, Rmult_1_r.
    apply atan_tan. lra. }
  repeat split.
  - rewrite Hxt. field.
  - rewrite Hmt. field.
  - exact Hat'.
  - rewrite Hd, Hmt. field.
  - rewrite Hrb, Hr, Hat'. field.
Qed.

(** The standard gear: pressure angle 20 degrees, no helix. *)
Lemma X10_witness :
  exists g, Gear.__init__ std_args = Ok g
    /\ Gear.alpha_t g = Gear.alpha_n g
    /\ Gear.d g = Gear.m_n g * IZR (Gear.z g).
Proof.
  eexists. split; [reflexivity|].
  match goal with
  | |- Gear.alpha_t ?g = _ /\ _ =>
      destruct (X10_spur_gear_transverse std_args g eq_refl eq_refl)
        as (_ & _ & _ & Hat & Hd & _)
  end.
  - cbn [Gear.alpha_n std_args Gear.a_alpha_n]. rewrite std_normalize_alpha.
    pose proof PI_RGT_0. lra.
  - split; [exact Hat | exact Hd].
Defined.

(** X11.  The whole depth of the teeth does not depend on the profile
    shift, the helix angle or the tooth count: for an external gear
    [r_a - r_f = m_n * (2 * hac + cc)] and for an internal gear
    [r_f - r_a = m_n * (2 * hac + cc)]; the effective tip radius of an
    external gear is [r_a - chamfer_dia / 2]. *)
Theorem X11_whole_depth (a : Gear.args) :
  (forall c i eg, ExternalGear.__init__ a c i = Ok eg ->
     let g := ExternalGear.base eg in
     ExternalGear.r_a eg - ExternalGear.r_f eg
     = Gear.m_n g * (2 * Gear.hac g + Gear.cc g)
     /\ ExternalGear.effective_ra eg = ExternalGear.r_a eg - c / 2)
  /\ (forall slv od zc xc ig,
        InternalGear.__init__ slv a od zc xc = Ok ig ->
        let g := InternalGear.base ig in
        InternalGear.r_f ig - InternalGear.r_a ig
        = Gear.m_n g * (2 * Gear.hac g + Gear.cc g)).
Proof.
  split.
  - intros c i eg H g.
    pose proof (ExternalGear_init_Ok _ _ _ _ H) as (_ & Hra & Hrf).
    fold g in Hra, Hrf. split; [rewrite Hra, Hrf; field|].
    unfold ExternalGear.__init__ in H. inv_bind H as g0 Hg0.
    injection H as <-. simpl. field.
  - intros slv od zc xc ig H g.
    pose proof (InternalGear_init_Ok _ _ _ _ _ _ H) as (_ & _ & Hra & Hrf & _).
    fold g in Hra, Hrf. rewrite Hra, Hrf. field.
Qed.

(** The standard gear, external: whole depth [2 * (2 * 1 + 0.25)]. *)
Lemma X11_witness :
  exists eg, ExternalGear.__init__ std_args 0 30 = Ok eg
    /\ ExternalGear.r_a eg - ExternalGear.r_f eg = 2 * (2 * 1 + 0.25).
Proof.
  eexists. split; [reflexivity|].
  destruct (X11_whole_depth std_args) as [He _].
  match goal with
  | |- ExternalGear.r_a ?eg - _ = _ =>
      destruct (He 0 30 eg eq_refl) as [Hd _]
  end.
  exact Hd.
Defined.

End Derived.

(** ** The module global [z] in [ExternalGear.generate_mesh] *)

Section GlobalTeeth.
Local Open Scope nat_scope.

(** X12.  [ExternalGear.generate_mesh] takes the number of copies from
    the name [z], which it does not bind: it returns only where the module
    defines a global [z] that is an [int] of at least 2.  For a gear whose
    profile can be sampled ([n1 >= 0], [n2 >= 0], not all of [n1], [n2],
    [n3] zero) it raises [NameError] where [z] is not defined, [TypeError]
    where [z] is not an [int], [ValueError] where it is negative and
    [IndexError] where it is 0 or 1. *)
Theorem X12_external_global_z (slv : solver) (gen : mesh_generator)
    (G : globals) (self : ExternalGear.t) :
  let g := ExternalGear.base self in
  (0 <= Gear.n1 g)%Z -> (0 <= Gear.n2 g)%Z ->
  (IZR (Gear.n1 g) * 1.236 + IZR (Gear.n2 g) * 0.618 + IZR (Gear.n3 g)
   <> 0)%R ->
  (forall mesh self',
     ExternalGear.generate_mesh slv gen G self = Ok (mesh, self') ->
     exists zv, G !! "z" = Some zv /\ isinstance_int zv = true
                /\ (2 <= int_value zv)%Z)
  /\ (G !! "z" = None ->
      ExternalGear.generate_mesh slv gen G self = Raise (NameError "z"))
  /\ (forall zv, G !! "z" = Some zv ->
        (isinstance_int zv = false ->
         ExternalGear.generate_mesh slv gen G self = Raise TypeError)
        /\ (isinstance_int zv = true -> (int_value zv < 0)%Z ->
            ExternalGear.generate_mesh slv gen G self = Raise ValueError)
        /\ (isinstance_int zv = true -> (0 <= int_value zv < 2)%Z ->
            ExternalGear.generate_mesh slv gen G self = Raise IndexError)).
Proof.
  intros g Hn1 Hn2 Hn.
  destruct (tooth_geometry_global slv G self Hn1 Hn2 Hn) as [Hnone Hsome].
  split; [|split].
  - intros mesh self' H. unfold ExternalGear.generate_mesh in H.
    inv_bind H as f Hf.
    pose proof (tooth_geometry_Ok _ _ _ _ Hf)
      as (_ & _ & _ & HG & Hrot & Hz & _).
    exists (ExternalGear.z f). split; [exact HG|]. split; [|exact Hz].
    unfold rotation_angles in Hrot.
    destruct (isinstance_int (ExternalGear.z f)); [reflexivity|discriminate].
  - intros HG. unfold ExternalGear.generate_mesh.
    rewrite (Hnone HG). reflexivity.
  - intros zv HG. destruct (Hsome zv HG) as (Ht & Hv & Hi).
    unfold ExternalGear.generate_mesh.
    split; [intros H; rewrite (Ht H); reflexivity|].
    split; intros H1 H2; [rewrite (Hv H1 H2) | rewrite (Hi H1 H2)];
      reflexivity.
Qed.

(** The sharp-tip gear used from a module that defines no global [z]. *)
Lemma X12_witness :
  ExternalGear.generate_mesh guess_solver frame_generator ∅ sharp_tip_gear
  = Raise (NameError "z").
Proof.
  destruct (X12_external_global_z guess_solver frame_generator ∅
              sharp_tip_gear) as (_ & H & _).
  - simpl. lia.
  - simpl. lia.
  - simpl. lra.
  - apply H. reflexivity.
Defined.

End GlobalTeeth.

(** ** The half-edge tables *)

Section HalfEdgeTables.

Lemma builds_consistent_Ok (K : Z) (table : result (list (list Z))) :
  builds_consistent K table = true ->
  exists he, table = Ok he /\ half_edge_consistent K he = true.
Proof. destruct table as [he|e]; simpl; [eauto | discriminate]. Qed.

(** X13.  The four half-edge tables that [generate_mesh] hands to the
    mesh generator (reduced and normal topology of the external gear,
    thick and thin fillet of the internal gear) are built without a shape
    error in the index assignments, have two rows per edge (34, 46, 38 and
    50) and are consistent over the 12, 16, 14 and 18 key points: opposite
    is an involution, next and previous are inverse of each other, the
    next half edge stays in the sub-domain and starts where the half edge
    ends, and every sub-domain is bounded by a cycle of four half edges. *)
Theorem X13_half_edge_tables :
  (exists he, ExternalGear.reduced_half_edge = Ok he
     /\ length he = 34%nat /\ half_edge_consistent 12 he = true)
  /\ (exists he, ExternalGear.normal_half_edge = Ok he
        /\ length he = 46%nat /\ half_edge_consistent 16 he = true)
  /\ (exists he, InternalGear.thick_half_edge = Ok he
        /\ length he = 38%nat /\ half_edge_consistent 14 he = true)
  /\ (exists he, InternalGear.thin_half_edge = Ok he
        /\ length he = 50%nat /\ half_edge_consistent 18 he = true).
Proof.
  repeat split.
  - destruct (builds_consistent_Ok 12 ExternalGear.reduced_half_edge)
      as (he & Hhe & Hc); [vm_compute; reflexivity|].
    exists he. split; [exact Hhe|]. split; [|exact Hc].
    assert (length <$> ExternalGear.reduced_half_edge = Ok 34%nat) as Hl
      by (vm_compute; reflexivity).
    rewrite Hhe in Hl. injection Hl as Hl. exact Hl.
  - destruct (builds_consistent_Ok 16 ExternalGear.normal_half_edge)
      as (he & Hhe & Hc); [vm_compute; reflexivity|].
    exists he. split; [exact Hhe|]. split; [|exact Hc].
    assert (length <$> ExternalGear.normal_half_edge = Ok 46%nat) as Hl
      by (vm_compute; reflexivity).
    rewrite Hhe in Hl. injection Hl as Hl. exact Hl.
  - destruct (builds_consistent_Ok 14 InternalGear.thick_half_edge)
      as (he & Hhe & Hc); [vm_compute; reflexivity|].
    exists he. split; [exact Hhe|]. split; [|exact Hc].
    assert (length <$> InternalGear.thick_half_edge = Ok 38%nat) as Hl
      by (vm_compute; reflexivity).
    rewrite Hhe in Hl. injection Hl as Hl. exact Hl.
  - destruct (builds_consistent_Ok 18 InternalGear.thin_half_edge)
      as (he & Hhe & Hc); [vm_compute; reflexivity|].
    exists he. split; [exact Hhe|]. split; [|exact Hc].
    assert (length <$> InternalGear.thin_half_edge = Ok 50%nat) as Hl
      by (vm_compute; reflexivity).
    rewrite Hhe in Hl. injection Hl as Hl. exact Hl.
Qed.

End HalfEdgeTables.

(** ** Runs of [InternalGear.generate_mesh] that return *)

Section InternalRuns.
Local Open Scope Z_scope.

Lemma thick_half_edge_Ok :
  exists half_edge, InternalGear.thick_half_edge = Ok half_edge.
Proof. apply is_ok_true. vm_compute. reflexivity. Qed.

Lemma row_block_length (points : list vec3) (i : Z) :
  0 <= i < Z.of_nat (length points) ->
  length (InternalGear.row_block points i) = 1%nat.
Proof.
  intros Hi. unfold InternalGear.row_block.
  rewrite length_fmap, slice_length_Z by lia. lia.
Qed.

Lemma last_block_length (points : list vec3) :
  (1 <= length points)%nat ->
  length (drop_last_col <$> np.slice (-1) None points) = 1%nat.
Proof.
  intros Hl. rewrite length_fmap, slice_length. simpl.
  unfold np.slice_bound. simpl. lia.
Qed.

Lemma block_angle_succeeds (kp : list vec2) :
  length kp = 1%nat -> exists a, InternalGear.block_angle kp = Ok a.
Proof.
  destruct kp as [|p [|q kp]]; simpl; intros H; try discriminate. eauto.
Qed.

Lemma edge_line_succeeds (key_points : list vec2) (edge : list (Z * Z))
    (i num : Z) (e : Z * Z) :
  np.getitem edge i = Ok e ->
  0 <= e.1 < Z.of_nat (length key_points) ->
  0 <= e.2 < Z.of_nat (length key_points) ->
  0 <= num ->
  exists l, InternalGear.edge_line key_points edge i num = Ok l
            /\ length l = Z.to_nat num.
Proof.
  intros He H1 H2 Hnum. unfold InternalGear.edge_line.
  rewrite He, bind_Ok_l.
  destruct (getitem_succeeds key_points e.1) as [a ->]; [lia|].
  destruct (getitem_succeeds key_points e.2) as [b ->]; [lia|].
  rewrite !bind_Ok_l. apply linspace2_succeeds, Hnum.
Qed.

Variable gen : mesh_generator.
Variable inner : nat.
Variable G : globals.
Variable self : InternalGear.t.
Variable points : list vec3.
Variable v : pyval.
Variable od : R.

Let g := InternalGear.base self.
Let n1 := Gear.n1 g.
Let n2 := Gear.n2 g.
Let n3 := Gear.n3 g.
Let na := Gear.na g.
Let z := Gear.z g.

Hypothesis Hret : forall he kp line, exists m, gen he kp line = Ok m.
Hypothesis Hgen : generator_contract gen.
Hypothesis Hinner :
  forall he kp line m, gen he kp line = Ok m ->
    (length (node m) <= length kp + interior_nodes line + inner)%nat.
Hypothesis Hz : 2 <= z.
Hypothesis HG : G !! "outer_diam" = Some v.
Hypothesis Hv : num_value v = Ok od.
Hypothesis Hn1 : 1 <= n1.
Hypothesis Hn2 : 1 <= n2.
Hypothesis Hn3 : 1 <= n3.
Hypothesis Hna : 1 <= na.
Hypothesis Hpoints : length points = (2 * Z.to_nat (n1 + n2) + 1)%nat.
Hypothesis Hsize :
  Z.of_nat (copies z)
  * (14 + 4 * (n1 - 1) + 4 * (n2 - 1) + 3 * (n3 - 1) + 8 * (na - 1)
     + Z.of_nat inner) < 2 ^ 63.

(** Runs the next statement of [mesh_thick]. *)
Ltac run_thick key_points Hkp :=
  match goal with
  | |- context [InternalGear.block_angle ?kp ≫= _] =>
      let a := fresh "phi" in
      destruct (block_angle_succeeds kp) as [a ->];
      [first [apply last_block_length; lia | apply row_block_length; lia]
      | rewrite bind_Ok_l]
  | |- context [np.linspace ?a ?b ?n ≫= _] =>
      let x := fresh "delta" in
      let Hx := fresh "Hdelta" in
      destruct (linspace_succeeds a b n) as (x & -> & Hx);
      [lia | rewrite bind_Ok_l]
  | |- context [InternalGear.edge_line key_points ?edge ?i ?num ≫= _] =>
      let l := fresh "l" in
      let Hl := fresh "Hl" in
      let He := fresh "He" in
      eassert (np.getitem edge i = Ok _) as He by reflexivity;
      destruct (edge_line_succeeds key_points edge i num _ He)
        as (l & -> & Hl);
      [cbn [fst snd]; rewrite Hkp; lia | cbn [fst snd]; rewrite Hkp; lia
       | lia | rewrite bind_Ok_l; clear He]
  end.

Lemma mesh_thick_succeeds :
  exists mesh,
    InternalGear.mesh_thick gen G self points = Ok mesh /\ mesh_valid mesh.
Proof.
  unfold InternalGear.mesh_thick. fold g n1 n2 n3 na z.
  unfold InternalGear.rim_key_points. fold g z.
  destruct (decide (z = 0)); [lia|].
  unfold load_global. rewrite HG, bind_Ok_l, Hv, !bind_Ok_l.
  cbv beta iota.
  match goal with
  | |- context [InternalGear.edge_line ?kp _ 0 _] => set (key_points := kp)
  end.
  assert (length key_points = 14%nat) as Hkp.
  { unfold key_points. rewrite !length_app.
    rewrite !row_block_length, last_block_length by lia. reflexivity. }
  repeat run_thick key_points Hkp.
  destruct thick_half_edge_Ok as [he ->]. rewrite bind_Ok_l.
  match goal with
  | |- context [gen he key_points ?ln] =>
      assert (Z.of_nat (interior_nodes ln)
              = 4 * (n1 - 1) + 4 * (n2 - 1) + 3 * (n3 - 1) + 8 * (na - 1))
        as Hint;
      [| destruct (Hret he key_points ln) as [qm Hqm];
         rewrite Hqm, bind_Ok_l;
         destruct (Hgen _ _ _ _ Hqm) as [Hvalid Hnodes];
         pose proof (Hinner _ _ _ _ Hqm) as Hmost ]
  end.
  { rewrite !interior_nodes_cons.
    rewrite !length_arc, ?length_reverse, !length_fmap.
    rewrite !slice_length_Z by lia.
    rewrite slice_length. cbn [np.slice_stop].
    rewrite slice_bound_inside by lia.
    unfold interior_nodes. simpl sum_list.
    rewrite Hl, Hl0, Hl1, Hl2, Hl3, Hl4, Hl5, Hl6, Hl7, Hl8, Hl9,
      Hdelta, Hdelta0, Hdelta1, Hdelta2, Hpoints.
    lia. }
  rewrite Hkp in Hnodes, Hmost.
  destruct (internal_stitch_spec key_points n1 n2 n3 z qm)
    as (mesh & Hm & _ & _ & Hmv);
    [rewrite Hkp; lia | assumption | assumption | assumption
     | rewrite Hkp; lia | assumption | assumption | | eauto].
  eapply copies_bound; [|exact Hsize]. lia.
Qed.

End InternalRuns.

Lemma internal_generate_mesh_succeeds (slv : solver) (gen : mesh_generator)
    (G : globals) (self : InternalGear.t) (v : pyval) (od : R)
    (inner : nat) :
  let g := InternalGear.base self in
  (2 <= Gear.z g)%Z -> InternalGear.z_cutter self <> 0%Z ->
  (1 <= Gear.n1 g)%Z -> (1 <= Gear.n2 g)%Z -> (1 <= Gear.n3 g)%Z ->
  (1 <= Gear.na g)%Z ->
  thick_fillet self -> (3 <= length (InternalGear.t_ self))%nat ->
  G !! "outer_diam" = Some v -> num_value v = Ok od ->
  (forall he kp line, exists m, gen he kp line = Ok m) ->
  generator_contract gen ->
  (forall he kp line m, gen he kp line = Ok m ->
     (length (node m) <= length kp + interior_nodes line + inner)%nat) ->
  (Z.of_nat (copies (Gear.z g))
   * (14 + 4 * (Gear.n1 g - 1) + 4 * (Gear.n2 g - 1) + 3 * (Gear.n3 g - 1)
      + 8 * (Gear.na g - 1) + Z.of_nat inner) < 2 ^ 63)%Z ->
  exists fuel0, forall fuel, (fuel0 <= fuel)%nat ->
    exists mesh,
      InternalGear.generate_mesh slv fuel gen G self
      = Ok (mesh, InternalGear.set_mesh self mesh)
      /\ mesh_valid mesh.
Proof.
  intros g Hz Hzc Hn1 Hn2 Hn3 Hna Hthick Ht HG Hv Hret Hgen Hinner Hsize.
  destruct (internal_profile_succeeds slv self) as [fuel0 Hrun];
    try assumption; try (fold g; lia); [right; exact Hthick|].
  exists fuel0. intros fuel Hfuel.
  destruct (Hrun fuel Hfuel) as (pts & self' & Hp).
  destruct (internal_profile_spec _ _ _ _ _ Hp) as (t_2 & Ht2 & Hcase).
  pose proof (thick_fillet_getitem self t_2 Ht2) as Hiff.
  destruct Hcase as [(Hge & -> & Hsym & _) | (Hlt & _)];
    [|exfalso; apply Hlt, Hiff, Hthick].
  unfold InternalGear.generate_mesh. rewrite Ht2, bind_Ok_l.
  destruct (Rge_dec _ _) as [_|Hn]; [|contradiction].
  rewrite Hp, bind_Ok_l.
  destruct (mesh_thick_succeeds gen inner G self pts v od)
    as (mesh & -> & Hmv); try assumption.
  rewrite bind_Ok_l. eauto.
Qed.

(** ** What [InternalGear.generate_mesh] returns *)

Section InternalReturned.

(** The 60-tooth internal gear of the script, with the frame generator. *)
Lemma internal_run :
  exists ig,
    InternalGear.__init__ guess_solver internal_args 140 20 0 = Ok ig
    /\ exists fuel mesh,
         InternalGear.generate_mesh guess_solver fuel frame_generator
           (script_globals 60 140) ig
         = Ok (mesh, InternalGear.set_mesh ig mesh)
         /\ mesh_valid mesh.
Proof.
  eexists. split; [reflexivity|].
  match goal with
  | |- context [InternalGear.generate_mesh _ _ _ _ ?ig] =>
      destruct (internal_generate_mesh_succeeds guess_solver frame_generator
                  (script_globals 60 140) ig (PyFloat 140) 140 0)
        as [fuel0 Hrun]
  end.
  - simpl. lia.
  - simpl. lia.
  - simpl. lia.
  - simpl. lia.
  - simpl. lia.
  - simpl. lia.
  - eexists. split; [reflexivity|]. simpl. lra.
  - simpl. lia.
  - reflexivity.
  - reflexivity.
  - intros he kp line. eexists. reflexivity.
  - apply frame_generator_contract.
  - intros he kp line m H. apply frame_generator_Ok in H as [_ ->]. lia.
  - cbn [InternalGear.base Gear.z Gear.n1 Gear.n2 Gear.n3 Gear.na].
    unfold copies. simpl. lia.
  - destruct (Hrun fuel0 (Nat.le_refl _)) as (mesh & Hm & Hv).
    exists fuel0, mesh. split; assumption.
Qed.

(** X14.  Every mesh that [InternalGear.generate_mesh] returns, in either
    topology branch, for a gear with positive segment counts [n1], [n2],
    [n3] and a mesh generator that keeps its contract, is made of
    [copies z] copies of the mesh the generator returned for one tooth,
    [z] being [self.z]: it has [copies z] times its cells and
    [copies z * (N - (n1 + n2 + n3 + 1))] nodes, and when the node array
    has fewer than [2 ^ 63] rows every cell indexes it. *)
Theorem X14_internal_mesh_returned (slv : solver) (fuel : nat)
    (gen : mesh_generator) (G : globals) (self self' : InternalGear.t)
    (mesh : QuadrangleMesh) :
  let g := InternalGear.base self in
  generator_contract gen ->
  (1 <= Gear.n1 g)%Z -> (1 <= Gear.n2 g)%Z -> (1 <= Gear.n3 g)%Z ->
  InternalGear.generate_mesh slv fuel gen G self = Ok (mesh, self') ->
  exists half_edge key_points line quad_mesh,
    gen half_edge key_points line = Ok quad_mesh
    /\ Z.of_nat (length (node mesh))
       = (Z.of_nat (copies (Gear.z g))
          * (Z.of_nat (length (node quad_mesh))
             - (Gear.n1 g + Gear.n2 g + Gear.n3 g + 1)))%Z
    /\ length (cell mesh) = (copies (Gear.z g) * length (cell quad_mesh))%nat
    /\ ((Z.of_nat (length (node mesh)) < 2 ^ 63)%Z -> mesh_valid mesh).
Proof.
  intros g Hgen Hn1 Hn2 Hn3 H.
  destruct (internal_generate_mesh_Ok slv fuel gen G self self' mesh
              Hgen Hn1 Hn2 Hn3 H) as (he & kp & line & qm & Hq & _ & Hrest).
  exists he, kp, line, qm. split; [exact Hq | exact Hrest].
Qed.

Lemma X14_witness :
  exists ig fuel mesh self',
    InternalGear.generate_mesh guess_solver fuel frame_generator
      (script_globals 60 140) ig = Ok (mesh, self')
    /\ exists half_edge key_points line quad_mesh,
         frame_generator half_edge key_points line = Ok quad_mesh
         /\ Z.of_nat (length (node mesh))
            = (Z.of_nat (copies (Gear.z (InternalGear.base ig)))
               * (Z.of_nat (length (node quad_mesh))
                  - (Gear.n1 (InternalGear.base ig)
                     + Gear.n2 (InternalGear.base ig)
                     + Gear.n3 (InternalGear.base ig) + 1)))%Z
         /\ length (cell mesh)
            = (copies (Gear.z (InternalGear.base ig))
               * length (cell quad_mesh))%nat
         /\ ((Z.of_nat (length (node mesh)) < 2 ^ 63)%Z -> mesh_valid mesh).
Proof.
  destruct internal_run as (ig & Hig & fuel & mesh & Hrun & _).
  exists ig, fuel, mesh, (InternalGear.set_mesh ig mesh).
  split; [exact Hrun|].
  unfold InternalGear.__init__ in Hig. simpl in Hig. injection Hig as <-.
  match type of Hrun with
  | InternalGear.generate_mesh _ _ _ _ ?ig0 = Ok (_, ?s') =>
      apply (X14_internal_mesh_returned guess_solver fuel frame_generator
               (script_globals 60 140) ig0 s' mesh);
      [apply frame_generator_contract | simpl; lia | simpl; lia
       | simpl; lia | exact Hrun]
  end.
Defined.

(** X15.  [InternalGear.generate_mesh] returns, once [ainv] is given
    enough iterations, and assigns the mesh it returns to [self.mesh], for
    a gear of at least 2 teeth in the branch [rc >= t[2]] when the segment
    counts [n1], [n2], [n3], [na] are positive, the cutter tooth count is
    not 0, the module global [outer_diam] is a number and the mesh
    generator returns, keeps its contract and adds at most [inner] nodes,
    the ring staying below [2 ^ 63] nodes; every cell of the mesh indexes
    its node array. *)
Theorem X15_internal_mesh_returns (slv : solver) (gen : mesh_generator)
    (G : globals) (self : InternalGear.t) (v : pyval) (od : R)
    (inner : nat) :
  let g := InternalGear.base self in
  (2 <= Gear.z g)%Z -> InternalGear.z_cutter self <> 0%Z ->
  (1 <= Gear.n1 g)%Z -> (1 <= Gear.n2 g)%Z -> (1 <= Gear.n3 g)%Z ->
  (1 <= Gear.na g)%Z ->
  thick_fillet self -> (3 <= length (InternalGear.t_ self))%nat ->
  G !! "outer_diam" = Some v -> num_value v = Ok od ->
  (forall he kp line, exists m, gen he kp line = Ok m) ->
  generator_contract gen ->
  (forall he kp line m, gen he kp line = Ok m ->
     (length (node m) <= length kp + interior_nodes line + inner)%nat) ->
  (Z.of_nat (copies (Gear.z g))
   * (14 + 4 * (Gear.n1 g - 1) + 4 * (Gear.n2 g - 1) + 3 * (Gear.n3 g - 1)
      + 8 * (Gear.na g - 1) + Z.of_nat inner) < 2 ^ 63)%Z ->
  exists fuel0, forall fuel, (fuel0 <= fuel)%nat ->
    exists mesh,
      InternalGear.generate_mesh slv fuel gen G self
      = Ok (mesh, InternalGear.set_mesh self mesh)
      /\ Gear.mesh (InternalGear.base (InternalGear.set_mesh self mesh))
         = Some mesh
      /\ mesh_valid mesh.
Proof.
  intros g Hz Hzc Hn1 Hn2 Hn3 Hna Hthick Ht HG Hv Hret Hgen Hinner Hsize.
  destruct (internal_generate_mesh_succeeds slv gen G self v od inner
              Hz Hzc Hn1 Hn2 Hn3 Hna Hthick Ht HG Hv Hret Hgen Hinner Hsize)
    as [fuel0 Hrun].
  exists fuel0. intros fuel Hfuel.
  destruct (Hrun fuel Hfuel) as (mesh & Hm & Hmv).
  exists mesh. split; [exact Hm|]. split; [reflexivity | exact Hmv].
Qed.

Lemma X15_witness :
  exists ig,
    InternalGear.__init__ guess_solver internal_args 140 20 0 = Ok ig
    /\ exists fuel0, forall fuel, (fuel0 <= fuel)%nat ->
         exists mesh,
           InternalGear.generate_mesh guess_solver fuel frame_generator
             (script_globals 60 140) ig
           = Ok (mesh, InternalGear.set_mesh ig mesh)
           /\ Gear.mesh (InternalGear.base (InternalGear.set_mesh ig mesh))
              = Some mesh
           /\ mesh_valid mesh.
Proof.
  eexists. split; [reflexivity|].
  match goal with
  | |- context [InternalGear.generate_mesh _ _ _ _ ?ig] =>
      apply (X15_internal_mesh_returns guess_solver frame_generator
               (script_globals 60 140) ig (PyFloat 140) 140 0)
  end.
  - simpl. lia.
  - simpl. lia.
  - simpl. lia.
  - simpl. lia.
  - simpl. lia.
  - simpl. lia.
  - eexists. split; [reflexivity|]. simpl. lra.
  - simpl. lia.
  - reflexivity.
  - reflexivity.
  - intros he kp line. eexists. reflexivity.
  - apply frame_generator_contract.
  - intros he kp line m H. apply frame_generator_Ok in H as [_ ->]. lia.
  - cbn [InternalGear.base Gear.z Gear.n1 Gear.n2 Gear.n3 Gear.na].
    unfold copies. simpl. lia.
Defined.

End InternalReturned.

(** ** A wheel of two teeth (C1) *)

Section TwoTeeth.

Lemma copies_two : copies 2 = 3%nat.
Proof. reflexivity. Qed.

(** The frame generator returns one cell as soon as it is given four key
    points. *)
Lemma frame_generator_cells (he : list (list Z)) (kp : list vec2)
    (line : list (list vec2)) (m : QuadrangleMesh) :
  frame_generator he kp line = Ok m -> (4 <= length kp)%nat ->
  length (cell m) = 1%nat.
Proof.
  unfold frame_generator. intros H Hkp. injection H as <-. cbn [cell].
  case_decide; [reflexivity | contradiction].
Qed.

(** The internal gear with 2 teeth, with the frame generator. *)
Lemma two_teeth_run :
  exists ig,
    InternalGear.__init__ guess_solver two_teeth_args 140 20 0 = Ok ig
    /\ Gear.z (InternalGear.base ig) = 2%Z
    /\ (1 <= Gear.n1 (InternalGear.base ig))%Z
    /\ (1 <= Gear.n2 (InternalGear.base ig))%Z
    /\ (1 <= Gear.n3 (InternalGear.base ig))%Z
    /\ exists fuel mesh,
         InternalGear.generate_mesh guess_solver fuel frame_generator
           (script_globals 2 140) ig
         = Ok (mesh, InternalGear.set_mesh ig mesh).
Proof.
  eexists. split; [reflexivity|].
  split; [reflexivity|].
  split; [simpl; lia|]. split; [simpl; lia|]. split; [simpl; lia|].
  match goal with
  | |- context [InternalGear.generate_mesh _ _ _ _ ?ig] =>
      destruct (internal_generate_mesh_succeeds guess_solver frame_generator
                  (script_globals 2 140) ig (PyFloat 140) 140 0)
        as [fuel0 Hrun]
  end.
  - simpl. lia.
  - simpl. lia.
  - simpl. lia.
  - simpl. lia.
  - simpl. lia.
  - simpl. lia.
  - eexists. split; [reflexivity|]. simpl. lra.
  - simpl. lia.
  - reflexivity.
  - reflexivity.
  - intros he kp line. eexists. reflexivity.
  - apply frame_generator_contract.
  - intros he kp line m H. apply frame_generator_Ok in H as [_ ->]. lia.
  - cbn [InternalGear.base Gear.z Gear.n1 Gear.n2 Gear.n3 Gear.na].
    unfold copies. simpl. lia.
  - destruct (Hrun fuel0 (Nat.le_refl _)) as (mesh & Hm & Hv).
    exists fuel0, mesh. exact Hm.
Qed.

(** C1.  For an internal gear with 2 teeth the assembled mesh is made of
    three copies of the single-tooth mesh, not of two: whenever
    [generate_mesh()] returns (segment counts [n1], [n2], [n3] positive,
    mesh generator keeping its contract), the mesh has 3 times the cells
    of the tooth the generator returned, and
    [3 * (N - (n1 + n2 + n3 + 1))] nodes for the [N] nodes of the tooth.
    The loops append the left tooth, the teeth of [range(2, z - 1)] and
    the right tooth to the first one, and with [z = 2] the left and the
    right tooth are turned by the same angle [rot_phi[1] = rot_phi[-1]]. *)
Theorem C1_two_teeth_three_copies (slv : solver) (fuel : nat)
    (gen : mesh_generator) (G : globals) (self self' : InternalGear.t)
    (mesh : QuadrangleMesh) :
  let g := InternalGear.base self in
  Gear.z g = 2%Z ->
  generator_contract gen ->
  (1 <= Gear.n1 g)%Z -> (1 <= Gear.n2 g)%Z -> (1 <= Gear.n3 g)%Z ->
  InternalGear.generate_mesh slv fuel gen G self = Ok (mesh, self') ->
  exists half_edge key_points line quad_mesh,
    gen half_edge key_points line = Ok quad_mesh
    /\ (8 <= length key_points)%nat
    /\ length (cell mesh) = (3 * length (cell quad_mesh))%nat
    /\ Z.of_nat (length (node mesh))
       = (3 * (Z.of_nat (length (node quad_mesh))
               - (Gear.n1 g + Gear.n2 g + Gear.n3 g + 1)))%Z.
Proof.
  intros g Hz Hgen Hn1 Hn2 Hn3 H.
  destruct (internal_generate_mesh_Ok slv fuel gen G self self' mesh
              Hgen Hn1 Hn2 Hn3 H)
    as (he & kp & line & qm & Hq & Hkp & Hnodes & Hcells & _).
  fold g in Hnodes, Hcells. rewrite Hz, copies_two in Hnodes, Hcells.
  exists he, kp, line, qm.
  split; [exact Hq|]. split; [exact Hkp|]. split; [exact Hcells|].
  rewrite Hnodes. reflexivity.
Qed.

(** The 2-tooth gear with the frame generator, whose tooth has one cell:
    the wheel has 3 cells. *)
Lemma C1_witness :
  exists ig fuel mesh,
    InternalGear.__init__ guess_solver two_teeth_args 140 20 0 = Ok ig
    /\ Gear.z (InternalGear.base ig) = 2%Z
    /\ InternalGear.generate_mesh guess_solver fuel frame_generator
         (script_globals 2 140) ig
       = Ok (mesh, InternalGear.set_mesh ig mesh)
    /\ length (cell mesh) = 3%nat.
Proof.
  destruct two_teeth_run
    as (ig & Hig & Hz & Hn1 & Hn2 & Hn3 & fuel & mesh & Hrun).
  exists ig, fuel, mesh.
  split; [exact Hig|]. split; [exact Hz|]. split; [exact Hrun|].
  destruct (C1_two_teeth_three_copies guess_solver fuel frame_generator
              (script_globals 2 140) ig (InternalGear.set_mesh ig mesh) mesh
              Hz frame_generator_contract Hn1 Hn2 Hn3 Hrun)
    as (he & kp & line & qm & Hq & Hkp & Hcells & _).
  rewrite Hcells, (frame_generator_cells he kp line qm Hq); [reflexivity|].
  lia.
Defined.

End TwoTeeth.

(** ** Validity of the cell indices (C2) *)

Section CornerGenerator.
Local Open Scope nat_scope.




End CornerGenerator.

(** *** A run on which the slices of the remap overlap *)

Section CoarseRun.
Local Open Scope Z_scope.

Variable G : globals.
Variable self : InternalGear.t.
Variable points : list vec3.
Variable v : pyval.
Variable od : R.

Let g := InternalGear.base self.
Let n1 := Gear.n1 g.
Let n2 := Gear.n2 g.
Let n3 := Gear.n3 g.
Let na := Gear.na g.
Let z := Gear.z g.

Hypothesis Hz : z = 60.
Hypothesis Hn1 : n1 = 1.
Hypothesis Hn2 : n2 = 1.
Hypothesis Hna : na = 1.
Hypothesis HG : G !! "outer_diam" = Some v.
Hypothesis Hv : num_value v = Ok od.
Hypothesis Hpoints : length points = 5%nat.





End CoarseRun.

Section CellIndices.
Local Open Scope nat_scope.








End CellIndices.


(** ** The root end of the external profile *)

Section RootCircle.

Lemma scaled_unit_norm (A phi : R) :
  sqrt ((A * sin phi) ^ 2 + (A * cos phi) ^ 2) = Rabs A.
Proof.
  replace ((A * sin phi) ^ 2 + (A * cos phi) ^ 2)
    with (Rsqr A * (Rsqr (sin phi) + Rsqr (cos phi)))
    by (unfold Rsqr; ring).
  rewrite sin2_cos2, Rmult_1_r. apply sqrt_Rsqr_abs.
Qed.

Lemma transition_point_root (self : ExternalGear.t) :
  let g := ExternalGear.base self in
  cos (Gear.beta g) <> 0 -> Gear.r g <> 0 ->
  let p := ExternalGear.transition_point self (1.5 * PI) in
  sqrt (p.1 ^ 2 + p.2 ^ 2)
  = Rabs (Gear.r g - ExternalGear.ha_cutter self
          + Gear.m_n g * Gear.x_t g).
Proof.
  intros g Hb Hr p. unfold p, ExternalGear.transition_point.
  cbn [fst snd]. fold g.
  replace (1.5 * PI) with (3 * (PI / 2)) by lra.
  rewrite sin_3PI2, cos_3PI2.
  set (rc := ExternalGear.rc self).
  set (x0 := - PI * Gear.m_n g / 2
             + (PI * Gear.m_n g / 4
                - ExternalGear.ha_cutter self * tan (Gear.alpha_t g)
                - rc * tan (0.25 * PI - 0.5 * Gear.alpha_t g))).
  set (y0 := - (ExternalGear.ha_cutter self - rc)
             + Gear.m_n g * Gear.x_t g).
  set (phi := (x0 * -1 + rc * 0 * -1 - y0 * cos (Gear.beta g) ^ 2 * 0
               - rc * cos (Gear.beta g) ^ 2 * 0 * -1)
              / (Gear.r g * cos (Gear.beta g) * -1)).
  assert (phi * Gear.r g = x0 / cos (Gear.beta g)) as Hphi.
  { unfold phi. field. split; assumption. }
  replace (Gear.r g * sin phi + sin phi * (y0 + rc * -1)
           - phi * Gear.r g * cos phi
           + cos phi * (x0 + rc * 0) / cos (Gear.beta g))
    with ((Gear.r g + y0 - rc) * sin phi
          + cos phi * (x0 / cos (Gear.beta g) - phi * Gear.r g))
    by (field; assumption).
  replace (Gear.r g * cos phi + cos phi * (y0 + rc * -1)
           + phi * Gear.r g * sin phi
           - sin phi * (x0 + rc * 0) / cos (Gear.beta g))
    with ((Gear.r g + y0 - rc) * cos phi
          - sin phi * (x0 / cos (Gear.beta g) - phi * Gear.r g))
    by (field; assumption).
  rewrite Hphi.
  replace (x0 / cos (Gear.beta g) - x0 / cos (Gear.beta g)) with 0 by ring.
  rewrite !Rmult_0_r, Rplus_0_r, Rminus_0_r.
  rewrite scaled_unit_norm. f_equal. unfold y0. ring.
Qed.

(** X16.  The tooth profile of an external gear starts on the root
    circle: for a gear built by the constructor, with [cos(beta) <> 0], a
    nonzero pitch radius and at least one transition sample ([n2 >= 0]),
    the first row of the array [get_profile_points] returns, and its
    mirror image (row [n1 + n2 + 1]), are at the distance [|r_f|] from the
    centre, whatever the solver finds. *)
Theorem X16_profile_starts_on_root_circle (slv : solver) (a : Gear.args)
    (c i : R) (eg : ExternalGear.t) (pts : list vec3) :
  ExternalGear.__init__ a c i = Ok eg ->
  let g := ExternalGear.base eg in
  cos (Gear.beta g) <> 0 -> Gear.r g <> 0 -> (0 <= Gear.n2 g)%Z ->
  ExternalGear.get_profile_points slv eg = Ok pts ->
  let p := pts !!! 0%nat in
  let q := pts !!! Z.to_nat (Gear.n1 g + Gear.n2 g + 1) in
  sqrt (col_x p ^ 2 + col_y p ^ 2) = Rabs (ExternalGear.r_f eg)
  /\ sqrt (col_x q ^ 2 + col_y q ^ 2) = Rabs (ExternalGear.r_f eg).
Proof.
  intros Hinit g Hb Hr Hn2 Hp p q.
  pose proof (external_profile_spec _ _ _ Hp) as (Hn1 & _ & _ & Hm & Ht).
  fold g in Hn1, Hm, Ht.
  assert (ExternalGear.r_f eg
          = Gear.r g - ExternalGear.ha_cutter eg + Gear.m_n g * Gear.x_t g)
    as Hrf.
  { unfold ExternalGear.__init__ in Hinit. inv_bind Hinit as g0 Hg0.
    apply Gear_init_Ok in Hg0
      as (_ & _ & _ & _ & _ & _ & _ & _ & _ & _ & _ & Hr0 & _).
    injection Hinit as <-. unfold g. simpl. rewrite Hr0. field. }
  assert (sqrt (col_x p ^ 2 + col_y p ^ 2) = Rabs (ExternalGear.r_f eg))
    as Hroot.
  { specialize (Ht 0%nat ltac:(lia)). fold p in Ht.
    unfold transition_parameter in Ht.
    change (Z.of_nat 0) with 0%Z in Ht.
    rewrite Rmult_0_l, Rplus_0_r in Ht.
    pose proof (transition_point_root eg Hb Hr) as Hnorm.
    cbv zeta in Hnorm. rewrite <- Ht in Hnorm. fold g in Hnorm.
    rewrite Hrf. destruct p as [[x y] w]. exact Hnorm. }
  split; [exact Hroot|].
  destruct (Hm 0%nat ltac:(lia)) as [Hx Hy].
  rewrite Nat.add_0_r in Hx, Hy. fold p q in Hx, Hy.
  rewrite Hx, Hy, <- Hroot. f_equal. ring.
Qed.

(** The sharp-tip gear: root radius 20. *)
Lemma X16_witness :
  exists pts,
    ExternalGear.get_profile_points guess_solver sharp_tip_gear = Ok pts
    /\ sqrt (col_x (pts !!! 0%nat) ^ 2 + col_y (pts !!! 0%nat) ^ 2)
       = Rabs 20.
Proof.
  destruct (external_profile_succeeds guess_solver sharp_tip_gear)
    as [pts Hp]; [simpl; lia | simpl; lia |].
  exists pts. split; [exact Hp|].
  apply (X16_profile_starts_on_root_circle guess_solver sharp_tip_args 0 30
           sharp_tip_gear pts sharp_tip_init); simpl.
  - rewrite cos_0. lra.
  - lra.
  - lia.
  - exact Hp.
Defined.

End RootCircle.

(** ** [show_mesh] before and after [generate_mesh] *)

Section ShowMesh.

(** X17.  [show_mesh] raises [AssertionError] on every gear as the
    constructors build it, external or internal; on the instance that
    [generate_mesh] has updated it plots the mesh that [generate_mesh]
    returned, and it calls [savefig] exactly when a path is given, between
    [add_plot] and [show]. *)
Theorem X17_show_mesh_needs_generated_mesh (save_path : option string) :
  (forall a c i eg, ExternalGear.__init__ a c i = Ok eg ->
     show_mesh (ExternalGear.base eg) save_path
     = AssertionError "The mesh is not yet created.")
  /\ (forall slv a od zc xc ig,
        InternalGear.__init__ slv a od zc xc = Ok ig ->
        show_mesh (InternalGear.base ig) save_path
        = AssertionError "The mesh is not yet created.")
  /\ (forall slv gen G self mesh self',
        ExternalGear.generate_mesh slv gen G self = Ok (mesh, self') ->
        show_mesh (ExternalGear.base self') save_path
        = Plotted ([subplots; add_plot mesh]
                   ++ match save_path with
                      | Some path => [savefig path]
                      | None => []
                      end ++ [show]))
  /\ (forall slv fuel gen G self mesh self',
        InternalGear.generate_mesh slv fuel gen G self = Ok (mesh, self') ->
        show_mesh (InternalGear.base self') save_path
        = Plotted ([subplots; add_plot mesh]
                   ++ match save_path with
                      | Some path => [savefig path]
                      | None => []
                      end ++ [show])).
Proof.
  assert (forall a g, Gear.__init__ a = Ok g -> Gear.mesh g = None) as Hnew.
  { intros a g. unfold Gear.__init__.
    destruct (negb _ || _); [discriminate|]. intros [= <-]. reflexivity. }
  repeat split.
  - intros a c i eg H. unfold ExternalGear.__init__ in H.
    inv_bind H as g Hg. injection H as <-. unfold show_mesh. simpl.
    rewrite (Hnew _ _ Hg). reflexivity.
  - intros slv a od zc xc ig H. unfold InternalGear.__init__ in H.
    inv_bind H as g Hg. destruct (decide (zc = 0%Z)); [discriminate|].
    injection H as <-. unfold show_mesh. simpl.
    rewrite (Hnew _ _ Hg). reflexivity.
  - intros slv gen G self mesh self' H.
    unfold ExternalGear.generate_mesh in H.
    inv_bind H as f Hf. inv_bind H as t_mesh Hm. injection H as <- <-.
    reflexivity.
  - intros slv fuel gen G self mesh self' H.
    unfold InternalGear.generate_mesh in H.
    inv_bind H as t_2 Ht2.
    destruct (Rge_dec _ _); inv_bind H as ps Hps; destruct ps as [pts s1];
      inv_bind H as t_mesh Hm; injection H as <- <-; reflexivity.
Qed.

(** The sharp-tip gear after [generate_mesh], shown and saved. *)
Lemma X17_witness :
  exists mesh self',
    ExternalGear.generate_mesh guess_solver frame_generator
      (script_globals 20 140) sharp_tip_gear = Ok (mesh, self')
    /\ show_mesh (ExternalGear.base self') (Some "tooth.png")
       = Plotted [subplots; add_plot mesh; savefig "tooth.png"; show].
Proof.
  destruct sharp_tip_run as (mesh & Hrun & _).
  exists mesh, (ExternalGear.set_mesh sharp_tip_gear mesh).
  split; [exact Hrun|].
  destruct (X17_show_mesh_needs_generated_mesh (Some "tooth.png"))
    as (_ & _ & H & _).
  exact (H _ _ _ _ _ _ Hrun).
Defined.

End ShowMesh.
